(** * Temporal and referential invariants of the workspace data generators

    A shallow embedding of the entity generators under [src/generators]
    (tasks, dependencies, projects, comments, sections, task tags and team
    memberships) together with the properties the specification states
    about the timestamps, identifiers and orderings they produce.

    The generators are Python methods that read the wall clock
    ([datetime.utcnow()]), draw from the global [random] generator and mint
    identifiers with [uuid.uuid4()].  These three effects are made explicit
    in a state monad over a [World]; everything else is translated
    statement by statement.  The progress reports the generators print are
    left out, except that a report which divides by the length of an input
    raises [ZeroDivisionError] on an empty input, as in the source. *)

From Stdlib Require Import ZArith QArith Qround Lia Lqa.
From Stdlib Require SpecFloat.
From stdpp Require Import base tactics option list relations sorting gmap strings pretty.

Close Scope Q_scope.
Local Open Scope Z_scope.

(** ** Dates, datetimes and timedeltas

    A [datetime] is the number of microseconds since an arbitrary origin
    that falls on a midnight, a [date] is a number of days since the same
    origin, a [timedelta] is a number of microseconds.  Python bounds the
    years to 1..9999 and raises [OverflowError] outside; the generators
    work within months of the current time, and the bound is not
    represented. *)

Module DateTime.

Definition datetime := Z.
Definition date := Z.
Definition timedelta := Z.

Definition second : timedelta := 1000000.
Definition minute : timedelta := 60 * second.
Definition hour : timedelta := 3600 * second.
Definition day : timedelta := 86400 * second.

(** [timedelta(seconds=n)], [timedelta(minutes=n)], ... *)
Definition seconds (n : Z) : timedelta := n * second.
Definition minutes (n : Z) : timedelta := n * minute.
Definition hours (n : Z) : timedelta := n * hour.
Definition days (n : Z) : timedelta := n * day.

(** [td.days]: Python normalises a timedelta so that its seconds and
    microseconds are non-negative, hence [days] is the floor. *)
Definition td_days (td : timedelta) : Z := td / day.

(** [td.total_seconds()], a float in the source, kept exact here. *)
Definition total_seconds (td : timedelta) : Q := (td # 1000000)%Q.

(** [dt.date()] *)
Definition date_of (dt : datetime) : date := dt / day.

(** [datetime.combine(d, datetime.min.time())] *)
Definition combine_min (d : date) : datetime := d * day.

(** [dt.replace(hour=h, minute=m, second=0, microsecond=0)] *)
Definition replace_hm (dt : datetime) (h m : Z) : datetime :=
  combine_min (date_of dt) + hours h + minutes m.

(** [int(x)] for a float [x]: truncation towards zero. *)
Definition int_of_Q (x : Q) : Z := Z.quot (Qnum x) (Z.pos (Qden x)).

End DateTime.
Import DateTime.

(** ** The world: wall clock, random generator, identifier supply *)

Record World := mkWorld {
  (** the last value the wall clock showed, in microseconds *)
  wall : datetime;
  (** how much time passes before each of the coming clock readings *)
  elapsed : list N;
  (** the coming raw outcomes of the global random generator *)
  entropy : list Z;
  (** how many identifiers [uuid.uuid4()] has handed out *)
  minted : N;
}.

Definition M (A : Type) : Type := World → A * World.

Definition ret {A} (a : A) : M A := λ w, (a, w).

Definition bind {A B} (m : M A) (f : A → M B) : M B :=
  λ w, let (a, w') := m w in f a w'.

Declare Scope M_scope.
Delimit Scope M_scope with M.
Notation "x ← y ; z" := (bind y (λ x, z)) : M_scope.
Open Scope M_scope.

(** [datetime.utcnow()]: the clock never runs backwards. *)
Definition utcnow : M datetime := λ w,
  match elapsed w with
  | [] => (wall w, w)
  | d :: ds =>
      let t := wall w + Z.of_N d in
      (t, mkWorld t ds (entropy w) (minted w))
  end.

(** One raw outcome of the generator; an exhausted tape keeps giving 0. *)
Definition raw : M Z := λ w,
  match entropy w with
  | [] => (0, w)
  | r :: rs => (r, mkWorld (wall w) (elapsed w) rs (minted w))
  end.

(** [random.randint(lo, hi)], both ends included.  The source raises
    [ValueError] on an empty range; the generators call it on ranges that
    their guards keep non-empty, or on ranges read from the research files,
    which are taken to be non-empty. *)
Definition randint (lo hi : Z) : M Z :=
  r ← raw; ret (lo + r mod (hi - lo + 1)).

(** [random.random() < p] (or [> p]) for a probability [p]: the value of
    [p] weights the two outcomes, the model keeps both possible. *)
Definition flip : M bool :=
  r ← raw; ret (Z.odd r).

(** [random.choice(xs)] and [random.choices(xs, weights=...)[0]] on a
    non-empty list whose weights are all positive. *)
Definition choice {A} (d : A) (xs : list A) : M A :=
  i ← randint 0 (Z.of_nat (length xs) - 1);
  ret (default d (xs !! Z.to_nat i)).

(** [random.sample(population, k)]: [k] elements at pairwise distinct
    positions, in the order drawn. *)
Fixpoint sample {A} (population : list A) (k : nat) : M (list A) :=
  match k with
  | O => ret []
  | S k' =>
      i ← randint 0 (Z.of_nat (length population) - 1);
      match population !! Z.to_nat i with
      | None => ret []
      | Some x =>
          rest ← sample (delete (Z.to_nat i) population) k';
          ret (x :: rest)
      end
  end.

(** [random.random()]: a multiple of 2^-53 in [0, 1). *)
Definition random : M Q :=
  r ← raw; ret (r mod 9007199254740992 # 9007199254740992)%Q.

(** The square root is the one operation of [random.triangular] that
    leaves the rationals.  The whole part of [sqrt q] is the integer square
    root of the whole part of [q]; the least whole number not below
    [sqrt q] is the same number when [q] is its square, and the next one
    otherwise. *)
Definition floor_sqrt (q : Q) : Z := Z.sqrt (Qfloor q).

Definition ceil_sqrt (q : Q) : Z :=
  let f := floor_sqrt q in
  if Qeq_bool (inject_Z (f * f)) q then f else f + 1.

(** [int(low + (high - low) * sqrt(t))] for whole numbers [low] and [high]
    and [0 <= t], on the exact value.  With [s = (high - low)^2 * t] the
    value is [low + sqrt s] when [low <= high] and [low - sqrt s]
    otherwise; [int] drops the fraction of a value that is not negative and
    rounds a negative value up. *)
Definition int_affine_sqrt (low high : Z) (t : Q) : Z :=
  let s := (inject_Z ((high - low) * (high - low)) * t)%Q in
  if bool_decide (low <= high) then
    if bool_decide (0 <= low) || Qle_bool (inject_Z (low * low)) s
    then low + floor_sqrt s
    else low + ceil_sqrt s
  else
    if bool_decide (0 <= low) && Qle_bool s (inject_Z (low * low))
    then low - ceil_sqrt s
    else low - floor_sqrt s.

(** [int(random.triangular(low, high, mode))] for whole numbers [low] and
    [high].  The library computes
    [u = random(); c = (mode - low) / (high - low)], returns [low] when the
    division raises [ZeroDivisionError], swaps the two ends with
    [u = 1 - u; c = 1 - c] when [u > c], and returns
    [low + (high - low) * sqrt(u * c)].  The floats of the source are kept
    exact here; a [mode] outside the range makes the result leave it, as
    in the source. *)
Definition triangular_int (low high : Z) (mode : Q) : M Z :=
  u ← random;
  if bool_decide (high - low = 0) then ret low
  else
    let c := ((mode - inject_Z low) / inject_Z (high - low))%Q in
    if negb (Qle_bool u c)
    then ret (int_affine_sqrt high low ((1 - u) * (1 - c))%Q)
    else ret (int_affine_sqrt low high (u * c)%Q).

(** [str(uuid.uuid4())]: a fresh opaque identifier; the supply hands out
    the strings uuid-0, uuid-1, ... *)
Definition ident := string.

Definition uuid4 : M ident := λ w,
  ("uuid-" +:+ pretty (minted w),
   mkWorld (wall w) (elapsed w) (entropy w) (N.succ (minted w))).

(** Exceptions the generators can raise on the inputs considered. *)
Inductive exn := ZeroDivisionError | IndexError.

Inductive result (A : Type) :=
  | Ok (a : A)
  | Raise (e : exn).
Arguments Ok {A} a.
Arguments Raise {A} e.

(** [for x in xs: body], the loop state passed explicitly. *)
Fixpoint for_ {X S} (xs : list X) (body : X → S → M S) (s : S) : M S :=
  match xs with
  | [] => ret s
  | x :: xs' => s' ← body x s; for_ xs' body s'
  end.

(** The same loop when the body can raise. *)
Fixpoint for_r {X S} (xs : list X) (body : X → S → M (result S)) (s : S)
    : M (result S) :=
  match xs with
  | [] => ret (Ok s)
  | x :: xs' =>
      r ← body x s;
      match r with
      | Ok s' => for_r xs' body s'
      | Raise e => ret (Raise e)
      end
  end.

(** [xs.sort(key=...)] and [sorted(xs, key=...)]: Python's sort is stable,
    elements with equal keys keep their order. *)
Fixpoint insert_sorted {A} (key : A → Z) (x : A) (sorted : list A) : list A :=
  match sorted with
  | [] => [x]
  | y :: rest =>
      if bool_decide (key x <= key y) then x :: y :: rest
      else y :: insert_sorted key x rest
  end.

Definition stable_sort {A} (key : A → Z) (xs : list A) : list A :=
  foldr (insert_sorted key) [] xs.

(** Truth value of an [Optional[str]]: [None] and the empty string are
    false. *)
Definition truthy (o : option string) : bool :=
  match o with
  | Some s => negb (String.eqb s "")
  | None => false
  end.

(** [xs[:n]] *)
Definition slice_to {A} (xs : list A) (n : Z) : list A :=
  if bool_decide (n < 0) then take (length xs - Z.to_nat (- n)) xs
  else take (Z.to_nat n) xs.

(** [range(n)] *)
Definition range (n : Z) : list Z := Z.of_nat <$> seq 0 (Z.to_nat n).

(** [list(range(lo, hi))] *)
Definition range2 (lo hi : Z) : list Z := (λ i, lo + Z.of_nat i) <$> seq 0 (Z.to_nat (hi - lo)).

(** [enumerate(xs)] *)
Definition enumerate {A} (xs : list A) : list (nat * A) := imap (λ i x, (i, x)) xs.

(** ** Strings: [s.lower()] and [needle in s], on ASCII text *)

Module Str.

Definition lower_ascii (c : Ascii.ascii) : Ascii.ascii :=
  let n := Ascii.nat_of_ascii c in
  if (65 <=? n)%nat && (n <=? 90)%nat then Ascii.ascii_of_nat (n + 32) else c.

Fixpoint lower (s : string) : string :=
  match s with
  | EmptyString => EmptyString
  | String c s' => String (lower_ascii c) (lower s')
  end.

Fixpoint contains (needle s : string) : bool :=
  String.prefix needle s ||
  match s with
  | EmptyString => false
  | String _ s' => contains needle s'
  end.

End Str.

(** ** The entities ([src/models])

    Output entities carry every field of their dataclass.  [created_at] is
    declared [Optional] in the dataclasses; every generator sets it and the
    consumers read it unconditionally, so the model keeps the datetime
    itself.  Of the entities that are only read (users, teams, tags) the
    fields the generators below use are kept. *)

Module Task.
Record t := mk {
  task_id : ident;
  name : string;
  created_by : ident;
  project_id : option ident;
  section_id : option ident;
  parent_task_id : option ident;
  description : option string;
  assignee_id : option ident;
  priority : option string;
  due_date : option date;
  start_date : option date;
  completed : bool;
  completed_at : option datetime;
  created_at : datetime;
  modified_at : option datetime;
}.
End Task.

Module TaskDependency.
Record t := mk {
  dependency_id : ident;
  dependent_task_id : ident;
  dependency_task_id : ident;
  created_at : datetime;
}.
End TaskDependency.

Module Project.
Record t := mk {
  project_id : ident;
  organization_id : ident;
  name : string;
  team_id : option ident;
  description : option string;
  owner_id : option ident;
  project_type : string;
  privacy : string;
  status : string;
  color : option string;
  start_date : date;
  due_date : date;
  completed_at : option datetime;
  created_at : datetime;
}.
End Project.

Module Section.
Record t := mk {
  section_id : ident;
  project_id : ident;
  name : string;
  position : nat;
  created_at : datetime;
}.
End Section.

Module Tag.
Record t := mk {
  tag_id : ident;
  organization_id : ident;
  name : string;
}.
End Tag.

Module TaskTag.
Record t := mk {
  task_tag_id : ident;
  task_id : ident;
  tag_id : ident;
  created_at : datetime;
}.
End TaskTag.

Module User.
Record t := mk {
  user_id : ident;
  department : option string;
  created_at : datetime;
}.
End User.

Module Team.
Record t := mk {
  team_id : ident;
  team_type : string;
  created_at : datetime;
}.
End Team.

Module Organization.
Record t := mk {
  organization_id : ident;
  created_at : datetime;
}.
End Organization.

Module TeamMembership.
Record t := mk {
  membership_id : ident;
  team_id : ident;
  user_id : ident;
  role : string;
  joined_at : datetime;
}.
End TeamMembership.

Module Comment.
Record t := mk {
  comment_id : ident;
  task_id : ident;
  user_id : ident;
  text : string;
  is_pinned : bool;
  created_at : datetime;
}.
End Comment.

(** [defaultdict(list)] filled by [d[key(x)].append(x)] over [xs]. *)
Definition group_by `{Countable K} {A} (key : A → K) (xs : list A) : gmap K (list A) :=
  foldl (λ m x, <[key x := default [] (m !! key x) ++ [x]]> m) ∅ xs.

(** [next((x for x in xs if p(x)), d)] *)
Definition next_or {A} (p : A → bool) (xs : list A) (d : A) : A :=
  default d (head (filter (λ x, p x = true) xs)).

(** [template.format(x)] for a template with a single placeholder, kept as
    the text before and after it. *)
Definition format1 (template : string * string) (x : string) : string :=
  template.1 +:+ x +:+ template.2.

(** ** [src/generators/tasks.py] *)

Module Tasks.

(** The benchmark values [_load_research_data] stores on the generator.
    The rates ([overall_rate], [by_priority], [overdue_rate]) only weight
    coin flips and are not kept. *)
Record TaskGenerator := {
  tasks_created_per_week_range : Z * Z;
  avg_task_duration : Q;
  task_duration_range : Z * Z;
}.

Definition _calculate_total_tasks (self : TaskGenerator)
    (users : list User.t) (projects : list Project.t) : Z :=
  let num_users := Z.of_nat (length users) in
  let weeks := 26 in
  let avg_tasks_per_week :=
    (inject_Z ((tasks_created_per_week_range self).1 +
               (tasks_created_per_week_range self).2) / 2)%Q in
  int_of_Q (inject_Z num_users * avg_tasks_per_week * inject_Z weeks)%Q.

Definition _sample_priority : M string :=
  choice "high" ["high"; "medium"; "low"]%string.

(** [priority] and [age_days] only change the completion rate. *)
Definition _sample_status (priority : string) (age_days : Z) : M string :=
  is_completed ← flip;
  if is_completed then ret "completed"%string
  else choice "in_progress" ["in_progress"; "not_started"]%string.

Definition _sample_task_duration (self : TaskGenerator) : M Z :=
  duration ← triangular_int (task_duration_range self).1 (task_duration_range self).2
                            (avg_task_duration self);
  ret (Z.max 1 duration).

Definition task_name_templates (project_type : string) : list (string * string) :=
  let ongoing :=
    [("Complete ", " task"); ("Update ", " system"); ("Review ", " process");
     ("Handle ", " request"); ("Process ", " items")]%string in
  if String.eqb project_type "sprint" then
    [("Implement ", " feature"); ("Fix ", " bug"); ("Update ", " documentation");
     ("Review ", " PR"); ("Test ", " functionality"); ("Refactor ", " module");
     ("Deploy ", " to production")]%string
  else if String.eqb project_type "bug_tracking" then
    [("Fix: ", " not working properly"); ("Bug: ", " throws error");
     ("Issue: ", " performance problem"); ("Critical: ", " crashes");
     ("Bug: ", " displays incorrectly")]%string
  else if String.eqb project_type "campaign" then
    [("Design ", " asset"); ("Write ", " copy"); ("Review ", " creative");
     ("Launch ", " campaign"); ("Analyze ", " performance")]%string
  else if String.eqb project_type "roadmap" then
    [("Plan ", " initiative"); ("Research ", " approach");
     ("Define ", " requirements"); ("Evaluate ", " options")]%string
  else ongoing.

Definition placeholders : list string :=
  ["login"; "payment"; "dashboard"; "API"; "search"; "notification";
   "user profile"; "checkout"; "analytics"; "integration"; "settings";
   "onboarding"; "reporting"; "authentication"; "database"; "UI"]%string.

Definition _generate_task_name (project_type : string) : M string :=
  template ← choice (""%string, ""%string) (task_name_templates project_type);
  placeholder ← choice ""%string placeholders;
  ret (format1 template placeholder).

Definition _generate_task_description (task_name : string) : M (option string) :=
  no_description ← flip;
  if no_description then ret None
  else
    let n := Str.lower task_name in
    d ← choice ""%string
          ["Work on " +:+ n; "Complete " +:+ n +:+ " as discussed";
           "Need to " +:+ n +:+ " before end of sprint";
           "Follow up on " +:+ n; "Important: " +:+ n]%string;
    ret (Some d).

Definition _sample_created_at (project_created_at assignee_created_at : datetime)
    : M datetime :=
  let earliest := Z.max project_created_at assignee_created_at in
  now ← utcnow;
  earliest ← (if bool_decide (earliest > now)
              then k ← randint 1 30; ret (now - days k)
              else ret earliest);
  let days_available := td_days (now - earliest) in
  days_offset ← (if bool_decide (days_available > 0)
                 then randint 0 days_available
                 else ret 0);
  let created_at := earliest + days days_offset in
  hour ← choice 8 (range2 8 21);
  let created_date := date_of created_at in
  let created_at := combine_min created_date in
  minute ← randint 0 59;
  let created_at := replace_hm created_at hour minute in
  let created_at := if bool_decide (created_at < earliest) then earliest else created_at in
  created_at ← (if bool_decide (created_at > now)
                then k ← randint 1 48; ret (now - hours k)
                else ret created_at);
  let created_at := if bool_decide (created_at > now) then now - hours 1 else created_at in
  ret created_at.

Definition _sample_due_date (created_at : datetime) (duration_days : Z)
    (priority : string) : M (option date) :=
  no_due_date ← flip;
  if no_due_date then ret None
  else
    let due_datetime := created_at + days duration_days in
    ret (Some (date_of due_datetime)).

Definition _sample_completed_at (created_at : datetime) (due_date : option date)
    (status : string) : M (option datetime) :=
  if negb (String.eqb status "completed") then ret None
  else
    now ← utcnow;
    completed_at ←
      match due_date with
      | Some due_date =>
          let due_datetime := combine_min due_date in
          on_time ← flip;
          if on_time then
            let days_available := td_days (due_datetime - created_at) in
            completion_offset ← (if bool_decide (days_available > 0)
                                 then randint 0 days_available
                                 else ret 0);
            ret (created_at + days completion_offset)
          else
            overdue_days ← randint 1 14;
            ret (due_datetime + days overdue_days)
      | None =>
          completion_offset ← randint 1 30;
          ret (created_at + days completion_offset)
      end;
    completed_at ←
      (if bool_decide (completed_at > now) then
         let days_available := td_days (now - created_at) in
         if bool_decide (days_available > 0) then
           completion_offset ← randint 0 days_available;
           ret (created_at + days completion_offset)
         else
           k ← randint 1 48; ret (now - hours k)
       else ret completed_at);
    hour ← randint 8 20;
    minute ← randint 0 59;
    let completed_at := replace_hm completed_at hour minute in
    completed_at ←
      (if bool_decide (completed_at < created_at)
       then k ← randint 1 24; ret (created_at + hours k)
       else ret completed_at);
    completed_at ←
      (if bool_decide (completed_at > now) then
         if bool_decide (now > created_at) then
           let total_seconds := total_seconds (now - created_at) in
           if negb (Qle_bool total_seconds 3600) then
             offset_seconds ← randint 3600 (int_of_Q total_seconds);
             ret (created_at + seconds offset_seconds)
           else
             ret (created_at + seconds (int_of_Q (total_seconds * (1 # 2))%Q))
         else ret now
       else ret completed_at);
    let completed_at :=
      if bool_decide (completed_at < created_at) then created_at + seconds 1
      else completed_at in
    let completed_at := if bool_decide (completed_at > now) then now else completed_at in
    ret (Some completed_at).

(** The body of the innermost loop of [generate]: one task of [project],
    whose sections are [s0 :: _] and whose candidate users are [u0 :: _]. *)
Definition generate_task (self : TaskGenerator) (project : Project.t)
    (project_sections : list Section.t) (s0 : Section.t)
    (team_users : list User.t) (u0 : User.t) : M Task.t :=
  priority ← _sample_priority;
  duration_days ← _sample_task_duration self;
  assignee ← choice u0 team_users;
  created_at ← _sample_created_at (Project.created_at project) (User.created_at assignee);
  now ← utcnow;
  let age_days := td_days (now - created_at) in
  status ← _sample_status priority age_days;
  due_date ← _sample_due_date created_at duration_days priority;
  completed_at ← _sample_completed_at created_at due_date status;
  task_name ← _generate_task_name (Project.project_type project);
  description ← _generate_task_description task_name;
  let section :=
    if String.eqb status "completed" then
      next_or (λ s, Str.contains "done" (Str.lower (Section.name s)))
              project_sections (default s0 (last project_sections))
    else if String.eqb status "in_progress" then
      next_or (λ s, Str.contains "progress" (Str.lower (Section.name s)))
              project_sections
              (default s0 (project_sections !! (length project_sections `div` 2)%nat))
    else
      next_or (λ s, existsb (λ word, Str.contains word (Str.lower (Section.name s)))
                            ["todo"; "backlog"; "new"]%string)
              project_sections s0 in
  start_date ←
    (if String.eqb status "not_started" then ret None
     else
       days_after_created ← randint 0 (Z.min 3 age_days);
       ret (Some (date_of (created_at + days days_after_created))));
  task_id ← uuid4;
  creator ← choice u0 team_users;
  ret {| Task.task_id := task_id;
          Task.project_id := Some (Project.project_id project);
          Task.section_id := Some (Section.section_id section);
          Task.parent_task_id := None;
          Task.assignee_id := Some (User.user_id assignee);
          Task.created_by := User.user_id creator;
          Task.name := task_name;
          Task.description := description;
          Task.priority := Some priority;
          Task.due_date := due_date;
          Task.start_date := start_date;
          Task.completed := String.eqb status "completed";
          Task.completed_at := completed_at;
          Task.created_at := created_at;
          Task.modified_at := Some (default created_at completed_at) |}.

Definition is_active (p : Project.t) : bool :=
  bool_decide (Project.status p ∈ ["active"; "on_hold"]%string).

Definition generate (self : TaskGenerator) (projects : list Project.t)
    (sections : list Section.t) (users : list User.t) (tags : list Tag.t)
    : M (result (list Task.t)) :=
  let total_tasks := _calculate_total_tasks self users projects in
  let sections_by_project := group_by Section.project_id sections in
  let users_by_dept := group_by User.department users in
  let project_dict : gmap ident Project.t :=
    list_to_map (reverse ((λ p, (Project.project_id p, p)) <$> projects)) in
  let active_projects := filter (λ p, is_active p = true) projects in
  let active_projects :=
    match active_projects with [] => projects | _ => active_projects end in
  match active_projects with
  | [] => ret (Raise ZeroDivisionError)
  | _ =>
    let tasks_per_project := total_tasks `div` Z.of_nat (length active_projects) in
    tasks ← for_ active_projects (λ project tasks,
      let project_sections :=
        default [] (sections_by_project !! Project.project_id project) in
      match project_sections with
      | [] => ret tasks
      | s0 :: _ =>
        let team_users :=
          match project_dict !! Project.project_id project with
          | Some owner => default [] (users_by_dept !! Project.owner_id owner)
          | None => []
          end in
        let team_users := match team_users with [] => users | _ => team_users end in
        match team_users with
        | [] => (* no user at all: [total_tasks] is 0 and the loop is empty *)
            ret tasks
        | u0 :: _ =>
            for_ (range tasks_per_project) (λ _ tasks,
              task ← generate_task self project project_sections s0 team_users u0;
              ret (tasks ++ [task])) tasks
        end
      end) [];
    ret (Ok tasks)
  end.

End Tasks.

(** ** [src/generators/dependencies.py] *)

Module Dependencies.

Definition _should_have_dependency : M bool := flip.

Definition _sample_num_dependencies : M Z := choice 1 [1; 2; 3].

(** [tasks_by_project[task.project_id].append(task)] on a dictionary that
    keeps its keys in insertion order. *)
Fixpoint append_to (project_id : option ident) (task : Task.t)
    (tasks_by_project : list (option ident * list Task.t))
    : list (option ident * list Task.t) :=
  match tasks_by_project with
  | [] => [(project_id, [task])]
  | (k, ts) :: rest =>
      if bool_decide (k = project_id) then (k, ts ++ [task]) :: rest
      else (k, ts) :: append_to project_id task rest
  end.

Definition group_tasks (tasks : list Task.t) : list (option ident * list Task.t) :=
  foldl (λ d task, append_to (Task.project_id task) task d) [] tasks.

(** The variables the loops of [generate] update. *)
Record state := mkState {
  dependencies : list TaskDependency.t;
  tasks_with_deps : Z;
  existing_deps : gset (ident * ident);
}.

(** [for blocker_task in blocker_tasks: ...] *)
Definition add_dependency (dependent_task blocker_task : Task.t) (s : state) : M state :=
  let dep_key := (Task.task_id dependent_task, Task.task_id blocker_task) in
  if bool_decide (dep_key ∈ existing_deps s) then ret s
  else
    let existing := {[dep_key]} ∪ existing_deps s in
    dependency_id ← uuid4;
    k ← randint 1 24;
    let dependency :=
      {| TaskDependency.dependency_id := dependency_id;
         TaskDependency.dependent_task_id := Task.task_id dependent_task;
         TaskDependency.dependency_task_id := Task.task_id blocker_task;
         TaskDependency.created_at := Task.created_at dependent_task + hours k |} in
    ret (mkState (dependencies s ++ [dependency]) (tasks_with_deps s) existing).

(** [for i, dependent_task in enumerate(project_tasks): ...] *)
Definition visit_task (project_tasks : list Task.t) (it : nat * Task.t) (s : state)
    : M state :=
  let '(i, dependent_task) := it in
  has_dependency ← _should_have_dependency;
  if negb has_dependency then ret s
  else
    let s := mkState (dependencies s) (tasks_with_deps s + 1) (existing_deps s) in
    let potential_blockers := take i project_tasks in
    match potential_blockers with
    | [] => ret s
    | _ =>
        n ← _sample_num_dependencies;
        let num_deps := Z.min n (Z.of_nat (length potential_blockers)) in
        blocker_tasks ← sample potential_blockers (Z.to_nat num_deps);
        for_ blocker_tasks (add_dependency dependent_task) s
    end.

(** [for project_id, project_tasks in tasks_by_project.items(): ...] *)
Definition visit_project (entry : option ident * list Task.t) (s : state) : M state :=
  let project_tasks := entry.2 in
  if bool_decide (length project_tasks < 2)%nat then ret s
  else for_ (enumerate project_tasks) (visit_task project_tasks) s.

Definition generate (tasks : list Task.t) : M (result (list TaskDependency.t)) :=
  let tasks_by_project := group_tasks tasks in
  let tasks_by_project :=
    (λ entry, (entry.1, stable_sort Task.created_at entry.2)) <$> tasks_by_project in
  s ← for_ tasks_by_project visit_project (mkState [] 0 ∅);
  (* the closing report divides by [len(tasks)] *)
  match tasks with
  | [] => ret (Raise ZeroDivisionError)
  | _ => ret (Ok (dependencies s))
  end.

End Dependencies.

(** ** [src/generators/projects.py] *)

Module Projects.

(** An entry of [project_templates.json]; the weight only biases the
    draw.  [duration_days_range] is read with a default of [14, 90]; the
    range of every template is taken to be non-empty, as in the fallback
    templates. *)
Record Template := {
  type : string;
  duration_days_range : option (Z * Z);
}.

Record ProjectGenerator := {
  templates : list Template;
}.

Definition _create_fallback_templates : list Template :=
  [ {| type := "sprint"; duration_days_range := Some (10, 21) |};
    {| type := "ongoing"; duration_days_range := Some (60, 365) |};
    {| type := "bug_tracking"; duration_days_range := Some (30, 180) |};
    {| type := "campaign"; duration_days_range := Some (30, 90) |};
    {| type := "roadmap"; duration_days_range := Some (90, 365) |} ].

Definition _sample_project_type (self : ProjectGenerator) (t0 : Template) : M Template :=
  let types := type <$> templates self in
  selected_type ← choice (type t0) types;
  ret (next_or (λ t, String.eqb (type t) selected_type) (templates self) t0).

Definition is_lower (c : Ascii.ascii) : bool :=
  let n := Ascii.nat_of_ascii c in (97 <=? n)%nat && (n <=? 122)%nat.
Definition is_upper (c : Ascii.ascii) : bool :=
  let n := Ascii.nat_of_ascii c in (65 <=? n)%nat && (n <=? 90)%nat.
Definition upper_ascii (c : Ascii.ascii) : Ascii.ascii :=
  if is_lower c then Ascii.ascii_of_nat (Ascii.nat_of_ascii c - 32) else c.

Definition underscore : Ascii.ascii := Ascii.ascii_of_nat 95.
Definition space : Ascii.ascii := Ascii.ascii_of_nat 32.

(** [s.replace('_', ' ')] *)
Fixpoint underscores_to_spaces (s : string) : string :=
  match s with
  | EmptyString => EmptyString
  | String c s' =>
      String (if Ascii.eqb c underscore then space else c) (underscores_to_spaces s')
  end.

(** [s.title()]: the first letter of every run of letters in upper case,
    the others in lower case. *)
Fixpoint title_from (word_start : bool) (s : string) : string :=
  match s with
  | EmptyString => EmptyString
  | String c s' =>
      let cased := is_lower c || is_upper c in
      String (if cased then (if word_start then upper_ascii c else Str.lower_ascii c) else c)
             (title_from (negb cased) s')
  end.
Definition title (s : string) : string := title_from true s.

Definition quarters : list string := ["Q1"; "Q2"; "Q3"; "Q4"]%string.

Definition _generate_project_name (project_type team_type : string) : M string :=
  if String.eqb project_type "sprint" then
    quarter ← choice "Q1"%string quarters;
    year ← choice 2025 [2025; 2026];
    sprint_num ← randint 1 12;
    ret (team_type +:+ " " +:+ quarter +:+ " " +:+ pretty year +:+ " Sprint "
         +:+ pretty sprint_num)
  else if String.eqb project_type "campaign" then
    holiday ← randint 1 4;
    quarter ← choice "Q1"%string quarters;
    let campaigns :=
      [team_type +:+ " Product Launch"; team_type +:+ " Growth Campaign";
       "Holiday Campaign " +:+ pretty holiday; team_type +:+ " Brand Awareness";
       "Lead Generation " +:+ quarter]%string in
    choice ""%string campaigns
  else if String.eqb project_type "bug_tracking" then
    ret (team_type +:+ " Bug Tracker")
  else if String.eqb project_type "roadmap" then
    year ← choice 2025 [2025; 2026];
    ret (team_type +:+ " " +:+ pretty year +:+ " Roadmap")
  else if String.eqb project_type "ongoing" then
    choice ""%string
      [team_type +:+ " Operations"; team_type +:+ " Daily Tasks";
       team_type +:+ " Backlog"; team_type +:+ " Workspace"]%string
  else
    ret (team_type +:+ " " +:+ title (underscores_to_spaces project_type) +:+ " Project").

Definition _generate_project_description (project_name project_type : string)
    : M (option string) :=
  no_description ← flip;
  if no_description then ret None
  else ret (Some (
    if String.eqb project_type "sprint" then
      "Sprint project for " +:+ project_name
        +:+ ". Track tasks and deliverables for this sprint cycle."
    else if String.eqb project_type "campaign" then
      "Marketing campaign project. Plan, execute, and measure campaign performance."
    else if String.eqb project_type "bug_tracking" then
      "Track and resolve bugs and technical issues."
    else if String.eqb project_type "roadmap" then
      "Product roadmap planning and prioritization."
    else if String.eqb project_type "ongoing" then
      "Ongoing operational tasks and maintenance work."
    else "Project workspace for " +:+ project_name)%string).

(** [age_days] picks one of three weight vectors, all positive. *)
Definition _sample_project_status (project_type : string) (age_days : Z) : M string :=
  choice "active"%string ["active"; "completed"; "archived"; "on_hold"]%string.

Definition _sample_project_privacy : M string :=
  choice "team"%string ["team"; "public"; "private"]%string.

Definition _sample_project_color : M string :=
  choice "blue"%string
    ["blue"; "green"; "red"; "yellow"; "purple"; "orange";
     "pink"; "teal"; "brown"; "gray"; "light-blue"; "light-green"]%string.

Definition _sample_project_dates (org_created_at team_created_at : datetime)
    (template : Template) : M (date * date) :=
  let earliest := Z.max org_created_at team_created_at in
  now ← utcnow;
  let days_since_earliest := td_days (now - earliest) in
  start_offset ← randint 0 (Z.max 1 days_since_earliest);
  let start_datetime := earliest + days start_offset in
  let start_date := date_of start_datetime in
  let duration_range := default (14, 90) (duration_days_range template) in
  duration ← randint duration_range.1 duration_range.2;
  let due_date := start_date + duration in
  ret (start_date, due_date).

Definition _sample_completed_at (start_date due_date : date) (status : string)
    : M (option datetime) :=
  if negb (bool_decide (status ∈ ["completed"; "archived"]%string)) then ret None
  else
    let start_dt := combine_min start_date in
    let due_dt := combine_min due_date in
    now ← utcnow;
    on_time ← flip;
    completed_at ←
      (if on_time then
         let total_days := td_days (due_dt - start_dt) in
         completion_offset ←
           (if bool_decide (total_days > 0)
            then randint (Z.quot total_days 2) total_days
            else ret 0);
         ret (start_dt + days completion_offset)
       else
         overrun_days ← randint 1 (Z.max 1 (Z.quot (td_days (due_dt - start_dt)) 2));
         ret (due_dt + days overrun_days));
    completed_at ←
      (if bool_decide (completed_at > now) then
         let days_available := td_days (now - start_dt) in
         if bool_decide (days_available > 0) then
           completion_offset ← randint 0 days_available;
           ret (start_dt + days completion_offset)
         else
           k ← randint 1 48; ret (now - hours k)
       else ret completed_at);
    hour ← randint 8 17;
    let completed_at := replace_hm completed_at hour 0 in
    completed_at ←
      (if bool_decide (date_of completed_at < start_date) then
         let completed_at := combine_min start_date in
         hour ← randint 8 17;
         ret (replace_hm completed_at hour 0)
       else ret completed_at);
    completed_at ←
      (if bool_decide (completed_at > now) then
         k ← randint 1 48;
         let completed_at := now - hours k in
         hour ← randint 8 17;
         ret (replace_hm completed_at hour 0)
       else ret completed_at);
    ret (Some completed_at).

Definition _sample_created_at (start_date : date) : M datetime :=
  let start_dt := combine_min start_date in
  days_before ← randint 0 14;
  let created_at := start_dt - days days_before in
  hour ← randint 8 17;
  let created_at := replace_hm created_at hour 0 in
  ret created_at.

(** The body of the inner loop of [generate]: one project of [team]. *)
Definition generate_project (self : ProjectGenerator) (t0 : Template)
    (org : Organization.t) (team : Team.t) (team_users : list User.t) (u0 : User.t)
    : M Project.t :=
  template ← _sample_project_type self t0;
  let project_type := type template in
  project_name ← _generate_project_name project_type (Team.team_type team);
  description ← _generate_project_description project_name project_type;
  dates ← _sample_project_dates (Organization.created_at org) (Team.created_at team) template;
  let start_date := dates.1 in
  let due_date := dates.2 in
  now ← utcnow;
  let age_days := date_of now - start_date in
  status ← _sample_project_status project_type age_days;
  completed_at ← _sample_completed_at start_date due_date status;
  owner ← choice u0 team_users;
  privacy ← _sample_project_privacy;
  color ← _sample_project_color;
  created_at ← _sample_created_at start_date;
  project_id ← uuid4;
  ret {| Project.project_id := project_id;
         Project.organization_id := Organization.organization_id org;
         Project.team_id := Some (Team.team_id team);
         Project.name := project_name;
         Project.description := description;
         Project.owner_id := Some (User.user_id owner);
         Project.project_type := project_type;
         Project.privacy := privacy;
         Project.status := status;
         Project.color := Some color;
         Project.start_date := start_date;
         Project.due_date := due_date;
         Project.completed_at := completed_at;
         Project.created_at := created_at |}.

(** [random.choices] on an empty template list and [random.choice] on an
    empty user list raise [IndexError] in the first iteration; the closing
    report divides by [len(teams)]. *)
Definition generate (self : ProjectGenerator) (org : Organization.t)
    (teams : list Team.t) (users : list User.t) : M (result (list Project.t)) :=
  match teams, templates self, users with
  | [], _, _ => ret (Raise ZeroDivisionError)
  | _, [], _ => ret (Raise IndexError)
  | _, _, [] => ret (Raise IndexError)
  | _, t0 :: _, u0 :: _ =>
      projects ← for_ teams (λ team projects,
        num_projects ← randint 3 5;
        let team_users :=
          filter (λ u, User.department u = Some (Team.team_type team)) users in
        let team_users := match team_users with [] => users | _ => team_users end in
        for_ (range num_projects) (λ _ projects,
          project ← generate_project self t0 org team team_users u0;
          ret (projects ++ [project])) projects) [];
      ret (Ok projects)
  end.

End Projects.

(** ** [src/generators/comments.py] *)

Module Comments.

(** [random.random()]: a fraction in [0, 1), on a grid of a millionth. *)
Definition random_unit : M Q :=
  r ← raw; ret (r mod 1000000 # 1000000)%Q.

(** [random.uniform(a, b)], computed as [a + (b - a) * random()]. *)
Definition uniform (a b : Q) : M Q :=
  u ← random_unit; ret (a + (b - a) * u)%Q.

Definition Qmax (x y : Q) : Q := if Qle_bool x y then y else x.
Definition Qmin (x y : Q) : Q := if Qle_bool x y then x else y.

(** The comment templates; a template with a placeholder is kept as the
    text before and after it. *)
Definition comment_templates : list (string * option string) :=
  [("Working on this now", None); ("Blocked by ", Some "");
   ("Need input from ", Some ""); ("This is done", None);
   ("Ready for review", None); ("Can someone review this?", None);
   ("Updated the approach", None); ("Moving this to next sprint", None);
   ("Completed and deployed", None); ("Running into issues with ", Some "");
   ("Will handle this today", None); ("This is more complex than expected", None);
   ("Might need more time", None); ("Almost done", None); ("Waiting on ", Some "");
   ("Quick question about this", None); ("Thanks for the update", None);
   ("Looks good", None); ("Approved", None); ("Let's discuss this tomorrow", None);
   ("Started working on this", None); ("Made good progress", None);
   ("Encountered a blocker", None); ("Fixed the issue", None);
   ("Needs more testing", None); ("Updated the description", None);
   ("Changed the approach", None); ("This is ready now", None)]%string.

Definition blocking_items : list string :=
  ["another task"; "the API"; "testing"; "deployment"; "code review";
   "design feedback"; "requirements"; "dependencies"; "approval"; "resources"]%string.

(** The priority and the completion flag only change the probability. *)
Definition _should_have_comments (task_priority : string) (task_completed : bool)
    : M bool := flip.

Definition _sample_num_comments (task_priority : string) : M Z :=
  if bool_decide (task_priority ∈ ["high"; "urgent"]%string) then
    choice 1 [1; 2; 3; 4; 5; 6; 7; 8; 9; 10]
  else if String.eqb task_priority "medium" then
    choice 1 [1; 2; 3; 4; 5]
  else
    choice 1 [1; 2; 3].

Definition _generate_comment_text : M string :=
  template ← choice (""%string, None) comment_templates;
  match template.2 with
  | Some after =>
      placeholder ← choice ""%string blocking_items;
      ret (format1 (template.1, after) placeholder)
  | None => ret template.1
  end.

Definition _sample_created_at (task_created_at : datetime)
    (task_completed_at : option datetime) (comment_index total_comments : Z)
    : M datetime :=
  now ← utcnow;
  let end_time := default now task_completed_at in
  end_time ← (if bool_decide (end_time <= task_created_at)
              then k ← randint 1 48; ret (task_created_at + hours k)
              else ret end_time);
  let end_time := if bool_decide (end_time > now) then now else end_time in
  let time_span := total_seconds (end_time - task_created_at) in
  if Qle_bool time_span 0 then
    k ← randint 1 60; ret (task_created_at + minutes k)
  else
    progress ← (if bool_decide (total_comments > 1)
                then ret (inject_Z comment_index / inject_Z (total_comments - 1))%Q
                else random_unit);
    jitter ← uniform (- (1 # 10)) (1 # 10);
    let progress := Qmax 0 (Qmin 1 (progress + jitter)) in
    let offset_seconds := int_of_Q (time_span * progress) in
    let created_at := task_created_at + seconds offset_seconds in
    created_at ← (if bool_decide (created_at < task_created_at)
                  then k ← randint 1 24; ret (task_created_at + hours k)
                  else ret created_at);
    created_at ← (if bool_decide (created_at > now)
                  then k ← randint 1 24; ret (now - hours k)
                  else ret created_at);
    created_at ← (if bool_decide (created_at < task_created_at)
                  then k ← randint 1 60; ret (task_created_at + minutes k)
                  else ret created_at);
    ret created_at.

(** [for i in range(num_comments): ...] *)
Definition add_comment (task : Task.t) (relevant_users : list ident) (num_comments : Z)
    (i : Z) (comments : list Comment.t) : M (list Comment.t) :=
  author_id ← choice ""%string relevant_users;
  text ← _generate_comment_text;
  created_at ← _sample_created_at (Task.created_at task) (Task.completed_at task)
                 i num_comments;
  comment_id ← uuid4;
  ret (comments ++ [ {| Comment.comment_id := comment_id;
                        Comment.task_id := Task.task_id task;
                        Comment.user_id := author_id;
                        Comment.text := text;
                        Comment.is_pinned := false;
                        Comment.created_at := created_at |} ]).

(** [for task in tasks: ...].  [list(set(relevant_users))] leaves the
    order of the distinct identifiers to the hash of the strings;
    [remove_dups] fixes one order, and the author is drawn from it. *)
Definition visit_task (users : list User.t) (user_dict : gmap ident User.t)
    (task : Task.t) (comments : list Comment.t) : M (result (list Comment.t)) :=
  let priority := if truthy (Task.priority task)
                  then default "medium"%string (Task.priority task)
                  else "medium"%string in
  has_comments ← _should_have_comments priority (Task.completed task);
  if negb has_comments then ret (Ok comments)
  else
    num_comments ← _sample_num_comments priority;
    let relevant_users :=
      (if truthy (Task.assignee_id task) then [default ""%string (Task.assignee_id task)]
       else [])
      ++ (if negb (String.eqb (Task.created_by task) "") then [Task.created_by task]
          else []) in
    extra ←
      (match Task.assignee_id task with
       | Some assignee_id =>
           if truthy (Some assignee_id) then
             match user_dict !! assignee_id with
             | Some assignee =>
                 let dept_users :=
                   filter (λ u, User.department u = User.department assignee) users in
                 picked ← sample dept_users (Z.to_nat (Z.min 3 (Z.of_nat (length dept_users))));
                 ret (User.user_id <$> picked)
             | None => ret []
             end
           else ret []
       | None => ret []
       end);
    let relevant_users := remove_dups (relevant_users ++ extra) in
    match relevant_users, users with
    | [], [] => ret (Raise IndexError)
    | _, _ =>
        relevant_users ←
          (match relevant_users with
           | [] => u ← choice ""%string (User.user_id <$> users); ret [u]
           | _ => ret relevant_users
           end);
        comments ← for_ (range num_comments)
                      (add_comment task relevant_users num_comments) comments;
        ret (Ok comments)
    end.

Definition generate (tasks : list Task.t) (users : list User.t)
    : M (result (list Comment.t)) :=
  let user_dict : gmap ident User.t :=
    list_to_map (reverse ((λ u, (User.user_id u, u)) <$> users)) in
  r ← for_r tasks (visit_task users user_dict) [];
  match r, tasks with
  | Raise e, _ => ret (Raise e)
  | Ok _, [] => ret (Raise ZeroDivisionError)
  | Ok comments, _ => ret (Ok comments)
  end.

End Comments.

(** ** [src/generators/sections.py] *)

Module Sections.

Definition default_template : list string := ["To Do"; "In Progress"; "Done"]%string.

(** [self.section_templates.get(project_type, self.section_templates['default'])] *)
Definition _get_sections_for_project (project_type : string) : list string :=
  if String.eqb project_type "sprint" then
    ["Backlog"; "In Progress"; "Review"; "Done"]%string
  else if String.eqb project_type "ongoing" then
    ["To Do"; "In Progress"; "Done"]%string
  else if String.eqb project_type "bug_tracking" then
    ["New"; "Triaged"; "In Progress"; "Fixed"; "Closed"]%string
  else if String.eqb project_type "campaign" then
    ["Planning"; "Creative"; "Execution"; "Analysis"]%string
  else if String.eqb project_type "roadmap" then
    ["Now"; "Next"; "Later"; "Parking Lot"]%string
  else default_template.

Definition _sample_created_at (project_created_at : datetime) : M datetime :=
  now ← utcnow;
  days_after ← randint 0 2;
  let created_at := project_created_at + days days_after in
  let created_at := if bool_decide (created_at > now) then project_created_at
                    else created_at in
  hour ← randint 8 17;
  let created_at := replace_hm created_at hour 0 in
  let created_at := if bool_decide (created_at < project_created_at)
                    then project_created_at else created_at in
  created_at ← (if bool_decide (created_at > now)
                then k ← randint 1 24; ret (now - hours k)
                else ret created_at);
  ret created_at.

(** [for position, section_name in enumerate(section_names): ...] *)
Definition add_section (project : Project.t) (it : nat * string)
    (sections : list Section.t) : M (list Section.t) :=
  let '(position, section_name) := it in
  created_at ← _sample_created_at (Project.created_at project);
  section_id ← uuid4;
  ret (sections ++ [ {| Section.section_id := section_id;
                        Section.project_id := Project.project_id project;
                        Section.name := section_name;
                        Section.position := position;
                        Section.created_at := created_at |} ]).

(** [for project in projects: ...] *)
Definition visit_project (project : Project.t) (sections : list Section.t)
    : M (list Section.t) :=
  let section_names := _get_sections_for_project (Project.project_type project) in
  for_ (enumerate section_names) (add_section project) sections.

(** The closing report divides by the number of projects that received
    sections, which is zero exactly when there is no project. *)
Definition generate (projects : list Project.t) : M (result (list Section.t)) :=
  sections ← for_ projects visit_project [];
  match projects with
  | [] => ret (Raise ZeroDivisionError)
  | _ => ret (Ok sections)
  end.

End Sections.

(** ** [src/generators/task_tags.py] *)

Module TaskTags.

(** The priority only changes the probability. *)
Definition _should_have_tags (task_priority : option string) : M bool := flip.

Definition _sample_num_tags : M Z := choice 1 [1; 2; 3; 4; 5].

Definition keywords_to_tags : list (string * list string) :=
  [("bug", ["Bug"; "Critical"; "Urgent"]);
   ("fix", ["Bug"; "Maintenance"]);
   ("design", ["Design"; "UI/UX"]);
   ("feature", ["Feature"; "Enhancement"]);
   ("doc", ["Documentation"]);
   ("test", ["Testing"; "QA"]);
   ("deploy", ["Deployment"; "Production"]);
   ("research", ["Research"; "Investigation"]);
   ("review", ["Review"; "Feedback"]);
   ("meeting", ["Meeting"; "Discussion"]);
   ("planning", ["Planning"; "Strategy"]);
   ("urgent", ["Urgent"; "High Priority"]);
   ("blocked", ["Blocked"]);
   ("security", ["Security"; "Critical"]);
   ("performance", ["Performance"; "Optimization"])]%string.

(** [relevant_tags] together with [seen_tag_ids] *)
Definition collected : Type := list Tag.t * gset ident.

(** [for tag in ...: if tag.tag_id not in seen_tag_ids: ...] *)
Definition collect (found : list Tag.t) (acc : collected) : collected :=
  foldl (λ acc tag,
           if bool_decide (Tag.tag_id tag ∈ acc.2) then acc
           else (acc.1 ++ [tag], {[Tag.tag_id tag]} ∪ acc.2))
        acc found.

(** The tags of [org_tags] whose lower-cased name contains [word.lower()]. *)
Definition tags_named (word : string) (org_tags : list Tag.t) : list Tag.t :=
  filter (λ t, Str.contains (Str.lower word) (Str.lower (Tag.name t)) = true) org_tags.

Definition _get_relevant_tags (task : Task.t) (tags : list Tag.t) (org_id : ident)
    : M (list Tag.t) :=
  let org_tags := filter (λ t, Tag.organization_id t = org_id) tags in
  match org_tags with
  | [] => ret []
  | _ =>
    let acc : collected := ([], ∅) in
    let acc :=
      if truthy (Task.priority task)
      then collect (tags_named (default ""%string (Task.priority task)) org_tags) acc
      else acc in
    let task_name_lower := Str.lower (Task.name task) in
    let acc :=
      foldl (λ acc entry,
               if Str.contains entry.1 task_name_lower then
                 foldl (λ acc tag_name, collect (tags_named tag_name org_tags) acc)
                       acc entry.2
               else acc)
            acc keywords_to_tags in
    match acc.1 with
    | [] => sample org_tags (Z.to_nat (Z.min 10 (Z.of_nat (length org_tags))))
    | relevant_tags => ret relevant_tags
    end
  end.

Definition _sample_created_at (task_created_at : datetime) : M datetime :=
  days_after ← choice 0 [0; 1; 2; 3; 7];
  let created_at := task_created_at + days days_after in
  k ← randint 0 12;
  let created_at := created_at + hours k in
  now ← utcnow;
  let created_at := if bool_decide (created_at > now) then task_created_at
                    else created_at in
  ret created_at.

(** [for tag in selected_tags: ...] *)
Definition add_task_tag (task : Task.t) (tag : Tag.t) (task_tags : list TaskTag.t)
    : M (list TaskTag.t) :=
  created_at ← _sample_created_at (Task.created_at task);
  task_tag_id ← uuid4;
  ret (task_tags ++ [ {| TaskTag.task_tag_id := task_tag_id;
                         TaskTag.task_id := Task.task_id task;
                         TaskTag.tag_id := Tag.tag_id tag;
                         TaskTag.created_at := created_at |} ]).

(** [for task in tasks: ...].  A [Task] has no [organization_id]
    attribute, so [getattr(task, 'organization_id', None)] is [None]:
    the candidate tags are all of [tags] and the organization is the one
    of [tags[0]]. *)
Definition visit_task (tags : list Tag.t) (tag0 : Tag.t) (task : Task.t)
    (task_tags : list TaskTag.t) : M (list TaskTag.t) :=
  let org_tags := tags in
  has_tags ← _should_have_tags (Task.priority task);
  if negb has_tags then ret task_tags
  else
    relevant_tags ← _get_relevant_tags task org_tags (Tag.organization_id tag0);
    match relevant_tags with
    | [] => ret task_tags
    | _ =>
        n ← _sample_num_tags;
        let num_tags := Z.min n (Z.of_nat (length relevant_tags)) in
        selected_tags ← sample relevant_tags (Z.to_nat num_tags);
        for_ selected_tags (add_task_tag task) task_tags
    end.

(** Without tags the generator returns the empty list at once; otherwise
    the closing report divides by [len(tasks)]. *)
Definition generate (tasks : list Task.t) (tags : list Tag.t)
    : M (result (list TaskTag.t)) :=
  match tags with
  | [] => ret (Ok [])
  | tag0 :: _ =>
      task_tags ← for_ tasks (visit_task tags tag0) [];
      match tasks with
      | [] => ret (Raise ZeroDivisionError)
      | _ => ret (Ok task_tags)
      end
  end.

End TaskTags.

(** ** [src/generators/team_membership.py] *)

Module TeamMemberships.

(** [avg_team_size_range] of the benchmark file (default [6, 12]). *)
Record TeamMembershipGenerator := {
  avg_team_size_range : Z * Z;
}.

Definition _sample_team_size (self : TeamMembershipGenerator) : M Z :=
  triangular_int (avg_team_size_range self).1 (avg_team_size_range self).2 (17 # 2)%Q.

Definition _sample_joined_at (user_created_at team_created_at : datetime) : M datetime :=
  let earliest := Z.max user_created_at team_created_at in
  now ← utcnow;
  let earliest := if bool_decide (earliest > now) then now - days 1 else earliest in
  let max_days_until_now := td_days (now - earliest) in
  days_delay ← randint 0 (Z.min 30 max_days_until_now);
  let joined_at := earliest + days days_delay in
  hour ← randint 8 17;
  let joined_at := replace_hm joined_at hour 0 in
  let joined_at := if bool_decide (joined_at < earliest) then earliest else joined_at in
  let joined_at := if bool_decide (joined_at > now) then now else joined_at in
  ret joined_at.

(** The objects the loop of [generate] updates.  [users] is the caller's
    list and the lists in [users_by_dept] are shared too: when one of them
    serves as [available_users] it is sorted in place. *)
Record state := mkState {
  users : list User.t;
  users_by_dept : gmap (option string) (list User.t);
  user_team_assignments : gmap ident (gset ident);
  team_member_counts : gmap ident Z;
  memberships : list TeamMembership.t;
}.

(** [len(user_team_assignments[user_id])] on the [defaultdict(set)] *)
Definition teams_of (assignments : gmap ident (gset ident)) (user_id : ident) : Z :=
  Z.of_nat (size (default ∅ (assignments !! user_id))).

(** [for i, user in enumerate(selected_users): ...] *)
Definition add_member (team : Team.t) (it : nat * User.t) (s : state) : M state :=
  let '(i, user) := it in
  let role := if bool_decide (i = 0%nat) then "admin"%string else "member"%string in
  joined_at ← _sample_joined_at (User.created_at user) (Team.created_at team);
  membership_id ← uuid4;
  let membership :=
    {| TeamMembership.membership_id := membership_id;
       TeamMembership.team_id := Team.team_id team;
       TeamMembership.user_id := User.user_id user;
       TeamMembership.role := role;
       TeamMembership.joined_at := joined_at |} in
  ret {| users := users s;
         users_by_dept := users_by_dept s;
         user_team_assignments :=
           <[User.user_id user :=
               {[Team.team_id team]} ∪
               default ∅ (user_team_assignments s !! User.user_id user)]>
             (user_team_assignments s);
         team_member_counts :=
           <[Team.team_id team :=
               default 0 (team_member_counts s !! Team.team_id team) + 1]>
             (team_member_counts s);
         memberships := memberships s ++ [membership] |}.

(** [for team in teams: ...] *)
Definition visit_team (self : TeamMembershipGenerator) (team : Team.t) (s : state)
    : M state :=
  target_size ← _sample_team_size self;
  let by_dept := default [] (users_by_dept s !! Some (Team.team_type team)) in
  let from_dept := match by_dept with [] => false | _ => true end in
  let matching_users := if from_dept then by_dept else users s in
  let under_cap :=
    filter (λ u, teams_of (user_team_assignments s) (User.user_id u) < 4) matching_users in
  let all_capped := match under_cap with [] => true | _ => false end in
  let available_users := if all_capped then matching_users else under_cap in
  let num_to_assign := Z.min target_size (Z.of_nat (length available_users)) in
  let available_users :=
    stable_sort (λ u, teams_of (user_team_assignments s) (User.user_id u))
                available_users in
  (* the sort is in place: without a fresh filtered list it reorders the
     department's list, or the caller's list of users *)
  let s :=
    if all_capped then
      if from_dept then
        mkState (users s)
                (<[Some (Team.team_type team) := available_users]> (users_by_dept s))
                (user_team_assignments s) (team_member_counts s) (memberships s)
      else
        mkState available_users (users_by_dept s)
                (user_team_assignments s) (team_member_counts s) (memberships s)
    else s in
  let selected_users := slice_to available_users num_to_assign in
  for_ (enumerate selected_users) (add_member team) s.

(** The closing report divides by [len(users)]. *)
Definition generate (self : TeamMembershipGenerator) (teams : list Team.t)
    (users : list User.t) : M (result (list TeamMembership.t)) :=
  let users_by_dept := group_by User.department users in
  s ← for_ teams (visit_team self) (mkState users users_by_dept ∅ ∅ []);
  match users with
  | [] => ret (Raise ZeroDivisionError)
  | _ => ret (Ok (memberships s))
  end.

End TeamMemberships.


(** * Vocabulary of the properties

    [wp m w Q] holds when running [m] in the world [w] gives a value and a
    world that satisfy [Q]. *)

Definition wp {A} (m : M A) (w : World) (Q : A → World → Prop) : Prop :=
  Q (m w).1 (m w).2.

(** What the specification asks of the completion fields of a task. *)
Definition completion_consistent (t : Task.t) : Prop :=
  (Task.completed t = true ↔ Task.completed_at t ≠ None) ∧
  (Task.completed t = true →
   ∃ c, Task.completed_at t = Some c ∧ Task.created_at t <= c).

(** A project created 0 to 14 days before its start date, at an hour from
    8 to 17. *)
Definition created_before_start (p : Project.t) : Prop :=
  ∃ k h, 0 <= k <= 14 ∧ 8 <= h <= 17 ∧
         Project.created_at p = combine_min (Project.start_date p - k) + hours h.

(** What each project of the output of [Projects.generate] satisfies, for
    the organization [org], the teams [teams], and the clock readings
    [t0] and [t1] at the start and at the end of the run. *)
Definition project_made_for (org : Organization.t) (teams : list Team.t)
    (t0 t1 : datetime) (p : Project.t) : Prop :=
  ∃ team, team ∈ teams ∧
    Project.team_id p = Some (Team.team_id team) ∧
    Project.organization_id p = Organization.organization_id org ∧
    created_before_start p ∧
    (Project.completed_at p ≠ None ↔
     Project.status p ∈ ["completed"; "archived"]%string) ∧
    date_of (Z.max (Organization.created_at org) (Team.created_at team))
      <= Project.start_date p ∧
    (Z.max (Organization.created_at org) (Team.created_at team) <= t0 →
     Project.start_date p <= date_of t1 + 1).

(** The pair of identifiers a dependency record relates. *)
Definition dep_pair (r : TaskDependency.t) : ident * ident :=
  (TaskDependency.dependent_task_id r, TaskDependency.dependency_task_id r).

(** [blocks deps x y]: some record says that task [x] depends on task [y]. *)
Definition blocks (deps : list TaskDependency.t) (x y : ident) : Prop :=
  ∃ r, r ∈ deps ∧ dep_pair r = (x, y).

(** No task reaches itself along one or more records. *)
Definition acyclic (deps : list TaskDependency.t) : Prop :=
  ∀ x, ¬ tc (blocks deps) x x.

(** The task lists [Dependencies.generate] walks through: the tasks of
    each project, sorted by creation time. *)
Definition sorted_groups (tasks : list Task.t) : list (list Task.t) :=
  (λ e, stable_sort Task.created_at e.2) <$> Dependencies.group_tasks tasks.

(** The record [r] was made for the task at position [i] of [project_tasks]
    and a blocker at an earlier position [j], one to twenty-four hours after
    the dependent task was created. *)
Definition made_from (project_tasks : list Task.t) (r : TaskDependency.t) : Prop :=
  ∃ (i j : nat) d b,
    project_tasks !! i = Some d ∧ project_tasks !! j = Some b ∧ (j < i)%nat ∧
    TaskDependency.dependent_task_id r = Task.task_id d ∧
    TaskDependency.dependency_task_id r = Task.task_id b ∧
    Task.created_at d + hours 1 <= TaskDependency.created_at r
      <= Task.created_at d + hours 24.

(** The invariant of the loops of [Dependencies.generate] over the sorted
    task lists [groups] of the projects. *)
Definition deps_ok (groups : list (list Task.t)) (s : Dependencies.state) : Prop :=
  Forall (λ r, ∃ g, g ∈ groups ∧ made_from g r) (Dependencies.dependencies s) ∧
  NoDup (dep_pair <$> Dependencies.dependencies s) ∧
  (∀ r, r ∈ Dependencies.dependencies s → dep_pair r ∈ Dependencies.existing_deps s).

(** What each comment of the output of [Comments.generate] satisfies, for
    the tasks [tasks] and the clock readings [t0] and [t1] at the start and
    at the end of the run. *)
Definition comment_on (tasks : list Task.t) (t0 t1 : datetime) (c : Comment.t) : Prop :=
  ∃ t, t ∈ tasks ∧ Comment.task_id c = Task.task_id t ∧
    Task.created_at t <= Comment.created_at c ∧
    (Task.created_at t < t0 → Comment.created_at c <= t1).

(** [block] is what the section generator makes for the project [p]: the
    sections carry the identifier of [p], their positions count up from 0
    and their names are the template of the project type, in its order. *)
Definition sections_of (p : Project.t) (block : list Section.t) : Prop :=
  Forall (λ s, Section.project_id s = Project.project_id p) block ∧
  Section.position <$> block = seq 0 (length block) ∧
  Section.name <$> block = Sections._get_sections_for_project (Project.project_type p).

(** The pair of identifiers a task-tag record relates. *)
Definition task_tag_pair (tt : TaskTag.t) : ident * ident :=
  (TaskTag.task_id tt, TaskTag.tag_id tt).

(** [seen_tag_ids] keeps the collected tags free of repeated identifiers. *)
Definition collected_ok (acc : TaskTags.collected) : Prop :=
  NoDup (Tag.tag_id <$> acc.1) ∧ ∀ t, t ∈ acc.1 → Tag.tag_id t ∈ acc.2.

(** Team memberships.  [initial_state] is the state [generate] starts its
    loop in, [state_before] the state in which the loop reaches the team
    that follows the teams [pre]. *)
Definition initial_state (users : list User.t) : TeamMemberships.state :=
  TeamMemberships.mkState users (group_by User.department users) ∅ ∅ [].

Definition state_before (self : TeamMemberships.TeamMembershipGenerator)
    (users : list User.t) (w : World) (pre : list Team.t) : TeamMemberships.state :=
  (for_ pre (TeamMemberships.visit_team self) (initial_state users) w).1.

(** [matching_users] of [visit_team]: the users of the team's department,
    or all users when the department has none. *)
Definition candidates (s : TeamMemberships.state) (team : Team.t) : list User.t :=
  match default [] (TeamMemberships.users_by_dept s !! Some (Team.team_type team)) with
  | [] => TeamMemberships.users s
  | by_dept => by_dept
  end.

(** Some candidate of [team] still belongs to fewer than 4 teams. *)
Definition has_room (s : TeamMemberships.state) (team : Team.t) : Prop :=
  ∃ u, u ∈ candidates s team ∧
       TeamMemberships.teams_of (TeamMemberships.user_team_assignments s)
                                (User.user_id u) < 4.

(** The distinct teams the records [ms] give to the user [user_id]. *)
Definition teams_in (ms : list TeamMembership.t) (user_id : ident) : gset ident :=
  list_to_set (TeamMembership.team_id <$>
               filter (λ m, TeamMembership.user_id m = user_id) ms).

(** [block] is what the membership generator makes for [team]: records of
    that team, the first an admin and the others members. *)
Definition members_of (team : Team.t) (block : list TeamMembership.t) : Prop :=
  Forall (λ m, TeamMembership.team_id m = Team.team_id team) block ∧
  ∀ (i : nat) m, block !! i = Some m →
    TeamMembership.role m = if bool_decide (i = 0%nat) then "admin"%string
                            else "member"%string.

(** The assignment sets of the loop state are those of its records. *)
Definition assignments_agree (s : TeamMemberships.state) : Prop :=
  ∀ user_id, default ∅ (TeamMemberships.user_team_assignments s !! user_id)
             = teams_in (TeamMemberships.memberships s) user_id.

(** No user belongs to more than 4 teams. *)
Definition capped (s : TeamMemberships.state) : Prop :=
  ∀ user_id,
    TeamMemberships.teams_of (TeamMemberships.user_team_assignments s) user_id <= 4.

(** * Concrete runs

    Inputs and worlds on which the generators are evaluated below.  Day 100
    is "today"; a world fixes the clock and the outcomes of the random
    generator (an exhausted tape yields 0). *)

Module Examples.

Definition today : date := 100.

(** The datetime on day [d] at [h]:[m]. *)
Definition at_ (d : date) (h m : Z) : datetime := combine_min d + hours h + minutes m.

(** A world whose clock stands still at [now]. *)
Definition world (now : datetime) (tape : list Z) : World := mkWorld now [] tape 0.

Definition task_generator : Tasks.TaskGenerator :=
  {| Tasks.tasks_created_per_week_range := (0, 1);
     Tasks.avg_task_duration := (53 # 10)%Q;
     Tasks.task_duration_range := (1, 30) |}.

Definition project (id : ident) (status : string) (created_at : datetime) : Project.t :=
  {| Project.project_id := id; Project.organization_id := "org";
     Project.name := "Web Sprint"; Project.team_id := Some "team-1"%string;
     Project.description := None; Project.owner_id := Some "user-1"%string;
     Project.project_type := "sprint"; Project.privacy := "team";
     Project.status := status; Project.color := None;
     Project.start_date := today; Project.due_date := today + 20;
     Project.completed_at := None; Project.created_at := created_at |}.

Definition task (id : ident) (name : string) (created_at : datetime) : Task.t :=
  {| Task.task_id := id; Task.name := name; Task.created_by := "user-1";
     Task.project_id := Some "project-1"%string; Task.section_id := Some "section-1"%string;
     Task.parent_task_id := None; Task.description := None;
     Task.assignee_id := Some "user-1"%string; Task.priority := Some "medium"%string;
     Task.due_date := None; Task.start_date := None; Task.completed := false;
     Task.completed_at := None; Task.created_at := created_at;
     Task.modified_at := Some created_at |}.

Definition user_1 : User.t :=
  {| User.user_id := "user-1"; User.department := Some "Engineering"%string;
     User.created_at := at_ today 9 0 |}.

(** A project created today at 09:30, with one section, and a user created
    today at 09:00; the clock shows 10:00. *)
Definition project_1 : Project.t := project "project-1" "active" (at_ today 9 30).
Definition section_1 : Section.t :=
  {| Section.section_id := "section-1"; Section.project_id := "project-1";
     Section.name := "Backlog"; Section.position := 0%nat;
     Section.created_at := at_ today 9 30 |}.

(** Priority, duration and assignee first; then the hour 20 ([8 + 12]),
    the minute 0, and two hours back from the clock. *)
Definition late_hour_world : World := world (at_ today 10 0) [0; 0; 0; 12; 0; 1].

(** Two tasks of one project, created today at 09:00 and 09:30. *)
Definition task_a : Task.t := task "task-a" "Design dashboard asset" (at_ today 9 0).
Definition task_b : Task.t := task "task-b" "Fix login bug" (at_ today 9 30).

(** The first task draws no dependency, the second draws one. *)
Definition one_dependency_world : World := world (at_ today 10 0) [0; 1; 0; 0; 0].

(** An organization created 30 days ago and a team created 20 days ago
    at 10:00. *)
Definition org : Organization.t :=
  {| Organization.organization_id := "org"; Organization.created_at := at_ (today - 30) 8 0 |}.
Definition team_1 : Team.t :=
  {| Team.team_id := "team-1"; Team.team_type := "Engineering";
     Team.created_at := at_ (today - 20) 10 0 |}.
Definition project_generator : Projects.ProjectGenerator :=
  {| Projects.templates := Projects._create_fallback_templates |}.

(** A team created yesterday at 08:00; the clock shows 09:00. *)
Definition team_2 : Team.t :=
  {| Team.team_id := "team-2"; Team.team_type := "Engineering";
     Team.created_at := at_ (today - 1) 8 0 |}.

(** Three projects; the first: a sprint that starts today, lasts 10 days
    and is completed.  Its completion: on time, 5 days after the start
    (in the future), so one hour before the clock; hour 17 (again in the
    future), so 48 hours before the clock, at hour 12. *)
Definition early_completion_world : World :=
  world (at_ today 9 0)
        [0; 0; 0; 0; 0; 0; 1; 0; 1;  1; 0; 0; 9; 47; 4].

(** A completion that starts the same way; the last clamp goes one hour
    before the clock and then sets the hour to 17. *)
Definition future_completion_world : World :=
  world (at_ today 9 0) [1; 0; 0; 9; 0; 9].

(** A task created at the very instant the clock shows, 10:00.  It gets
    one comment: the interval up to the clock is empty, and the comment is
    dated one minute after the task. *)
Definition task_now : Task.t := task "task-n" "Update settings system" (at_ today 10 0).
Definition one_comment_world : World := world (at_ today 10 0) [1].

(** Two tags of the organization; the task "Fix login bug" matches the
    keywords bug and fix, hence the tag Bug. *)
Definition tag_bug : Tag.t :=
  {| Tag.tag_id := "tag-1"; Tag.organization_id := "org"; Tag.name := "Bug" |}.
Definition tag_design : Tag.t :=
  {| Tag.tag_id := "tag-2"; Tag.organization_id := "org"; Tag.name := "Design" |}.

(** Both tasks draw tags. *)
Definition tagging_world : World := world (at_ today 10 0) [1; 0; 0; 0; 0; 1; 0; 0; 0; 0].

(** Five teams of the one department of the only user. *)
Definition team (id : ident) : Team.t :=
  {| Team.team_id := id; Team.team_type := "Engineering";
     Team.created_at := at_ (today - 20) 10 0 |}.
Definition five_teams : list Team.t :=
  [team "team-1"; team "team-2"; team "team-3"; team "team-4"; team "team-5"].
Definition membership_generator : TeamMemberships.TeamMembershipGenerator :=
  {| TeamMemberships.avg_team_size_range := (6, 12) |}.

(** Two users of one department. *)
Definition user_2 : User.t :=
  {| User.user_id := "user-2"; User.department := Some "Engineering"%string;
     User.created_at := at_ (today - 10) 9 0 |}.

End Examples.

(** * Further vocabulary

    Notions used by the properties of the generators beyond the
    specification's claims. *)

(** The projects [Tasks.generate] makes tasks for: the active and on-hold
    ones, or every project when there is none of these. *)
Definition task_projects (projects : list Project.t) : list Project.t :=
  match filter (λ p, Tasks.is_active p = true) projects with
  | [] => projects
  | _ => filter (λ p, Tasks.is_active p = true) projects
  end.

(** [tasks_per_project] of [Tasks.generate]. *)
Definition tasks_per_project (self : Tasks.TaskGenerator) (users : list User.t)
    (projects : list Project.t) : Z :=
  Tasks._calculate_total_tasks self users projects
    `div` Z.of_nat (length (task_projects projects)).

(** The sections of [sections] that carry the identifier of [p]. *)
Definition sections_in (sections : list Section.t) (p : Project.t) : list Section.t :=
  filter (λ s, Section.project_id s = Project.project_id p) sections.

(** The identifiers a task carries point into [p], [project_sections] and
    [team_users]. *)
Definition task_refers_to (p : Project.t) (project_sections : list Section.t)
    (team_users : list User.t) (t : Task.t) : Prop :=
  Task.project_id t = Some (Project.project_id p) ∧
  (∃ s, s ∈ project_sections ∧ Task.section_id t = Some (Section.section_id s)) ∧
  (∃ a, a ∈ team_users ∧ Task.assignee_id t = Some (User.user_id a)) ∧
  (∃ c, c ∈ team_users ∧ Task.created_by t = User.user_id c) ∧
  Task.parent_task_id t = None ∧
  Task.name t ≠ ""%string ∧
  (∃ priority, Task.priority t = Some priority ∧
               priority ∈ ["high"; "medium"; "low"]%string).

(** The timestamps of a task are consistent with one another and with the
    clock reading [now]. *)
Definition task_timed (now : datetime) (t : Task.t) : Prop :=
  Task.created_at t <= now ∧
  (∀ c, Task.completed_at t = Some c → Task.created_at t <= c <= now) ∧
  Task.modified_at t = Some (default (Task.created_at t) (Task.completed_at t)).

(** The dates of a task follow the day it was created on; the longest
    duration bounds the due date when the average duration, the mode of
    the draw, is not above it. *)
Definition task_scheduled (self : Tasks.TaskGenerator) (now : datetime) (t : Task.t)
    : Prop :=
  (∀ d, Task.due_date t = Some d →
     date_of (Task.created_at t) < d ∧
     ((Tasks.task_duration_range self).1 <= (Tasks.task_duration_range self).2 →
      (Tasks.avg_task_duration self <= inject_Z (Tasks.task_duration_range self).2)%Q →
      d <= date_of (Task.created_at t) + Z.max 1 (Tasks.task_duration_range self).2)) ∧
  (∀ s, Task.start_date t = Some s →
     date_of (Task.created_at t) <= s <= date_of (Task.created_at t) + 3 ∧
     s <= date_of now) ∧
  (Task.completed t = true → Task.start_date t ≠ None).

(** What [generate] makes for one selected project: as many tasks as
    [tasks_per_project] says when the project has a section, none
    otherwise. *)
Definition block_of_project (self : Tasks.TaskGenerator) (projects : list Project.t)
    (sections : list Section.t) (users : list User.t)
    (p : Project.t) (block : list Task.t) : Prop :=
  Forall (λ t, Task.project_id t = Some (Project.project_id p)) block ∧
  length block = match sections_in sections p with
                 | [] => 0%nat
                 | _ => Z.to_nat (tasks_per_project self users projects)
                 end.

(** [counts = defaultdict(int)] filled by [counts[key(x)] += 1] over [xs]. *)
Definition count_by `{Countable K} {A} (key : A → K) (xs : list A) : gmap K Z :=
  foldl (λ m x, <[key x := default 0 (m !! key x) + 1]> m) ∅ xs.

(** [deps_per_task] of the report that [generate_dependencies] prints
    after the generator has returned. *)
Definition deps_per_task (dependencies : list TaskDependency.t) : gmap ident Z :=
  count_by TaskDependency.dependent_task_id dependencies.

(** The records whose dependent task is [task_id]. *)
Definition blockers_of (deps : list TaskDependency.t) (task_id : ident)
    : list TaskDependency.t :=
  filter (λ r, TaskDependency.dependent_task_id r = task_id) deps.

(** [block] is what the dependency generator makes for the task [it.2]
    at position [it.1] of the sorted list of its project: records of that
    task, at most three and at most as many as tasks precede it. *)
Definition blockers_block (it : nat * Task.t) (block : list TaskDependency.t) : Prop :=
  (length block <= 3)%nat ∧ (length block <= it.1)%nat ∧
  Forall (λ r, TaskDependency.dependent_task_id r = Task.task_id it.2) block.

(** The users [Projects.generate] draws the owner of a project of [team]
    from: the users of the team's department, or all users when the
    department has none. *)
Definition owner_candidates (users : list User.t) (team : Team.t) : list User.t :=
  match filter (λ u, User.department u = Some (Team.team_type team)) users with
  | [] => users
  | _ => filter (λ u, User.department u = Some (Team.team_type team)) users
  end.

(** A time on the hour, from 08:00 to 17:00. *)
Definition business_hour (dt : datetime) : Prop :=
  ∃ d h, 8 <= h <= 17 ∧ dt = combine_min d + hours h.

(** The project [p] of [team] follows one of the templates: it has the
    type of the template and lasts as many days as the template allows. *)
Definition follows_template (self : Projects.ProjectGenerator) (p : Project.t) : Prop :=
  ∃ template, template ∈ Projects.templates self ∧
    Project.project_type p = Projects.type template ∧
    ∀ lo hi, default (14, 90) (Projects.duration_days_range template) = (lo, hi) →
      lo <= hi →
      Project.start_date p + lo <= Project.due_date p <= Project.start_date p + hi.

(** The owner and the attributes drawn for a project of [team]. *)
Definition project_attributes (users : list User.t) (team : Team.t) (p : Project.t)
    : Prop :=
  (∃ owner, owner ∈ owner_candidates users team ∧
            Project.owner_id p = Some (User.user_id owner)) ∧
  Project.status p ∈ ["active"; "completed"; "archived"; "on_hold"]%string ∧
  Project.privacy p ∈ ["team"; "public"; "private"]%string ∧
  (∃ color, Project.color p = Some color ∧
     color ∈ ["blue"; "green"; "red"; "yellow"; "purple"; "orange";
              "pink"; "teal"; "brown"; "gray"; "light-blue"; "light-green"]%string).

(** The identifiers and the name of a project of [team] in [org]. *)
Definition project_of_team (org : Organization.t) (team : Team.t) (p : Project.t) : Prop :=
  Project.team_id p = Some (Team.team_id team) ∧
  Project.organization_id p = Organization.organization_id org ∧
  Project.name p ≠ ""%string.

(** The timestamps of a project fall on business hours. *)
Definition project_on_the_hour (p : Project.t) : Prop :=
  business_hour (Project.created_at p) ∧
  Project.created_at p <= combine_min (Project.start_date p) + hours 17 ∧
  ∀ c, Project.completed_at p = Some c → business_hour c.

(** The record [tt] relates [task] to a tag of [tags] that belongs to the
    organization of the first tag, and is dated from the creation of the
    task up to seven days and twelve hours later, and not after the later
    of the clock reading [now] and the creation of the task. *)
Definition task_tag_of (tags : list Tag.t) (task : Task.t) (now : datetime)
    (tt : TaskTag.t) : Prop :=
  TaskTag.task_id tt = Task.task_id task ∧
  (∃ tag tag0, tag ∈ tags ∧ head tags = Some tag0 ∧
     TaskTag.tag_id tt = Tag.tag_id tag ∧
     Tag.organization_id tag = Tag.organization_id tag0) ∧
  Task.created_at task <= TaskTag.created_at tt
    <= Task.created_at task + days 7 + hours 12 ∧
  TaskTag.created_at tt <= Z.max now (Task.created_at task).

(** The priority [Comments.generate] goes by: that of the task, or medium
    when the task has none. *)
Definition comment_priority (task : Task.t) : string :=
  if truthy (Task.priority task) then default "medium"%string (Task.priority task)
  else "medium"%string.

(** Who may be drawn as the author of a comment on [task]: its assignee,
    its creator, a user of the department of its assignee, or any user when
    the task names neither an assignee nor a creator. *)
Definition may_comment (users : list User.t) (task : Task.t) (author : ident) : Prop :=
  Task.assignee_id task = Some author ∨
  Task.created_by task = author ∨
  (∃ u a, u ∈ users ∧ a ∈ users ∧
          Task.assignee_id task = Some (User.user_id a) ∧
          User.department u = User.department a ∧ author = User.user_id u) ∨
  (truthy (Task.assignee_id task) = false ∧ Task.created_by task = ""%string ∧
   ∃ u, u ∈ users ∧ author = User.user_id u).

(** [block] is what the comment generator makes for [task]: at most ten
    comments, at most five unless the priority is high or urgent, at most
    three when it is neither of these nor medium; each on the task, by a
    possible author, with a text and not pinned. *)
Definition comments_block (users : list User.t) (task : Task.t)
    (block : list Comment.t) : Prop :=
  (length block <= 10)%nat ∧
  (comment_priority task ∉ ["high"; "urgent"]%string → (length block <= 5)%nat) ∧
  (comment_priority task ∉ ["high"; "urgent"; "medium"]%string →
   (length block <= 3)%nat) ∧
  Forall (λ c, Comment.task_id c = Task.task_id task ∧
               may_comment users task (Comment.user_id c) ∧
               Comment.text c ≠ ""%string ∧
               Comment.is_pinned c = false) block.

(** Team memberships.  The record [m] says that the user [u] joined
    [team]; [started] and [now] are clock readings, at the start of the run
    and when the record is looked at. *)
Definition joined (started now : datetime) (team : Team.t) (u : User.t)
    (m : TeamMembership.t) : Prop :=
  TeamMembership.team_id m = Team.team_id team ∧
  TeamMembership.user_id m = User.user_id u ∧
  TeamMembership.joined_at m <= now ∧
  (Z.max (User.created_at u) (Team.created_at team) <= started →
   Z.max (User.created_at u) (Team.created_at team) <= TeamMembership.joined_at m).

(** [u] has the department [team] is named after, unless no user has. *)
Definition department_of_team (users : list User.t) (team : Team.t) (u : User.t) : Prop :=
  User.department u = Some (Team.team_type team) ∨
  ∀ v, v ∈ users → User.department v ≠ Some (Team.team_type team).

(** [block] records the members of [team]: distinct entries of [users],
    of the team's department unless that has no user. *)
Definition members_from (users : list User.t) (started now : datetime) (team : Team.t)
    (block : list TeamMembership.t) : Prop :=
  ∃ selected, selected ⊆+ users ∧
    Forall (department_of_team users team) selected ∧
    Forall2 (joined started now team) selected block.

(** The in-place sorts of [visit_team] only reorder the caller's list and
    the lists of the departments. *)
Definition users_kept (users0 : list User.t) (s : TeamMemberships.state) : Prop :=
  TeamMemberships.users s ≡ₚ users0 ∧
  ∀ k, default [] (TeamMemberships.users_by_dept s !! k)
       ≡ₚ filter (λ u, User.department u = k) users0.

Definition membership_pair (m : TeamMembership.t) : ident * ident :=
  (TeamMembership.user_id m, TeamMembership.team_id m).

(** ** Further concrete runs *)

Module MoreExamples.

(** The first task of the run is created at 09:30, is completed and has a
    due date. *)
Definition completing_world : World :=
  Examples.world (Examples.at_ Examples.today 10 0) [0; 0; 0; 0; 0; 1].

(** A task of another project, created between [task_a] and [task_b]. *)
Definition task_elsewhere : Task.t :=
  {| Task.task_id := "task-e"; Task.name := "Plan search initiative";
     Task.created_by := "user-1";
     Task.project_id := Some "project-2"%string; Task.section_id := Some "section-9"%string;
     Task.parent_task_id := None; Task.description := None;
     Task.assignee_id := Some "user-1"%string; Task.priority := Some "low"%string;
     Task.due_date := None; Task.start_date := None; Task.completed := false;
     Task.completed_at := None; Task.created_at := Examples.at_ Examples.today 9 15;
     Task.modified_at := Some (Examples.at_ Examples.today 9 15) |}.

(** Of the two tasks of the first project the second draws a dependency. *)
Definition two_projects_world : World :=
  Examples.world (Examples.at_ Examples.today 10 0) [0; 1; 0; 0; 0].

(** The first team draws three projects, the second draws five. *)
Definition eight_projects_world : World :=
  Examples.world (Examples.at_ Examples.today 10 0)
    ([0] ++ replicate 39 0 ++ [2]).

(** A user of another department than the team of the examples. *)
Definition user_sales : User.t :=
  {| User.user_id := "user-9"; User.department := Some "Sales"%string;
     User.created_at := Examples.at_ (Examples.today - 10) 9 0 |}.

(** A project created a week ago at 09:30. *)
Definition project_last_week : Project.t :=
  Examples.project "project-7" "active" (Examples.at_ (Examples.today - 7) 9 30).

(** The first task draws five comments, the second draws none. *)
Definition five_comments_world : World :=
  Examples.world (Examples.at_ Examples.today 10 0) [1; 4].

(** A task assigned to the first user and created by a user of the sales
    department. *)
Definition task_by_sales : Task.t :=
  {| Task.task_id := "task-s"; Task.name := "Review search process";
     Task.created_by := "user-9";
     Task.project_id := Some "project-1"%string; Task.section_id := Some "section-1"%string;
     Task.parent_task_id := None; Task.description := None;
     Task.assignee_id := Some "user-1"%string; Task.priority := Some "low"%string;
     Task.due_date := None; Task.start_date := None; Task.completed := false;
     Task.completed_at := None; Task.created_at := Examples.at_ Examples.today 9 0;
     Task.modified_at := Some (Examples.at_ Examples.today 9 0) |}.

(** One comment on the task, written by a colleague of its assignee. *)
Definition colleague_comments_world : World :=
  Examples.world (Examples.at_ Examples.today 10 0) [1; 0; 0; 0; 2].

End MoreExamples.

(** * The generators of the organization, its users, teams and tags

    [src/generators/organizations.py], [users.py], [teams.py] and
    [tags.py] create the entities the generators above read.  The research
    files they load ([companies.json], [names.json], [job_titles.json],
    [benchmarks.json]) are inputs: a generator is modelled from the point
    where its constructor has read them. *)

(** ** String methods, on ASCII text *)

Module Text.

(** A blank and an apostrophe *)
Definition space : Ascii.ascii := Ascii.ascii_of_nat 32.
Definition apostrophe : Ascii.ascii := Ascii.ascii_of_nat 39.

Definition upper_ascii (c : Ascii.ascii) : Ascii.ascii :=
  let n := Ascii.nat_of_ascii c in
  if (97 <=? n)%nat && (n <=? 122)%nat then Ascii.ascii_of_nat (n - 32) else c.

(** [s.capitalize()] *)
Definition capitalize (s : string) : string :=
  match s with
  | EmptyString => EmptyString
  | String c s' => String (upper_ascii c) (Str.lower s')
  end.

(** [s.replace(old, new)] for a single character [old] *)
Fixpoint replace_char (old : Ascii.ascii) (new : string) (s : string) : string :=
  match s with
  | EmptyString => EmptyString
  | String c s' =>
      if Ascii.eqb c old then new +:+ replace_char old new s'
      else String c (replace_char old new s')
  end.

(** [s.replace(old, '')] for a non-empty [old]: the occurrences are found
    from left to right and do not overlap; [skip] counts the characters of
    an occurrence still to be passed. *)
Fixpoint remove_from (old : string) (skip : nat) (s : string) : string :=
  match s with
  | EmptyString => EmptyString
  | String c s' =>
      match skip with
      | S k => remove_from old k s'
      | O =>
          if String.prefix old s then remove_from old (String.length old - 1) s'
          else String c (remove_from old 0 s')
      end
  end.

Definition remove (old s : string) : string := remove_from old 0 s.

(** [c.isalnum()] *)
Definition isalnum (c : Ascii.ascii) : bool :=
  let n := Ascii.nat_of_ascii c in
  ((48 <=? n)%nat && (n <=? 57)%nat) || ((65 <=? n)%nat && (n <=? 90)%nat)
  || ((97 <=? n)%nat && (n <=? 122)%nat).

(** [''.join(c for c in s if keep(c))] *)
Fixpoint keep_chars (keep : Ascii.ascii → bool) (s : string) : string :=
  match s with
  | EmptyString => EmptyString
  | String c s' =>
      if keep c then String c (keep_chars keep s') else keep_chars keep s'
  end.

(** The characters [str.split()] splits at. *)
Definition isspace (c : Ascii.ascii) : bool :=
  let n := Ascii.nat_of_ascii c in
  ((9 <=? n)%nat && (n <=? 13)%nat) || ((28 <=? n)%nat && (n <=? 32)%nat).

(** [s.split()]: the maximal runs without white space; [word] is the run
    being read. *)
Fixpoint split_from (word : string) (s : string) : list string :=
  match s with
  | EmptyString => match word with EmptyString => [] | _ => [word] end
  | String c s' =>
      if isspace c then
        match word with
        | EmptyString => split_from EmptyString s'
        | _ => word :: split_from EmptyString s'
        end
      else split_from (word +:+ String c EmptyString) s'
  end.

Definition split (s : string) : list string := split_from EmptyString s.

(** [s.split(sep)[-1]] for a non-empty [sep]: what follows the last of the
    occurrences of [sep], which are found from left to right and do not
    overlap; [piece] is the piece being read. *)
Fixpoint last_piece_from (sep : string) (skip : nat) (piece : string) (s : string)
    : string :=
  match s with
  | EmptyString => piece
  | String c s' =>
      match skip with
      | S k => last_piece_from sep k piece s'
      | O =>
          if String.prefix sep s
          then last_piece_from sep (String.length sep - 1) EmptyString s'
          else last_piece_from sep 0 (piece +:+ String c EmptyString) s'
      end
  end.

Definition last_piece (sep s : string) : string := last_piece_from sep 0 EmptyString s.

(** [any(word in s for word in words)] *)
Definition any_in (words : list string) (s : string) : bool :=
  existsb (λ word, Str.contains word s) words.

End Text.

(** ** The entities these generators create, with every field of their
    dataclass *)

Module Models.

Module Organization.
Record t := mk {
  organization_id : ident;
  name : string;
  domain : string;
  is_organization : bool;
  created_at : datetime;
}.
End Organization.

Module User.
Record t := mk {
  user_id : ident;
  organization_id : ident;
  email : string;
  name : string;
  role : string;
  department : option string;
  job_title : option string;
  photo_url : option string;
  is_active : bool;
  workload_capacity : Q;
  created_at : datetime;
  last_active_at : option datetime;
}.
End User.

Module Team.
Record t := mk {
  team_id : ident;
  organization_id : ident;
  name : string;
  team_type : string;
  description : option string;
  privacy : string;
  created_at : datetime;
}.
End Team.

Module Tag.
Record t := mk {
  tag_id : ident;
  organization_id : ident;
  name : string;
  color : option string;
  created_at : datetime;
}.
End Tag.

End Models.

(** What the generators of the first part read of these entities. *)
Definition organization_read (o : Models.Organization.t) : Organization.t :=
  {| Organization.organization_id := Models.Organization.organization_id o;
     Organization.created_at := Models.Organization.created_at o |}.

Definition user_read (u : Models.User.t) : User.t :=
  {| User.user_id := Models.User.user_id u;
     User.department := Models.User.department u;
     User.created_at := Models.User.created_at u |}.

Definition team_read (t : Models.Team.t) : Team.t :=
  {| Team.team_id := Models.Team.team_id t;
     Team.team_type := Models.Team.team_type t;
     Team.created_at := Models.Team.created_at t |}.

Definition tag_read (t : Models.Tag.t) : Tag.t :=
  {| Tag.tag_id := Models.Tag.tag_id t;
     Tag.organization_id := Models.Tag.organization_id t;
     Tag.name := Models.Tag.name t |}.

(** [random.choice(xs)], which raises [IndexError] on an empty list. *)
Definition choice_r {A} (xs : list A) : M (result A) :=
  match xs with
  | [] => ret (Raise IndexError)
  | x :: _ => v ← choice x xs; ret (Ok v)
  end.

(** A loop whose body can raise, or can fail to come to an end within the
    bound given to a search ([None]). *)
Fixpoint for_o {X S} (xs : list X) (body : X → S → M (option (result S))) (s : S)
    : M (option (result S)) :=
  match xs with
  | [] => ret (Some (Ok s))
  | x :: xs' =>
      r ← body x s;
      match r with
      | Some (Ok s') => for_o xs' body s'
      | Some (Raise e) => ret (Some (Raise e))
      | None => ret None
      end
  end.

(** ** [src/generators/organizations.py] *)

Module Organizations.

(** An entry of [companies.json]: the keys whose values the generator
    looks at; [team_size] is [None] for an entry without that key. *)
Record Company := {
  name : string;
  team_size : option Z;
}.

Record OrganizationGenerator := {
  companies : list Company;
  target_companies : list Company;
}.

(** [ValueError] is raised by [generate] itself, [IndexError] by
    [words[0]] in [_generate_domain]. *)
Inductive exception := ValueError | IndexError.

(** The dictionary [generate] returns.  Besides the keys below the
    metadata copies keys of the chosen company entry, kept here as the
    entry itself. *)
Record Metadata := {
  target_employee_count : Z;
  company_data : Company;
  simulation_start_date : datetime;
  simulation_end_date : datetime;
}.

Record Generated := {
  organization : Models.Organization.t;
  metadata : Metadata;
}.

(** The constructor, from the parsed [companies.json] on. *)
Definition _load_companies (companies : list Company) : OrganizationGenerator :=
  let target_companies :=
    filter (λ c, 3000 <= default 0 (team_size c) <= 15000) companies in
  let target_companies :=
    match target_companies with
    | [] => filter (λ c, default 0 (team_size c) > 1000) companies
    | _ => target_companies
    end in
  {| companies := companies; target_companies := target_companies |}.

Definition _generate_domain (company_name : string) : M (exception + string) :=
  let name := Str.lower company_name in
  let name :=
    foldl (λ name suffix, Text.remove suffix name) name
          [" inc"; " inc."; " corp"; " corporation"; " llc"; " ltd"; " limited"]%string in
  let name := Text.keep_chars (λ c, Text.isalnum c || Ascii.eqb c Text.space) name in
  let words := Text.split name in
  match words with
  | [] => ret (inl IndexError)
  | domain_name :: _ =>
      tld ← choice ""%string ["com"; "io"; "so"; "app"; "co"]%string;
      ret (inr (domain_name +:+ "." +:+ tld))
  end.

Definition _generate_org_id : M ident := uuid4.

Definition _get_base_timestamp : M datetime :=
  now ← utcnow;
  let six_months_ago := now - days 180 in
  ret (replace_hm six_months_ago 8 0).

Definition generate (self : OrganizationGenerator) (company_size : option Z)
    : M (exception + Generated) :=
  company_size ← match company_size with
                 | None => randint 5000 10000
                 | Some n => ret n
                 end;
  match target_companies self with
  | [] => ret (inl ValueError)
  | c0 :: _ =>
      company_data ← choice c0 (target_companies self);
      let company_name := name company_data in
      domain ← _generate_domain company_name;
      match domain with
      | inl e => ret (inl e)
      | inr domain =>
          org_id ← _generate_org_id;
          created_at ← _get_base_timestamp;
          let organization :=
            {| Models.Organization.organization_id := org_id;
               Models.Organization.name := company_name;
               Models.Organization.domain := domain;
               Models.Organization.is_organization := true;
               Models.Organization.created_at := created_at |} in
          simulation_end_date ← utcnow;
          ret (inr {| organization := organization;
                      metadata :=
                        {| target_employee_count := company_size;
                           company_data := company_data;
                           simulation_start_date := created_at;
                           simulation_end_date := simulation_end_date |} |})
      end
  end.

End Organizations.

(** ** [src/generators/tags.py] *)

Module Tags.

Record TagGenerator := {
  core_tags : list string;
  priority_tags : list string;
  type_tags : list string;
  business_tags : list string;
  department_tags : list string;
  tech_tags : list string;
  tag_library : list string;
}.

(** The closing loop of [_build_tag_library]: a tag is appended unless it
    was seen. *)
Definition keep_new (acc : gset string * list string) (tag : string)
    : gset string * list string :=
  if bool_decide (tag ∉ acc.1) then ({[tag]} ∪ acc.1, acc.2 ++ [tag]) else acc.

(** [departments] and [tech_tags] are what [_extract_departments] and
    [_extract_tech_tags] return; the function is modelled from there on. *)
Definition _build_tag_library (departments tech_tags : list string) : TagGenerator :=
  let core_tags :=
    ["urgent"; "blocked"; "needs-review"; "in-progress"; "ready-for-qa"; "on-hold";
     "waiting"; "duplicate"; "wont-fix"; "help-wanted"]%string in
  let priority_tags :=
    ["p0"; "p1"; "p2"; "p3"; "p4"; "critical"; "high-priority"; "low-priority"]%string in
  let type_tags :=
    ["bug"; "enhancement"; "feature"; "documentation"; "refactor"; "technical-debt";
     "chore"; "question"; "discussion"]%string in
  let business_tags :=
    ["customer-request"; "internal"; "external"; "paid-feature"; "beta"; "experiment";
     "quick-win"; "stretch-goal"]%string in
  let department_tags :=
    (λ dept, Text.replace_char Text.space "-" (Str.lower dept)) <$> departments in
  let all_tags :=
    core_tags ++ priority_tags ++ type_tags ++ business_tags
    ++ take 15 department_tags ++ take 20 tech_tags in
  let tag_library := (foldl keep_new (∅, []) all_tags).2 in
  {| core_tags := core_tags; priority_tags := priority_tags; type_tags := type_tags;
     business_tags := business_tags; department_tags := department_tags;
     tech_tags := tech_tags; tag_library := tag_library |}.

Definition _get_tag_color (tag_name : string) : M string :=
  let tag_lower := Str.lower tag_name in
  if Text.any_in ["urgent"; "critical"; "blocked"; "bug"; "p0"]%string tag_lower then
    choice ""%string ["red"; "dark-red"]%string
  else if Text.any_in ["needs-review"; "high-priority"; "p1"; "waiting"]%string tag_lower then
    choice ""%string ["orange"; "dark-orange"]%string
  else if Text.any_in ["in-progress"; "p2"]%string tag_lower then
    choice ""%string ["yellow"; "light-orange"]%string
  else if Text.any_in ["ready"; "enhancement"; "feature"; "p3"; "p4"]%string tag_lower then
    choice ""%string ["green"; "light-green"]%string
  else if Text.any_in ["documentation"; "question"; "discussion"]%string tag_lower then
    choice ""%string ["blue"; "light-blue"]%string
  else if Text.any_in ["experiment"; "beta"; "research"]%string tag_lower then
    choice ""%string ["purple"; "light-purple"]%string
  else if Text.any_in ["on-hold"; "wont-fix"; "duplicate"; "archived"]%string tag_lower then
    choice ""%string ["gray"; "light-gray"]%string
  else
    choice ""%string ["blue"; "green"; "purple"; "teal"; "pink"; "brown"]%string.

Definition _sample_created_at (org_created_at : datetime) : M datetime :=
  days_since_org ← randint 0 30;
  let created_at := org_created_at + days days_since_org in
  hour ← randint 8 17;
  ret (replace_hm created_at hour 0).

(** [for tag_name in self.tag_library: ...] *)
Definition add_tag (org : Models.Organization.t) (tag_name : string)
    (tags : list Models.Tag.t) : M (list Models.Tag.t) :=
  color ← _get_tag_color tag_name;
  created_at ← _sample_created_at (Models.Organization.created_at org);
  tag_id ← uuid4;
  ret (tags ++ [ {| Models.Tag.tag_id := tag_id;
                    Models.Tag.organization_id := Models.Organization.organization_id org;
                    Models.Tag.name := tag_name;
                    Models.Tag.color := Some color;
                    Models.Tag.created_at := created_at |} ]).

Definition generate (self : TagGenerator) (org : Models.Organization.t)
    : M (list Models.Tag.t) :=
  for_ (tag_library self) (add_tag org) [].

End Tags.

(** ** Errors and searches threaded through a run

    A computation that can raise, or can leave a search without an answer
    within the bound it was given ([None]). *)

Definition bind_o {A B} (m : M (option (result A))) (f : A → M (option (result B)))
    : M (option (result B)) :=
  r ← m;
  match r with
  | Some (Ok a) => f a
  | Some (Raise e) => ret (Some (Raise e))
  | None => ret None
  end.

Definition lift {A} (m : M A) : M (option (result A)) := a ← m; ret (Some (Ok a)).

Definition lift_r {A} (m : M (result A)) : M (option (result A)) := r ← m; ret (Some r).

Notation "x ←? y ; z" := (bind_o y (λ x, z))
  (at level 20, y at level 100, z at level 200, only parsing) : M_scope.

(** [random.gauss(mu, sigma)]: every value can come out, whatever the
    parameters; the model draws one on a grid of a thousandth. *)
Definition gauss (mu sigma : Q) : M Q := r ← raw; ret (r # 1000)%Q.

(** [round(x, 2)], on the exact value: the nearest multiple of a hundredth,
    and of two nearest ones the even one. *)
Definition round2 (x : Q) : Q :=
  let y := (x * 100)%Q in
  let f := Qfloor y in
  let r := match (y - inject_Z f ?= 1 # 2)%Q with
           | Lt => f
           | Gt => f + 1
           | Eq => if Z.even f then f else f + 1
           end in
  (r # 100)%Q.

(** ** [src/generators/users.py] *)

Module Users.

(** [departments] is [sorted(list(departments))] of
    [_build_department_mapping], with its fallback when no department was
    extracted. *)
Record UserGenerator := {
  first_names : list string;
  last_names : list string;
  job_titles : list string;
  departments : list string;
}.

(** [self.dept_keyword_map], in the order of its keys. *)
Definition dept_keyword_map (self : UserGenerator) : list (string * list string) :=
  (λ dept, (dept, Text.split (Str.lower dept))) <$> departments self.

(** [max(scores.items(), key=lambda x: x[1])]: the first of the items with
    the largest score. *)
Definition max_score (first : string * Z) (rest : list (string * Z)) : string * Z :=
  foldl (λ best item, if bool_decide (best.2 < item.2) then item else best) first rest.

Definition _extract_department_from_title (self : UserGenerator) (job_title : string)
    : M (result string) :=
  let title_lower := Str.lower job_title in
  let scored :=
    (λ entry : string * list string,
       (entry.1,
        Z.of_nat (length (filter (λ kw, Str.contains kw title_lower = true) entry.2))))
      <$> dept_keyword_map self in
  let scores := filter (λ item : string * Z, item.2 > 0) scored in
  match scores with
  | first :: rest => ret (Ok (max_score first rest).1)
  | [] => choice_r (departments self)
  end.

Definition _sample_job_title_and_department (self : UserGenerator)
    : M (result (string * string)) :=
  job_title ← choice_r (job_titles self);
  match job_title with
  | Raise e => ret (Raise e)
  | Ok job_title =>
      department ← _extract_department_from_title self job_title;
      match department with
      | Raise e => ret (Raise e)
      | Ok department => ret (Ok (job_title, department))
      end
  end.

(** [name.lower().replace(' ', '').replace("'", '')] *)
Definition clean (name : string) : string :=
  Text.replace_char Text.apostrophe ""
    (Text.replace_char Text.space "" (Str.lower name)).

(** [f"{first}.{last}{counter}@{domain}"] *)
Definition numbered (first last domain : string) (counter : Z) : string :=
  first +:+ "." +:+ last +:+ pretty counter +:+ "@" +:+ domain.

(** [while True: ...; counter += 1], for at most [rounds] rounds. *)
Fixpoint search_email (rounds : nat) (first last domain : string)
    (used_emails : gset string) (counter : Z) : option string :=
  match rounds with
  | O => None
  | S rounds =>
      let email := numbered first last domain counter in
      if bool_decide (email ∉ used_emails) then Some email
      else search_email rounds first last domain used_emails (counter + 1)
  end.

(** The search is given one round more than there are used addresses. *)
Definition _generate_email (first_name last_name domain : string)
    (used_emails : gset string) : option string :=
  let first := clean first_name in
  let last := clean last_name in
  let email := first +:+ "." +:+ last +:+ "@" +:+ domain in
  if bool_decide (email ∉ used_emails) then Some email
  else
    let email := first +:+ last +:+ "@" +:+ domain in
    if bool_decide (email ∉ used_emails) then Some email
    else search_email (S (size used_emails)) first last domain used_emails 1.

Definition _sample_role : M string :=
  choice ""%string ["member"; "admin"; "limited"]%string.

Definition _sample_workload_capacity : M Q :=
  capacity ← gauss 1 (2 # 10);
  ret (Comments.Qmax (1 # 2) (Comments.Qmin 2 capacity)).

(** [int(random.betavariate(2, 5) * 180)] is a whole number from 0 to
    180. *)
Definition _sample_created_at (org_created_at : datetime) (index total_users : Z)
    : M datetime :=
  days_offset ← randint 0 180;
  let created_at := org_created_at + days days_offset in
  hour ← randint 8 17;
  ret (replace_hm created_at hour 0).

Definition _sample_last_active (created_at : datetime) : M datetime :=
  now ← utcnow;
  recently ← flip;
  days_ago ← (if recently then randint 0 7 else randint 30 90);
  let last_active := now - days days_ago in
  if bool_decide (last_active < created_at) then
    k ← randint 1 7; ret (created_at + days k)
  else ret last_active.

(** [for i in range(target_count): ...]; the state is [users] and
    [used_emails]. *)
Definition add_user (self : UserGenerator) (org : Models.Organization.t)
    (target_count : Z) (i : Z) (s : list Models.User.t * gset string)
    : M (option (result (list Models.User.t * gset string))) :=
  first_name ←? lift_r (choice_r (first_names self));
  last_name ←? lift_r (choice_r (last_names self));
  let first_name := Text.capitalize first_name in
  let last_name := Text.capitalize last_name in
  let name := first_name +:+ " " +:+ last_name in
  email ←? ret (Ok <$> _generate_email first_name last_name
                         (Models.Organization.domain org) s.2);
  let used_emails := {[email]} ∪ s.2 in
  title ←? lift_r (_sample_job_title_and_department self);
  role ←? lift _sample_role;
  workload_capacity ←? lift _sample_workload_capacity;
  created_at ←? lift (_sample_created_at (Models.Organization.created_at org)
                        i target_count);
  last_active_at ←? lift (_sample_last_active created_at);
  is_active ←? lift flip;
  user_id ←? lift uuid4;
  let user :=
    {| Models.User.user_id := user_id;
       Models.User.organization_id := Models.Organization.organization_id org;
       Models.User.email := email;
       Models.User.name := name;
       Models.User.role := role;
       Models.User.department := Some title.2;
       Models.User.job_title := Some title.1;
       Models.User.photo_url := None;
       Models.User.is_active := is_active;
       Models.User.workload_capacity := round2 workload_capacity;
       Models.User.created_at := created_at;
       Models.User.last_active_at := if is_active then Some last_active_at else None |} in
  ret (Some (Ok (s.1 ++ [user], used_emails))).

Definition generate (self : UserGenerator) (org : Models.Organization.t)
    (target_count : Z) : M (option (result (list Models.User.t))) :=
  s ←? for_o (range target_count) (add_user self org target_count) ([], ∅);
  ret (Some (Ok s.1)).

End Users.

(** ** Floats

    Where the whole part of a product of floats is the result, the
    rounding of the product shows: [int(180 * 0.35)] is 62.  Such products
    are computed as the source computes them, in binary64 with the IEEE 754
    operations of the standard library.  Python raises [OverflowError] for
    a whole number too large for a float; this is not represented. *)

Module Float.

Definition prec : Z := 53.
Definition emax : Z := 1024.

(** [float(n)] for a whole number [n]: the nearest float. *)
Definition of_int (n : Z) : SpecFloat.spec_float :=
  SpecFloat.binary_normalize prec emax n 0 false.

(** The float a decimal literal with the value [n / d] denotes: the float
    nearest to the quotient. *)
Definition literal (n d : Z) : SpecFloat.spec_float :=
  SpecFloat.SFdiv prec emax (of_int n) (of_int d).

Definition mul (x y : SpecFloat.spec_float) : SpecFloat.spec_float :=
  SpecFloat.SFmul prec emax x y.

(** [int(x)]: truncation towards zero. *)
Definition to_int (x : SpecFloat.spec_float) : Z :=
  match x with
  | SpecFloat.S754_finite negative m e =>
      let magnitude :=
        if bool_decide (0 <= e) then Z.pos m * 2 ^ e else Z.pos m / 2 ^ (- e) in
      if negative then - magnitude else magnitude
  | _ => 0
  end.

End Float.

(** ** [src/generators/teams.py] *)

Module Teams.

(** [departments] is [sorted(list(departments))] of [_extract_departments],
    which always holds the eight core departments. *)
Record TeamGenerator := {
  departments : list string;
  avg_team_size_range : Z * Z;
  teams_per_100_employees_range : Q * Q;
}.

Definition _get_team_specializations (department : string) : list string :=
  let specializations : list (string * list string) :=
    [("Engineering",
      ["Platform"; "Mobile"; "Backend"; "Frontend"; "Infrastructure"; "Data";
       "Security"; "DevOps"; "API"; "Core"; "Growth"]);
     ("Product",
      ["Core Product"; "Growth"; "Platform"; "Mobile"; "Enterprise"; "Analytics";
       "Integrations"]);
     ("Design", ["Product Design"; "UX Research"; "Brand Design"; "Marketing Design"]);
     ("Sales",
      ["Enterprise"; "Mid-Market"; "SMB"; "Partnerships"; "Inside Sales";
       "Sales Development"; "Account Management"]);
     ("Marketing",
      ["Growth"; "Content"; "Product Marketing"; "Brand"; "Demand Generation";
       "Events"; "Communications"; "Performance Marketing"]);
     ("Customer Success", ["Enterprise"; "SMB"; "Onboarding"; "Support"; "Solutions"]);
     ("Operations", ["Business Operations"; "Revenue Operations"; "IT"; "Facilities"]);
     ("Finance", ["Accounting"; "FP&A"; "Revenue"; "Payroll"]);
     ("Human Resources", ["Recruiting"; "People Operations"; "Talent"; "Compensation"]);
     ("Legal", ["Contracts"; "Compliance"; "Privacy"]);
     ("Data", ["Analytics"; "Data Engineering"; "Data Science"; "Business Intelligence"]);
     ("Security", ["InfoSec"; "Compliance"; "Privacy"])]%string in
  match (list_to_map specializations : gmap string (list string)) !! department with
  | Some found => found
  | None => ["Team A"; "Team B"; "Team C"]%string
  end.

(** The product and the quotient are floats in the source, kept exact
    here. *)
Definition _calculate_teams_needed (self : TeamGenerator) (num_employees : Z) : M Z :=
  teams_per_100 ← Comments.uniform (teams_per_100_employees_range self).1
                                  (teams_per_100_employees_range self).2;
  let teams_needed := int_of_Q ((inject_Z num_employees / 100) * teams_per_100)%Q in
  ret (Z.max 10 teams_needed).

Definition _sample_team_size (self : TeamGenerator) : M Z :=
  triangular_int (avg_team_size_range self).1 (avg_team_size_range self).2 (17 # 2)%Q.

Definition distribution : list (string * SpecFloat.spec_float) :=
  [("Engineering", Float.literal 35 100); ("Sales", Float.literal 22 100);
   ("Customer Success", Float.literal 18 100); ("Product", Float.literal 10 100);
   ("Marketing", Float.literal 9 100); ("Operations", Float.literal 6 100)]%string.

(** [for dept in self.departments: ...]; the state is [dept_teams] and
    [allocated]. *)
Definition allocate (total_teams : Z) (acc : gmap string Z * Z) (dept : string)
    : gmap string Z * Z :=
  let count :=
    match (list_to_map distribution : gmap string SpecFloat.spec_float) !! dept with
    | Some share => Float.to_int (Float.mul (Float.of_int total_teams) share)
    | None =>
        Z.max 1 (Float.to_int (Float.mul (Float.of_int total_teams) (Float.literal 2 100)))
    end in
  (<[dept := Z.max 1 count]> acc.1, acc.2 + Z.max 1 count).

Definition _distribute_teams_by_department (self : TeamGenerator) (total_teams : Z)
    : gmap string Z :=
  let acc := foldl (allocate total_teams) (∅, 0) (departments self) in
  let dept_teams := acc.1 in
  let remaining := total_teams - acc.2 in
  match dept_teams !! "Engineering"%string with
  | Some engineering =>
      if bool_decide (remaining > 0)
      then <["Engineering"%string := engineering + remaining]> dept_teams
      else dept_teams
  | None => dept_teams
  end.

Definition _sample_team_privacy : M string :=
  choice ""%string ["public"; "private"; "secret"]%string.

(** [int(random.betavariate(1.5, 4) * 180)] is a whole number from 0 to
    180. *)
Definition _sample_created_at (org_created_at : datetime) (team_index total_teams : Z)
    : M datetime :=
  days_offset ← randint 0 180;
  let created_at := org_created_at + days days_offset in
  hour ← randint 8 17;
  ret (replace_hm created_at hour 0).

(** The name of the team number [i] of a department. *)
Definition team_name (department : string) (specializations : list string)
    (num_teams_for_dept i : Z) : string :=
  if bool_decide (num_teams_for_dept = 1) then department
  else
    let n := Z.of_nat (length specializations) in
    let specialization :=
      if bool_decide (i < n) then default ""%string (specializations !! Z.to_nat i)
      else
        let specialization :=
          default ""%string (specializations !! Z.to_nat (i `mod` n)) in
        if bool_decide (i >= n)
        then specialization +:+ " " +:+ pretty (i `div` n + 1)
        else specialization in
    department +:+ " - " +:+ specialization.

(** [for i in range(num_teams_for_dept): ...]; the state is [teams] and
    [team_index]. *)
Definition add_team (org : Models.Organization.t) (total_teams : Z)
    (department : string) (specializations : list string) (num_teams_for_dept : Z)
    (i : Z) (s : list Models.Team.t * Z) : M (list Models.Team.t * Z) :=
  let team_name := team_name department specializations num_teams_for_dept i in
  privacy ← _sample_team_privacy;
  created_at ← _sample_created_at (Models.Organization.created_at org) s.2 total_teams;
  let description :=
    department +:+ " team focused on "
    +:+ (if Str.contains " - " team_name then Text.last_piece " - " team_name
         else "core operations") in
  team_id ← uuid4;
  let team :=
    {| Models.Team.team_id := team_id;
       Models.Team.organization_id := Models.Organization.organization_id org;
       Models.Team.name := team_name;
       Models.Team.team_type := department;
       Models.Team.description := Some description;
       Models.Team.privacy := privacy;
       Models.Team.created_at := created_at |} in
  ret (s.1 ++ [team], s.2 + 1).

(** [for department in self.departments: ...] *)
Definition visit_department (org : Models.Organization.t) (total_teams : Z)
    (dept_teams : gmap string Z) (department : string) (s : list Models.Team.t * Z)
    : M (list Models.Team.t * Z) :=
  let num_teams_for_dept := default 0 (dept_teams !! department) in
  if bool_decide (num_teams_for_dept = 0) then ret s
  else
    let specializations := _get_team_specializations department in
    for_ (range num_teams_for_dept)
         (add_team org total_teams department specializations num_teams_for_dept) s.

(** The report printed before the teams are made divides by
    [num_employees / 100]. *)
Definition generate (self : TeamGenerator) (org : Models.Organization.t)
    (users : list Models.User.t) : M (result (list Models.Team.t)) :=
  let num_employees := Z.of_nat (length users) in
  total_teams ← _calculate_teams_needed self num_employees;
  if bool_decide (num_employees = 0) then ret (Raise ZeroDivisionError)
  else
    let dept_teams := _distribute_teams_by_department self total_teams in
    s ← for_ (departments self) (visit_department org total_teams dept_teams) ([], 0);
    ret (Ok s.1).

End Teams.

(** ** The entry point of [src/generators/tasks.py] *)

Module TasksEntry.

(** [generate_tasks] runs the generator and prints statistics of its
    output; the first of them divides by [len(tasks)], the later ones are
    guarded.  [self] is the generator the function constructs. *)
Definition generate_tasks (self : Tasks.TaskGenerator) (projects : list Project.t)
    (sections : list Section.t) (users : list User.t) (tags : list Tag.t)
    : M (result (list Task.t)) :=
  r ← Tasks.generate self projects sections users tags;
  match r with
  | Raise e => ret (Raise e)
  | Ok [] => ret (Raise ZeroDivisionError)
  | Ok tasks => ret (Ok tasks)
  end.

End TasksEntry.

(** ** [src/generators/custom_fields.py] *)

Module CustomFieldDefinition.
Record t := mk {
  field_id : ident;
  project_id : ident;
  name : string;
  field_type : string;
  description : option string;
  is_required : bool;
  position : option nat;
  created_at : datetime;
}.
End CustomFieldDefinition.

Module CustomFieldEnumOption.
Record t := mk {
  option_id : ident;
  field_id : ident;
  value : string;
  color : option string;
  position : option nat;
}.
End CustomFieldEnumOption.

Module CustomFieldValue.
Record t := mk {
  value_id : ident;
  task_id : ident;
  field_id : ident;
  value_text : option string;
  value_number : option Z;
  value_date : option date;
  value_checkbox : option bool;
  value_enum_option_id : option ident;
  value_user_id : option ident;
  created_at : datetime;
}.
End CustomFieldValue.

Module CustomFields.

(** A field template: a dictionary with these five keys; an option is a
    dictionary with a value and a colour. *)
Record FieldTemplate := {
  name : string;
  field_type : string;
  description : string;
  is_required : bool;
  options : option (list (string * string));
}.

#[global] Instance FieldTemplate_eq_dec : EqDecision FieldTemplate.
Proof. solve_decision. Defined.

Definition enum (name description : string) (options : list (string * string))
    : FieldTemplate :=
  {| name := name; field_type := "enum"; description := description;
     is_required := false; options := Some options |}.

Definition plain (name field_type description : string) : FieldTemplate :=
  {| name := name; field_type := field_type; description := description;
     is_required := false; options := None |}.

Definition common_fields : list FieldTemplate :=
  [enum "Status" "Current status of the task"
     [("Not Started", "#d3d3d3"); ("In Progress", "#4a90e2"); ("Blocked", "#e2472f");
      ("Complete", "#6bc950")];
   enum "Priority" "Task priority level"
     [("Low", "#d3d3d3"); ("Medium", "#ffa500"); ("High", "#e2472f");
      ("Urgent", "#8b0000")];
   enum "Effort" "Estimated effort required"
     [("Small", "#6bc950"); ("Medium", "#ffa500"); ("Large", "#e2472f");
      ("Extra Large", "#8b0000")]]%string.

Definition engineering_fields : list FieldTemplate :=
  [plain "Story Points" "number" "Estimated complexity in story points";
   plain "Sprint" "text" "Sprint identifier";
   enum "Environment" "Target deployment environment"
     [("Development", "#4a90e2"); ("Staging", "#ffa500"); ("Production", "#e2472f")];
   enum "Component" "System component"
     [("Frontend", "#4a90e2"); ("Backend", "#6bc950"); ("Database", "#ffa500");
      ("API", "#9b59b6"); ("Infrastructure", "#e74c3c")];
   enum "Bug Severity" "Severity level for bugs"
     [("Critical", "#8b0000"); ("High", "#e2472f"); ("Medium", "#ffa500");
      ("Low", "#d3d3d3")]]%string.

Definition marketing_fields : list FieldTemplate :=
  [enum "Campaign Type" "Type of marketing campaign"
     [("Email", "#4a90e2"); ("Social", "#3b5998"); ("Content", "#6bc950");
      ("Paid Ads", "#ffa500"); ("Events", "#9b59b6")];
   enum "Channel" "Marketing channel"
     [("LinkedIn", "#0077b5"); ("Twitter", "#1da1f2"); ("Facebook", "#3b5998");
      ("Instagram", "#e1306c"); ("Blog", "#6bc950"); ("Email", "#ffa500")];
   plain "Budget" "number" "Campaign budget in USD";
   enum "Target Audience" "Target customer segment"
     [("Enterprise", "#8b0000"); ("SMB", "#ffa500"); ("Startup", "#6bc950");
      ("Developer", "#4a90e2"); ("General", "#d3d3d3")]]%string.

Definition sales_fields : list FieldTemplate :=
  [enum "Deal Stage" "Current deal stage"
     [("Prospecting", "#d3d3d3"); ("Qualified", "#4a90e2"); ("Proposal", "#ffa500");
      ("Negotiation", "#e2472f"); ("Closed Won", "#6bc950"); ("Closed Lost", "#8b0000")];
   plain "Deal Value" "number" "Estimated deal value in USD";
   enum "Account Tier" "Account size tier"
     [("Enterprise", "#8b0000"); ("Mid-Market", "#ffa500"); ("SMB", "#6bc950")];
   enum "Lead Source" "Origin of the lead"
     [("Inbound", "#6bc950"); ("Outbound", "#4a90e2"); ("Referral", "#ffa500");
      ("Partner", "#9b59b6"); ("Event", "#e74c3c")]]%string.

Definition product_fields : list FieldTemplate :=
  [enum "Feature Area" "Product feature area"
     [("Core", "#4a90e2"); ("Integrations", "#6bc950"); ("Analytics", "#ffa500");
      ("Admin", "#9b59b6"); ("Mobile", "#e74c3c")];
   enum "User Impact" "Impact on users"
     [("High", "#e2472f"); ("Medium", "#ffa500"); ("Low", "#d3d3d3")];
   plain "Release" "text" "Target release version"]%string.

Definition design_fields : list FieldTemplate :=
  [enum "Design Phase" "Current design phase"
     [("Research", "#d3d3d3"); ("Wireframes", "#4a90e2"); ("Mockups", "#ffa500");
      ("Prototype", "#9b59b6"); ("Final", "#6bc950")];
   enum "Design Type" "Type of design work"
     [("UI", "#4a90e2"); ("UX", "#6bc950"); ("Branding", "#e74c3c");
      ("Illustration", "#ffa500"); ("Motion", "#9b59b6")]]%string.

(** [self.fields_by_project_type] as the constructor leaves it.  Its
    values are lists of their own: [+] and slicing copy. *)
Definition fields_by_project_type : gmap string (list FieldTemplate) :=
  list_to_map
    [("sprint"%string, common_fields ++ take 3 engineering_fields);
     ("bug_tracking"%string,
      common_fields ++ [default (plain "" "" "") (engineering_fields !! 4%nat)]);
     ("campaign"%string, common_fields ++ marketing_fields);
     ("roadmap"%string, common_fields ++ product_fields);
     ("ongoing"%string, take 2 common_fields)].

(** [for field in extra: if field not in fields: fields.append(field)] *)
Definition append_missing (extra fields : list FieldTemplate) : list FieldTemplate :=
  foldl (λ fields field, if bool_decide (field ∈ fields) then fields else fields ++ [field])
        fields extra.

(** [fields] is the very list the dictionary holds for a known project
    type, so what is appended to it stays in the dictionary; for an unknown
    project type it is a fresh slice.  The function returns the selection
    and the dictionary it leaves behind.  [random.randint] raises
    [ValueError] for a list of fewer than two templates; the lists of the
    constructor hold at least two and lists only grow, so this is not
    represented. *)
Definition _get_fields_for_project (project_type team_type : string)
    (by_type : gmap string (list FieldTemplate))
    : M (list FieldTemplate * gmap string (list FieldTemplate)) :=
  let stored := by_type !! project_type in
  let fields := default (take 2 common_fields) stored in
  let team_lower := Str.lower team_type in
  let fields :=
    if Str.contains "engineering" team_lower || Str.contains "product" team_lower
    then append_missing (take 2 engineering_fields) fields
    else if Str.contains "marketing" team_lower
    then append_missing (take 2 marketing_fields) fields
    else if Str.contains "sales" team_lower
    then append_missing (take 2 sales_fields) fields
    else if Str.contains "design" team_lower
    then append_missing (take 1 design_fields) fields
    else fields in
  let by_type :=
    match stored with
    | Some _ => <[project_type := fields]> by_type
    | None => by_type
    end in
  num_fields ← randint 2 (Z.min 5 (Z.of_nat (length fields)));
  selected_fields ← sample fields (Z.to_nat num_fields);
  ret (selected_fields, by_type).

(** What the first loop of [generate] updates. *)
Record state := mkState {
  by_type : gmap string (list FieldTemplate);
  definitions : list CustomFieldDefinition.t;
  enum_options : list CustomFieldEnumOption.t;
  field_to_options : gmap ident (list ident);
}.

(** [for opt_position, opt_template in enumerate(template['options']): ...] *)
Definition add_option (field_id : ident) (it : nat * (string * string)) (s : state)
    : M state :=
  let '(opt_position, opt_template) := it in
  option_id ← uuid4;
  let enum_option :=
    {| CustomFieldEnumOption.option_id := option_id;
       CustomFieldEnumOption.field_id := field_id;
       CustomFieldEnumOption.value := opt_template.1;
       CustomFieldEnumOption.color := Some opt_template.2;
       CustomFieldEnumOption.position := Some opt_position |} in
  ret (mkState (by_type s) (definitions s) (enum_options s ++ [enum_option])
               (<[field_id := default [] (field_to_options s !! field_id) ++ [option_id]]>
                  (field_to_options s))).

(** [for position, template in enumerate(field_templates): ...] *)
Definition add_definition (project : Project.t) (it : nat * FieldTemplate) (s : state)
    : M state :=
  let '(position, template) := it in
  field_id ← uuid4;
  days_after ← randint 0 2;
  let created_at := Project.created_at project + days days_after in
  now ← utcnow;
  let created_at :=
    if bool_decide (created_at > now) then Project.created_at project else created_at in
  let definition :=
    {| CustomFieldDefinition.field_id := field_id;
       CustomFieldDefinition.project_id := Project.project_id project;
       CustomFieldDefinition.name := name template;
       CustomFieldDefinition.field_type := field_type template;
       CustomFieldDefinition.description := Some (description template);
       CustomFieldDefinition.is_required := is_required template;
       CustomFieldDefinition.position := Some position;
       CustomFieldDefinition.created_at := created_at |} in
  let s := mkState (by_type s) (definitions s ++ [definition]) (enum_options s)
                   (field_to_options s) in
  match options template with
  | Some (opt :: opts) =>
      if String.eqb (field_type template) "enum" then
        let s := mkState (by_type s) (definitions s) (enum_options s)
                         (<[field_id := []]> (field_to_options s)) in
        for_ (enumerate (opt :: opts)) (add_option field_id) s
      else ret s
  | _ => ret s
  end.

(** [for project in projects: ...] *)
Definition visit_project (team_dict : gmap ident Team.t) (project : Project.t)
    (s : state) : M state :=
  match Project.team_id project ≫= (team_dict !!.) with
  | None => ret s
  | Some team =>
      r ← _get_fields_for_project (Project.project_type project) (Team.team_type team)
                                  (by_type s);
      let s := mkState r.2 (definitions s) (enum_options s) (field_to_options s) in
      for_ (enumerate r.1) (add_definition project) s
  end.

(** [CustomFieldValue(value_id=..., task_id=task.task_id,
    field_id=field_def.field_id, ..., created_at=...)]: the fields that are
    not given keep their default [None].  [value_number] is the float of a
    whole number. *)
Definition value_of (value_id : ident) (task : Task.t)
    (field_def : CustomFieldDefinition.t) (value_text : option string)
    (value_number : option Z) (value_date : option date) (value_checkbox : option bool)
    (value_enum_option_id : option ident) (created_at : datetime)
    : CustomFieldValue.t :=
  {| CustomFieldValue.value_id := value_id;
     CustomFieldValue.task_id := Task.task_id task;
     CustomFieldValue.field_id := CustomFieldDefinition.field_id field_def;
     CustomFieldValue.value_text := value_text;
     CustomFieldValue.value_number := value_number;
     CustomFieldValue.value_date := value_date;
     CustomFieldValue.value_checkbox := value_checkbox;
     CustomFieldValue.value_enum_option_id := value_enum_option_id;
     CustomFieldValue.value_user_id := None;
     CustomFieldValue.created_at := created_at |}.

(** [for field_def in fields_to_fill: ...]: the value of one field on one
    task.  A field of another type than the five below gets none, though an
    identifier was drawn for it. *)
Definition add_value (field_to_options : gmap ident (list ident)) (task : Task.t)
    (field_def : CustomFieldDefinition.t) (values : list CustomFieldValue.t)
    : M (list CustomFieldValue.t) :=
  value_id ← uuid4;
  let name_lower := Str.lower (CustomFieldDefinition.name field_def) in
  let field_type := CustomFieldDefinition.field_type field_def in
  if String.eqb field_type "enum" then
    let option_ids :=
      default [] (field_to_options !! CustomFieldDefinition.field_id field_def) in
    match option_ids with
    | [] => ret values
    | _ =>
        option_id ← choice ""%string option_ids;
        after ← randint 1 48;
        ret (values ++ [value_of value_id task field_def None None None None
                                 (Some option_id) (Task.created_at task + hours after)])
    end
  else if String.eqb field_type "number" then
    num_val ← (if Str.contains "story" name_lower || Str.contains "point" name_lower
               then choice 0 [1; 2; 3; 5; 8; 13]
               else if Str.contains "budget" name_lower || Str.contains "value" name_lower
               then randint 1000 100000
               else randint 1 100);
    after ← randint 1 48;
    ret (values ++ [value_of value_id task field_def None (Some num_val) None None None
                             (Task.created_at task + hours after)])
  else if String.eqb field_type "text" then
    text_val ← (if Str.contains "sprint" name_lower
                then n ← randint 1 50; ret ("Sprint " +:+ pretty n)
                else if Str.contains "release" name_lower
                then major ← randint 1 5; minor ← randint 0 10; patch ← randint 0 20;
                     ret ("v" +:+ pretty major +:+ "." +:+ pretty minor
                          +:+ "." +:+ pretty patch)
                else n ← randint 1 100; ret ("Value " +:+ pretty n));
    after ← randint 1 48;
    ret (values ++ [value_of value_id task field_def (Some text_val) None None None None
                             (Task.created_at task + hours after)])
  else if String.eqb field_type "date" then
    days_after ← randint 0 90;
    let date_val := date_of (Task.created_at task) + days_after in
    after ← randint 1 48;
    ret (values ++ [value_of value_id task field_def None None (Some date_val) None None
                             (Task.created_at task + hours after)])
  else if String.eqb field_type "checkbox" then
    checked ← choice true [true; false];
    after ← randint 1 48;
    ret (values ++ [value_of value_id task field_def None None None (Some checked) None
                             (Task.created_at task + hours after)])
  else ret values.

(** [for task in tasks: ...] *)
Definition visit_task (defs_by_project : gmap ident (list CustomFieldDefinition.t))
    (field_to_options : gmap ident (list ident)) (task : Task.t)
    (values : list CustomFieldValue.t) : M (list CustomFieldValue.t) :=
  let task_defs := default [] (Task.project_id task ≫= (defs_by_project !!.)) in
  match task_defs with
  | [] => ret values
  | _ =>
      skipped ← flip;
      if skipped then ret values
      else
        num_to_fill ←
          randint (Float.to_int (Float.mul (Float.of_int (Z.of_nat (length task_defs)))
                                           (Float.literal 6 10)))
                  (Z.of_nat (length task_defs));
        fields_to_fill ← sample task_defs (Z.to_nat num_to_fill);
        for_ fields_to_fill (add_value field_to_options task) values
  end.

(** [generate] returns the definitions, the enum options and the values;
    [by_type] is the dictionary of the generator when it is called, and
    the last component the dictionary it leaves behind. *)
Definition generate (by_type : gmap string (list FieldTemplate))
    (projects : list Project.t) (teams : list Team.t) (tasks : list Task.t)
    : M (list CustomFieldDefinition.t * list CustomFieldEnumOption.t
         * list CustomFieldValue.t * gmap string (list FieldTemplate)) :=
  let team_dict : gmap ident Team.t :=
    list_to_map (reverse ((λ t, (Team.team_id t, t)) <$> teams)) in
  s ← for_ projects (visit_project team_dict) (mkState by_type [] [] ∅);
  let defs_by_project := group_by CustomFieldDefinition.project_id (definitions s) in
  values ← for_ tasks (visit_task defs_by_project (field_to_options s)) [];
  ret (definitions s, enum_options s, values, CustomFields.by_type s).

End CustomFields.

(** ** Vocabulary for the properties of these generators *)

(** The tags [_build_tag_library] combines, before duplicates are
    removed. *)
Definition all_tags (self : Tags.TagGenerator) : list string :=
  Tags.core_tags self ++ Tags.priority_tags self ++ Tags.type_tags self
  ++ Tags.business_tags self ++ take 15 (Tags.department_tags self)
  ++ take 20 (Tags.tech_tags self).

(** The colours [_get_tag_color] draws from. *)
Definition tag_colors : list string :=
  ["red"; "dark-red"; "orange"; "dark-orange"; "yellow"; "light-orange"; "green";
   "light-green"; "blue"; "light-blue"; "purple"; "light-purple"; "gray";
   "light-gray"; "teal"; "pink"; "brown"]%string.

(** [t] is a time on the hour, from 08:00 to 17:00, of a day [lo] to [hi]
    days after the day of [start]. *)
Definition office_hour_within (lo hi : Z) (start t : datetime) : Prop :=
  ∃ d hour, lo <= d <= hi ∧ 8 <= hour <= 17 ∧
            t = combine_min (date_of start + d) + hours hour.

(** [wpo E m w Q]: running [m] in the world [w] comes to an end, and
    either gives a value and a world that satisfy [Q] or raises an
    exception that satisfies [E]. *)
Definition wpo {A} (E : exn → Prop) (m : M (option (result A))) (w : World)
    (Q : A → World → Prop) : Prop :=
  wp m w (λ r w', match r with
                  | Some (Ok a) => Q a w'
                  | Some (Raise e) => E e
                  | None => False
                  end).

(** One of the lists the user generator draws from is empty. *)
Definition nothing_to_draw (self : Users.UserGenerator) : Prop :=
  Users.first_names self = [] ∨ Users.last_names self = [] ∨
  Users.job_titles self = [] ∨ Users.departments self = [].

(** What a user says about its place in the organization. *)
Definition user_profile (self : Users.UserGenerator) (org : Models.Organization.t)
    (u : Models.User.t) : Prop :=
  Models.User.organization_id u = Models.Organization.organization_id org ∧
  (∃ department, Models.User.department u = Some department ∧
                 department ∈ Users.departments self) ∧
  (∃ job_title, Models.User.job_title u = Some job_title ∧
                job_title ∈ Users.job_titles self) ∧
  Models.User.role u ∈ ["member"; "admin"; "limited"]%string ∧
  Models.User.photo_url u = None ∧
  (1 # 2 <= Models.User.workload_capacity u <= 2)%Q.

(** The timestamps of a user; [now] is a clock reading. *)
Definition user_timed (org : Models.Organization.t) (now : datetime)
    (u : Models.User.t) : Prop :=
  office_hour_within 0 180 (Models.Organization.created_at org)
                     (Models.User.created_at u) ∧
  (Models.User.last_active_at u = None ↔ Models.User.is_active u = false) ∧
  ∀ t, Models.User.last_active_at u = Some t →
    Models.User.created_at u <= t <= Z.max now (Models.User.created_at u + days 7).

(** The number of teams [dept_teams] asks for over a list of
    departments. *)
Definition teams_asked (dept_teams : gmap string Z) (departments : list string) : Z :=
  foldr (λ department total, default 0 (dept_teams !! department) + total) 0 departments.

(** [team] is the team number [i] of the [num_teams_for_dept] teams of
    [department]. *)
Definition team_of (org : Models.Organization.t) (department : string)
    (num_teams_for_dept i : Z) (team : Models.Team.t) : Prop :=
  Models.Team.organization_id team = Models.Organization.organization_id org ∧
  Models.Team.team_type team = department ∧
  Models.Team.name team
  = Teams.team_name department (Teams._get_team_specializations department)
                    num_teams_for_dept i ∧
  Models.Team.privacy team ∈ ["public"; "private"; "secret"]%string ∧
  Models.Team.description team ≠ None ∧
  office_hour_within 0 180 (Models.Organization.created_at org)
                     (Models.Team.created_at team).

(** [block] holds the teams of [department], as many as [dept_teams]
    says. *)
Definition department_block (org : Models.Organization.t) (dept_teams : gmap string Z)
    (department : string) (block : list Models.Team.t) : Prop :=
  Forall2 (team_of org department (default 0 (dept_teams !! department)))
          (range (default 0 (dept_teams !! department))) block.

(** Custom fields: the records of the loop state refer to one another.
    Every definition belongs to a project of the input that has a team of
    the input; every enum option to a definition of type enum; and the
    option identifiers kept for a field are those of options of that
    field. *)
Definition fields_linked (projects : list Project.t) (teams : list Team.t)
    (s : CustomFields.state) : Prop :=
  (∀ d, d ∈ CustomFields.definitions s →
     ∃ p team, p ∈ projects ∧ team ∈ teams ∧
       Project.team_id p = Some (Team.team_id team) ∧
       CustomFieldDefinition.project_id d = Project.project_id p) ∧
  (∀ o, o ∈ CustomFields.enum_options s →
     ∃ d, d ∈ CustomFields.definitions s ∧
       CustomFieldEnumOption.field_id o = CustomFieldDefinition.field_id d ∧
       CustomFieldDefinition.field_type d = "enum"%string) ∧
  (∀ field_id option_ids option_id,
     CustomFields.field_to_options s !! field_id = Some option_ids →
     option_id ∈ option_ids →
     ∃ o, o ∈ CustomFields.enum_options s ∧
       CustomFieldEnumOption.option_id o = option_id ∧
       CustomFieldEnumOption.field_id o = field_id).

(** The value [v] is the value of a field of the project of a task. *)
Definition value_linked (tasks : list Task.t) (definitions : list CustomFieldDefinition.t)
    (enum_options : list CustomFieldEnumOption.t) (v : CustomFieldValue.t) : Prop :=
  ∃ t d, t ∈ tasks ∧ d ∈ definitions ∧
    CustomFieldValue.task_id v = Task.task_id t ∧
    CustomFieldValue.field_id v = CustomFieldDefinition.field_id d ∧
    Task.project_id t = Some (CustomFieldDefinition.project_id d) ∧
    Task.created_at t + hours 1 <= CustomFieldValue.created_at v
    <= Task.created_at t + hours 48 ∧
    CustomFieldValue.value_user_id v = None ∧
    ∀ option_id, CustomFieldValue.value_enum_option_id v = Some option_id →
      ∃ o, o ∈ enum_options ∧
        CustomFieldEnumOption.option_id o = option_id ∧
        CustomFieldEnumOption.field_id o = CustomFieldValue.field_id v.

(** All the field templates of the generator. *)
Definition all_templates : list CustomFields.FieldTemplate :=
  CustomFields.common_fields ++ CustomFields.engineering_fields
  ++ CustomFields.marketing_fields ++ CustomFields.sales_fields
  ++ CustomFields.product_fields ++ CustomFields.design_fields.

(** The lists of the dictionary hold templates of the generator, none
    twice and at least two. *)
Definition templates_ok (by_type : gmap string (list CustomFields.FieldTemplate))
    : Prop :=
  ∀ project_type fields, by_type !! project_type = Some fields →
    NoDup fields ∧ (2 <= length fields)%nat ∧ ∀ f, f ∈ fields → f ∈ all_templates.

(** The dictionary [after] holds what [before] held, with fields appended
    at most. *)
Definition templates_grown (before after : gmap string (list CustomFields.FieldTemplate))
    : Prop :=
  ∀ project_type, 
    match before !! project_type with
    | Some fields => ∃ extra, after !! project_type = Some (fields ++ extra)
    | None => after !! project_type = None
    end.

(** [d] is the definition made for [project] from the template at a
    position of the selection; [now] is a clock reading. *)
Definition defined_by (project : Project.t) (now : datetime)
    (it : nat * CustomFields.FieldTemplate) (d : CustomFieldDefinition.t) : Prop :=
  CustomFieldDefinition.project_id d = Project.project_id project ∧
  CustomFieldDefinition.position d = Some it.1 ∧
  CustomFieldDefinition.name d = CustomFields.name it.2 ∧
  CustomFieldDefinition.field_type d = CustomFields.field_type it.2 ∧
  CustomFieldDefinition.description d = Some (CustomFields.description it.2) ∧
  CustomFieldDefinition.is_required d = CustomFields.is_required it.2 ∧
  Project.created_at project <= CustomFieldDefinition.created_at d
  <= Project.created_at project + days 2 ∧
  (CustomFieldDefinition.created_at d <= now ∨
   CustomFieldDefinition.created_at d = Project.created_at project).

(** The team of [project] is among [teams]. *)
Definition has_team (teams : list Team.t) (project : Project.t) : Prop :=
  ∃ team, team ∈ teams ∧ Project.team_id project = Some (Team.team_id team).

(** [block] holds the definitions of [project]: none without a team, and
    otherwise one for each of two to five distinct templates. *)
Definition definitions_block (teams : list Team.t) (now : datetime)
    (project : Project.t) (block : list CustomFieldDefinition.t) : Prop :=
  (¬ has_team teams project → block = []) ∧
  (has_team teams project →
   ∃ selected, NoDup selected ∧ (∀ f, f ∈ selected → f ∈ all_templates) ∧
     (2 <= length selected <= 5)%nat ∧
     Forall2 (defined_by project now) (enumerate selected) block).

(** ** Concrete inputs for these generators *)

Module MoreInputs.

(** An organization created 180 days ago at 08:00. *)
Definition organization : Models.Organization.t :=
  {| Models.Organization.organization_id := "org-1";
     Models.Organization.name := "Acme";
     Models.Organization.domain := "acme.com";
     Models.Organization.is_organization := true;
     Models.Organization.created_at := Examples.at_ (Examples.today - 180) 8 0 |}.

(** Three entries of the research file: a small company, one of the
    target size, and one without a size. *)
Definition companies : list Organizations.Company :=
  [ {| Organizations.name := "Tiny Tools LLC"; Organizations.team_size := Some 40 |};
    {| Organizations.name := "Acme Corp"; Organizations.team_size := Some 5000 |};
    {| Organizations.name := "Notion Labs, Inc."; Organizations.team_size := Some 9000 |};
    {| Organizations.name := "Unsized"; Organizations.team_size := None |} ].

(** A user generator with two names of each kind, two job titles and
    three departments. *)
Definition user_generator : Users.UserGenerator :=
  {| Users.first_names := ["mary"; "JOHN"];
     Users.last_names := ["O'NEIL"; "SMITH"];
     Users.job_titles := ["Software Engineer"; "Sales Executive"];
     Users.departments := ["Engineering"; "Human Resources"; "Sales"] |}.

(** A team generator with the eight core departments. *)
Definition team_generator : Teams.TeamGenerator :=
  {| Teams.departments :=
       ["Customer Success"; "Engineering"; "Finance"; "Human Resources"; "Marketing";
        "Operations"; "Product"; "Sales"];
     Teams.avg_team_size_range := (6, 12);
     Teams.teams_per_100_employees_range := (8, 15)%Q |}.

(** A user of the organization. *)
Definition employee : Models.User.t :=
  {| Models.User.user_id := "user-1";
     Models.User.organization_id := "org-1";
     Models.User.email := "mary.oneil@acme.com";
     Models.User.name := "Mary O'neil";
     Models.User.role := "member";
     Models.User.department := Some "Engineering"%string;
     Models.User.job_title := Some "Software Engineer"%string;
     Models.User.photo_url := None;
     Models.User.is_active := true;
     Models.User.workload_capacity := 1%Q;
     Models.User.created_at := Examples.at_ (Examples.today - 100) 9 0;
     Models.User.last_active_at := Some (Examples.at_ (Examples.today - 1) 9 0) |}.

End MoreInputs.
(** * Properties

    ** Reasoning about [M] *)

Lemma wp_ret {A} (a : A) w Q : Q a w → wp (ret a) w Q.
Proof. done. Qed.

Lemma wp_bind {A B} (m : M A) (f : A → M B) w Q :
  wp m w (λ a w', wp (f a) w' Q) → wp (bind m f) w Q.
Proof. unfold wp, bind. intros H. destruct (m w) as [a w']. exact H. Qed.

Lemma wp_wand {A} (m : M A) w (Q Q' : A → World → Prop) :
  wp m w Q → (∀ a w', Q a w' → Q' a w') → wp m w Q'.
Proof. unfold wp. auto. Qed.

Lemma wp_run {A} (m : M A) w Q a w' : wp m w Q → m w = (a, w') → Q a w'.
Proof. unfold wp. intros H Heq. by rewrite Heq in H. Qed.

Lemma raw_spec w : wp raw w (λ _ w', wall w' = wall w).
Proof. unfold wp, raw. by destruct (entropy w). Qed.

Lemma randint_spec lo hi w :
  wp (randint lo hi) w (λ r w', (lo <= hi → lo <= r <= hi) ∧ wall w' = wall w).
Proof.
  unfold randint. apply wp_bind. eapply wp_wand; [apply raw_spec|].
  intros r w' Hw. apply wp_ret. split; [|done].
  intros Hle. pose proof (Z.mod_pos_bound r (hi - lo + 1)). lia.
Qed.

Lemma random_spec w :
  wp random w (λ u w', (0 <= u)%Q ∧ (u < 1)%Q ∧ wall w' = wall w).
Proof.
  unfold random. apply wp_bind. eapply wp_wand; [apply raw_spec|].
  intros r w' Hw. apply wp_ret.
  pose proof (Z.mod_pos_bound r 9007199254740992 eq_refl) as Hr.
  split_and!; [| |done]; unfold Qle, Qlt; simpl; lia.
Qed.

Lemma floor_sqrt_nonneg q : 0 <= floor_sqrt q.
Proof. apply Z.sqrt_nonneg. Qed.

Lemma ceil_sqrt_nonneg q : 0 <= ceil_sqrt q.
Proof.
  unfold ceil_sqrt. pose proof (floor_sqrt_nonneg q).
  destruct (Qeq_bool _ _); lia.
Qed.

Lemma floor_sqrt_le q k : (q <= inject_Z (k * k))%Q → floor_sqrt q <= Z.abs k.
Proof.
  intros Hq. unfold floor_sqrt.
  assert (Hfloor : Qfloor q <= k * k).
  { rewrite <- (Qfloor_Z (k * k)). by apply Qfloor_resp_le. }
  rewrite <- (Z.sqrt_square (Z.abs k)) by lia.
  apply Z.sqrt_le_mono. lia.
Qed.

Lemma ceil_sqrt_le q k :
  (0 <= q)%Q → (q <= inject_Z (k * k))%Q → ceil_sqrt q <= Z.abs k.
Proof.
  intros Hq0 Hq. pose proof (floor_sqrt_le q k Hq) as Hfloor. unfold ceil_sqrt.
  destruct (Qeq_bool _ _) eqn:Hsquare; [done|].
  apply Qeq_bool_neq in Hsquare.
  destruct (decide (floor_sqrt q = Z.abs k)) as [Heq|]; [|lia].
  assert (Hlt : (q < inject_Z (k * k))%Q).
  { apply Qle_lteq in Hq as [|Heq']; [done|]. exfalso. apply Hsquare.
    rewrite Heq, Heq'. apply inject_Z_injective. lia. }
  assert (Hfloor' : Qfloor q < k * k).
  { apply Z.lt_nge. intros Hge. apply (Qlt_not_le _ _ Hlt).
    eapply Qle_trans; [|apply Qfloor_le]. by rewrite <- Zle_Qle. }
  unfold floor_sqrt in Heq.
  assert (Z.sqrt (Qfloor q) < Z.abs k); [|lia].
  assert (0 <= Qfloor q).
  { rewrite <- (Qfloor_Z 0). by apply Qfloor_resp_le. }
  apply Z.sqrt_lt_square; lia.
Qed.

(** The value is on the side of [low] where [high] lies, and not beyond
    [high] as long as [t] is at most 1. *)
Lemma int_affine_sqrt_spec low high t :
  (low <= high → low <= int_affine_sqrt low high t) ∧
  (high < low → int_affine_sqrt low high t <= low) ∧
  ((0 <= t)%Q → (t <= 1)%Q →
   Z.min low high <= int_affine_sqrt low high t <= Z.max low high).
Proof.
  unfold int_affine_sqrt.
  set (s := (inject_Z ((high - low) * (high - low)) * t)%Q).
  pose proof (floor_sqrt_nonneg s). pose proof (ceil_sqrt_nonneg s).
  assert (Hs : (0 <= t)%Q → (t <= 1)%Q → floor_sqrt s <= Z.abs (high - low)
                            ∧ ceil_sqrt s <= Z.abs (high - low)).
  { intros Ht0 Ht.
    assert ((0 <= s)%Q ∧ (s <= inject_Z ((high - low) * (high - low)))%Q) as [Hs0 Hs1].
    { unfold s. pose proof (Z.square_nonneg (high - low)) as Hsq.
      rewrite Zle_Qle in Hsq. change (inject_Z 0) with 0%Q in Hsq.
      set (k2 := inject_Z ((high - low) * (high - low))) in *. split; nra. }
    split; [by apply floor_sqrt_le|by apply ceil_sqrt_le]. }
  case_bool_decide;
    [destruct (_ || _)|destruct (_ && _)]; split_and!; intros; try lia;
    destruct Hs; try done; lia.
Qed.

Lemma triangular_int_spec low high mode w :
  wp (triangular_int low high mode) w (λ r w',
    (low <= high → (mode <= inject_Z high)%Q → r <= high) ∧
    (low <= high → (inject_Z low <= mode)%Q → low <= r) ∧
    wall w' = wall w).
Proof.
  unfold triangular_int. apply wp_bind. eapply wp_wand; [apply random_spec|].
  intros u w' (Hu0 & Hu1 & Hw). case_bool_decide as Hzero.
  { apply wp_ret. split_and!; [lia|lia|done]. }
  set (c := ((mode - inject_Z low) / inject_Z (high - low))%Q).
  assert (Hc : low <= high →
               ((mode <= inject_Z high)%Q → (c <= 1)%Q) ∧
               ((inject_Z low <= mode)%Q → (0 <= c)%Q)).
  { intros Hle. assert (Hpos : (0 < inject_Z (high - low))%Q).
    { change 0%Q with (inject_Z 0). rewrite <- Zlt_Qlt. lia. }
    assert (Hdiff : (inject_Z (high - low) == inject_Z high - inject_Z low)%Q).
    { unfold Z.sub. by rewrite inject_Z_plus, inject_Z_opp. }
    split; intros Hmode; unfold c.
    - apply Qle_shift_div_r; [done|]. rewrite Hdiff. lra.
    - apply Qle_shift_div_l; [done|]. lra. }
  destruct (Qle_bool u c) eqn:Huc; simpl; apply wp_ret.
  - apply Qle_bool_iff in Huc.
    destruct (int_affine_sqrt_spec low high (u * c)%Q) as (Hlow & _ & Hin).
    split_and!; [|by intros; apply Hlow|done].
    intros Hle Hmode. destruct (Hc Hle) as [Hc1 _]. specialize (Hc1 Hmode).
    assert (Ht : (0 <= u * c)%Q ∧ (u * c <= 1)%Q) by (split; nra).
    destruct Ht as [Ht0 Ht]. specialize (Hin Ht0 Ht). lia.
  - assert (Hlt : (c < u)%Q).
    { apply Qnot_le_lt. intros Hle. apply Qle_bool_iff in Hle. congruence. }
    destruct (int_affine_sqrt_spec high low ((1 - u) * (1 - c))%Q) as (_ & Hhigh & Hin).
    split_and!; [intros; apply Hhigh; lia|intros Hle Hmode|done].
    destruct (Hc Hle) as [_ Hc0]. specialize (Hc0 Hmode).
    assert (Ht : (0 <= (1 - u) * (1 - c))%Q ∧ ((1 - u) * (1 - c) <= 1)%Q) by (split; nra).
    destruct Ht as [Ht0 Ht]. specialize (Hin Ht0 Ht). lia.
Qed.

Lemma flip_spec w : wp flip w (λ _ w', wall w' = wall w).
Proof.
  unfold flip. apply wp_bind. eapply wp_wand; [apply raw_spec|].
  intros r w' Hw. by apply wp_ret.
Qed.

Lemma choice_spec {A} (d : A) xs w :
  wp (choice d xs) w (λ r w', (xs ≠ [] → r ∈ xs) ∧ wall w' = wall w).
Proof.
  unfold choice. apply wp_bind. eapply wp_wand; [apply randint_spec|].
  intros i w' [Hi Hw]. apply wp_ret. split; [|done].
  intros Hne. destruct xs as [|x xs]; [done|].
  assert (Hlt : (Z.to_nat i < length (x :: xs))%nat) by (simpl in *; lia).
  apply lookup_lt_is_Some in Hlt as [y Hy]. rewrite Hy. simpl.
  by eapply list_elem_of_lookup_2.
Qed.

Lemma sample_spec {A} (population : list A) k w :
  wp (sample population k) w (λ r w', r ⊆+ population ∧ wall w' = wall w).
Proof.
  revert population w. induction k as [|k IH]; intros population w; simpl.
  { apply wp_ret. split; [apply submseteq_nil_l|done]. }
  apply wp_bind. eapply wp_wand; [apply randint_spec|].
  intros i w1 [_ Hw1]. destruct (population !! Z.to_nat i) as [x|] eqn:Hx.
  - apply wp_bind. eapply wp_wand; [apply IH|].
    intros rest w2 [Hrest Hw2]. apply wp_ret. split; [|congruence].
    rewrite (delete_Permutation population _ x Hx). by apply submseteq_skip.
  - apply wp_ret. split; [apply submseteq_nil_l|done].
Qed.

Lemma uuid4_spec w : wp uuid4 w (λ _ w', wall w' = wall w).
Proof. done. Qed.

Lemma utcnow_spec w : wp utcnow w (λ now w', now = wall w' ∧ wall w <= wall w').
Proof. unfold wp, utcnow. destruct (elapsed w); simpl; lia. Qed.

(** A loop establishes whatever each of its iterations preserves. *)
Lemma for_spec {X S} (I : S → World → Prop) (xs : list X) (body : X → S → M S) s w :
  I s w →
  (∀ x s w, x ∈ xs → I s w → wp (body x s) w I) →
  wp (for_ xs body s) w I.
Proof.
  revert s w. induction xs as [|x xs IH]; intros s w HI Hbody; simpl.
  - by apply wp_ret.
  - apply wp_bind. eapply wp_wand; [apply Hbody; [left|done]|].
    intros s' w' HI'. apply IH; [done|].
    intros y s'' w'' Hy. apply Hbody. by right.
Qed.

(** The same with an invariant that knows the elements already visited. *)
Lemma for_spec_prefix {X S} (I : list X → S → World → Prop) (xs : list X)
    (body : X → S → M S) s w :
  I [] s w →
  (∀ pre x post s w, xs = pre ++ x :: post → I pre s w →
     wp (body x s) w (I (pre ++ [x]))) →
  wp (for_ xs body s) w (I xs).
Proof.
  assert (Hgen : ∀ pre xs' s w, xs = pre ++ xs' → I pre s w →
            (∀ pre x post s w, xs = pre ++ x :: post → I pre s w →
               wp (body x s) w (I (pre ++ [x]))) →
            wp (for_ xs' body s) w (I xs)).
  { intros pre xs'. revert pre. induction xs' as [|x xs' IH]; intros pre s0 w0 Hxs HI Hbody.
    - simpl. apply wp_ret. rewrite Hxs, app_nil_r. done.
    - simpl. apply wp_bind. eapply wp_wand; [by eapply Hbody|].
      intros s' w' HI'. apply (IH (pre ++ [x])); [|done|done].
      by rewrite <- app_assoc. }
  intros HI Hbody. by apply (Hgen [] xs).
Qed.

Lemma for_snoc {X S} (pre : list X) (x : X) (body : X → S → M S) s0 w0 s w :
  for_ pre body s0 w0 = (s, w) → for_ (pre ++ [x]) body s0 w0 = body x s w.
Proof.
  revert s0 w0. induction pre as [|y pre IH]; intros s0 w0; simpl.
  - unfold ret. intros [= -> ->]. unfold bind. by destruct (body x s w).
  - unfold bind. destruct (body y s0 w0) as [s1 w1]. apply IH.
Qed.

(** The same again, the invariant also knowing that the state is the one
    the loop reaches after the elements already visited. *)
Lemma for_spec_run {X S} (I : list X → S → Prop) (xs : list X)
    (body : X → S → M S) s0 w0 :
  I [] s0 →
  (∀ pre x post s w, xs = pre ++ x :: post → for_ pre body s0 w0 = (s, w) → I pre s →
     wp (body x s) w (λ s' _, I (pre ++ [x]) s')) →
  wp (for_ xs body s0) w0 (λ s _, I xs s).
Proof.
  intros HI Hbody.
  eapply wp_wand with (Q := λ s w, for_ xs body s0 w0 = (s, w) ∧ I xs s);
    [|by intros s w [_ ?]].
  apply (for_spec_prefix (λ pre s w, for_ pre body s0 w0 = (s, w) ∧ I pre s)); [done|].
  intros pre x post s w Hxs [Hrun HIpre]. unfold wp.
  rewrite (for_snoc pre x body s0 w0 s w Hrun). split; [by destruct (body x s w)|].
  by apply (Hbody pre x post s w).
Qed.

Lemma for_r_spec {X S} (I : S → World → Prop) (xs : list X)
    (body : X → S → M (result S)) s w :
  I s w →
  (∀ x s w, x ∈ xs → I s w →
     wp (body x s) w (λ r w', match r with Ok s' => I s' w' | Raise _ => True end)) →
  wp (for_r xs body s) w (λ r w', match r with Ok s' => I s' w' | Raise _ => True end).
Proof.
  revert s w. induction xs as [|x xs IH]; intros s w HI Hbody; simpl.
  - by apply wp_ret.
  - apply wp_bind. eapply wp_wand; [apply Hbody; [left|done]|].
    intros [s'|e] w' HI'; [|by apply wp_ret].
    apply IH; [done|]. intros y s'' w'' Hy. apply Hbody. by right.
Qed.

(** One step of a computation: split a bind and use the specification of
    its first action. *)
Ltac wp_prim :=
  lazymatch goal with
  | |- wp (ret _) _ _ => apply wp_ret; cbv beta
  | |- wp (randint _ _) _ _ => eapply wp_wand; [apply randint_spec|]
  | |- wp (triangular_int _ _ _) _ _ => eapply wp_wand; [apply triangular_int_spec|]
  | |- wp flip _ _ => eapply wp_wand; [apply flip_spec|]
  | |- wp (choice _ _) _ _ => eapply wp_wand; [apply choice_spec|]
  | |- wp (sample _ _) _ _ => eapply wp_wand; [apply sample_spec|]
  | |- wp uuid4 _ _ => eapply wp_wand; [apply uuid4_spec|]
  | |- wp utcnow _ _ => eapply wp_wand; [apply utcnow_spec|]
  | |- wp raw _ _ => eapply wp_wand; [apply raw_spec|]
  end.

Ltac wp_intro :=
  intros; cbv beta in *;
  repeat match goal with
         | H : _ ∧ _ |- _ => destruct H
         | H : ?a <= ?b → _ <= _ <= _ |- _ =>
             first [ specialize (H ltac:(lia)) | clear H ]
         end.

(** Specifications of compound actions are added to [wp_spec] as they are
    proved. *)
Ltac wp_spec := fail.

Ltac wp_step :=
  lazymatch goal with
  | |- wp (bind _ _) _ _ => apply wp_bind
  | |- wp (if bool_decide _ then _ else _) _ _ => case_bool_decide
  | |- wp (if ?b then _ else _) _ _ => destruct b eqn:?
  | |- wp (match ?o with Some _ => _ | None => _ end) _ _ => destruct o eqn:?
  | |- _ => first [ wp_prim | wp_spec ]
  end.

Ltac wp_auto := repeat (wp_step; wp_intro).

Ltac unfold_units :=
  unfold seconds, minutes, hours, days, minute, hour, day, second in *.

(** ** Calendar arithmetic *)

Lemma day_pos : 0 < day.
Proof. done. Qed.

Lemma date_of_bounds dt : combine_min (date_of dt) <= dt < combine_min (date_of dt) + day.
Proof.
  unfold combine_min, date_of. pose proof (Z.div_mod dt day).
  pose proof (Z.mod_pos_bound dt day day_pos). lia.
Qed.

Lemma date_of_combine_min d : date_of (combine_min d) = d.
Proof. unfold date_of, combine_min. by apply Z.div_mul. Qed.

Lemma date_of_mono dt1 dt2 : dt1 <= dt2 → date_of dt1 <= date_of dt2.
Proof. intros. unfold date_of. by apply Z.div_le_mono. Qed.

Lemma date_of_replace_hm dt h m :
  0 <= h < 24 → 0 <= m < 60 → date_of (replace_hm dt h m) = date_of dt.
Proof.
  intros Hh Hm. unfold replace_hm, date_of, combine_min, hours, minutes.
  replace (dt `div` day * day + h * hour + m * minute)
    with (h * hour + m * minute + dt `div` day * day) by lia.
  rewrite Z.div_add by done. rewrite Z.div_small; [lia|].
  unfold hour, minute, day, second. lia.
Qed.

(** ** Tasks: creation and completion timestamps *)

Module TasksFacts.
Import Tasks.

(** The closing clamps of [_sample_created_at] never leave the result
    after the clock reading taken inside the call. *)
Lemma task_created_at_le_now p a w :
  wp (_sample_created_at p a) w (λ r w', r <= wall w' ∧ wall w <= wall w').
Proof.
  unfold _sample_created_at. wp_auto; subst.
  all: repeat case_bool_decide; unfold_units; lia.
Qed.

(** A task created no later than the clock shows is completed between
    its creation and the clock reading taken inside the call. *)
Lemma task_completed_at_spec created_at due_date status w :
  created_at <= wall w →
  wp (_sample_completed_at created_at due_date status) w (λ r w',
    wall w <= wall w' ∧
    match r with
    | Some c => status = "completed"%string ∧ created_at <= c <= wall w'
    | None => status ≠ "completed"%string
    end).
Proof.
  intros Hcreated. unfold _sample_completed_at.
  destruct (String.eqb status "completed") eqn:Hstatus; simpl.
  2: { apply wp_ret. split; [lia|]. by apply String.eqb_neq. }
  apply String.eqb_eq in Hstatus.
  wp_step. wp_step. intros now w1 [-> Hw1].
  wp_step.
  eapply wp_wand with (Q := λ _ w', wall w' = wall w1).
  { wp_auto; congruence. }
  intros c1 w2 Hw2. wp_step.
  eapply wp_wand with (Q := λ _ w', wall w' = wall w1).
  { wp_auto; congruence. }
  intros c2 w3 Hw3. wp_auto; subst.
  all: split; [lia|split; [done|]].
  all: repeat case_bool_decide; unfold_units; lia.
Qed.

Ltac wp_spec ::=
  lazymatch goal with
  | |- wp (_sample_created_at _ _) _ _ =>
      eapply wp_wand; [apply task_created_at_le_now|]
  | |- wp (_sample_completed_at _ _ _) _ _ =>
      eapply wp_wand; [apply task_completed_at_spec|]
  end.

Lemma generate_task_spec self project project_sections s0 team_users u0 w :
  wp (generate_task self project project_sections s0 team_users u0) w
     (λ t _, completion_consistent t ∧
             Task.project_id t = Some (Project.project_id project)).
Proof.
  unfold generate_task, _sample_priority, _sample_task_duration, _sample_status,
    _sample_due_date, _generate_task_name, _generate_task_description.
  wp_auto; try lia.
  all: split; [|done].
  all: unfold completion_consistent; simpl.
  all: match goal with
       | H : match ?c with Some _ => _ | None => _ end |- _ =>
           destruct c as [c|]; [destruct H as (Hs & Hc1 & Hc2)|]
       end.
  all: try (apply String.eqb_eq in Hs as Hs'; rewrite Hs').
  all: try (match goal with H : _ ≠ "completed"%string |- _ =>
              apply String.eqb_neq in H as H'; rewrite H' end).
  all: split; [split; [done|done || (by intros [])]|].
  all: first [ done | intros _; eexists; split; [done|lia] ].
Qed.

(** [defaultdict] grouping: the list stored under a key holds the
    elements with that key, in their order. *)
Lemma group_by_lookup `{Countable K} {A} (key : A → K) (xs : list A) (k : K) :
  default [] (group_by key xs !! k) = filter (λ x, key x = k) xs.
Proof.
  unfold group_by.
  assert (Hgen : ∀ m : gmap K (list A),
    default [] (foldl (λ m x, <[key x := default [] (m !! key x) ++ [x]]> m) m xs !! k)
    = default [] (m !! k) ++ filter (λ x, key x = k) xs).
  { induction xs as [|x xs IH]; intros m; simpl.
    - by rewrite app_nil_r.
    - rewrite IH. destruct (decide (key x = k)) as [Heq|Hne].
      + rewrite filter_cons_True by done. rewrite Heq, lookup_insert_eq. simpl.
        by rewrite <- app_assoc.
      + by rewrite lookup_insert_ne, filter_cons_False by done. }
  rewrite Hgen. by rewrite lookup_empty.
Qed.

(** Without users no task is asked for, so the inner loop of [generate]
    has no iteration when the list of candidate users is empty. *)
Lemma no_users_no_tasks self projects : _calculate_total_tasks self [] projects = 0.
Proof.
  unfold _calculate_total_tasks, int_of_Q. simpl.
  destruct (_ + _); reflexivity.
Qed.

(** The projects [generate] iterates over. *)
Lemma selected_projects (projects : list Project.t) p :
  p ∈ match filter (λ p, is_active p = true) projects with
      | [] => projects
      | _ => filter (λ p, is_active p = true) projects
      end →
  p ∈ projects ∧ ((∃ q, q ∈ projects ∧ is_active q = true) → is_active p = true).
Proof.
  destruct (filter _ projects) as [|a l] eqn:Hf.
  - intros Hp. split; [done|]. intros (q & Hq & Hact).
    assert (q ∈ filter (λ p, is_active p = true) projects)
      by (by apply list_elem_of_filter).
    rewrite Hf in *. by apply not_elem_of_nil in H.
  - rewrite <- Hf. intros [Hact Hp]%list_elem_of_filter. done.
Qed.

(** Every task of the output was made by [generate_task] for one of the
    selected projects, which has at least one section. *)
Lemma tasks_generate_spec self projects sections users tags w (P : Project.t → Task.t → Prop) :
  (∀ project project_sections s0 team_users u0 w,
     wp (generate_task self project project_sections s0 team_users u0) w
        (λ t _, P project t)) →
  wp (generate self projects sections users tags) w (λ r _,
    match r with
    | Ok tasks =>
        Forall (λ t, ∃ p, p ∈ projects ∧
                  ((∃ q, q ∈ projects ∧ is_active q = true) → is_active p = true) ∧
                  (∃ s, s ∈ sections ∧ Section.project_id s = Project.project_id p) ∧
                  P p t) tasks
    | Raise _ => True
    end).
Proof.
  intros Htask. unfold generate.
  pose proof (selected_projects projects) as Hsel.
  destruct (match filter _ projects with [] => projects | _ => _ end)
    as [|p0 ps] eqn:Hactive.
  { by apply wp_ret. }
  set (Q := λ t, ∃ p, p ∈ projects ∧ _ ∧ _ ∧ P p t).
  apply wp_bind.
  eapply wp_wand with (Q := λ tasks _, Forall Q tasks).
  2: { intros tasks w' Htasks. by apply wp_ret. }
  apply (for_spec (λ tasks _, Forall Q tasks)); [done|].
  intros project tasks w1 Hproject Htasks.
  apply Hsel in Hproject as [Hin Hact].
  pose proof (group_by_lookup Section.project_id sections (Project.project_id project))
    as Hgroup.
  destruct (default [] _) as [|s0 ss]; [by apply wp_ret|].
  assert (Hs0 : s0 ∈ filter (λ x, Section.project_id x = Project.project_id project) sections)
    by (rewrite <- Hgroup; left).
  apply list_elem_of_filter in Hs0 as [Hs0id Hs0].
  destruct (match _ with [] => users | _ => _ end) as [|u0 us]; [by apply wp_ret|].
  apply (for_spec (λ tasks _, Forall Q tasks)); [done|].
  intros _ tasks' w2 _ Htasks'.
  apply wp_bind. eapply wp_wand; [apply Htask|].
  intros task w3 HP. apply wp_ret.
  apply Forall_app. split; [done|]. apply Forall_singleton.
  exists project. eauto 10.
Qed.

(** C1: every task the generator returns has [completed] set exactly when
    [completed_at] is present, and a completed task is completed no earlier
    than it was created. *)
Theorem C1_completed_iff_completed_at self projects sections users tags w tasks w' :
  generate self projects sections users tags w = (Ok tasks, w') →
  ∀ t, t ∈ tasks →
    (Task.completed t = true ↔ Task.completed_at t ≠ None) ∧
    (Task.completed t = true →
     ∃ c, Task.completed_at t = Some c ∧ Task.created_at t <= c).
Proof.
  intros Hrun t Ht.
  assert (Hwp := tasks_generate_spec self projects sections users tags w
                   (λ _ t, completion_consistent t)).
  lapply Hwp; clear Hwp.
  - intros Hwp. apply (wp_run _ _ _ _ _ Hwp) in Hrun.
    rewrite Forall_forall in Hrun.
    destruct (Hrun t Ht) as (p & _ & _ & _ & Hc). exact Hc.
  - intros. eapply wp_wand; [apply generate_task_spec|]. by intros ? ? [? ?].
Qed.

(** C10: every task belongs to a project of the input that has at least
    one section, and that is active or on hold whenever the input has such
    a project; a project without sections receives no task.  When project
    identifiers are pairwise distinct, the project of a task is the only
    one with its identifier, so no task belongs to a completed or archived
    project. *)
Theorem C10_tasks_only_for_active_projects_with_sections
    self projects sections users tags w tasks w' :
  generate self projects sections users tags w = (Ok tasks, w') →
  (∀ t, t ∈ tasks →
     ∃ p, p ∈ projects ∧ Task.project_id t = Some (Project.project_id p) ∧
          (∃ s, s ∈ sections ∧ Section.project_id s = Project.project_id p) ∧
          ((∃ q, q ∈ projects ∧ Project.status q ∈ ["active"; "on_hold"]%string) →
           Project.status p ∈ ["active"; "on_hold"]%string ∧
           (NoDup (Project.project_id <$> projects) →
            ∀ q, q ∈ projects → Task.project_id t = Some (Project.project_id q) →
                 Project.status q ∉ ["completed"; "archived"]%string))) ∧
  (∀ p, (∀ s, s ∈ sections → Section.project_id s ≠ Project.project_id p) →
        ∀ t, t ∈ tasks → Task.project_id t ≠ Some (Project.project_id p)).
Proof.
  intros Hrun.
  assert (Hwp := tasks_generate_spec self projects sections users tags w
                   (λ p t, Task.project_id t = Some (Project.project_id p))).
  lapply Hwp; clear Hwp.
  2: { intros. eapply wp_wand; [apply generate_task_spec|]. by intros ? ? [? ?]. }
  intros Hwp'. apply (wp_run _ _ _ _ _ Hwp') in Hrun. rename Hrun into Hwp.
  rewrite Forall_forall in Hwp. split.
  - intros t Ht. destruct (Hwp t Ht) as (p & Hp & Hact & Hsec & Hid).
    exists p. split_and!; [done..|].
    intros (q & Hq & Hqs).
    assert (Hpa : Project.status p ∈ ["active"; "on_hold"]%string).
    { assert (is_active p = true) as Hpa; [|by apply bool_decide_eq_true in Hpa].
      apply Hact. exists q. split; [done|]. by apply bool_decide_eq_true. }
    split; [done|]. intros Hnodup q' Hq' Hid'.
    assert (q' = p) as ->.
    { rewrite Hid in Hid'. injection Hid' as Hid'.
      apply list_elem_of_lookup in Hp as [i Hi]. apply list_elem_of_lookup in Hq' as [j Hj].
      assert (i = j) as ->; [|congruence].
      eapply NoDup_lookup; [exact Hnodup| |];
        rewrite list_lookup_fmap; [by rewrite Hi|by rewrite Hj, Hid']. }
    intros Hbad. revert Hpa Hbad. rewrite !elem_of_cons, !elem_of_nil.
    intros [->|[->|[]]] [?|[?|[]]]; discriminate.
  - intros p Hnosec t Ht [= Hid]. destruct (Hwp t Ht) as (p' & _ & _ & (s & Hs & Hsid) & Hid').
    apply (Hnosec s Hs). congruence.
Qed.

(** C3 (the source misses it): the project was created at 09:30 and the
    assignee at 09:00, both before the clock reading of 10:00.  The drawn
    hour 20 lies in the future, so the last clamp moves the task two hours
    before the clock, to 08:00: the first task of the run is created before
    its project and before its assignee. *)
Theorem C3_created_at_before_project :
  ∃ tasks w' t,
    generate Examples.task_generator [Examples.project_1] [Examples.section_1]
             [Examples.user_1] [] Examples.late_hour_world = (Ok tasks, w') ∧
    head tasks = Some t ∧
    Task.project_id t = Some (Project.project_id Examples.project_1) ∧
    Task.assignee_id t = Some (User.user_id Examples.user_1) ∧
    Project.created_at Examples.project_1 <= wall Examples.late_hour_world ∧
    User.created_at Examples.user_1 <= wall Examples.late_hour_world ∧
    Task.created_at t = Examples.at_ Examples.today 8 0 ∧
    Task.created_at t < User.created_at Examples.user_1 ∧
    Task.created_at t <
      Z.max (Project.created_at Examples.project_1) (User.created_at Examples.user_1).
Proof.
  eexists _, _, _. split; [vm_compute; reflexivity|].
  split; [reflexivity|]. by vm_compute.
Qed.

(** The upper bound of the same claim does hold. *)
Lemma created_at_le_now self projects sections users tags w tasks w' :
  generate self projects sections users tags w = (Ok tasks, w') →
  ∀ t, t ∈ tasks → Task.created_at t <= wall w'.
Proof.
  intros Hrun.
  assert (Hwp : wp (generate self projects sections users tags) w (λ r w',
            match r with
            | Ok tasks => Forall (λ t, Task.created_at t <= wall w') tasks
            | Raise _ => True
            end)).
  { unfold generate.
    destruct (match filter _ projects with [] => projects | _ => _ end); [by apply wp_ret|].
    set (I := λ (tasks : list Task.t) (w' : World),
                Forall (λ t, Task.created_at t <= wall w') tasks).
    apply wp_bind. eapply wp_wand with (Q := I).
    2: { intros ts w1 Hts. by apply wp_ret. }
    apply (for_spec I); [by constructor|].
    intros project ts w1 _ Hts.
    destruct (default [] _) as [|s0 ss]; [by apply wp_ret|].
    destruct (match _ with [] => users | _ => _ end) as [|u0 us]; [by apply wp_ret|].
    apply (for_spec I); [done|].
    intros _ ts' w2 _ Hts'.
    apply wp_bind.
    eapply wp_wand with
      (Q := λ t w3, wall w2 <= wall w3 ∧ Task.created_at t <= wall w3).
    - unfold generate_task, _sample_priority, _sample_task_duration, _sample_status,
        _sample_due_date, _generate_task_name, _generate_task_description.
      wp_auto; simpl; lia.
    - intros task w3 [Hw3 Htask]. apply wp_ret. apply Forall_app. split.
      + eapply Forall_impl; [exact Hts'|]. simpl. lia.
      + by apply Forall_singleton. }
  apply (wp_run _ _ _ _ _ Hwp) in Hrun. by rewrite Forall_forall in Hrun.
Qed.

Lemma C1_completed_iff_completed_at_witness :
  ∃ tasks w' t,
    generate Examples.task_generator [Examples.project_1] [Examples.section_1]
             [Examples.user_1] [] Examples.late_hour_world = (Ok tasks, w') ∧
    t ∈ tasks ∧
    (Task.completed t = true ↔ Task.completed_at t ≠ None) ∧
    (Task.completed t = true →
     ∃ c, Task.completed_at t = Some c ∧ Task.created_at t <= c).
Proof.
  eexists _, _, _. split; [vm_compute; reflexivity|].
  split; [apply list_elem_of_here|].
  eapply (C1_completed_iff_completed_at Examples.task_generator [Examples.project_1]
            [Examples.section_1] [Examples.user_1] [] Examples.late_hour_world).
  - vm_compute; reflexivity.
  - apply list_elem_of_here.
Defined.

Lemma C10_tasks_only_for_active_projects_with_sections_witness :
  ∃ tasks w',
    generate Examples.task_generator
             [Examples.project "project-0" "completed" 0; Examples.project_1]
             [Examples.section_1] [Examples.user_1] [] Examples.late_hour_world
      = (Ok tasks, w') ∧
    tasks ≠ [] ∧
    (∀ t, t ∈ tasks → Task.project_id t ≠ Some "project-0"%string).
Proof.
  eexists _, _. split; [vm_compute; reflexivity|]. split; [done|].
  refine (proj2 (C10_tasks_only_for_active_projects_with_sections
            Examples.task_generator
            [Examples.project "project-0" "completed" 0; Examples.project_1]
            [Examples.section_1] [Examples.user_1] [] Examples.late_hour_world _ _ _)
           (Examples.project "project-0" "completed" 0) _).
  - vm_compute; reflexivity.
  - intros s Hs. apply list_elem_of_singleton in Hs. subst s. by vm_compute.
Defined.

End TasksFacts.

(** ** Projects: creation and completion timestamps *)

Module ProjectsFacts.
Import Projects.

Lemma replace_hm_days_before d k h m :
  replace_hm (combine_min d - days k) h m = combine_min (d - k) + hours h + minutes m.
Proof.
  unfold replace_hm. f_equal. f_equal.
  replace (combine_min d - days k) with (combine_min (d - k))
    by (unfold combine_min, days; lia).
  by rewrite date_of_combine_min.
Qed.

(** A project is created 0 to 14 days before its start date, at an hour
    from 8 to 17; the creation time of its team plays no part. *)
Lemma project_created_at_spec start_date w :
  wp (_sample_created_at start_date) w (λ r w',
    wall w' = wall w ∧
    ∃ k h, 0 <= k <= 14 ∧ 8 <= h <= 17 ∧ r = combine_min (start_date - k) + hours h).
Proof.
  unfold _sample_created_at. wp_auto. split; [congruence|].
  eexists _, _. split_and!; [..|rewrite replace_hm_days_before]; try done.
  unfold minutes; lia.
Qed.

(** The start date is on or after the day of the later of the two
    parents, and at most one day after the clock when the parents are not
    in the future. *)
Lemma sample_project_dates_spec org_created_at team_created_at template w :
  wp (_sample_project_dates org_created_at team_created_at template) w (λ r w',
    wall w <= wall w' ∧
    date_of (Z.max org_created_at team_created_at) <= r.1 ∧
    (Z.max org_created_at team_created_at <= wall w' → r.1 <= date_of (wall w') + 1)).
Proof.
  unfold _sample_project_dates.
  set (e := Z.max org_created_at team_created_at).
  wp_step. wp_step. intros now w1 [-> Hw1].
  wp_step. wp_step. intros start_offset w2 [Hoff Hw2].
  wp_step. wp_step. intros duration w3 [_ Hw3]. wp_step. simpl.
  rewrite Hw3, Hw2. specialize (Hoff ltac:(lia)).
  split; [lia|]. split.
  - apply date_of_mono. unfold_units. lia.
  - intros He.
    replace (date_of (wall w1) + 1) with (date_of (wall w1 + days 1)).
    2: { unfold date_of, days. by rewrite Z.div_add. }
    apply date_of_mono.
    assert (Hd : td_days (wall w1 - e) * day <= wall w1 - e).
    { unfold td_days. pose proof (Z.mul_div_le (wall w1 - e) day day_pos). lia. }
    unfold days, day, second in *. lia.
Qed.

(** [completed_at] is present exactly for the two closed statuses. *)
Lemma project_completed_at_spec start_date due_date status w :
  wp (_sample_completed_at start_date due_date status) w (λ r w',
    wall w <= wall w' ∧
    (r ≠ None ↔ status ∈ ["completed"; "archived"]%string)).
Proof.
  unfold _sample_completed_at. case_bool_decide as Hs; simpl.
  - wp_step. wp_step. intros now w1 [-> Hw1].
    wp_auto; (split; [lia|done]).
  - apply wp_ret. split; [lia|]. split; [done|]. by intros ?%Hs.
Qed.

Ltac wp_spec ::=
  lazymatch goal with
  | |- wp (_sample_created_at _) _ _ =>
      eapply wp_wand; [apply project_created_at_spec|]
  | |- wp (_sample_project_dates _ _ _) _ _ =>
      eapply wp_wand; [apply sample_project_dates_spec|]
  | |- wp (_sample_completed_at _ _ _) _ _ =>
      eapply wp_wand; [apply project_completed_at_spec|]
  end.

Lemma project_made_for_later org teams t0 t1 t2 p :
  t1 <= t2 → project_made_for org teams t0 t1 p → project_made_for org teams t0 t2 p.
Proof.
  intros Ht (team & Hin & Hteam & Horg & Hcreated & Hiff & Hlo & Hhi).
  exists team. split_and!; try done.
  intros He. specialize (Hhi He). pose proof (date_of_mono _ _ Ht). lia.
Qed.

Lemma generate_project_spec self t0 org teams team team_users u0 w0 w :
  team ∈ teams → wall w0 <= wall w →
  wp (generate_project self t0 org team team_users u0) w (λ p w',
    wall w <= wall w' ∧ project_made_for org teams (wall w0) (wall w') p).
Proof.
  intros Hteam Hw0.
  unfold generate_project, _sample_project_type, _generate_project_name,
    _generate_project_description, _sample_project_status, _sample_project_privacy,
    _sample_project_color.
  wp_auto.
  all: split; [lia|].
  all: unfold project_made_for, created_before_start; exists team; simpl.
  all: split_and!; try done.
  all: try (intros He;
            match goal with
            | H : _ → ?d <= date_of (wall ?w1) + 1 |- ?d <= date_of (wall ?w2) + 1 =>
                specialize (H ltac:(lia));
                assert (Hmono : wall w1 <= wall w2) by lia;
                apply date_of_mono in Hmono; lia
            end).
Qed.

Lemma projects_generate_spec self org teams users w :
  wp (generate self org teams users) w (λ r w',
    match r with
    | Ok projects => Forall (project_made_for org teams (wall w) (wall w')) projects
    | Raise _ => True
    end).
Proof.
  unfold generate.
  destruct teams as [|team teams']; [by apply wp_ret|].
  destruct (templates self) as [|t0 ts]; [by apply wp_ret|].
  destruct users as [|u0 us]; [by apply wp_ret|].
  set (teams := team :: teams'). set (users := u0 :: us).
  set (I := λ (projects : list Project.t) (w' : World),
              wall w <= wall w' ∧
              Forall (project_made_for org teams (wall w) (wall w')) projects).
  apply wp_bind. eapply wp_wand with (Q := I).
  2: { intros projects w' [_ HI]. by apply wp_ret. }
  apply (for_spec I); [by split|].
  intros tm projects w1 Htm [Hw1 Hprojects].
  wp_step. wp_step. intros num_projects w2 [_ Hw2].
  apply (for_spec I).
  { split; [lia|]. by rewrite Hw2. }
  intros _ projects' w3 _ [Hw3 Hprojects'].
  wp_step. eapply wp_wand; [by apply (generate_project_spec _ _ _ teams _ _ _ w)|].
  intros project w4 [Hw4 Hproject]. wp_step. split; [lia|].
  apply Forall_app. split; [|by apply Forall_singleton].
  eapply Forall_impl; [exact Hprojects'|].
  intros p. by apply project_made_for_later.
Qed.

End ProjectsFacts.

(** ** Stable sorting and grouping *)

Lemma elem_of_concat {A} (x : A) (ls : list (list A)) :
  x ∈ concat ls ↔ ∃ l, l ∈ ls ∧ x ∈ l.
Proof.
  induction ls as [|l ls IH]; simpl.
  - split; [by intros ?%elem_of_nil|by intros (? & ?%elem_of_nil & _)].
  - rewrite elem_of_app, IH. split.
    + intros [Hx|(l' & Hl' & Hx)]; [exists l; split; [left|done]|].
      exists l'. split; [by right|done].
    + intros (l' & [->|Hl']%elem_of_cons & Hx); [by left|right; eauto].
Qed.

Section sorting.
Context {A : Type} (key : A → Z).

Lemma insert_sorted_Permutation x l : insert_sorted key x l ≡ₚ x :: l.
Proof.
  induction l as [|y l IH]; simpl; [done|].
  case_bool_decide; [done|]. rewrite IH. apply Permutation_swap.
Qed.

Lemma stable_sort_Permutation l : stable_sort key l ≡ₚ l.
Proof.
  induction l as [|x l IH]; simpl; [done|].
  rewrite insert_sorted_Permutation. by rewrite IH.
Qed.

Lemma insert_sorted_sorted x l :
  StronglySorted (λ a b, key a <= key b) l →
  StronglySorted (λ a b, key a <= key b) (insert_sorted key x l).
Proof.
  induction 1 as [|y l Hl IH Hy]; simpl.
  - repeat constructor.
  - case_bool_decide as Hxy.
    + constructor; [by constructor|]. constructor; [done|].
      eapply Forall_impl; [exact Hy|]. simpl. lia.
    + constructor; [done|].
      rewrite insert_sorted_Permutation. constructor; [lia|done].
Qed.

Lemma stable_sort_sorted l : StronglySorted (λ a b, key a <= key b) (stable_sort key l).
Proof.
  induction l as [|x l IH]; simpl; [constructor|]. by apply insert_sorted_sorted.
Qed.

(** In a sorted list an element at an earlier position has the smaller
    or equal key. *)
Lemma sorted_lookup l (i j : nat) x y :
  StronglySorted (λ a b, key a <= key b) l →
  l !! j = Some y → l !! i = Some x → (j < i)%nat → key y <= key x.
Proof.
  intros Hl. revert i j. induction Hl as [|z l Hl IH Hz]; intros i j Hj Hi Hlt.
  - by rewrite lookup_nil in Hj.
  - destruct j as [|j], i as [|i]; try lia; simpl in *.
    + injection Hj as ->. rewrite Forall_forall in Hz. apply Hz.
      by eapply list_elem_of_lookup_2.
    + eapply IH; [done..|lia].
Qed.

End sorting.

(** ** Dependencies: the loops of [generate] *)

Module DependenciesFacts.
Import Dependencies.

Lemma append_to_Permutation k t d :
  concat ((λ e, e.2) <$> append_to k t d) ≡ₚ concat ((λ e, e.2) <$> d) ++ [t].
Proof.
  induction d as [|[k' ts] d IH]; simpl; [done|].
  case_bool_decide; simpl.
  - rewrite <- !app_assoc. f_equiv. apply Permutation_app_comm.
  - rewrite IH. by rewrite app_assoc.
Qed.

Lemma group_tasks_Permutation tasks :
  concat ((λ e, e.2) <$> group_tasks tasks) ≡ₚ tasks.
Proof.
  unfold group_tasks.
  assert (Hgen : ∀ d,
    concat ((λ e, e.2) <$> foldl (λ d task, append_to (Task.project_id task) task d) d tasks)
    ≡ₚ concat ((λ e, e.2) <$> d) ++ tasks).
  { induction tasks as [|t tasks IH]; intros d; simpl.
    - by rewrite app_nil_r.
    - rewrite IH, append_to_Permutation. by rewrite <- app_assoc. }
  by rewrite Hgen.
Qed.

Lemma sorted_groups_Permutation tasks : concat (sorted_groups tasks) ≡ₚ tasks.
Proof.
  rewrite <- (group_tasks_Permutation tasks) at 2. unfold sorted_groups.
  induction (group_tasks tasks) as [|e d IH]; simpl; [done|].
  by rewrite IH, stable_sort_Permutation.
Qed.

Lemma sorted_groups_sorted tasks g :
  g ∈ sorted_groups tasks →
  StronglySorted (λ a b, Task.created_at a <= Task.created_at b) g.
Proof.
  intros (e & -> & _)%list_elem_of_fmap. apply stable_sort_sorted.
Qed.

Lemma add_dependency_ok groups g (i j : nat) d b s w :
  g ∈ groups → g !! i = Some d → g !! j = Some b → (j < i)%nat →
  deps_ok groups s →
  wp (add_dependency d b s) w (λ s' _, deps_ok groups s').
Proof.
  intros Hg Hd Hb Hlt (Hmade & Hnodup & Hseen). unfold add_dependency.
  case_bool_decide as Hkey; [by apply wp_ret|].
  wp_step. wp_step. intros dependency_id w1 _.
  wp_step. wp_step. intros k w2 [Hk _]. specialize (Hk ltac:(lia)).
  wp_step. split_and!; simpl.
  - apply Forall_app. split; [done|]. apply Forall_singleton.
    exists g. split; [done|]. exists i, j, d, b. simpl. split_and!; try done.
    all: unfold_units; lia.
  - rewrite fmap_app. apply NoDup_app. split_and!; [done| |apply NoDup_singleton].
    intros pr (r & -> & Hr)%list_elem_of_fmap Hin.
    apply list_elem_of_singleton in Hin. apply Hkey.
    unfold dep_pair in Hin. simpl in Hin. rewrite <- Hin. by apply Hseen.
  - intros r [Hr|Hr%list_elem_of_singleton]%elem_of_app.
    + apply elem_of_union_r. by apply Hseen.
    + subst r. apply elem_of_union_l. by apply elem_of_singleton.
Qed.

Lemma visit_task_ok groups g (i : nat) d s w :
  g ∈ groups → g !! i = Some d → deps_ok groups s →
  wp (visit_task g (i, d) s) w (λ s' _, deps_ok groups s').
Proof.
  intros Hg Hd Hs. unfold visit_task, _should_have_dependency, _sample_num_dependencies.
  wp_step. wp_step. intros has_dependency w1 _.
  destruct has_dependency; simpl; [|by apply wp_ret].
  assert (Hs' : deps_ok groups (mkState (dependencies s) (tasks_with_deps s + 1) (existing_deps s)))
    by done.
  destruct (take i g) as [|b0 bs] eqn:Htake; [by apply wp_ret|].
  rewrite <- Htake.
  wp_step. wp_step. intros n w2 _.
  wp_step. wp_step. intros blocker_tasks w3 [Hsub _].
  apply (for_spec (λ s' _, deps_ok groups s')); [done|].
  intros b s1 w4 Hb Hs1.
  eapply elem_of_submseteq in Hb; [|exact Hsub].
  apply elem_of_take in Hb as (j & Hj & Hlt).
  by eapply add_dependency_ok.
Qed.

Lemma visit_project_ok groups (entry : option ident * list Task.t) s w :
  entry.2 ∈ groups → deps_ok groups s →
  wp (visit_project entry s) w (λ s' _, deps_ok groups s').
Proof.
  intros Hg Hs. unfold visit_project. case_bool_decide; [by apply wp_ret|].
  apply (for_spec (λ s' _, deps_ok groups s')); [done|].
  intros [i d] s1 w1 Hid Hs1.
  apply elem_of_lookup_imap_1 in Hid as (i' & d' & [= -> ->] & Hd).
  by apply visit_task_ok.
Qed.

Lemma generate_ok tasks w :
  wp (generate tasks) w (λ r _,
    match r with
    | Ok deps => ∃ s, deps = dependencies s ∧ deps_ok (sorted_groups tasks) s
    | Raise _ => True
    end).
Proof.
  unfold generate. apply wp_bind.
  eapply wp_wand with (Q := λ s _, deps_ok (sorted_groups tasks) s).
  - apply (for_spec (λ s _, deps_ok (sorted_groups tasks) s)).
    + split_and!; simpl; [constructor|constructor|]. by intros r ?%elem_of_nil.
    + intros entry s w1 Hentry Hs. apply visit_project_ok; [|done].
      apply list_elem_of_fmap in Hentry as (e & -> & He). simpl.
      unfold sorted_groups. apply list_elem_of_fmap. by exists e.
  - intros s w1 Hs. destruct tasks; apply wp_ret; [done|]. by exists s.
Qed.

(** Every record links two tasks of the input, the blocker created no
    later than the dependent task, and is dated one to twenty-four hours
    after the dependent task. *)
Lemma record_tasks tasks s r :
  deps_ok (sorted_groups tasks) s → r ∈ dependencies s →
  ∃ d b, d ∈ tasks ∧ b ∈ tasks ∧
    TaskDependency.dependent_task_id r = Task.task_id d ∧
    TaskDependency.dependency_task_id r = Task.task_id b ∧
    Task.created_at b <= Task.created_at d ∧
    Task.created_at d + hours 1 <= TaskDependency.created_at r
      <= Task.created_at d + hours 24.
Proof.
  intros (Hmade & _ & _) Hr. rewrite Forall_forall in Hmade.
  destruct (Hmade r Hr)
    as (g & Hg & i & j & d & b & Hd & Hb & Hlt & Hid & Hib & Hat1 & Hat2).
  assert (Hin : ∀ t, t ∈ g → t ∈ tasks).
  { intros t Ht. rewrite <- (sorted_groups_Permutation tasks).
    apply elem_of_concat. by exists g. }
  exists d, b. split_and!; try done.
  - apply Hin. by eapply list_elem_of_lookup_2.
  - apply Hin. by eapply list_elem_of_lookup_2.
  - eapply (sorted_lookup Task.created_at g i j); [|done..].
    by apply (sorted_groups_sorted tasks).
Qed.

(** With pairwise distinct task identifiers every task has one position
    in the concatenation of the sorted lists, and a record leads from a
    task to one at a smaller position. *)
Lemma blocks_positions tasks s x y :
  deps_ok (sorted_groups tasks) s → blocks (dependencies s) x y →
  ∃ n m : nat,
    (Task.task_id <$> concat (sorted_groups tasks)) !! n = Some x ∧
    (Task.task_id <$> concat (sorted_groups tasks)) !! m = Some y ∧ (m < n)%nat.
Proof.
  intros (Hmade & _ & _) (r & Hr & Hpair). rewrite Forall_forall in Hmade.
  destruct (Hmade r Hr) as (g & Hg & i & j & d & b & Hd & Hb & Hlt & Hid & Hib & _).
  injection Hpair as <- <-.
  apply list_elem_of_split in Hg as (G1 & G2 & ->).
  rewrite concat_app, concat_cons.
  exists (length (concat G1) + i)%nat, (length (concat G1) + j)%nat.
  split_and!; [| |lia].
  - rewrite list_lookup_fmap, lookup_app_r by lia.
    replace (length (concat G1) + i - length (concat G1))%nat with i by lia.
    rewrite lookup_app_l by (by eapply lookup_lt_Some). by rewrite Hd, Hid.
  - rewrite list_lookup_fmap, lookup_app_r by lia.
    replace (length (concat G1) + j - length (concat G1))%nat with j by lia.
    rewrite lookup_app_l by (by eapply lookup_lt_Some). by rewrite Hb, Hib.
Qed.

Lemma tc_blocks_positions tasks s x y :
  NoDup (Task.task_id <$> tasks) →
  deps_ok (sorted_groups tasks) s → tc (blocks (dependencies s)) x y →
  ∀ n : nat, (Task.task_id <$> concat (sorted_groups tasks)) !! n = Some x →
  ∃ m : nat, (Task.task_id <$> concat (sorted_groups tasks)) !! m = Some y ∧ (m < n)%nat.
Proof.
  intros Hnodup Hs Htc.
  assert (Hnodup' : NoDup (Task.task_id <$> concat (sorted_groups tasks)))
    by (by rewrite sorted_groups_Permutation).
  induction Htc as [x y Hxy|x y z Hxy Hyz IH]; intros n Hn.
  - destruct (blocks_positions _ _ _ _ Hs Hxy) as (n' & m & Hn' & Hm & Hlt).
    assert (n' = n) as -> by (by eapply NoDup_lookup).
    by exists m.
  - destruct (blocks_positions _ _ _ _ Hs Hxy) as (n' & m & Hn' & Hm & Hlt).
    assert (n' = n) as -> by (by eapply NoDup_lookup).
    destruct (IH m Hm) as (k & Hk & Hlt'). exists k. split; [done|lia].
Qed.

Lemma generated_acyclic tasks s :
  NoDup (Task.task_id <$> tasks) →
  deps_ok (sorted_groups tasks) s → acyclic (dependencies s).
Proof.
  intros Hnodup Hs x Htc.
  assert (Hnodup' : NoDup (Task.task_id <$> concat (sorted_groups tasks)))
    by (by rewrite sorted_groups_Permutation).
  assert (∃ y, blocks (dependencies s) x y) as [y Hxy]
    by (inversion Htc; eauto).
  destruct (blocks_positions _ _ _ _ Hs Hxy) as (n & _ & Hn & _ & _).
  destruct (tc_blocks_positions _ _ _ _ Hnodup Hs Htc n Hn) as (m & Hm & Hlt).
  assert (m = n) by (by eapply NoDup_lookup). lia.
Qed.

End DependenciesFacts.

(** ** Dependencies and projects: the stated properties *)

Lemma dependencies_run tasks w deps w' :
  Dependencies.generate tasks w = (Ok deps, w') →
  ∃ s, deps = Dependencies.dependencies s ∧ deps_ok (sorted_groups tasks) s.
Proof.
  intros Hrun. exact (wp_run _ _ _ _ _ (DependenciesFacts.generate_ok tasks w) Hrun).
Qed.

(** C2: every record relates two tasks of the input whose blocker was
    created no later than the dependent task, and no pair of identifiers
    occurs twice; the identifiers of the tasks being pairwise distinct, as
    [uuid4] mints them, no record relates a task to itself and the records
    form an acyclic graph. *)
Theorem C2_dependencies_ordered_and_acyclic tasks w deps w' :
  Dependencies.generate tasks w = (Ok deps, w') →
  (∀ r, r ∈ deps →
     ∃ d b, d ∈ tasks ∧ b ∈ tasks ∧
       TaskDependency.dependent_task_id r = Task.task_id d ∧
       TaskDependency.dependency_task_id r = Task.task_id b ∧
       Task.created_at b <= Task.created_at d) ∧
  NoDup (dep_pair <$> deps) ∧
  (NoDup (Task.task_id <$> tasks) →
   (∀ r, r ∈ deps →
      TaskDependency.dependent_task_id r ≠ TaskDependency.dependency_task_id r) ∧
   acyclic deps).
Proof.
  intros (s & -> & Hs)%dependencies_run. split_and!.
  - intros r Hr.
    destruct (DependenciesFacts.record_tasks tasks s r Hs Hr)
      as (d & b & Hd & Hb & Hid & Hib & Hle & _).
    by exists d, b.
  - by destruct Hs as (_ & Hnodup & _).
  - intros Hnodup.
    pose proof (DependenciesFacts.generated_acyclic tasks s Hnodup Hs) as Hacyclic.
    split; [|done]. intros r Hr Heq.
    apply (Hacyclic (TaskDependency.dependent_task_id r)). apply tc_once.
    exists r. split; [done|]. unfold dep_pair. by rewrite <- Heq.
Qed.

Lemma C2_dependencies_ordered_and_acyclic_witness :
  ∃ deps w',
    Dependencies.generate [Examples.task_a; Examples.task_b] Examples.one_dependency_world
      = (Ok deps, w') ∧
    deps ≠ [] ∧
    NoDup (Task.task_id <$> [Examples.task_a; Examples.task_b]) ∧
    NoDup (dep_pair <$> deps) ∧
    acyclic deps.
Proof.
  eexists _, _. split; [vm_compute; reflexivity|]. split; [done|].
  assert (Hnodup : NoDup (Task.task_id <$> [Examples.task_a; Examples.task_b])).
  { compute_done. }
  split; [exact Hnodup|].
  edestruct (C2_dependencies_ordered_and_acyclic
               [Examples.task_a; Examples.task_b] Examples.one_dependency_world)
    as (_ & Hpairs & Hdag).
  { vm_compute; reflexivity. }
  split; [exact Hpairs|]. exact (proj2 (Hdag Hnodup)).
Defined.

(** C4, as the code has it.  A project is created 0 to 14 days before its
    start date at an hour from 8 to 17, hence less than 15 days before the
    later of its organization and its team, and, when both of these exist at
    the start of the run, less than 2 days after the clock at its end.  A
    dependency is created 1 to 24 hours after its dependent task.  Neither
    is clamped to its parent or to the clock. *)
Theorem C4_created_at_relative_to_parent
    self org teams users w tasks wd projects w' deps wd' :
  Projects.generate self org teams users w = (Ok projects, w') →
  Dependencies.generate tasks wd = (Ok deps, wd') →
  (∀ p, p ∈ projects →
     ∃ team, team ∈ teams ∧
       Project.team_id p = Some (Team.team_id team) ∧
       Project.organization_id p = Organization.organization_id org ∧
       created_before_start p ∧
       Z.max (Organization.created_at org) (Team.created_at team) - days 15
         < Project.created_at p ∧
       (Z.max (Organization.created_at org) (Team.created_at team) <= wall w →
        Project.created_at p < wall w' + days 2)) ∧
  (∀ r, r ∈ deps →
     ∃ d, d ∈ tasks ∧
       TaskDependency.dependent_task_id r = Task.task_id d ∧
       Task.created_at d + hours 1 <= TaskDependency.created_at r
         <= Task.created_at d + hours 24).
Proof.
  intros Hprojects (s & -> & Hs)%dependencies_run. split.
  - pose proof (wp_run _ _ _ _ _ (ProjectsFacts.projects_generate_spec self org teams users w)
                  Hprojects) as Hall.
    rewrite Forall_forall in Hall. intros p Hp.
    destruct (Hall p Hp) as (team & Hteam & Htid & Hoid & Hcreated & _ & Hlo & Hhi).
    exists team. split_and!; try done.
    + destruct Hcreated as (k & h & Hk & Hh & ->).
      pose proof (date_of_bounds
                    (Z.max (Organization.created_at org) (Team.created_at team))).
      unfold combine_min in *. unfold_units. lia.
    + intros He. specialize (Hhi He).
      destruct Hcreated as (k & h & Hk & Hh & ->).
      pose proof (date_of_bounds (wall w')).
      unfold combine_min in *. unfold_units. lia.
  - intros r Hr.
    destruct (DependenciesFacts.record_tasks tasks s r Hs Hr)
      as (d & b & Hd & _ & Hid & _ & _ & Hat).
    by exists d.
Qed.

Lemma C4_created_at_relative_to_parent_witness :
  ∃ projects w' deps wd',
    Projects.generate Examples.project_generator Examples.org [Examples.team_1]
                      [Examples.user_1] (Examples.world (Examples.at_ Examples.today 10 0) [])
      = (Ok projects, w') ∧
    Dependencies.generate [Examples.task_a; Examples.task_b] Examples.one_dependency_world
      = (Ok deps, wd') ∧
    projects ≠ [] ∧ deps ≠ [] ∧
    (∀ p, p ∈ projects → created_before_start p) ∧
    (∀ r, r ∈ deps →
       ∃ d, d ∈ [Examples.task_a; Examples.task_b] ∧
         TaskDependency.dependent_task_id r = Task.task_id d ∧
         Task.created_at d + hours 1 <= TaskDependency.created_at r
           <= Task.created_at d + hours 24).
Proof.
  eexists _, _, _, _.
  split; [vm_compute; reflexivity|]. split; [vm_compute; reflexivity|].
  split; [done|]. split; [done|].
  edestruct (C4_created_at_relative_to_parent
               Examples.project_generator Examples.org [Examples.team_1]
               [Examples.user_1] (Examples.world (Examples.at_ Examples.today 10 0) [])
               [Examples.task_a; Examples.task_b] Examples.one_dependency_world)
    as [Hprojects Hdeps].
  { vm_compute; reflexivity. }
  { vm_compute; reflexivity. }
  split; [|exact Hdeps]. intros p Hp.
  destruct (Hprojects p Hp) as (team & _ & _ & _ & Hcreated & _). exact Hcreated.
Defined.

(** C4 as stated fails twice.  The first project of a team created 20 days
    ago at 10:00 is created that day at 08:00, before its team; and the
    dependency of a task created half an hour before the clock reading is
    dated half an hour after it. *)
Lemma C4_counterexample :
  (∃ projects w' p,
     Projects.generate Examples.project_generator Examples.org [Examples.team_1]
                       [Examples.user_1] (Examples.world (Examples.at_ Examples.today 10 0) [])
       = (Ok projects, w') ∧
     p ∈ projects ∧
     Project.team_id p = Some (Team.team_id Examples.team_1) ∧
     Project.created_at p < Team.created_at Examples.team_1) ∧
  (∃ deps w' r,
     Dependencies.generate [Examples.task_a; Examples.task_b] Examples.one_dependency_world
       = (Ok deps, w') ∧
     r ∈ deps ∧
     TaskDependency.dependent_task_id r = Task.task_id Examples.task_b ∧
     Task.created_at Examples.task_b <= wall w' ∧
     wall w' < TaskDependency.created_at r).
Proof.
  split.
  - eexists _, _, _. split; [vm_compute; reflexivity|].
    split; [apply list_elem_of_here|]. by vm_compute.
  - eexists _, _, _. split; [vm_compute; reflexivity|].
    split; [apply list_elem_of_here|]. by vm_compute.
Qed.

(** C5 (the source misses it).  In the first run a project that starts
    today is completed two days ago: its sampled completion lies in the
    future, the replacement one hour before the clock gets the hour 17 and
    lies in the future again, and the last clamp goes 48 hours back without
    looking at the start date.  In the second run the last clamp goes one
    hour back and then sets the hour to 17, after the clock. *)
Theorem C5_completed_at_escapes_clamps :
  (∃ projects w' p c,
     Projects.generate Examples.project_generator Examples.org [Examples.team_2]
                       [Examples.user_1] Examples.early_completion_world
       = (Ok projects, w') ∧
     head projects = Some p ∧
     Project.status p = "completed"%string ∧
     Project.start_date p = Examples.today ∧
     Project.completed_at p = Some c ∧
     c = Examples.at_ (Examples.today - 2) 12 0 ∧
     date_of c < Project.start_date p) ∧
  (∃ c w',
     Projects._sample_completed_at Examples.today (Examples.today + 10) "completed"
                                   Examples.future_completion_world = (Some c, w') ∧
     c = Examples.at_ Examples.today 17 0 ∧
     wall w' = Examples.at_ Examples.today 9 0 ∧
     wall w' < c).
Proof.
  split.
  - eexists _, _, _, _. split; [vm_compute; reflexivity|].
    split; [reflexivity|]. split; [reflexivity|]. split; [reflexivity|].
    split; [reflexivity|]. by vm_compute.
  - eexists _, _. split; [vm_compute; reflexivity|]. by vm_compute.
Qed.

(** The part of C5 that holds: [completed_at] is present exactly for the
    statuses completed and archived. *)
Lemma completed_at_iff_closed_status self org teams users w projects w' :
  Projects.generate self org teams users w = (Ok projects, w') →
  ∀ p, p ∈ projects →
    (Project.completed_at p ≠ None ↔
     Project.status p ∈ ["completed"; "archived"]%string) ∧
    (Project.status p = "active"%string → Project.completed_at p = None).
Proof.
  intros Hrun p Hp.
  pose proof (wp_run _ _ _ _ _ (ProjectsFacts.projects_generate_spec self org teams users w) Hrun)
    as Hall.
  rewrite Forall_forall in Hall.
  destruct (Hall p Hp) as (_ & _ & _ & _ & _ & Hiff & _).
  split; [done|]. intros Hactive.
  destruct (Project.completed_at p) eqn:Hc; [|done].
  assert (Hin : Project.status p ∈ ["completed"; "archived"]%string) by (by apply Hiff).
  rewrite Hactive, !elem_of_cons, elem_of_nil in Hin.
  destruct Hin as [?|[?|[]]]; discriminate.
Qed.

(** ** Comments: creation timestamps *)

Module CommentsFacts.
Import Comments.

Lemma Qmax_Qmin_unit x : (0 <= Qmax 0 (Qmin 1 x) <= 1)%Q.
Proof.
  assert (Hmin : (Qmin 1 x <= 1)%Q).
  { unfold Qmin. destruct (Qle_bool 1 x) eqn:H1; [apply Qle_refl|].
    apply Qlt_le_weak, Qnot_le_lt. intros Hle.
    apply Qle_bool_iff in Hle. congruence. }
  unfold Qmax. destruct (Qle_bool 0 (Qmin 1 x)) eqn:H0.
  - apply Qle_bool_iff in H0. by split.
  - split; [apply Qle_refl|by compute].
Qed.

(** A fraction of a time span, in whole seconds, stays within the span. *)
Lemma fraction_of_span (n : Z) (p : Q) :
  0 <= n → (0 <= p <= 1)%Q →
  0 <= seconds (int_of_Q (total_seconds n * p)) <= n.
Proof.
  intros Hn [Hp0 Hp1]. destruct p as [a b].
  unfold Qle in Hp0, Hp1. simpl in Hp0, Hp1.
  unfold int_of_Q, total_seconds, seconds, second. simpl.
  assert (Ha : 0 <= a) by lia. assert (Hab : a <= Z.pos b) by lia.
  rewrite Z.quot_div_nonneg by lia.
  rewrite Pos2Z.inj_mul.
  assert (Hle : Z.div (n * a) (1000000 * Z.pos b) <= Z.div n 1000000).
  { rewrite <- (Z.div_mul_cancel_r n 1000000 (Z.pos b)) by lia.
    apply Z.div_le_mono; [lia|]. nia. }
  pose proof (Z.mul_div_le n 1000000 ltac:(lia)).
  assert (0 <= Z.div (n * a) (1000000 * Z.pos b)) by (apply Z.div_pos; nia).
  lia.
Qed.

Lemma total_seconds_nonpos (n : Z) : Qle_bool (total_seconds n) 0 = true ↔ n <= 0.
Proof.
  rewrite Qle_bool_iff. unfold total_seconds, Qle. simpl. lia.
Qed.

Lemma random_unit_spec w : wp random_unit w (λ _ w', wall w' = wall w).
Proof. unfold random_unit. wp_auto. congruence. Qed.

Lemma uniform_spec a b w : wp (uniform a b) w (λ _ w', wall w' = wall w).
Proof.
  unfold uniform. wp_step. eapply wp_wand; [apply random_unit_spec|].
  intros u w' Hw'. by wp_step.
Qed.

Ltac wp_spec ::=
  lazymatch goal with
  | |- wp random_unit _ _ => eapply wp_wand; [apply random_unit_spec|]
  | |- wp (uniform _ _) _ _ => eapply wp_wand; [apply uniform_spec|]
  end.

(** A comment is never dated before its task; and when the task was created
    strictly before the clock reading, never after that reading. *)
Lemma comment_created_at_spec task_created_at task_completed_at comment_index total w :
  wp (_sample_created_at task_created_at task_completed_at comment_index total) w
     (λ r w', wall w <= wall w' ∧ task_created_at <= r ∧
              (task_created_at < wall w' → r <= wall w')).
Proof.
  unfold _sample_created_at.
  wp_step. wp_step. intros now w1 [-> Hw1].
  wp_step.
  eapply wp_wand with
    (Q := λ e w', wall w' = wall w1 ∧ task_created_at < e).
  { wp_auto; (split; [congruence|unfold_units; lia]). }
  intros end_time w2 [Hw2 Hend].
  destruct (Qle_bool _ 0) eqn:Hspan.
  - apply total_seconds_nonpos in Hspan.
    wp_auto. rewrite Hw2 in *. case_bool_decide; unfold_units; lia.
  - match type of Hspan with
    | Qle_bool (total_seconds ?n) 0 = false =>
        assert (Hpos : ¬ n <= 0)
          by (intros Hle; apply total_seconds_nonpos in Hle; congruence)
    end.
    wp_step.
    eapply wp_wand with (Q := λ _ w', wall w' = wall w1).
    { wp_auto; congruence. }
    intros progress w3 Hw3.
    wp_step. wp_step. intros jitter w4 Hw4.
    match goal with
    | |- context [int_of_Q (total_seconds ?n * ?p)] =>
        pose proof (fraction_of_span n p ltac:(lia) (Qmax_Qmin_unit _)) as Hfrac
    end.
    wp_auto.
    all: repeat case_bool_decide; unfold_units; lia.
Qed.

Ltac wp_spec ::=
  lazymatch goal with
  | |- wp random_unit _ _ => eapply wp_wand; [apply random_unit_spec|]
  | |- wp (uniform _ _) _ _ => eapply wp_wand; [apply uniform_spec|]
  | |- wp (_sample_created_at _ _ _ _) _ _ =>
      eapply wp_wand; [apply comment_created_at_spec|]
  end.

Lemma comment_on_later tasks t0 t1 t2 c :
  t1 <= t2 → comment_on tasks t0 t1 c → comment_on tasks t0 t2 c.
Proof.
  intros Ht (t & Hin & Hid & Hlo & Hhi). exists t. split_and!; try done.
  intros Hlt. specialize (Hhi Hlt). lia.
Qed.

Lemma add_comment_ok tasks w0 task relevant_users num_comments i comments w :
  task ∈ tasks → wall w0 <= wall w →
  Forall (comment_on tasks (wall w0) (wall w)) comments →
  wp (add_comment task relevant_users num_comments i comments) w (λ cs w',
    wall w0 <= wall w' ∧ Forall (comment_on tasks (wall w0) (wall w')) cs).
Proof.
  intros Htask Hw Hcomments. unfold add_comment, _generate_comment_text.
  wp_auto.
  all: split; [lia|].
  all: apply Forall_app; split;
    [eapply Forall_impl; [exact Hcomments|];
     intros c; apply comment_on_later; lia|].
  all: apply Forall_singleton; exists task; simpl; split_and!; try done; lia.
Qed.

Lemma comments_visit_task_ok tasks w0 users user_dict task comments w :
  task ∈ tasks → wall w0 <= wall w →
  Forall (comment_on tasks (wall w0) (wall w)) comments →
  wp (visit_task users user_dict task comments) w (λ r w',
    match r with
    | Ok cs => wall w0 <= wall w' ∧ Forall (comment_on tasks (wall w0) (wall w')) cs
    | Raise _ => True
    end).
Proof.
  intros Htask Hw Hcomments. unfold visit_task, _should_have_comments, _sample_num_comments.
  wp_step. wp_step. intros has_comments w1 Hw1.
  destruct has_comments; simpl; [|apply wp_ret; by rewrite Hw1].
  wp_step.
  eapply wp_wand with (Q := λ _ w', wall w' = wall w).
  { wp_auto; congruence. }
  intros num_comments w2 Hw2. wp_step.
  eapply wp_wand with (Q := λ _ w', wall w' = wall w).
  { wp_auto; congruence. }
  intros extra w3 Hw3.
  set (I := λ (cs : list Comment.t) (w' : World),
              wall w0 <= wall w' ∧ Forall (comment_on tasks (wall w0) (wall w')) cs).
  assert (Hloop : ∀ relevant_users w4, wall w4 = wall w →
            wp (comments ← for_ (range num_comments)
                              (add_comment task relevant_users num_comments) comments;
                ret (Ok comments)) w4
               (λ r w', match r with Ok cs => I cs w' | Raise _ => True end)).
  { intros relevant_users w4 Hw4. wp_step.
    eapply wp_wand with (Q := I); [|by intros cs w5 HI; wp_step].
    apply (for_spec I).
    - split; [lia|]. by rewrite Hw4.
    - intros i cs w5 _ [Hw5 Hcs]. by apply add_comment_ok. }
  destruct (remove_dups _) as [|r0 rs] eqn:Hrelevant.
  - destruct users as [|u0 us]; [by apply wp_ret|].
    wp_step. wp_step. wp_step. intros u w4 [_ Hw4]. wp_step.
    apply Hloop. congruence.
  - destruct users as [|u0 us]; (wp_step; wp_step; apply Hloop; congruence).
Qed.

Lemma comments_generate_spec tasks users w :
  wp (generate tasks users) w (λ r w',
    match r with
    | Ok comments => Forall (comment_on tasks (wall w) (wall w')) comments
    | Raise _ => True
    end).
Proof.
  unfold generate. wp_step.
  set (I := λ (cs : list Comment.t) (w' : World),
              wall w <= wall w' ∧ Forall (comment_on tasks (wall w) (wall w')) cs).
  eapply wp_wand.
  - apply (for_r_spec I); [by split|].
    intros task cs w1 Htask [Hw1 Hcs]. by apply comments_visit_task_ok.
  - intros [cs|e] w1 HI; [|by apply wp_ret].
    destruct tasks; apply wp_ret; [done|]. by destruct HI.
Qed.

(** C6, as the code has it: a comment is never created before its task;
    and it is not created after the clock reading at the end of the run
    when its task was created strictly before the clock reading at the
    start of the run. *)
Theorem C6_comment_after_task_and_before_now tasks users w comments w' :
  generate tasks users w = (Ok comments, w') →
  ∀ c, c ∈ comments →
    ∃ t, t ∈ tasks ∧ Comment.task_id c = Task.task_id t ∧
      Task.created_at t <= Comment.created_at c ∧
      (Task.created_at t < wall w → Comment.created_at c <= wall w').
Proof.
  intros Hrun c Hc.
  pose proof (wp_run _ _ _ _ _ (comments_generate_spec tasks users w) Hrun) as Hall.
  rewrite Forall_forall in Hall. exact (Hall c Hc).
Qed.

Lemma C6_comment_after_task_and_before_now_witness :
  ∃ comments w' c,
    generate [Examples.task_a] [Examples.user_1] Examples.one_comment_world
      = (Ok comments, w') ∧
    c ∈ comments ∧
    Task.created_at Examples.task_a < wall Examples.one_comment_world ∧
    Comment.task_id c = Task.task_id Examples.task_a ∧
    Task.created_at Examples.task_a <= Comment.created_at c <= wall w'.
Proof.
  eexists _, _, _. split; [vm_compute; reflexivity|].
  split; [apply list_elem_of_here|]. split; [by vm_compute|].
  edestruct (C6_comment_after_task_and_before_now
               [Examples.task_a] [Examples.user_1] Examples.one_comment_world)
    as (t & Ht & Hid & Hlo & Hhi).
  { vm_compute; reflexivity. }
  { apply list_elem_of_here. }
  apply list_elem_of_singleton in Ht. subst t.
  split; [exact Hid|]. split; [exact Hlo|]. apply Hhi. by vm_compute.
Defined.

(** C6 as stated fails for a task created at the very instant the clock
    shows: no time is left between the task and the clock, and the comment
    is dated one minute after both. *)
Lemma C6_counterexample :
  ∃ comments w' c,
    generate [Examples.task_now] [Examples.user_1] Examples.one_comment_world
      = (Ok comments, w') ∧
    c ∈ comments ∧
    Comment.task_id c = Task.task_id Examples.task_now ∧
    Task.created_at Examples.task_now <= wall Examples.one_comment_world ∧
    Task.created_at Examples.task_now <= wall w' ∧
    wall w' < Comment.created_at c.
Proof.
  eexists _, _, _. split; [vm_compute; reflexivity|].
  split; [apply list_elem_of_here|]. by vm_compute.
Qed.

End CommentsFacts.

(** ** Sections: positions *)

Module SectionsFacts.
Import Sections.

Lemma enumerate_fst {A} (l : list A) : (λ it, it.1) <$> enumerate l = seq 0 (length l).
Proof.
  unfold enumerate. rewrite fmap_imap.
  rewrite (imap_ext _ (λ j _, id j)) by done.
  rewrite imap_seq_0. by rewrite list_fmap_id.
Qed.

Lemma enumerate_snd {A} (l : list A) : (λ it, it.2) <$> enumerate l = l.
Proof.
  unfold enumerate. rewrite fmap_imap.
  rewrite (imap_ext _ (const id)) by done.
  rewrite imap_const. by rewrite list_fmap_id.
Qed.

Lemma add_section_spec project position section_name sections w :
  wp (add_section project (position, section_name) sections) w (λ s _,
    ∃ sec, s = sections ++ [sec] ∧
      Section.project_id sec = Project.project_id project ∧
      Section.position sec = position ∧ Section.name sec = section_name).
Proof.
  unfold add_section, _sample_created_at. wp_auto.
  all: eexists; split; [reflexivity|done].
Qed.

Lemma sections_visit_project_spec project sections w :
  wp (visit_project project sections) w (λ s _,
    ∃ block, s = sections ++ block ∧ sections_of project block).
Proof.
  unfold visit_project.
  set (names := _get_sections_for_project (Project.project_type project)).
  set (I := λ (pre : list (nat * string)) (s : list Section.t) (_ : World),
    ∃ block, s = sections ++ block ∧
      Forall (λ sec, Section.project_id sec = Project.project_id project) block ∧
      Section.position <$> block = (λ it, it.1) <$> pre ∧
      Section.name <$> block = (λ it, it.2) <$> pre).
  eapply wp_wand with (Q := I (enumerate names)).
  - apply (for_spec_prefix I).
    + exists []. by rewrite app_nil_r.
    + intros pre [position section_name] post s w1 _ (block & -> & Hid & Hpos & Hname).
      eapply wp_wand; [apply add_section_spec|].
      intros s' w2 (sec & -> & Hsid & Hspos & Hsname).
      exists (block ++ [sec]). rewrite <- app_assoc. split; [done|].
      rewrite !fmap_app, Hpos, Hname. simpl. rewrite Hspos, Hsname. split; [|done].
      apply Forall_app. split; [done|]. by apply Forall_singleton.
  - intros s w1 (block & -> & Hid & Hpos & Hname). exists block.
    split; [done|]. split_and!; [done| |].
    + rewrite Hpos, enumerate_fst.
      assert (Hlen : length block = length names).
      { rewrite <- (length_fmap Section.name block), Hname, length_fmap.
        unfold enumerate. by rewrite length_imap. }
      by rewrite Hlen.
    + by rewrite Hname, enumerate_snd.
Qed.

Lemma sections_generate_spec projects w :
  wp (generate projects) w (λ r _,
    match r with
    | Ok sections =>
        ∃ blocks, sections = concat blocks ∧ Forall2 sections_of projects blocks
    | Raise _ => True
    end).
Proof.
  unfold generate. wp_step.
  set (I := λ (pre : list Project.t) (s : list Section.t) (_ : World),
    ∃ blocks, s = concat blocks ∧ Forall2 sections_of pre blocks).
  eapply wp_wand with (Q := I projects).
  - apply (for_spec_prefix I).
    + exists []. split; [done|constructor].
    + intros pre project post s w1 _ (blocks & -> & Hblocks).
      eapply wp_wand; [apply sections_visit_project_spec|].
      intros s' w2 (block & -> & Hblock). exists (blocks ++ [block]). split.
      * rewrite concat_app. simpl. by rewrite app_nil_r.
      * apply Forall2_app; [done|]. by constructor.
  - intros s w1 HI. destruct projects; by apply wp_ret.
Qed.

(** With pairwise distinct project identifiers, the sections that carry
    the identifier of a project are the block made for it. *)
Lemma filter_own_block projects blocks p :
  Forall2 sections_of projects blocks →
  NoDup (Project.project_id <$> projects) → p ∈ projects →
  sections_of p (filter (λ s, Section.project_id s = Project.project_id p) (concat blocks)).
Proof.
  induction 1 as [|q block projects blocks Hq Hrest IH]; intros Hnodup Hp.
  { by apply elem_of_nil in Hp. }
  rewrite fmap_cons in Hnodup. apply NoDup_cons in Hnodup as [Hfresh Hnodup].
  simpl. rewrite filter_app.
  assert (Hothers : ∀ p', p' ∈ projects → Project.project_id p' ≠ Project.project_id q).
  { intros p' Hp' Heq. apply Hfresh. rewrite <- Heq. by apply list_elem_of_fmap_2. }
  apply elem_of_cons in Hp as [->|Hp].
  - assert (Hmine : filter (λ s, Section.project_id s = Project.project_id q) block = block).
    { destruct Hq as (Hid & _). clear -Hid.
      induction Hid as [|s block Hs Hid IH]; [done|].
      by rewrite filter_cons_True, IH. }
    assert (Hnone : filter (λ s, Section.project_id s = Project.project_id q)
                           (concat blocks) = []).
    { clear -Hrest Hothers.
      induction Hrest as [|p' block' projects blocks Hp' Hrest IH]; [done|].
      simpl. rewrite filter_app, IH, app_nil_r.
      2: { intros p'' Hp''. apply Hothers. by right. }
      destruct Hp' as (Hid & _).
      assert (Hne : Project.project_id p' ≠ Project.project_id q)
        by (apply Hothers; left).
      clear -Hid Hne. induction Hid as [|s block Hs Hid IH]; [done|].
      rewrite filter_cons_False by congruence. done. }
    by rewrite Hmine, Hnone, app_nil_r.
  - assert (Hnone : filter (λ s, Section.project_id s = Project.project_id p) block = []).
    { destruct Hq as (Hid & _). specialize (Hothers p Hp).
      clear -Hid Hothers. induction Hid as [|s block Hs Hid IH]; [done|].
      rewrite filter_cons_False by congruence. done. }
    rewrite Hnone. simpl. by apply IH.
Qed.

(** C7: the output is the concatenation of one block of sections per
    project, in the order of the projects; the positions within a block are
    0, 1, ..., n-1 and its names are the template of the project type, in
    template order.  With pairwise distinct project identifiers, the block
    of a project is exactly the sections that carry its identifier. *)
Theorem C7_section_positions_contiguous projects w sections w' :
  generate projects w = (Ok sections, w') →
  ∃ blocks,
    sections = concat blocks ∧
    Forall2 (λ p block,
               Forall (λ s, Section.project_id s = Project.project_id p) block ∧
               Section.position <$> block = seq 0 (length block) ∧
               Section.name <$> block =
                 _get_sections_for_project (Project.project_type p))
            projects blocks ∧
    (NoDup (Project.project_id <$> projects) →
     ∀ p, p ∈ projects →
       let mine := filter (λ s, Section.project_id s = Project.project_id p) sections in
       Section.position <$> mine = seq 0 (length mine) ∧
       Section.name <$> mine = _get_sections_for_project (Project.project_type p)).
Proof.
  intros Hrun.
  destruct (wp_run _ _ _ _ _ (sections_generate_spec projects w) Hrun)
    as (blocks & -> & Hblocks).
  exists blocks. split; [done|]. split; [exact Hblocks|].
  intros Hnodup p Hp.
  destruct (filter_own_block projects blocks p Hblocks Hnodup Hp) as (_ & Hpos & Hname).
  by split.
Qed.

Lemma C7_section_positions_contiguous_witness :
  ∃ sections w',
    generate [Examples.project_1] (Examples.world (Examples.at_ Examples.today 10 0) [])
      = (Ok sections, w') ∧
    NoDup (Project.project_id <$> [Examples.project_1]) ∧
    Section.position <$> sections = [0; 1; 2; 3]%nat ∧
    Section.name <$> sections = ["Backlog"; "In Progress"; "Review"; "Done"]%string.
Proof.
  eexists _, _. split; [vm_compute; reflexivity|].
  assert (Hnodup : NoDup (Project.project_id <$> [Examples.project_1])) by compute_done.
  split; [exact Hnodup|].
  edestruct (C7_section_positions_contiguous
               [Examples.project_1] (Examples.world (Examples.at_ Examples.today 10 0) []))
    as (blocks & _ & _ & Hmine).
  { vm_compute; reflexivity. }
  exact (Hmine Hnodup Examples.project_1 (list_elem_of_here _ _)).
Defined.

End SectionsFacts.

(** ** Task tags: uniqueness of the pairs *)

Module TaskTagsFacts.
Import TaskTags.

Lemma submseteq_NoDup_fmap {A B} (f : A → B) (l k : list A) :
  l ⊆+ k → NoDup (f <$> k) → NoDup (f <$> l).
Proof.
  intros Hsub Hnodup. apply (fmap_submseteq f) in Hsub.
  apply submseteq_Permutation in Hsub as [rest Hperm].
  rewrite Hperm in Hnodup. by apply NoDup_app in Hnodup as (? & _ & _).
Qed.

Lemma collect_ok found acc : collected_ok acc → collected_ok (collect found acc).
Proof.
  unfold collect. revert acc. induction found as [|tag found IH]; intros acc Hacc; [done|].
  simpl. apply IH. case_bool_decide as Hseen; [done|].
  destruct Hacc as [Hnodup Hin]. split; simpl.
  - rewrite fmap_app. apply NoDup_app. split_and!; [done| |apply NoDup_singleton].
    intros id (t & -> & Ht)%list_elem_of_fmap Hid.
    apply list_elem_of_singleton in Hid. apply Hseen. rewrite <- Hid. by apply Hin.
  - intros t [Ht|Ht%list_elem_of_singleton]%elem_of_app.
    + apply elem_of_union_r. by apply Hin.
    + subst t. apply elem_of_union_l. by apply elem_of_singleton.
Qed.

Lemma get_relevant_tags_spec task tags org_id w :
  NoDup (Tag.tag_id <$> tags) →
  wp (_get_relevant_tags task tags org_id) w (λ r _, NoDup (Tag.tag_id <$> r)).
Proof.
  intros Hnodup. unfold _get_relevant_tags.
  set (org_tags := filter (λ t, Tag.organization_id t = org_id) tags).
  destruct org_tags as [|t0 ts] eqn:Horg; [apply wp_ret; constructor|].
  rewrite <- Horg.
  match goal with
  | |- wp (match (foldl ?f ?a ?l).1 with _ => _ end) _ _ =>
      assert (Hacc : collected_ok (foldl f a l))
  end.
  { assert (Hstart : collected_ok
              (if truthy (Task.priority task)
               then collect (tags_named (default ""%string (Task.priority task)) org_tags)
                            ([], ∅)
               else ([], ∅))).
    { assert (collected_ok ([], ∅)).
      { split; simpl; [constructor|]. by intros t ?%elem_of_nil. }
      destruct (truthy _); [by apply collect_ok|done]. }
    revert Hstart. generalize (if truthy (Task.priority task)
               then collect (tags_named (default ""%string (Task.priority task)) org_tags)
                            ([], ∅)
               else ([], ∅)).
    induction keywords_to_tags as [|entry entries IH]; intros acc Hacc; [done|].
    simpl. apply IH. destruct (Str.contains _ _); [|done].
    clear IH. revert acc Hacc.
    induction (entry.2) as [|tag_name names IH]; intros acc Hacc; [done|].
    simpl. apply IH. by apply collect_ok. }
  destruct Hacc as [Hacc _].
  match goal with
  | |- wp (match ?x with _ => _ end) _ _ => destruct x as [|r rs] eqn:Hrel
  end.
  - eapply wp_wand; [apply sample_spec|]. intros picked w1 [Hsub _].
    eapply submseteq_NoDup_fmap; [exact Hsub|].
    eapply submseteq_NoDup_fmap; [|exact Hnodup].
    apply sublist_submseteq, sublist_filter.
  - by apply wp_ret.
Qed.

Lemma add_task_tag_spec task tag task_tags w :
  wp (add_task_tag task tag task_tags) w (λ s _,
    ∃ tt, s = task_tags ++ [tt] ∧
      TaskTag.task_id tt = Task.task_id task ∧ TaskTag.tag_id tt = Tag.tag_id tag).
Proof.
  unfold add_task_tag, _sample_created_at. wp_auto.
  all: eexists; split; [reflexivity|done].
Qed.

(** The records made for one task carry its identifier and pairwise
    distinct tag identifiers. *)
Lemma task_tags_visit_task_spec tags tag0 task task_tags w :
  NoDup (Tag.tag_id <$> tags) →
  wp (visit_task tags tag0 task task_tags) w (λ s _,
    ∃ block, s = task_tags ++ block ∧
      Forall (λ tt, TaskTag.task_id tt = Task.task_id task) block ∧
      NoDup (TaskTag.tag_id <$> block)).
Proof.
  intros Hnodup. unfold visit_task, _should_have_tags, _sample_num_tags.
  assert (Hnone : ∃ block : list TaskTag.t, task_tags = task_tags ++ block ∧
            Forall (λ tt, TaskTag.task_id tt = Task.task_id task) block ∧
            NoDup (TaskTag.tag_id <$> block)).
  { exists []. rewrite app_nil_r. split_and!; [done|constructor|constructor]. }
  wp_step. wp_step. intros has_tags w1 _.
  destruct has_tags; simpl; [|by apply wp_ret].
  wp_step. eapply wp_wand; [by apply get_relevant_tags_spec|].
  intros relevant_tags w2 Hrelevant.
  destruct relevant_tags as [|r rs] eqn:Hrel; [by apply wp_ret|]. rewrite <- Hrel in *.
  wp_step. wp_step. intros n w3 _.
  wp_step. wp_step. intros selected_tags w4 [Hsub _].
  assert (Hselected : NoDup (Tag.tag_id <$> selected_tags))
    by (by eapply submseteq_NoDup_fmap).
  set (I := λ (pre : list Tag.t) (s : list TaskTag.t) (_ : World),
    ∃ block, s = task_tags ++ block ∧
      Forall (λ tt, TaskTag.task_id tt = Task.task_id task) block ∧
      TaskTag.tag_id <$> block = Tag.tag_id <$> pre).
  eapply wp_wand with (Q := I selected_tags).
  - apply (for_spec_prefix I).
    + exists []. by rewrite app_nil_r.
    + intros pre tag post s w5 _ (block & -> & Hid & Htags).
      eapply wp_wand; [apply add_task_tag_spec|].
      intros s' w6 (tt & -> & Htask & Htag).
      exists (block ++ [tt]). rewrite <- app_assoc. split; [done|].
      rewrite !fmap_app, Htags. simpl. rewrite Htag. split; [|done].
      apply Forall_app. split; [done|]. by apply Forall_singleton.
  - intros s w5 (block & -> & Hid & Htags). exists block.
    split_and!; [done..|]. by rewrite Htags.
Qed.

Lemma task_tags_generate_spec tasks tags w :
  NoDup (Task.task_id <$> tasks) → NoDup (Tag.tag_id <$> tags) →
  wp (generate tasks tags) w (λ r _,
    match r with
    | Ok task_tags => NoDup (task_tag_pair <$> task_tags)
    | Raise _ => True
    end).
Proof.
  intros Htasks Htags. unfold generate.
  destruct tags as [|tag0 tags']; [apply wp_ret; constructor|].
  set (tags := tag0 :: tags') in *.
  wp_step.
  set (I := λ (pre : list Task.t) (s : list TaskTag.t) (_ : World),
    NoDup (task_tag_pair <$> s) ∧
    ∀ tt, tt ∈ s → TaskTag.task_id tt ∈ Task.task_id <$> pre).
  eapply wp_wand with (Q := I tasks).
  - apply (for_spec_prefix I).
    + split; [constructor|]. by intros tt ?%elem_of_nil.
    + intros pre task post s w1 Hsplit [Hnodup Hfrom].
      eapply wp_wand; [by apply task_tags_visit_task_spec|].
      intros s' w2 (block & -> & Hid & Hblock).
      assert (Hfresh : Task.task_id task ∉ Task.task_id <$> pre).
      { rewrite Hsplit, fmap_app, fmap_cons in Htasks.
        apply NoDup_app in Htasks as (_ & Hdisj & _).
        intros Hin. apply (Hdisj _ Hin). left. }
      rewrite Forall_forall in Hid. split.
      * rewrite fmap_app. apply NoDup_app. split_and!; [done| |].
        -- intros pr (tt & -> & Htt)%list_elem_of_fmap (tt' & Heq & Htt')%list_elem_of_fmap.
           apply Hfresh. rewrite <- (Hid tt' Htt').
           injection Heq as <- _. by apply Hfrom.
        -- apply (NoDup_fmap_1 snd). rewrite <- list_fmap_compose. exact Hblock.
      * intros tt [Htt|Htt]%elem_of_app; rewrite fmap_app; apply elem_of_app.
        -- left. by apply Hfrom.
        -- right. rewrite (Hid tt Htt). simpl. left.
  - intros s w1 [Hnodup _]. destruct tasks; by apply wp_ret.
Qed.

(** C8: in a run over tasks with pairwise distinct identifiers and tags
    with pairwise distinct identifiers, as the task and tag generators
    produce them, no two task-tag records relate the same task to the
    same tag. *)
Theorem C8_task_tag_pairs_unique tasks tags w task_tags w' :
  NoDup (Task.task_id <$> tasks) → NoDup (Tag.tag_id <$> tags) →
  generate tasks tags w = (Ok task_tags, w') →
  ∀ (i j : nat) tt1 tt2,
    task_tags !! i = Some tt1 → task_tags !! j = Some tt2 → i ≠ j →
    (TaskTag.task_id tt1, TaskTag.tag_id tt1) ≠ (TaskTag.task_id tt2, TaskTag.tag_id tt2).
Proof.
  intros Htasks Htags Hrun i j tt1 tt2 Hi Hj Hne Heq.
  pose proof (wp_run _ _ _ _ _ (task_tags_generate_spec tasks tags w Htasks Htags) Hrun)
    as Hnodup.
  apply Hne. eapply NoDup_lookup; [exact Hnodup| |].
  - rewrite list_lookup_fmap, Hi. reflexivity.
  - rewrite list_lookup_fmap, Hj. simpl. unfold task_tag_pair. by rewrite Heq.
Qed.

Lemma C8_task_tag_pairs_unique_witness :
  ∃ task_tags w' tt1 tt2,
    NoDup (Task.task_id <$> [Examples.task_a; Examples.task_b]) ∧
    NoDup (Tag.tag_id <$> [Examples.tag_bug; Examples.tag_design]) ∧
    generate [Examples.task_a; Examples.task_b] [Examples.tag_bug; Examples.tag_design]
             Examples.tagging_world = (Ok task_tags, w') ∧
    task_tags !! 0%nat = Some tt1 ∧ task_tags !! 1%nat = Some tt2 ∧
    (TaskTag.task_id tt1, TaskTag.tag_id tt1) ≠ (TaskTag.task_id tt2, TaskTag.tag_id tt2).
Proof.
  assert (Htasks : NoDup (Task.task_id <$> [Examples.task_a; Examples.task_b]))
    by compute_done.
  assert (Htags : NoDup (Tag.tag_id <$> [Examples.tag_bug; Examples.tag_design]))
    by compute_done.
  eexists _, _, _, _. split; [exact Htasks|]. split; [exact Htags|].
  split; [vm_compute; reflexivity|]. split; [reflexivity|]. split; [reflexivity|].
  eapply (C8_task_tag_pairs_unique [Examples.task_a; Examples.task_b]
            [Examples.tag_bug; Examples.tag_design] Examples.tagging_world _ _
            Htasks Htags) with (i := 0%nat) (j := 1%nat).
  - vm_compute; reflexivity.
  - reflexivity.
  - reflexivity.
  - done.
Defined.

End TaskTagsFacts.

(** ** Team memberships: roles and the cap of four teams *)

Module TeamMembershipsFacts.
Import TeamMemberships.

Lemma sample_joined_at_spec user_created_at team_created_at w :
  wp (_sample_joined_at user_created_at team_created_at) w (λ _ _, True).
Proof. unfold _sample_joined_at. by wp_auto. Qed.

(** One more record: the member, its role by position, and the team added
    to the member's set of teams. *)
Lemma add_member_spec team (i : nat) user s w :
  wp (add_member team (i, user) s) w (λ s' _,
    ∃ m, memberships s' = memberships s ++ [m] ∧
      TeamMembership.team_id m = Team.team_id team ∧
      TeamMembership.user_id m = User.user_id user ∧
      TeamMembership.role m = (if bool_decide (i = 0%nat) then "admin" else "member")%string ∧
      user_team_assignments s' =
        <[User.user_id user :=
            {[Team.team_id team]} ∪
            default ∅ (user_team_assignments s !! User.user_id user)]>
          (user_team_assignments s)).
Proof.
  unfold add_member. wp_step.
  eapply wp_wand; [apply sample_joined_at_spec|]. intros joined_at w1 _.
  wp_step. wp_step. intros membership_id w2 _. wp_step.
  eexists. simpl. split; [reflexivity|]. done.
Qed.

Lemma teams_in_snoc ms m user_id :
  teams_in (ms ++ [m]) user_id =
    if bool_decide (TeamMembership.user_id m = user_id)
    then {[TeamMembership.team_id m]} ∪ teams_in ms user_id
    else teams_in ms user_id.
Proof.
  unfold teams_in. rewrite filter_app, fmap_app, list_to_set_app_L.
  case_bool_decide as Hm.
  - rewrite filter_cons_True, filter_nil by done. simpl.
    rewrite union_empty_r_L. apply union_comm_L.
  - rewrite filter_cons_False, filter_nil by done. simpl.
    by rewrite union_empty_r_L.
Qed.

Lemma teams_of_insert assignments user_id team_id other :
  teams_of (<[user_id := {[team_id]} ∪ default ∅ (assignments !! user_id)]> assignments)
           other
  = if bool_decide (user_id = other)
    then Z.of_nat (size ({[team_id]} ∪ default ∅ (assignments !! user_id)))
    else teams_of assignments other.
Proof.
  unfold teams_of. case_bool_decide as Hid.
  - subst other. by rewrite lookup_insert_eq.
  - by rewrite lookup_insert_ne.
Qed.

(** The loop over the selected users of one team. *)
Lemma add_members_spec team selected s w :
  assignments_agree s →
  wp (for_ (enumerate selected) (add_member team) s) w (λ s' _,
    assignments_agree s' ∧
    (∃ block, memberships s' = memberships s ++ block ∧ members_of team block) ∧
    (capped s →
     (∀ u, u ∈ selected → teams_of (user_team_assignments s) (User.user_id u) < 4) →
     capped s')).
Proof.
  intros Hagree.
  set (I := λ (pre : list (nat * User.t)) (s' : state) (_ : World),
    assignments_agree s' ∧
    (∃ block, memberships s' = memberships s ++ block ∧
       Forall (λ m, TeamMembership.team_id m = Team.team_id team) block ∧
       TeamMembership.role <$> block =
         (λ it, if bool_decide (it.1 = 0%nat) then "admin" else "member")%string <$> pre) ∧
    (capped s →
     (∀ u, u ∈ selected → teams_of (user_team_assignments s) (User.user_id u) < 4) →
     capped s' ∧
     ∀ u, u ∈ selected →
       teams_of (user_team_assignments s') (User.user_id u) < 4 ∨
       Team.team_id team ∈ default ∅ (user_team_assignments s' !! User.user_id u))).
  eapply wp_wand with (Q := I (enumerate selected)).
  - apply (for_spec_prefix I).
    { split_and!; [done| |].
      - exists []. by rewrite app_nil_r.
      - intros Hcap Hsel. split; [done|]. intros u Hu. left. by apply Hsel. }
    intros pre [i user] post s1 w1 Hsplit (Hagree1 & (block & Hms & Hteam & Hroles) & Hcap1).
    assert (Huser : user ∈ selected).
    { assert (Hin : (i, user) ∈ enumerate selected)
        by (rewrite Hsplit; apply elem_of_app; right; left).
      apply elem_of_lookup_imap_1 in Hin as (i' & u' & [= -> ->] & Hlook).
      by eapply list_elem_of_lookup_2. }
    eapply wp_wand; [apply add_member_spec|].
    intros s2 w2 (m & Hms2 & Hmteam & Hmuser & Hmrole & Hassign).
    split_and!.
    + intros uid. rewrite Hms2, teams_in_snoc, Hassign, Hmuser, Hmteam.
      destruct (decide (User.user_id user = uid)) as [<-|Huid].
      * rewrite bool_decide_eq_true_2, lookup_insert_eq by done.
        simpl. by rewrite Hagree1.
      * rewrite bool_decide_eq_false_2, lookup_insert_ne by done. apply Hagree1.
    + exists (block ++ [m]). rewrite Hms2, Hms, <- app_assoc. split; [done|].
      rewrite !fmap_app, Hroles. simpl. rewrite Hmrole. split; [|done].
      apply Forall_app. split; [done|]. by apply Forall_singleton.
    + intros Hcap Hsel. destruct (Hcap1 Hcap Hsel) as [Hcapped Hroom].
      assert (Hnew : Z.of_nat (size ({[Team.team_id team]} ∪
                 default ∅ (user_team_assignments s1 !! User.user_id user))) <= 4).
      { destruct (Hroom user Huser) as [Hlt|Hin].
        - unfold teams_of in Hlt.
          pose proof (size_union_alt ({[Team.team_id team]} : gset ident)
                        (default ∅ (user_team_assignments s1 !! User.user_id user))) as Hsz.
          rewrite size_singleton in Hsz.
          pose proof (subseteq_size
                        (default ∅ (user_team_assignments s1 !! User.user_id user)
                         ∖ {[Team.team_id team]})
                        (default ∅ (user_team_assignments s1 !! User.user_id user))
                        ltac:(by apply subseteq_difference_l)).
          lia.
        - replace ({[Team.team_id team]} ∪
                   default ∅ (user_team_assignments s1 !! User.user_id user))
            with (default ∅ (user_team_assignments s1 !! User.user_id user))
            by (symmetry; by apply subseteq_union_1_L, singleton_subseteq_l).
          apply (Hcapped (User.user_id user)). }
      split.
      * intros uid. rewrite Hassign, teams_of_insert.
        destruct (decide (User.user_id user = uid)).
        -- by rewrite bool_decide_eq_true_2.
        -- rewrite bool_decide_eq_false_2 by done. apply Hcapped.
      * intros u Hu. rewrite Hassign, teams_of_insert.
        destruct (decide (User.user_id user = User.user_id u)) as [Hid|Hid].
        -- right. rewrite <- Hid, lookup_insert_eq. simpl.
           apply elem_of_union_l. by apply elem_of_singleton.
        -- rewrite bool_decide_eq_false_2, lookup_insert_ne by done. by apply Hroom.
  - intros s' w' (Hagree' & (block & Hms & Hteam & Hroles) & Hcap').
    split_and!; [done| |].
    + exists block. split; [done|]. split; [done|].
      intros i m Hm.
      assert (Hrole : (TeamMembership.role <$> block) !! i = Some (TeamMembership.role m))
        by (by rewrite list_lookup_fmap, Hm).
      rewrite Hroles, list_lookup_fmap in Hrole.
      unfold enumerate in Hrole. rewrite list_lookup_imap in Hrole.
      destruct (selected !! i); simpl in Hrole; [|done]. by injection Hrole as <-.
    + intros Hcap Hsel. by destruct (Hcap' Hcap Hsel).
Qed.

Lemma slice_to_elem_of {A} (xs : list A) n x : x ∈ slice_to xs n → x ∈ xs.
Proof.
  unfold slice_to. case_bool_decide; intros (i & Hi & _)%elem_of_take;
    by eapply list_elem_of_lookup_2.
Qed.

(** One team: a block of records is appended; the cap is kept when some
    candidate still has room. *)
Lemma visit_team_spec self team s w :
  assignments_agree s →
  wp (visit_team self team s) w (λ s' _,
    assignments_agree s' ∧
    (∃ block, memberships s' = memberships s ++ block ∧ members_of team block) ∧
    (capped s → has_room s team → capped s')).
Proof.
  intros Hagree. unfold visit_team, _sample_team_size.
  wp_step. wp_step. intros target_size w1 _.
  set (by_dept := default [] (users_by_dept s !! Some (Team.team_type team))).
  set (matching_users := if match by_dept with [] => false | _ => true end
                         then by_dept else users s).
  assert (Hmatching : matching_users = candidates s team).
  { unfold matching_users, candidates. fold by_dept. by destruct by_dept. }
  set (under_cap := filter (λ u, teams_of (user_team_assignments s) (User.user_id u) < 4)
                           matching_users).
  set (all_capped := match under_cap with [] => true | _ => false end).
  set (available := stable_sort (λ u, teams_of (user_team_assignments s) (User.user_id u))
                                (if all_capped then matching_users else under_cap)).
  set (selected := slice_to available _).
  match goal with
  | |- wp (for_ _ _ ?s1) _ _ => set (s1' := s1)
  end.
  assert (Hsame : user_team_assignments s1' = user_team_assignments s ∧
                  memberships s1' = memberships s).
  { unfold s1'. destruct all_capped; [|done].
    by destruct (match by_dept with [] => false | _ => true end). }
  destruct Hsame as [Hassign Hms].
  assert (Hagree1 : assignments_agree s1').
  { intros uid. rewrite Hassign, Hms. apply Hagree. }
  eapply wp_wand; [by apply add_members_spec|].
  intros s' w' (Hagree' & (block & Hblock & Hmembers) & Hcap).
  split_and!; [done| |].
  - exists block. by rewrite Hblock, Hms.
  - intros Hcapped (u & Hu & Hroom). apply Hcap.
    + intros uid. rewrite Hassign. apply Hcapped.
    + assert (Hnonempty : u ∈ under_cap).
      { unfold under_cap. apply list_elem_of_filter. by rewrite Hmatching. }
      assert (Hfalse : all_capped = false).
      { unfold all_capped. destruct under_cap; [by apply elem_of_nil in Hnonempty|done]. }
      intros u' Hu'. apply slice_to_elem_of in Hu'. unfold available in Hu'.
      rewrite stable_sort_Permutation, Hfalse in Hu'.
      apply list_elem_of_filter in Hu' as [Hlt _]. by rewrite Hassign.
Qed.

Lemma memberships_generate_spec self teams users w :
  wp (generate self teams users) w (λ r _,
    match r with
    | Ok ms =>
        (∃ blocks, ms = concat blocks ∧ Forall2 members_of teams blocks) ∧
        ((∀ pre team post, teams = pre ++ team :: post →
            has_room (state_before self users w pre) team) →
         ∀ user_id, (size (teams_in ms user_id) <= 4)%nat)
    | Raise _ => True
    end).
Proof.
  unfold generate. wp_step. fold (initial_state users).
  set (I := λ (pre : list Team.t) (s : state),
    assignments_agree s ∧
    (∃ blocks, memberships s = concat blocks ∧ Forall2 members_of pre blocks) ∧
    ((∀ a t b, pre = a ++ t :: b → has_room (state_before self users w a) t) →
     capped s)).
  eapply wp_wand with (Q := λ s _, I teams s).
  - apply (for_spec_run I).
    { split_and!.
      - intros uid. unfold teams_in. simpl. by rewrite lookup_empty.
      - exists []. split; [done|constructor].
      - intros _ uid. unfold teams_of. simpl. by rewrite lookup_empty. }
    intros pre team post s w1 Hteams Hrun (Hagree & (blocks & Hms & Hblocks) & Hcap).
    eapply wp_wand; [by apply visit_team_spec|].
    intros s' w2 (Hagree' & (block & Hms' & Hblock) & Hcap').
    split_and!; [done| |].
    + exists (blocks ++ [block]). split.
      * rewrite Hms', Hms, concat_app. simpl. by rewrite app_nil_r.
      * apply Forall2_app; [done|]. by constructor.
    + intros Hroom. apply Hcap'.
      * apply Hcap. intros a t b ->. apply (Hroom a t (b ++ [team])).
        by rewrite <- app_assoc.
      * specialize (Hroom pre team [] eq_refl).
        unfold state_before in Hroom. by rewrite Hrun in Hroom.
  - intros s w1 (Hagree & Hblocks & Hcap).
    destruct users; apply wp_ret; [done|]. split; [done|].
    intros Hroom uid. specialize (Hcap Hroom uid).
    unfold teams_of in Hcap. rewrite Hagree in Hcap. lia.
Qed.

(** C9, as the code has it.  The output is the concatenation of one block
    of records per team, in the order of the teams; within a block the
    first record has role admin and every other record has role member.  A
    user ends with at most 4 distinct teams provided that, whenever the
    loop reaches a team, some matching user still belongs to fewer than 4
    teams; otherwise the fallback selects among all matching users. *)
Theorem C9_admin_first_and_team_cap self teams users w ms w' :
  generate self teams users w = (Ok ms, w') →
  (∃ blocks, ms = concat blocks ∧
     Forall2 (λ team block,
                Forall (λ m, TeamMembership.team_id m = Team.team_id team) block ∧
                ∀ (i : nat) m, block !! i = Some m →
                  TeamMembership.role m =
                    if bool_decide (i = 0%nat) then "admin"%string else "member"%string)
             teams blocks) ∧
  ((∀ pre team post, teams = pre ++ team :: post →
      has_room (state_before self users w pre) team) →
   ∀ user_id, (size (teams_in ms user_id) <= 4)%nat).
Proof.
  intros Hrun.
  exact (wp_run _ _ _ _ _ (memberships_generate_spec self teams users w) Hrun).
Qed.

Lemma C9_admin_first_and_team_cap_witness :
  ∃ ms w',
    generate Examples.membership_generator [Examples.team "team-1"]
             [Examples.user_1; Examples.user_2]
             (Examples.world (Examples.at_ Examples.today 10 0) []) = (Ok ms, w') ∧
    TeamMembership.role <$> ms = ["admin"; "member"]%string ∧
    (size (teams_in ms "user-1") <= 4)%nat.
Proof.
  eexists _, _. split; [vm_compute; reflexivity|]. split; [reflexivity|].
  edestruct (C9_admin_first_and_team_cap Examples.membership_generator
               [Examples.team "team-1"] [Examples.user_1; Examples.user_2]
               (Examples.world (Examples.at_ Examples.today 10 0) []))
    as [_ Hcap].
  { vm_compute; reflexivity. }
  apply Hcap. intros pre team post Hsplit.
  destruct pre as [|t pre]; [|by destruct pre].
  injection Hsplit as <- _.
  exists Examples.user_1. split; [apply list_elem_of_here|]. by vm_compute.
Defined.

(** C9 as stated fails when the teams outnumber the cap: the only user of
    the department is put on each of five teams. *)
Lemma C9_counterexample :
  ∃ ms w',
    generate Examples.membership_generator Examples.five_teams [Examples.user_1]
             (Examples.world (Examples.at_ Examples.today 10 0) []) = (Ok ms, w') ∧
    Forall (λ m, TeamMembership.user_id m = User.user_id Examples.user_1) ms ∧
    TeamMembership.team_id <$> ms = Team.team_id <$> Examples.five_teams ∧
    size (teams_in ms (User.user_id Examples.user_1)) = 5%nat.
Proof.
  eexists _, _. split; [vm_compute; reflexivity|].
  split; [by repeat constructor|]. split; [reflexivity|]. by vm_compute.
Qed.

End TeamMembershipsFacts.

(** * Further properties of the generators

    ** Shared facts *)

Lemma date_of_plus_days dt k : date_of (dt + days k) = date_of dt + k.
Proof. unfold date_of, days. by rewrite Z.div_add. Qed.

Lemma td_days_nonneg x : 0 <= x → 0 <= td_days x.
Proof. intros. unfold td_days. by apply Z.div_pos. Qed.

Lemma td_days_le x : days (td_days x) <= x.
Proof. unfold td_days, days. pose proof (Z.mul_div_le x day day_pos). lia. Qed.

Lemma next_or_elem_of {A} (p : A → bool) (xs : list A) (d : A) :
  d ∈ xs → next_or p xs d ∈ xs.
Proof.
  intros Hd. unfold next_or.
  destruct (filter _ xs) as [|y ys] eqn:Hf; [done|]. simpl.
  assert (Hy : y ∈ filter (λ x, p x = true) xs) by (rewrite Hf; left).
  by apply list_elem_of_filter in Hy as [_ ?].
Qed.

Lemma default_last_elem_of {A} (xs : list A) (d : A) : d ∈ xs → default d (last xs) ∈ xs.
Proof.
  intros Hd. destruct (last xs) as [y|] eqn:Hl; [|done]. simpl.
  rewrite last_lookup in Hl. by eapply list_elem_of_lookup_2.
Qed.

Lemma default_lookup_elem_of {A} (xs : list A) (i : nat) (d : A) :
  d ∈ xs → default d (xs !! i) ∈ xs.
Proof.
  intros Hd. destruct (xs !! i) as [y|] eqn:Hl; [|done]. simpl.
  by eapply list_elem_of_lookup_2.
Qed.

(** [random.sample(population, k)] returns at most [k] elements. *)
Lemma sample_length {A} (population : list A) k w :
  wp (sample population k) w (λ r _, (length r <= k)%nat).
Proof.
  revert population w. induction k as [|k IH]; intros population w; simpl.
  { by apply wp_ret. }
  apply wp_bind. eapply wp_wand; [apply randint_spec|].
  intros i w1 _. destruct (population !! Z.to_nat i) as [x|].
  - apply wp_bind. eapply wp_wand; [apply IH|].
    intros rest w2 Hrest. apply wp_ret. simpl in *. lia.
  - apply wp_ret. simpl. lia.
Qed.

Lemma wp_and {A} (m : M A) w (Q1 Q2 : A → World → Prop) :
  wp m w Q1 → wp m w Q2 → wp m w (λ a w', Q1 a w' ∧ Q2 a w').
Proof. unfold wp. auto. Qed.

Lemma length_range n : length (range n) = Z.to_nat n.
Proof. unfold range. by rewrite length_fmap, length_seq. Qed.

Lemma length_concat_le {A B} (R : A → list B → Prop) (k : nat) xs (blocks : list (list B)) :
  Forall2 R xs blocks → (∀ x block, R x block → (length block <= k)%nat) →
  (length (concat blocks) <= length xs * k)%nat.
Proof.
  intros Hall Hle. induction Hall as [|x block xs blocks Hx _ IH]; simpl; [lia|].
  rewrite length_app. specialize (Hle x block Hx). lia.
Qed.

(** A property of every block is a property of every element. *)
Lemma in_some_block {A B} (P : A → B → Prop) (R : A → list B → Prop) xs blocks y :
  Forall2 R xs blocks → (∀ x block, R x block → Forall (P x) block) →
  y ∈ concat blocks → ∃ x, x ∈ xs ∧ P x y.
Proof.
  intros Hall HR. induction Hall as [|x block xs blocks Hx _ IH]; simpl.
  { by intros ?%elem_of_nil. }
  intros [Hy|Hy]%elem_of_app.
  - exists x. split; [left|]. specialize (HR x block Hx).
    rewrite Forall_forall in HR. by apply HR.
  - destruct (IH Hy) as (x' & Hx' & HP). exists x'. split; [by right|done].
Qed.

(** A loop whose body can raise, with an invariant that knows the elements
    already visited. *)
Lemma for_r_spec_prefix {X S} (I : list X → S → World → Prop) (xs : list X)
    (body : X → S → M (result S)) s w :
  I [] s w →
  (∀ pre x post s w, xs = pre ++ x :: post → I pre s w →
     wp (body x s) w (λ r w', match r with
                              | Ok s' => I (pre ++ [x]) s' w'
                              | Raise _ => True
                              end)) →
  wp (for_r xs body s) w (λ r w', match r with
                                  | Ok s' => I xs s' w'
                                  | Raise _ => True
                                  end).
Proof.
  assert (Hgen : ∀ pre xs' s w, xs = pre ++ xs' → I pre s w →
            (∀ pre x post s w, xs = pre ++ x :: post → I pre s w →
               wp (body x s) w (λ r w', match r with
                                        | Ok s' => I (pre ++ [x]) s' w'
                                        | Raise _ => True
                                        end)) →
            wp (for_r xs' body s) w (λ r w', match r with
                                             | Ok s' => I xs s' w'
                                             | Raise _ => True
                                             end)).
  { intros pre xs'. revert pre. induction xs' as [|x xs' IH]; intros pre s0 w0 Hxs HI Hbody.
    - simpl. apply wp_ret. rewrite Hxs, app_nil_r. done.
    - simpl. apply wp_bind. eapply wp_wand; [by eapply Hbody|].
      intros [s'|e] w' HI'; [|by apply wp_ret].
      apply (IH (pre ++ [x])); [|done|done]. by rewrite <- app_assoc. }
  intros HI Hbody. by apply (Hgen [] xs).
Qed.

Lemma append_nonempty_l (s t : string) : s ≠ ""%string → (s +:+ t)%string ≠ ""%string.
Proof. intros Hs. by destruct s. Qed.

Lemma submseteq_NoDup {A} (l k : list A) : l ⊆+ k → NoDup k → NoDup l.
Proof.
  intros [k' Hk]%submseteq_Permutation Hnodup. rewrite Hk in Hnodup.
  by apply NoDup_app in Hnodup as [? _].
Qed.

(** Computations that can raise or leave a search unfinished. *)
Lemma wpo_ret {A} E (a : A) w (Q : A → World → Prop) :
  Q a w → wpo E (ret (Some (Ok a))) w Q.
Proof. done. Qed.

Lemma wpo_bind {A B} E (m : M (option (result A))) (f : A → M (option (result B))) w Q :
  wpo E m w (λ a w', wpo E (f a) w' Q) → wpo E (bind_o m f) w Q.
Proof.
  unfold wpo, bind_o. intros Hm. apply wp_bind. eapply wp_wand; [exact Hm|].
  intros [[a|e]|] w' Hr; [done|by apply wp_ret|done].
Qed.

Lemma wpo_wand {A} E (m : M (option (result A))) w (Q Q' : A → World → Prop) :
  wpo E m w Q → (∀ a w', Q a w' → Q' a w') → wpo E m w Q'.
Proof.
  unfold wpo. intros Hm HQ. eapply wp_wand; [exact Hm|].
  intros [[a|e]|] w' Hr; [by apply HQ|done|done].
Qed.

Lemma wpo_lift {A} E (m : M A) w (Q : A → World → Prop) : wp m w Q → wpo E (lift m) w Q.
Proof.
  unfold wpo, lift. intros Hm. apply wp_bind. eapply wp_wand; [exact Hm|].
  intros a w' Ha. by apply wp_ret.
Qed.

Lemma wpo_lift_r {A} E (m : M (result A)) w (Q : A → World → Prop) :
  wp m w (λ r w', match r with Ok a => Q a w' | Raise e => E e end) →
  wpo E (lift_r m) w Q.
Proof.
  unfold wpo, lift_r. intros Hm. apply wp_bind. eapply wp_wand; [exact Hm|].
  intros r w' Hr. by apply wp_ret.
Qed.

Lemma for_o_spec_prefix {X S} E (I : list X → S → World → Prop) (xs : list X)
    (body : X → S → M (option (result S))) s w :
  I [] s w →
  (∀ pre x post s w, xs = pre ++ x :: post → I pre s w →
     wpo E (body x s) w (I (pre ++ [x]))) →
  wpo E (for_o xs body s) w (I xs).
Proof.
  assert (Hgen : ∀ pre xs' s w, xs = pre ++ xs' → I pre s w →
            (∀ pre x post s w, xs = pre ++ x :: post → I pre s w →
               wpo E (body x s) w (I (pre ++ [x]))) →
            wpo E (for_o xs' body s) w (I xs)).
  { intros pre xs'. revert pre. induction xs' as [|x xs' IH]; intros pre s0 w0 Hxs HI Hbody.
    - simpl. apply wpo_ret. rewrite Hxs, app_nil_r. done.
    - simpl. unfold wpo. apply wp_bind. eapply wp_wand; [by eapply Hbody|].
      intros [[s'|e]|] w' HI'; [|by apply wp_ret|done].
      apply (IH (pre ++ [x])); [|done|done]. by rewrite <- app_assoc. }
  intros HI Hbody. by apply (Hgen [] xs).
Qed.

Lemma wpo_run {A} E (m : M (option (result A))) w Q out w' :
  wpo E m w Q → m w = (out, w') →
  ∃ r, out = Some r ∧ match r with Ok a => Q a w' | Raise e => E e end.
Proof.
  unfold wpo. intros Hm Hrun. pose proof (wp_run _ _ _ _ _ Hm Hrun) as Hout.
  destruct out as [r|]; [|done]. by exists r.
Qed.

Lemma choice_r_spec {A} (xs : list A) w :
  wp (choice_r xs) w (λ r w', wall w' = wall w ∧
                              match r with
                              | Ok x => x ∈ xs
                              | Raise e => e = IndexError ∧ xs = []
                              end).
Proof.
  unfold choice_r. destruct xs as [|x xs]; [by apply wp_ret|].
  apply wp_bind. eapply wp_wand; [apply choice_spec|].
  intros v w' [Hv Hw]. apply wp_ret. split; [done|]. by apply Hv.
Qed.

Lemma string_length_app (s1 s2 : string) :
  String.length (s1 +:+ s2) = (String.length s1 + String.length s2)%nat.
Proof. induction s1 as [|c s1 IH]; simpl; [done|]. by rewrite IH. Qed.

(** The text before a common ending of two equal strings is the same. *)
Lemma string_app_inv_tail (s1 s2 t : string) : (s1 +:+ t = s2 +:+ t)%string → s1 = s2.
Proof.
  intros Heq.
  assert (Hlen : String.length s1 = String.length s2).
  { apply (f_equal String.length) in Heq. rewrite !string_length_app in Heq. lia. }
  revert s2 Heq Hlen. induction s1 as [|c s1 IH]; intros [|c2 s2] Heq Hlen;
    simpl in *; try done.
  injection Heq as -> Heq. f_equal. apply IH; [done|lia].
Qed.

(** [random.sample(population, k)] returns exactly [k] elements when the
    population has that many. *)
Lemma sample_length_eq {A} (population : list A) k w :
  (k <= length population)%nat →
  wp (sample population k) w (λ r _, length r = k).
Proof.
  revert population w. induction k as [|k IH]; intros population w Hk; simpl.
  { by apply wp_ret. }
  apply wp_bind. eapply wp_wand; [apply randint_spec|].
  intros i w1 [Hi _]. specialize (Hi ltac:(lia)).
  destruct (population !! Z.to_nat i) as [x|] eqn:Hx.
  - apply wp_bind. eapply wp_wand; [apply IH|].
    + rewrite length_delete by (by eexists). lia.
    + intros rest w2 Hrest. apply wp_ret. simpl in *. lia.
  - apply lookup_ge_None in Hx. lia.
Qed.

(** A function with pairwise distinct values on a list is one-to-one on
    it. *)
Lemma NoDup_fmap_inj_on {A B} (f : A → B) (l : list A) x y :
  NoDup (f <$> l) → x ∈ l → y ∈ l → f x = f y → x = y.
Proof.
  intros Hnodup [i Hi]%list_elem_of_lookup [j Hj]%list_elem_of_lookup Heq.
  assert (i = j) as ->.
  { eapply NoDup_lookup; [exact Hnodup| |].
    - by rewrite list_lookup_fmap, Hi.
    - by rewrite list_lookup_fmap, Hj, Heq. }
  congruence.
Qed.

(** ** Tasks: references, timestamps, dates and counts *)

Module TasksOutput.
Import Tasks.

Lemma sample_priority_spec w :
  wp _sample_priority w (λ r w', r ∈ ["high"; "medium"; "low"]%string ∧ wall w' = wall w).
Proof.
  unfold _sample_priority. eapply wp_wand; [apply choice_spec|].
  intros r w' [Hr Hw]. split; [by apply Hr|done].
Qed.

Lemma sample_task_duration_spec self w :
  wp (_sample_task_duration self) w (λ r w',
    1 <= r ∧
    ((task_duration_range self).1 <= (task_duration_range self).2 →
     (avg_task_duration self <= inject_Z (task_duration_range self).2)%Q →
     r <= Z.max 1 (task_duration_range self).2) ∧
    wall w' = wall w).
Proof.
  unfold _sample_task_duration. wp_step. eapply wp_wand; [apply triangular_int_spec|].
  intros d w' (Hd & _ & Hw). wp_step. split_and!; [lia| |done].
  intros Hle Hmode. specialize (Hd Hle Hmode). lia.
Qed.

Lemma sample_status_spec priority age_days w :
  wp (_sample_status priority age_days) w (λ r w',
    r ∈ ["completed"; "in_progress"; "not_started"]%string ∧ wall w' = wall w).
Proof.
  unfold _sample_status. wp_step. eapply wp_wand; [apply flip_spec|].
  intros is_completed w1 Hw1. destruct is_completed.
  - wp_step. split; [left|done].
  - eapply wp_wand; [apply choice_spec|]. intros r w2 [Hr Hw2].
    split; [|congruence]. right. by apply Hr.
Qed.

Lemma sample_due_date_spec created_at duration_days priority w :
  wp (_sample_due_date created_at duration_days priority) w (λ r w',
    (∀ d, r = Some d → d = date_of created_at + duration_days) ∧ wall w' = wall w).
Proof.
  unfold _sample_due_date. wp_step. eapply wp_wand; [apply flip_spec|].
  intros no_due_date w1 Hw1. destruct no_due_date; wp_step; (split; [|done]).
  - by intros d.
  - intros d [= <-]. apply date_of_plus_days.
Qed.

Lemma task_name_templates_nonempty project_type :
  task_name_templates project_type ≠ [] ∧
  Forall (λ template, template.1 ≠ ""%string) (task_name_templates project_type).
Proof.
  unfold task_name_templates.
  repeat (destruct (String.eqb project_type _));
    (split; [done|repeat constructor; done]).
Qed.

Lemma generate_task_name_spec project_type w :
  wp (_generate_task_name project_type) w (λ r w', r ≠ ""%string ∧ wall w' = wall w).
Proof.
  unfold _generate_task_name.
  destruct (task_name_templates_nonempty project_type) as [Hne Hall].
  wp_step. eapply wp_wand; [apply choice_spec|]. intros template w1 [Ht Hw1].
  wp_step. eapply wp_wand; [apply choice_spec|]. intros placeholder w2 [_ Hw2].
  wp_step. split; [|congruence].
  rewrite Forall_forall in Hall. specialize (Hall template (Ht Hne)).
  unfold format1. destruct template as [[|c before] after]; [done|]. done.
Qed.

Lemma generate_task_description_spec task_name w :
  wp (_generate_task_description task_name) w (λ _ w', wall w' = wall w).
Proof. unfold _generate_task_description. wp_auto; congruence. Qed.

Ltac wp_spec ::=
  lazymatch goal with
  | |- wp _sample_priority _ _ => eapply wp_wand; [apply sample_priority_spec|]
  | |- wp (_sample_task_duration _) _ _ =>
      eapply wp_wand; [apply sample_task_duration_spec|]
  | |- wp (_sample_created_at _ _) _ _ =>
      eapply wp_wand; [apply TasksFacts.task_created_at_le_now|]
  | |- wp (_sample_status _ _) _ _ => eapply wp_wand; [apply sample_status_spec|]
  | |- wp (_sample_due_date _ _ _) _ _ => eapply wp_wand; [apply sample_due_date_spec|]
  | |- wp (_sample_completed_at _ _ _) _ _ =>
      eapply wp_wand; [apply TasksFacts.task_completed_at_spec|]
  | |- wp (_generate_task_name _) _ _ =>
      eapply wp_wand; [apply generate_task_name_spec|]
  | |- wp (_generate_task_description _) _ _ =>
      eapply wp_wand; [apply generate_task_description_spec|]
  end.

(** The section a task is filed under is one of the sections of its
    project, whatever its status. *)
Lemma section_of_status (status : string) (project_sections : list Section.t) s0 :
  s0 ∈ project_sections →
  (if String.eqb status "completed" then
     next_or (λ s, Str.contains "done" (Str.lower (Section.name s)))
             project_sections (default s0 (last project_sections))
   else if String.eqb status "in_progress" then
     next_or (λ s, Str.contains "progress" (Str.lower (Section.name s)))
             project_sections
             (default s0 (project_sections !! (length project_sections `div` 2)%nat))
   else
     next_or (λ s, existsb (λ word, Str.contains word (Str.lower (Section.name s)))
                           ["todo"; "backlog"; "new"]%string)
             project_sections s0) ∈ project_sections.
Proof.
  intros Hs0. repeat destruct (String.eqb status _); apply next_or_elem_of;
    [by apply default_last_elem_of|by apply default_lookup_elem_of|done].
Qed.

(** Everything [generate_task] establishes about one task. *)
Lemma generate_task_facts self project project_sections s0 team_users u0 w :
  s0 ∈ project_sections → u0 ∈ team_users →
  wp (generate_task self project project_sections s0 team_users u0) w (λ t w',
    wall w <= wall w' ∧
    task_refers_to project project_sections team_users t ∧
    task_timed (wall w') t ∧
    task_scheduled self (wall w') t).
Proof.
  intros Hs0 Hu0. unfold generate_task.
  assert (Husers : team_users ≠ []) by (intros ->; by apply elem_of_nil in Hu0).
  wp_step. wp_step. intros priority w1 [Hpriority Hw1].
  wp_step. wp_step. intros duration_days w2 (Hd1 & Hd2 & Hw2).
  wp_step. wp_step. intros assignee w3 [Hassignee Hw3]. specialize (Hassignee Husers).
  wp_step. wp_step. intros created_at w4 [Hcreated Hw4].
  wp_step. wp_step. intros now w5 [-> Hw5].
  wp_step. wp_step. intros status w6 [Hstatus Hw6].
  wp_step. wp_step. intros due_date w7 [Hdue Hw7].
  wp_step. wp_step; [lia|]. intros completed_at w8 [Hw8 Hcompleted].
  wp_step. wp_step. intros task_name w9 [Hname Hw9].
  wp_step. wp_step. intros description w10 Hw10.
  pose proof (section_of_status status project_sections s0 Hs0) as Hsection.
  pose proof (td_days_nonneg (wall w5 - created_at) ltac:(lia)) as Hage.
  pose proof (td_days_le (wall w5 - created_at)) as Hage'.
  wp_step.
  eapply wp_wand with (Q := λ start_date w', wall w' = wall w10 ∧
    (∀ s, start_date = Some s →
       date_of created_at <= s <= date_of created_at + 3 ∧ s <= date_of (wall w5)) ∧
    (status ≠ "not_started"%string → start_date ≠ None)).
  { destruct (String.eqb status "not_started") eqn:Hns.
    - wp_step. split; [done|]. split; [done|]. by apply String.eqb_eq in Hns.
    - wp_step. eapply wp_wand; [apply randint_spec|]. intros k w11 [Hk Hw11].
      specialize (Hk ltac:(lia)). wp_step. split; [done|]. split; [|done].
      intros s [= <-]. rewrite date_of_plus_days. split; [lia|].
      rewrite <- (date_of_plus_days created_at k). apply date_of_mono.
      unfold_units. lia. }
  intros start_date w11 (Hw11 & Hstart & Hstarted).
  wp_step. wp_step. intros task_id w12 Hw12.
  wp_step. wp_step. intros creator w13 [Hcreator Hw13]. specialize (Hcreator Husers).
  wp_step. cbv beta in *. split; [lia|].
  assert (Hnow : wall w5 <= wall w13) by lia.
  split_and!.
  - unfold task_refers_to. simpl. split_and!; try done.
    + eexists. split; [exact Hsection|done].
    + by exists assignee.
    + by exists creator.
    + by exists priority.
  - unfold task_timed. simpl. split_and!; [lia| |done].
    intros c ->. destruct Hcompleted as (_ & Hc1 & Hc2). lia.
  - unfold task_scheduled. simpl. split_and!.
    + intros d Hd. rewrite (Hdue d Hd). split; [lia|]. intros Hle Hmode.
      specialize (Hd2 Hle Hmode). lia.
    + intros s Hs. destruct (Hstart s Hs) as [Hs1 Hs2]. split; [done|].
      pose proof (date_of_mono _ _ Hnow). lia.
    + intros Hdone. apply Hstarted. apply String.eqb_eq in Hdone. by rewrite Hdone.
Qed.

Lemma task_projects_elem_of projects p : p ∈ task_projects projects → p ∈ projects.
Proof. intros Hp. by apply TasksFacts.selected_projects in Hp as [? _]. Qed.

(** The loops of [generate]: a property that [generate_task] establishes
    for each task, and that the passing of time preserves, holds of every
    task of the output. *)
Lemma tasks_generate_inv self projects sections users tags w
    (P : Project.t → Task.t → World → Prop) :
  (∀ p t w1 w2, wall w1 <= wall w2 → P p t w1 → P p t w2) →
  (∀ project s0 team_users u0 w1,
     project ∈ task_projects projects → s0 ∈ sections_in sections project →
     u0 ∈ team_users → (∀ u, u ∈ team_users → u ∈ users) →
     wp (generate_task self project (sections_in sections project) s0 team_users u0) w1
        (λ t w2, wall w1 <= wall w2 ∧ P project t w2)) →
  wp (generate self projects sections users tags) w (λ r w',
    match r with
    | Ok tasks => Forall (λ t, ∃ p, p ∈ task_projects projects ∧ P p t w') tasks
    | Raise _ => True
    end).
Proof.
  intros Hmono Htask. unfold generate.
  destruct (match filter _ projects with [] => projects | _ => _ end)
    as [|p0 ps] eqn:Hactive.
  { by apply wp_ret. }
  assert (Hsel : task_projects projects = p0 :: ps) by exact Hactive.
  set (Q := λ w' t, ∃ p, p ∈ task_projects projects ∧ P p t w').
  set (I := λ (tasks : list Task.t) (w' : World), Forall (Q w') tasks).
  assert (Hlater : ∀ tasks w1 w2, wall w1 <= wall w2 → I tasks w1 → I tasks w2).
  { intros tasks w1 w2 Hw HI. eapply Forall_impl; [exact HI|]. intros t (p & Hp & HP).
    exists p. split; [done|]. by eapply Hmono. }
  apply wp_bind. eapply wp_wand with (Q := I).
  2: { intros tasks w' Htasks. by apply wp_ret. }
  apply (for_spec I); [by constructor|].
  intros project tasks w1 Hproject Htasks. rewrite <- Hsel in Hproject.
  pose proof (TasksFacts.group_by_lookup Section.project_id sections
                (Project.project_id project)) as Hgroup.
  fold (sections_in sections project) in Hgroup.
  destruct (default [] _) as [|s0 ss]; [by apply wp_ret|].
  assert (Hs0 : s0 ∈ sections_in sections project) by (rewrite <- Hgroup; left).
  match goal with
  | |- wp (match (match ?c with [] => users | _ => _ end) with _ => _ end) _ _ =>
      set (by_dept := c)
  end.
  assert (Hsub : ∀ u, u ∈ by_dept → u ∈ users).
  { unfold by_dept.
    destruct (_ !! Project.project_id project) as [owner|]; [|by intros u ?%elem_of_nil].
    rewrite TasksFacts.group_by_lookup. by intros u [_ ?]%list_elem_of_filter. }
  clearbody by_dept.
  assert (Hinner : ∀ team_users u0, u0 ∈ team_users → (∀ u, u ∈ team_users → u ∈ users) →
            wp (for_ (range (_calculate_total_tasks self users projects
                               `div` Z.of_nat (length (p0 :: ps))))
                     (λ _ tasks,
                        task ← generate_task self project (s0 :: ss) s0 team_users u0;
                        ret (tasks ++ [task])) tasks) w1 I).
  { intros team_users u0 Hu0 Hteam. apply (for_spec I); [done|].
    intros _ tasks' w2 _ Htasks'. apply wp_bind. rewrite Hgroup.
    eapply wp_wand; [by apply Htask|].
    intros task w3 [Hw3 HP]. apply wp_ret. apply Forall_app. split.
    - by eapply Hlater.
    - apply Forall_singleton. by exists project. }
  destruct by_dept as [|b bs].
  - destruct users as [|u0 us]; [by apply wp_ret|]. apply Hinner; [left|done].
  - apply Hinner; [left|done].
Qed.


(** The inner loop of [generate] appends one task of the project per
    iteration. *)
Lemma generate_tasks_of_project self project project_sections s0 team_users u0 n tasks w :
  wp (for_ (range n)
           (λ _ tasks,
              task ← generate_task self project project_sections s0 team_users u0;
              ret (tasks ++ [task])) tasks) w
     (λ s _, ∃ block, s = tasks ++ block ∧ length block = Z.to_nat n ∧
        Forall (λ t, Task.project_id t = Some (Project.project_id project)) block).
Proof.
  set (I := λ (pre : list Z) (s : list Task.t) (_ : World),
    ∃ block, s = tasks ++ block ∧ length block = length pre ∧
      Forall (λ t, Task.project_id t = Some (Project.project_id project)) block).
  eapply wp_wand with (Q := I (range n)).
  - apply (for_spec_prefix I).
    + exists []. by rewrite app_nil_r.
    + intros pre i post s w1 _ (block & -> & Hlen & Hall).
      apply wp_bind. eapply wp_wand; [apply TasksFacts.generate_task_spec|].
      intros task w2 [_ Hid]. apply wp_ret. exists (block ++ [task]).
      rewrite <- app_assoc, !length_app, Hlen. split_and!; [done..|].
      apply Forall_app. split; [done|]. by apply Forall_singleton.
  - intros s w1 (block & -> & Hlen & Hall). exists block.
    by rewrite Hlen, length_range.
Qed.

Lemma tasks_generate_blocks self projects sections users tags w :
  wp (generate self projects sections users tags) w (λ r _,
    match r with
    | Ok tasks =>
        ∃ blocks, tasks = concat blocks ∧
          Forall2 (block_of_project self projects sections users)
                  (task_projects projects) blocks
    | Raise _ => True
    end).
Proof.
  unfold generate.
  destruct (match filter _ projects with [] => projects | _ => _ end)
    as [|p0 ps] eqn:Hactive.
  { by apply wp_ret. }
  assert (Hsel : task_projects projects = p0 :: ps) by exact Hactive.
  rewrite <- Hsel. fold (tasks_per_project self users projects).
  set (I := λ (pre : list Project.t) (tasks : list Task.t) (_ : World),
    ∃ blocks, tasks = concat blocks ∧
      Forall2 (block_of_project self projects sections users) pre blocks).
  apply wp_bind. eapply wp_wand with (Q := I (task_projects projects)).
  2: { intros tasks w' Htasks. by apply wp_ret. }
  apply (for_spec_prefix I).
  { exists []. split; [done|constructor]. }
  intros pre project post tasks w1 _ (blocks & -> & Hblocks).
  assert (Hdone : ∀ block, block_of_project self projects sections users project block →
            I (pre ++ [project]) (concat blocks ++ block) w1).
  { intros block Hblock. exists (blocks ++ [block]). split.
    - rewrite concat_app. simpl. by rewrite app_nil_r.
    - apply Forall2_app; [done|]. by constructor. }
  pose proof (TasksFacts.group_by_lookup Section.project_id sections
                (Project.project_id project)) as Hgroup.
  fold (sections_in sections project) in Hgroup.
  destruct (default [] _) as [|s0 ss].
  { apply wp_ret. rewrite <- (app_nil_r (concat blocks)). apply Hdone.
    split; [constructor|]. by rewrite <- Hgroup. }
  assert (Hinner : ∀ team_users u0,
            wp (for_ (range (tasks_per_project self users projects))
                     (λ _ tasks,
                        task ← generate_task self project (s0 :: ss) s0 team_users u0;
                        ret (tasks ++ [task])) (concat blocks)) w1
               (I (pre ++ [project]))).
  { intros team_users u0. eapply wp_wand; [apply generate_tasks_of_project|].
    intros s w2 (block & -> & Hlen & Hall). apply Hdone.
    split; [done|]. by rewrite <- Hgroup. }
  match goal with
  | |- wp (match (match ?c with [] => users | _ => _ end) with _ => _ end) _ _ =>
      destruct c as [|b bs]
  end; [|by apply Hinner].
  destruct users as [|u0 us]; [|by apply Hinner].
  apply wp_ret. rewrite <- (app_nil_r (concat blocks)). apply Hdone.
  split; [constructor|]. rewrite <- Hgroup. unfold tasks_per_project.
  by rewrite TasksFacts.no_users_no_tasks.
Qed.

(** X1: every task of the output carries the identifier of a project of
    the input, of a section of the input that belongs to that project, and
    of users of the input as assignee and creator; it has no parent task, a
    name that is not empty and one of the three priorities. *)
Theorem X1_tasks_reference_their_inputs self projects sections users tags w tasks w' :
  generate self projects sections users tags w = (Ok tasks, w') →
  ∀ t, t ∈ tasks →
    ∃ p s a c,
      p ∈ projects ∧ s ∈ sections ∧ a ∈ users ∧ c ∈ users ∧
      Task.project_id t = Some (Project.project_id p) ∧
      Task.section_id t = Some (Section.section_id s) ∧
      Section.project_id s = Project.project_id p ∧
      Task.assignee_id t = Some (User.user_id a) ∧
      Task.created_by t = User.user_id c ∧
      Task.parent_task_id t = None ∧
      Task.name t ≠ ""%string ∧
      ∃ priority, Task.priority t = Some priority ∧
                  priority ∈ ["high"; "medium"; "low"]%string.
Proof.
  intros Hrun t Ht.
  assert (Hwp := tasks_generate_inv self projects sections users tags w
    (λ p t _, ∃ team_users, (∀ u, u ∈ team_users → u ∈ users) ∧
                task_refers_to p (sections_in sections p) team_users t)).
  lapply Hwp; clear Hwp; [|by intros].
  intros Hwp. lapply Hwp; clear Hwp.
  - intros Hwp. apply (wp_run _ _ _ _ _ Hwp) in Hrun.
    rewrite Forall_forall in Hrun.
    destruct (Hrun t Ht) as (p & Hp & team_users & Hteam & Hrefs).
    destruct Hrefs as (Hpid & (s & Hs & Hsid) & (a & Ha & Haid) & (c & Hc & Hcid) & Hrest).
    apply list_elem_of_filter in Hs as [Hsp Hs].
    exists p, s, a, c. split_and!; try done; auto using task_projects_elem_of.
    all: by destruct Hrest as (? & ? & ?).
  - intros project s0 team_users u0 w1 Hproject Hs0 Hu0 Hteam.
    eapply wp_wand; [by apply generate_task_facts|].
    intros task w2 (Hw2 & Hrefs & _). split; [done|]. by exists team_users.
Qed.

Lemma X1_tasks_reference_their_inputs_witness :
  ∃ tasks w' t,
    generate Examples.task_generator [Examples.project_1] [Examples.section_1]
             [Examples.user_1] [] Examples.late_hour_world = (Ok tasks, w') ∧
    head tasks = Some t ∧
    Task.project_id t = Some "project-1"%string ∧
    Task.section_id t = Some "section-1"%string ∧
    Task.assignee_id t = Some "user-1"%string ∧
    Task.created_by t = "user-1"%string.
Proof.
  eexists _, _, _. split; [vm_compute; reflexivity|]. split; [reflexivity|].
  edestruct (X1_tasks_reference_their_inputs Examples.task_generator
               [Examples.project_1] [Examples.section_1] [Examples.user_1] []
               Examples.late_hour_world)
    as (p & s & a & c & Hp & Hs & Ha & Hc & Hpid & Hsid & _ & Haid & Hcid & _).
  { vm_compute; reflexivity. }
  { apply list_elem_of_here. }
  apply list_elem_of_singleton in Hp, Hs, Ha, Hc. subst p s a c.
  split; [exact Hpid|]. split; [exact Hsid|]. split; [exact Haid|exact Hcid].
Defined.

(** X2: no task of the output is created after the clock reading at the
    end of the run; a completion time lies between the creation time and
    that reading; and [modified_at] is the completion time of a completed
    task and the creation time of any other. *)
Theorem X2_task_timestamps_not_in_the_future
    self projects sections users tags w tasks w' :
  generate self projects sections users tags w = (Ok tasks, w') →
  ∀ t, t ∈ tasks →
    Task.created_at t <= wall w' ∧
    (∀ c, Task.completed_at t = Some c → Task.created_at t <= c <= wall w') ∧
    Task.modified_at t = Some (default (Task.created_at t) (Task.completed_at t)).
Proof.
  intros Hrun t Ht.
  assert (Hwp := tasks_generate_inv self projects sections users tags w
    (λ _ t w', task_timed (wall w') t)).
  lapply Hwp; clear Hwp.
  2: { intros _ t' w1 w2 Hw (Hcreated & Hcompleted & Hmodified).
       split_and!; [lia| |done]. intros c Hc. specialize (Hcompleted c Hc). lia. }
  intros Hwp. lapply Hwp; clear Hwp.
  - intros Hwp. apply (wp_run _ _ _ _ _ Hwp) in Hrun.
    rewrite Forall_forall in Hrun. by destruct (Hrun t Ht) as (p & _ & Htimed).
  - intros project s0 team_users u0 w1 Hproject Hs0 Hu0 Hteam.
    eapply wp_wand; [by apply generate_task_facts|].
    by intros task w2 (Hw2 & _ & Htimed & _).
Qed.

Lemma X2_task_timestamps_not_in_the_future_witness :
  ∃ tasks w' t c,
    generate Examples.task_generator [Examples.project_1] [Examples.section_1]
             [Examples.user_1] [] MoreExamples.completing_world = (Ok tasks, w') ∧
    head tasks = Some t ∧ Task.completed_at t = Some c ∧
    Task.created_at t <= c <= wall w' ∧ Task.modified_at t = Some c.
Proof.
  eexists _, _, _, _. split; [vm_compute; reflexivity|]. split; [reflexivity|].
  split; [reflexivity|].
  edestruct (X2_task_timestamps_not_in_the_future Examples.task_generator
               [Examples.project_1] [Examples.section_1] [Examples.user_1] []
               MoreExamples.completing_world)
    as (_ & Hcompleted & Hmodified).
  { vm_compute; reflexivity. }
  { apply list_elem_of_here. }
  split; [by apply Hcompleted|]. exact Hmodified.
Defined.

(** X3: a due date falls after the day the task was created, by at most
    the longest task duration when the range of durations is not empty and
    the average duration, the mode of the triangular draw, is not above its
    upper end (each step of the library's computation is monotone, so the
    bound holds for the floats of the source as for the exact values); a
    start date falls on the creation day or
    one of the three days after it and not after the day of the clock
    reading at the end of the run; and every completed task has a start
    date. *)
Theorem X3_task_dates_follow_creation self projects sections users tags w tasks w' :
  generate self projects sections users tags w = (Ok tasks, w') →
  ∀ t, t ∈ tasks →
    (∀ d, Task.due_date t = Some d →
       date_of (Task.created_at t) < d ∧
       ((task_duration_range self).1 <= (task_duration_range self).2 →
        (avg_task_duration self <= inject_Z (task_duration_range self).2)%Q →
        d <= date_of (Task.created_at t) + Z.max 1 (task_duration_range self).2)) ∧
    (∀ s, Task.start_date t = Some s →
       date_of (Task.created_at t) <= s <= date_of (Task.created_at t) + 3 ∧
       s <= date_of (wall w')) ∧
    (Task.completed t = true → Task.start_date t ≠ None).
Proof.
  intros Hrun t Ht.
  assert (Hwp := tasks_generate_inv self projects sections users tags w
    (λ _ t w', task_scheduled self (wall w') t)).
  lapply Hwp; clear Hwp.
  2: { intros _ t' w1 w2 Hw (Hdue & Hstart & Hdone).
       split_and!; [done| |done]. intros s Hs. destruct (Hstart s Hs) as [? ?].
       split; [done|]. pose proof (date_of_mono _ _ Hw). lia. }
  intros Hwp. lapply Hwp; clear Hwp.
  - intros Hwp. apply (wp_run _ _ _ _ _ Hwp) in Hrun.
    rewrite Forall_forall in Hrun. by destruct (Hrun t Ht) as (p & _ & Hscheduled).
  - intros project s0 team_users u0 w1 Hproject Hs0 Hu0 Hteam.
    eapply wp_wand; [by apply generate_task_facts|].
    by intros task w2 (Hw2 & _ & _ & Hscheduled).
Qed.

Lemma X3_task_dates_follow_creation_witness :
  ∃ tasks w' t d s,
    generate Examples.task_generator [Examples.project_1] [Examples.section_1]
             [Examples.user_1] [] MoreExamples.completing_world = (Ok tasks, w') ∧
    head tasks = Some t ∧ Task.due_date t = Some d ∧ Task.start_date t = Some s ∧
    date_of (Task.created_at t) < d <= date_of (Task.created_at t) + 30 ∧
    date_of (Task.created_at t) <= s <= date_of (wall w').
Proof.
  eexists _, _, _, _, _. split; [vm_compute; reflexivity|]. split; [reflexivity|].
  split; [reflexivity|]. split; [reflexivity|].
  edestruct (X3_task_dates_follow_creation Examples.task_generator
               [Examples.project_1] [Examples.section_1] [Examples.user_1] []
               MoreExamples.completing_world)
    as (Hdue & Hstart & _).
  { vm_compute; reflexivity. }
  { apply list_elem_of_here. }
  split.
  - edestruct Hdue as [Hlo Hhi]; [reflexivity|]. split; [exact Hlo|].
    apply Hhi; by vm_compute.
  - edestruct Hstart as [[Hlo _] Hhi]; [reflexivity|]. split; [exact Hlo|exact Hhi].
Defined.

(** X4: the output consists of one block of tasks per selected project,
    in the order of the projects: [total_tasks // len(active_projects)]
    tasks for a project that has a section and none for a project that has
    no section.  The division drops the remainder, so the output is never
    longer than the total asked for. *)
Theorem X4_tasks_per_selected_project self projects sections users tags w tasks w' :
  generate self projects sections users tags w = (Ok tasks, w') →
  (∃ blocks, tasks = concat blocks ∧
     Forall2 (λ p block,
                Forall (λ t, Task.project_id t = Some (Project.project_id p)) block ∧
                length block = match sections_in sections p with
                               | [] => 0%nat
                               | _ => Z.to_nat (tasks_per_project self users projects)
                               end)
             (task_projects projects) blocks) ∧
  Z.of_nat (length tasks) <= Z.max 0 (_calculate_total_tasks self users projects).
Proof.
  intros Hrun.
  destruct (wp_run _ _ _ _ _ (tasks_generate_blocks self projects sections users tags w) Hrun)
    as (blocks & -> & Hblocks).
  split; [by exists blocks|].
  pose proof (length_concat_le _ (Z.to_nat (tasks_per_project self users projects))
                _ _ Hblocks) as Hlen.
  lapply Hlen; clear Hlen.
  2: { intros p block [_ ->]. destruct (sections_in sections p); lia. }
  intros Hlen. unfold tasks_per_project in *.
  set (total := _calculate_total_tasks self users projects) in *.
  set (n := length (task_projects projects)) in *.
  destruct (decide (n = 0%nat)) as [Hn|Hn]; [lia|].
  destruct (decide (total < 0)) as [Hneg|Hpos].
  - assert (total `div` Z.of_nat n < 0) by (apply Z.div_lt_upper_bound; lia). lia.
  - pose proof (Z.mul_div_le total (Z.of_nat n) ltac:(lia)).
    assert (0 <= total `div` Z.of_nat n) by (apply Z.div_pos; lia). nia.
Qed.

Lemma X4_tasks_per_selected_project_witness :
  ∃ tasks w',
    generate Examples.task_generator
             [Examples.project "project-0" "active" 0; Examples.project_1]
             [Examples.section_1] [Examples.user_1] [] Examples.late_hour_world
      = (Ok tasks, w') ∧
    length tasks = 6%nat ∧
    Z.of_nat (length tasks) <=
      Z.max 0 (_calculate_total_tasks Examples.task_generator [Examples.user_1]
                 [Examples.project "project-0" "active" 0; Examples.project_1]).
Proof.
  eexists _, _. split; [vm_compute; reflexivity|]. split; [reflexivity|].
  edestruct (X4_tasks_per_selected_project Examples.task_generator
               [Examples.project "project-0" "active" 0; Examples.project_1]
               [Examples.section_1] [Examples.user_1] [] Examples.late_hour_world)
    as [_ Hle].
  { vm_compute; reflexivity. }
  exact Hle.
Defined.

End TasksOutput.

(** ** Dependencies: projects and numbers of blockers *)

Module DependenciesOutput.
Import Dependencies.

Lemma append_to_keys k t d :
  Task.project_id t = k →
  Forall (λ e, Forall (λ t, Task.project_id t = e.1) e.2) d →
  Forall (λ e, Forall (λ t, Task.project_id t = e.1) e.2) (append_to k t d).
Proof.
  intros Hk. induction 1 as [|[k' ts] d He Hd IH]; simpl.
  - repeat constructor. done.
  - case_bool_decide as Hkey; constructor; try done. simpl in *.
    apply Forall_app. split; [done|]. apply Forall_singleton. congruence.
Qed.

(** The tasks grouped under a key carry that key as project. *)
Lemma group_tasks_keys tasks :
  Forall (λ e, Forall (λ t, Task.project_id t = e.1) e.2) (group_tasks tasks).
Proof.
  unfold group_tasks.
  assert (Hgen : ∀ d, Forall (λ e, Forall (λ t, Task.project_id t = e.1) e.2) d →
    Forall (λ e, Forall (λ t, Task.project_id t = e.1) e.2)
           (foldl (λ d task, append_to (Task.project_id task) task d) d tasks)).
  { induction tasks as [|t tasks IH]; intros d Hd; simpl; [done|].
    apply IH. by apply append_to_keys. }
  apply Hgen. constructor.
Qed.

Lemma sorted_groups_one_project tasks g a b :
  g ∈ sorted_groups tasks → a ∈ g → b ∈ g → Task.project_id a = Task.project_id b.
Proof.
  intros (e & -> & He)%list_elem_of_fmap Ha Hb.
  pose proof (group_tasks_keys tasks) as Hkeys. rewrite Forall_forall in Hkeys.
  specialize (Hkeys e He). rewrite Forall_forall in Hkeys.
  rewrite stable_sort_Permutation in Ha, Hb.
  by rewrite (Hkeys a Ha), (Hkeys b Hb).
Qed.

(** X5: a dependency never crosses projects: the two tasks a record
    relates are tasks of the input that carry the same project. *)
Theorem X5_dependencies_stay_within_a_project tasks w deps w' :
  generate tasks w = (Ok deps, w') →
  ∀ r, r ∈ deps →
    ∃ d b, d ∈ tasks ∧ b ∈ tasks ∧
      TaskDependency.dependent_task_id r = Task.task_id d ∧
      TaskDependency.dependency_task_id r = Task.task_id b ∧
      Task.project_id d = Task.project_id b.
Proof.
  intros (s & -> & Hs)%dependencies_run r Hr.
  destruct Hs as (Hmade & _ & _). rewrite Forall_forall in Hmade.
  destruct (Hmade r Hr) as (g & Hg & i & j & d & b & Hd & Hb & _ & Hid & Hib & _).
  apply list_elem_of_lookup_2 in Hd, Hb.
  assert (Hin : ∀ t, t ∈ g → t ∈ tasks).
  { intros t Ht. rewrite <- (DependenciesFacts.sorted_groups_Permutation tasks).
    apply elem_of_concat. by exists g. }
  exists d, b. split_and!; auto. by eapply sorted_groups_one_project.
Qed.

Lemma X5_dependencies_stay_within_a_project_witness :
  ∃ deps w' r,
    generate [Examples.task_a; MoreExamples.task_elsewhere; Examples.task_b]
             MoreExamples.two_projects_world = (Ok deps, w') ∧
    deps = [r] ∧
    ∃ d b, d ∈ [Examples.task_a; MoreExamples.task_elsewhere; Examples.task_b] ∧
      b ∈ [Examples.task_a; MoreExamples.task_elsewhere; Examples.task_b] ∧
      TaskDependency.dependent_task_id r = Task.task_id d ∧
      TaskDependency.dependency_task_id r = Task.task_id b ∧
      Task.project_id d = Task.project_id b.
Proof.
  eexists _, _, _. split; [vm_compute; reflexivity|]. split; [reflexivity|].
  edestruct (X5_dependencies_stay_within_a_project
               [Examples.task_a; MoreExamples.task_elsewhere; Examples.task_b]
               MoreExamples.two_projects_world)
    as (d & b & Hd & Hb & Hid & Hib & Hsame).
  { vm_compute; reflexivity. }
  { apply list_elem_of_here. }
  exists d, b. split_and!; [exact Hd|exact Hb|exact Hid|exact Hib|exact Hsame].
Defined.

(** The counting dictionary holds, under each key that occurs, the number
    of elements with that key. *)
Lemma count_by_lookup `{Countable K} {A} (key : A → K) (xs : list A) (k : K) n :
  count_by key xs !! k = Some n →
  n = Z.of_nat (length (filter (λ x, key x = k) xs)) ∧ 1 <= n.
Proof.
  unfold count_by.
  assert (Hgen : ∀ m : gmap K Z,
    (∀ k v, m !! k = Some v → 1 <= v) →
    foldl (λ m x, <[key x := default 0 (m !! key x) + 1]> m) m xs !! k = Some n →
    n = default 0 (m !! k) + Z.of_nat (length (filter (λ x, key x = k) xs)) ∧ 1 <= n).
  { induction xs as [|x xs IH]; intros m Hm; simpl.
    - intros Hn. rewrite Hn. simpl. split; [lia|]. by eapply Hm.
    - intros Hn. apply IH in Hn.
      + destruct Hn as [-> Hn]. split; [|done].
        destruct (decide (key x = k)) as [Hk|Hk].
        * rewrite filter_cons_True by done. rewrite Hk, lookup_insert_eq. simpl. lia.
        * rewrite filter_cons_False by done. by rewrite lookup_insert_ne.
      + intros k' v. destruct (decide (key x = k')) as [<-|Hk'].
        * rewrite lookup_insert_eq. intros [= <-].
          destruct (m !! key x) as [v'|] eqn:Hv; simpl; [|lia].
          specialize (Hm _ _ Hv). lia.
        * rewrite lookup_insert_ne by done. apply Hm. }
  intros Hn. apply Hgen in Hn; [|by intros k' v; rewrite lookup_empty].
  by rewrite lookup_empty in Hn.
Qed.

Lemma add_dependency_block d b s w :
  wp (add_dependency d b s) w (λ s' _,
    ∃ block, dependencies s' = dependencies s ++ block ∧ (length block <= 1)%nat ∧
      Forall (λ r, TaskDependency.dependent_task_id r = Task.task_id d) block).
Proof.
  unfold add_dependency. case_bool_decide.
  - apply wp_ret. exists []. rewrite app_nil_r. split_and!; [done|simpl; lia|constructor].
  - wp_auto. eexists [_]. simpl. split_and!; [done|lia|]. by apply Forall_singleton.
Qed.

Lemma add_dependencies_block d blockers s w :
  wp (for_ blockers (add_dependency d) s) w (λ s' _,
    ∃ block, dependencies s' = dependencies s ++ block ∧
      (length block <= length blockers)%nat ∧
      Forall (λ r, TaskDependency.dependent_task_id r = Task.task_id d) block).
Proof.
  set (I := λ (pre : list Task.t) (s' : state) (_ : World),
    ∃ block, dependencies s' = dependencies s ++ block ∧
      (length block <= length pre)%nat ∧
      Forall (λ r, TaskDependency.dependent_task_id r = Task.task_id d) block).
  apply (for_spec_prefix I).
  - exists []. rewrite app_nil_r. split_and!; [done|simpl; lia|constructor].
  - intros pre b post s1 w1 _ (block & Hdeps & Hlen & Hall).
    eapply wp_wand; [apply add_dependency_block|].
    intros s2 w2 (block' & Hdeps' & Hlen' & Hall'). exists (block ++ block').
    rewrite Hdeps', Hdeps, <- app_assoc, !length_app. simpl.
    split_and!; [done|lia|]. by apply Forall_app.
Qed.

Lemma visit_task_block g (i : nat) d s w :
  wp (visit_task g (i, d) s) w (λ s' _,
    ∃ block, dependencies s' = dependencies s ++ block ∧ blockers_block (i, d) block).
Proof.
  unfold visit_task, _should_have_dependency, _sample_num_dependencies.
  assert (Hnone : ∃ block, dependencies s = dependencies s ++ block ∧
                           blockers_block (i, d) block).
  { exists []. rewrite app_nil_r. split; [done|].
    split_and!; [simpl; lia|simpl; lia|constructor]. }
  wp_step. wp_step. intros has_dependency w1 _.
  destruct has_dependency; simpl; [|by apply wp_ret].
  destruct (take i g) as [|b0 bs] eqn:Htake; [by apply wp_ret|]. rewrite <- Htake.
  wp_step. wp_step. intros n w2 [Hn _]. specialize (Hn ltac:(done)).
  wp_step. eapply wp_wand; [apply sample_length|]. intros blockers w3 Hlen.
  eapply wp_wand; [apply add_dependencies_block|].
  intros s' w4 (block & Hdeps & Hlen' & Hall). exists block. split; [done|].
  cbv beta in Hlen. pose proof (length_take g i).
  assert (n <= 3).
  { rewrite !elem_of_cons, elem_of_nil in Hn. lia. }
  split_and!; simpl; [lia|lia|done].
Qed.

Lemma concat_fmap_nil {A B} (l : list A) : concat ((λ _, @nil B) <$> l) = [].
Proof. by induction l. Qed.

Lemma visit_project_blocks (entry : option ident * list Task.t) s w :
  wp (visit_project entry s) w (λ s' _,
    ∃ blocks, dependencies s' = dependencies s ++ concat blocks ∧
      Forall2 blockers_block (enumerate entry.2) blocks).
Proof.
  unfold visit_project. case_bool_decide.
  { apply wp_ret. exists ((λ _, []) <$> enumerate entry.2).
    rewrite concat_fmap_nil, app_nil_r. split; [done|].
    apply Forall2_fmap_r, Forall_Forall2_diag, Forall_forall.
    intros it _. split_and!; [simpl; lia|simpl; lia|constructor]. }
  set (I := λ (pre : list (nat * Task.t)) (s' : state) (_ : World),
    ∃ blocks, dependencies s' = dependencies s ++ concat blocks ∧
      Forall2 blockers_block pre blocks).
  apply (for_spec_prefix I).
  - exists []. simpl. rewrite app_nil_r. split; [done|constructor].
  - intros pre [i d] post s1 w1 _ (blocks & Hdeps & Hblocks).
    eapply wp_wand; [apply visit_task_block|].
    intros s2 w2 (block & Hdeps' & Hblock). exists (blocks ++ [block]).
    rewrite Hdeps', Hdeps, concat_app, <- app_assoc. simpl. rewrite app_nil_r.
    split; [done|]. apply Forall2_app; [done|]. by constructor.
Qed.

(** The records come in blocks, one per task, in the order in which the
    generator walks through the sorted lists of the projects. *)
Lemma dependencies_generate_blocks tasks w :
  wp (generate tasks) w (λ r _,
    match r with
    | Ok deps =>
        ∃ blocks, deps = concat blocks ∧
          Forall2 blockers_block (concat (enumerate <$> sorted_groups tasks)) blocks
    | Raise _ => True
    end).
Proof.
  unfold generate. wp_step.
  set (entries := (λ entry, (entry.1, stable_sort Task.created_at entry.2))
                    <$> group_tasks tasks).
  assert (Hentries : (λ e : option ident * list Task.t, e.2) <$> entries
                     = sorted_groups tasks).
  { unfold entries, sorted_groups. rewrite <- list_fmap_compose. done. }
  set (I := λ (pre : list (option ident * list Task.t)) (s : state) (_ : World),
    ∃ blocks, dependencies s = concat blocks ∧
      Forall2 blockers_block (concat (enumerate <$> ((λ e, e.2) <$> pre))) blocks).
  eapply wp_wand with (Q := I entries).
  - apply (for_spec_prefix I).
    + exists []. split; [done|constructor].
    + intros pre entry post s w1 _ (blocks & Hdeps & Hblocks).
      eapply wp_wand; [apply visit_project_blocks|].
      intros s' w2 (blocks' & Hdeps' & Hblocks'). exists (blocks ++ blocks').
      rewrite Hdeps', Hdeps, concat_app. split; [done|].
      rewrite !fmap_app, concat_app. simpl. rewrite app_nil_r.
      by apply Forall2_app.
  - intros s w1 (blocks & Hdeps & Hblocks). destruct tasks; apply wp_ret; [done|].
    exists blocks. by rewrite <- Hentries.
Qed.

Lemma blockers_of_none items blocks x :
  Forall2 blockers_block items blocks →
  x ∉ (λ it : nat * Task.t, Task.task_id it.2) <$> items →
  blockers_of (concat blocks) x = [].
Proof.
  unfold blockers_of.
  induction 1 as [|it block items blocks Hit _ IH]; intros Hx; [done|].
  simpl. rewrite filter_app, IH by (intros ?; apply Hx; by right). rewrite app_nil_r.
  assert (Hne : Task.task_id it.2 ≠ x) by (intros <-; apply Hx; left).
  destruct Hit as (_ & _ & Hall). clear -Hall Hne.
  induction Hall as [|r block Hr _ IH]; [done|].
  rewrite filter_cons_False by congruence. done.
Qed.

Lemma blockers_of_own items blocks it :
  Forall2 blockers_block items blocks →
  NoDup ((λ it : nat * Task.t, Task.task_id it.2) <$> items) →
  it ∈ items →
  (length (blockers_of (concat blocks) (Task.task_id it.2)) <= 3)%nat ∧
  (length (blockers_of (concat blocks) (Task.task_id it.2)) <= it.1)%nat.
Proof.
  induction 1 as [|it0 block items blocks Hit Hrest IH]; intros Hnodup Hin.
  { by apply elem_of_nil in Hin. }
  rewrite fmap_cons in Hnodup. apply NoDup_cons in Hnodup as [Hfresh Hnodup].
  simpl. unfold blockers_of in *. rewrite filter_app, length_app.
  apply elem_of_cons in Hin as [->|Hin].
  - pose proof (blockers_of_none items blocks _ Hrest Hfresh) as Hnone.
    unfold blockers_of in Hnone. rewrite Hnone. simpl.
    destruct Hit as (H3 & Hi & _).
    pose proof (length_filter (λ r, TaskDependency.dependent_task_id r = Task.task_id it0.2)
                  block). lia.
  - assert (Hne : Task.task_id it0.2 ≠ Task.task_id it.2).
    { intros Heq. apply Hfresh. rewrite Heq.
      by apply (list_elem_of_fmap_2 (λ it : nat * Task.t, Task.task_id it.2)). }
    assert (Hnone : filter (λ r, TaskDependency.dependent_task_id r = Task.task_id it.2)
                           block = []).
    { destruct Hit as (_ & _ & Hall). clear -Hall Hne.
      induction Hall as [|r block Hr _ IH]; [done|].
      rewrite filter_cons_False by congruence. done. }
    rewrite Hnone. simpl. by apply IH.
Qed.

Lemma enumerated_groups_ids (groups : list (list Task.t)) :
  (λ it : nat * Task.t, Task.task_id it.2) <$> concat (enumerate <$> groups)
  = Task.task_id <$> concat groups.
Proof.
  induction groups as [|g groups IH]; [done|].
  rewrite fmap_cons, !concat_cons, !fmap_app, IH. f_equal.
  rewrite <- (SectionsFacts.enumerate_snd g) at 2. by rewrite <- list_fmap_compose.
Qed.

(** X6: when the identifiers of the tasks are pairwise distinct, no task
    has more than three dependency records, nor more than tasks precede it
    in the list of its project sorted by creation time; in particular the
    earliest task of a project depends on nothing.  The report of
    [generate_dependencies] accordingly counts between one and three
    dependencies for every task it lists. *)
Theorem X6_at_most_three_blockers tasks w deps w' :
  NoDup (Task.task_id <$> tasks) →
  generate tasks w = (Ok deps, w') →
  (∀ task_id, (length (blockers_of deps task_id) <= 3)%nat) ∧
  (∀ g (i : nat) t, g ∈ sorted_groups tasks → g !! i = Some t →
     (length (blockers_of deps (Task.task_id t)) <= i)%nat) ∧
  (∀ task_id n, deps_per_task deps !! task_id = Some n → 1 <= n <= 3).
Proof.
  intros Hnodup Hrun.
  destruct (wp_run _ _ _ _ _ (dependencies_generate_blocks tasks w) Hrun)
    as (blocks & -> & Hblocks).
  set (items := concat (enumerate <$> sorted_groups tasks)) in *.
  assert (Hids : NoDup ((λ it : nat * Task.t, Task.task_id it.2) <$> items)).
  { unfold items. rewrite enumerated_groups_ids.
    by rewrite DependenciesFacts.sorted_groups_Permutation. }
  assert (H3 : ∀ task_id, (length (blockers_of (concat blocks) task_id) <= 3)%nat).
  { intros x.
    destruct (decide (x ∈ (λ it : nat * Task.t, Task.task_id it.2) <$> items)) as [Hx|Hx].
    - apply list_elem_of_fmap in Hx as (it & -> & Hit).
      by destruct (blockers_of_own items blocks it Hblocks Hids Hit).
    - rewrite (blockers_of_none items blocks x Hblocks Hx). simpl. lia. }
  split_and!; [done| |].
  - intros g i t Hg Ht.
    assert (Hit : (i, t) ∈ items).
    { unfold items. apply elem_of_concat. exists (enumerate g). split.
      - by apply list_elem_of_fmap_2.
      - unfold enumerate. by apply elem_of_lookup_imap_2 with (i := i) (x := t). }
    by destruct (blockers_of_own items blocks (i, t) Hblocks Hids Hit).
  - intros x n Hn. apply count_by_lookup in Hn as [-> Hn]. split; [done|].
    specialize (H3 x). unfold blockers_of in H3. lia.
Qed.

Lemma X6_at_most_three_blockers_witness :
  ∃ deps w',
    generate [Examples.task_a; Examples.task_b] Examples.one_dependency_world
      = (Ok deps, w') ∧
    length (blockers_of deps "task-a") = 0%nat ∧
    length (blockers_of deps "task-b") = 1%nat ∧
    (∀ task_id, (length (blockers_of deps task_id) <= 3)%nat) ∧
    (∀ task_id n, deps_per_task deps !! task_id = Some n → 1 <= n <= 3).
Proof.
  eexists _, _. split; [vm_compute; reflexivity|].
  split; [reflexivity|]. split; [reflexivity|].
  edestruct (X6_at_most_three_blockers [Examples.task_a; Examples.task_b]
               Examples.one_dependency_world)
    as (Hthree & _ & Hreport).
  { compute_done. }
  { vm_compute; reflexivity. }
  split; [exact Hthree|exact Hreport].
Defined.

End DependenciesOutput.

(** ** Projects: numbers, templates, owners and hours *)

Module ProjectsOutput.
Import Projects.

Lemma append_nonempty (s t : string) : t ≠ ""%string → (s +:+ t)%string ≠ ""%string.
Proof. intros Ht Hs. destruct s; simpl in Hs; [done|discriminate]. Qed.

Lemma sample_project_type_spec self t0 w :
  t0 ∈ templates self →
  wp (_sample_project_type self t0) w (λ r _, r ∈ templates self).
Proof.
  intros Ht0. unfold _sample_project_type. wp_step. wp_step. intros selected w1 _.
  wp_step. by apply next_or_elem_of.
Qed.

Lemma generate_project_name_spec project_type team_type w :
  wp (_generate_project_name project_type team_type) w (λ r _, r ≠ ""%string).
Proof.
  unfold _generate_project_name.
  repeat (destruct (String.eqb project_type _)).
  - wp_auto. by apply append_nonempty.
  - wp_step. wp_step. intros holiday w1 _. wp_step. wp_step. intros quarter w2 _.
    wp_step. intros r w3 [Hr _]. specialize (Hr ltac:(done)).
    rewrite !elem_of_cons, elem_of_nil in Hr.
    destruct Hr as [->|[->|[->|[->|[->|[]]]]]]; try (by apply append_nonempty); done.
  - wp_step. by apply append_nonempty.
  - wp_auto. by apply append_nonempty.
  - wp_step. intros r w1 [Hr _]. specialize (Hr ltac:(done)).
    rewrite !elem_of_cons, elem_of_nil in Hr.
    destruct Hr as [->|[->|[->|[->|[]]]]]; by apply append_nonempty.
  - wp_step. by apply append_nonempty.
Qed.

Lemma generate_project_description_spec project_name project_type w :
  wp (_generate_project_description project_name project_type) w (λ _ _, True).
Proof. unfold _generate_project_description. by wp_auto. Qed.

(** The due date is the start date plus a duration from the range of the
    template. *)
Lemma sample_project_dates_range org_created_at team_created_at template w :
  wp (_sample_project_dates org_created_at team_created_at template) w (λ r _,
    ∀ lo hi, default (14, 90) (duration_days_range template) = (lo, hi) →
      lo <= hi → r.1 + lo <= r.2 <= r.1 + hi).
Proof.
  unfold _sample_project_dates.
  wp_step. wp_step. intros now w1 _. wp_step. wp_step. intros start_offset w2 _.
  wp_step. wp_step. intros duration w3 [Hduration _]. wp_step. simpl.
  intros lo hi Hrange Hle. rewrite Hrange in Hduration. simpl in Hduration.
  specialize (Hduration Hle). lia.
Qed.

Lemma business_hour_replace dt h : 8 <= h <= 17 → business_hour (replace_hm dt h 0).
Proof.
  intros Hh. exists (date_of dt), h. split; [done|].
  unfold replace_hm, minutes. lia.
Qed.

(** Whatever clamp applies last, a completion time is put on the hour. *)
Lemma project_completed_at_hour start_date due_date status w :
  wp (_sample_completed_at start_date due_date status) w (λ r _,
    ∀ c, r = Some c → business_hour c).
Proof.
  unfold _sample_completed_at. case_bool_decide as Hs; simpl; [|by apply wp_ret].
  wp_step. wp_step. intros now w1 _. wp_step. wp_step. intros on_time w2 _.
  wp_step. eapply wp_wand with (Q := λ _ _, True).
  { by wp_auto. }
  intros c1 w3 _. wp_step. eapply wp_wand with (Q := λ _ _, True).
  { by wp_auto. }
  intros c2 w4 _. wp_step. wp_step. intros hour w5 [Hhour _].
  specialize (Hhour ltac:(lia)).
  wp_step. eapply wp_wand with (Q := λ c _, business_hour c).
  { case_bool_decide.
    - wp_auto. by apply business_hour_replace.
    - wp_step. by apply business_hour_replace. }
  intros c3 w6 Hc3. wp_step. eapply wp_wand with (Q := λ c _, business_hour c).
  { case_bool_decide.
    - wp_auto. by apply business_hour_replace.
    - by wp_step. }
  intros c4 w7 Hc4. wp_step. by intros c [= <-].
Qed.

Lemma project_created_at_hour start_date w :
  wp (_sample_created_at start_date) w (λ r _,
    business_hour r ∧ r <= combine_min start_date + hours 17).
Proof.
  eapply wp_wand; [apply ProjectsFacts.project_created_at_spec|].
  intros r w' (_ & k & h & Hk & Hh & ->). split.
  - by exists (start_date - k), h.
  - unfold combine_min. unfold_units. lia.
Qed.

Ltac wp_spec ::=
  lazymatch goal with
  | |- wp (_generate_project_name _ _) _ _ =>
      eapply wp_wand; [apply generate_project_name_spec|]
  | |- wp (_generate_project_description _ _) _ _ =>
      eapply wp_wand; [apply generate_project_description_spec|]
  | |- wp (_sample_project_dates _ _ _) _ _ =>
      eapply wp_wand; [apply sample_project_dates_range|]
  | |- wp (_sample_completed_at _ _ _) _ _ =>
      eapply wp_wand; [apply project_completed_at_hour|]
  | |- wp (_sample_created_at _) _ _ =>
      eapply wp_wand; [apply project_created_at_hour|]
  end.

(** Everything [generate_project] establishes about one project. *)
Lemma generate_project_facts self t0 org team users u0 w :
  t0 ∈ templates self → owner_candidates users team ≠ [] →
  wp (generate_project self t0 org team (owner_candidates users team) u0) w (λ p _,
    project_of_team org team p ∧ follows_template self p ∧
    project_attributes users team p ∧ project_on_the_hour p).
Proof.
  intros Ht0 Hcandidates. unfold generate_project.
  wp_step. eapply wp_wand; [by apply sample_project_type_spec|].
  intros template w1 Htemplate.
  wp_step. wp_step. intros project_name w2 Hname.
  wp_step. wp_step. intros description w3 _.
  wp_step. wp_step. intros dates w4 Hdates.
  wp_step. wp_step. intros now w5 _.
  wp_step. unfold _sample_project_status. wp_step. intros status w6 [Hstatus _].
  wp_step. wp_step. intros completed_at w7 Hcompleted.
  wp_step. wp_step. intros owner w8 [Howner _].
  wp_step. unfold _sample_project_privacy. wp_step. intros privacy w9 [Hprivacy _].
  wp_step. unfold _sample_project_color. wp_step. intros color w10 [Hcolor _].
  wp_step. wp_step. intros created_at w11 [Hcreated Hbefore].
  wp_step. wp_step. intros project_id w12 _. wp_step.
  split_and!.
  - by split_and!.
  - exists template. split_and!; [done|done|]. exact Hdates.
  - split_and!; simpl; [|by apply Hstatus|by apply Hprivacy|].
    + exists owner. split; [by apply Howner|done].
    + exists color. split; [done|by apply Hcolor].
  - by split_and!.
Qed.

Lemma owner_candidates_nonempty users team :
  users ≠ [] → owner_candidates users team ≠ [].
Proof. intros Hne. unfold owner_candidates. by destruct (filter _ users). Qed.

(** The loops of [generate]: one block of three to five projects per team,
    each project as [generate_project] makes it. *)
Lemma projects_generate_blocks self org teams users w (P : Team.t → Project.t → Prop) :
  (∀ t0 team u0 w1,
     t0 ∈ templates self → team ∈ teams → users ≠ [] →
     wp (generate_project self t0 org team (owner_candidates users team) u0) w1
        (λ p _, P team p)) →
  wp (generate self org teams users) w (λ r _,
    match r with
    | Ok projects =>
        ∃ blocks, projects = concat blocks ∧
          Forall2 (λ team block, (3 <= length block <= 5)%nat ∧ Forall (P team) block)
                  teams blocks
    | Raise _ => True
    end).
Proof.
  intros Hproject. unfold generate.
  destruct teams as [|team teams']; [by apply wp_ret|].
  destruct (templates self) as [|t0 ts] eqn:Htemplates; [by apply wp_ret|].
  destruct users as [|u0 us]; [by apply wp_ret|].
  set (teams := team :: teams') in *. set (users := u0 :: us) in *.
  set (I := λ (pre : list Team.t) (projects : list Project.t) (_ : World),
    ∃ blocks, projects = concat blocks ∧
      Forall2 (λ team block, (3 <= length block <= 5)%nat ∧ Forall (P team) block)
              pre blocks).
  apply wp_bind. eapply wp_wand with (Q := I teams).
  2: { intros projects w' HI. by apply wp_ret. }
  apply (for_spec_prefix I).
  { exists []. split; [done|constructor]. }
  intros pre tm post projects w1 Hsplit (blocks & -> & Hblocks).
  assert (Htm : tm ∈ teams) by (rewrite Hsplit; apply elem_of_app; right; left).
  wp_step. wp_step. intros num_projects w2 [Hnum _]. specialize (Hnum ltac:(lia)).
  fold (owner_candidates users tm).
  set (J := λ (pre' : list Z) (s : list Project.t) (_ : World),
    ∃ block, s = concat blocks ++ block ∧ length block = length pre' ∧
             Forall (P tm) block).
  eapply wp_wand with (Q := J (range num_projects)).
  - apply (for_spec_prefix J).
    + exists []. by rewrite app_nil_r.
    + intros pre' i post' s w3 _ (block & -> & Hlen & Hall).
      wp_step. eapply wp_wand.
      { apply Hproject; [left|done|done]. }
      intros project w4 HP. wp_step. exists (block ++ [project]).
      rewrite <- app_assoc, !length_app, Hlen. split_and!; [done..|].
      apply Forall_app. split; [done|]. by apply Forall_singleton.
  - intros s w3 (block & -> & Hlen & Hall). exists (blocks ++ [block]). split.
    + rewrite concat_app. simpl. by rewrite app_nil_r.
    + apply Forall2_app; [done|]. constructor; [|constructor].
      split; [|done]. rewrite Hlen, length_range. lia.
Qed.

Lemma projects_generate_facts self org teams users w :
  wp (generate self org teams users) w (λ r _,
    match r with
    | Ok projects =>
        ∃ blocks, projects = concat blocks ∧
          Forall2 (λ team block,
                     (3 <= length block <= 5)%nat ∧
                     Forall (λ p, project_of_team org team p ∧ follows_template self p ∧
                                  project_attributes users team p ∧
                                  project_on_the_hour p) block)
                  teams blocks
    | Raise _ => True
    end).
Proof.
  apply (projects_generate_blocks self org teams users w
           (λ team p, project_of_team org team p ∧ follows_template self p ∧
                      project_attributes users team p ∧ project_on_the_hour p)).
  intros t0 team u0 w1 Ht0 Hteam Husers.
  apply generate_project_facts; [done|]. by apply owner_candidates_nonempty.
Qed.

Lemma owner_candidates_elem_of users team owner :
  owner ∈ owner_candidates users team →
  owner ∈ users ∧
  ((∃ u, u ∈ users ∧ User.department u = Some (Team.team_type team)) →
   User.department owner = Some (Team.team_type team)).
Proof.
  unfold owner_candidates.
  destruct (filter _ users) as [|c cs] eqn:Hf.
  - intros Howner. split; [done|]. intros (u & Hu & Hdept).
    assert (Hin : u ∈ filter (λ u, User.department u = Some (Team.team_type team)) users)
      by (by apply list_elem_of_filter).
    rewrite Hf in Hin. by apply elem_of_nil in Hin.
  - rewrite <- Hf. by intros [? ?]%list_elem_of_filter.
Qed.

(** X7: the output consists of one block of projects per team, in the
    order of the teams; a block holds three to five projects, each of which
    carries the identifiers of the team and of the organization and has a
    name that is not empty. *)
Theorem X7_three_to_five_projects_per_team self org teams users w projects w' :
  generate self org teams users w = (Ok projects, w') →
  ∃ blocks, projects = concat blocks ∧
    Forall2 (λ team block,
               (3 <= length block <= 5)%nat ∧
               Forall (λ p, Project.team_id p = Some (Team.team_id team) ∧
                            Project.organization_id p = Organization.organization_id org ∧
                            Project.name p ≠ ""%string) block)
            teams blocks.
Proof.
  intros Hrun.
  destruct (wp_run _ _ _ _ _ (projects_generate_facts self org teams users w) Hrun)
    as (blocks & -> & Hblocks).
  exists blocks. split; [done|].
  eapply Forall2_impl; [exact Hblocks|]. intros team block [Hlen Hall].
  split; [done|]. eapply Forall_impl; [exact Hall|]. by intros p (? & _).
Qed.

Lemma X7_three_to_five_projects_per_team_witness :
  ∃ projects w',
    generate Examples.project_generator Examples.org [Examples.team_1; Examples.team_2]
             [Examples.user_1] MoreExamples.eight_projects_world = (Ok projects, w') ∧
    Project.team_id <$> projects
      = replicate 3 (Some "team-1"%string) ++ replicate 5 (Some "team-2"%string) ∧
    ∃ blocks, projects = concat blocks ∧
      Forall2 (λ team block,
                 (3 <= length block <= 5)%nat ∧
                 Forall (λ p, Project.team_id p = Some (Team.team_id team) ∧
                              Project.organization_id p = "org"%string ∧
                              Project.name p ≠ ""%string) block)
              [Examples.team_1; Examples.team_2] blocks.
Proof.
  eexists _, _. split; [vm_compute; reflexivity|]. split; [reflexivity|].
  eapply (X7_three_to_five_projects_per_team Examples.project_generator Examples.org
           [Examples.team_1; Examples.team_2] [Examples.user_1]
           MoreExamples.eight_projects_world).
  vm_compute; reflexivity.
Defined.

(** X8: every project has the type of one of the templates and lasts a
    number of days within the duration range of that template (14 to 90
    days when the template gives none); so the due date is not before the
    start date when the range starts at zero or above. *)
Theorem X8_project_duration_within_template self org teams users w projects w' :
  generate self org teams users w = (Ok projects, w') →
  ∀ p, p ∈ projects →
    ∃ template, template ∈ templates self ∧
      Project.project_type p = type template ∧
      ∀ lo hi, default (14, 90) (duration_days_range template) = (lo, hi) →
        lo <= hi →
        Project.start_date p + lo <= Project.due_date p <= Project.start_date p + hi ∧
        (0 <= lo → Project.start_date p <= Project.due_date p).
Proof.
  intros Hrun p Hp.
  destruct (wp_run _ _ _ _ _ (projects_generate_facts self org teams users w) Hrun)
    as (blocks & -> & Hblocks).
  destruct (in_some_block (λ _ p, follows_template self p) _ _ _ p Hblocks) as (_ & _ & Hf);
    [|done|].
  { intros team block [_ Hall]. eapply Forall_impl; [exact Hall|]. by intros q (_ & ? & _). }
  destruct Hf as (template & Htemplate & Htype & Hrange).
  exists template. split_and!; [done..|].
  intros lo hi Heq Hle. specialize (Hrange lo hi Heq Hle). split; [done|lia].
Qed.

Lemma X8_project_duration_within_template_witness :
  ∃ projects w' p,
    generate Examples.project_generator Examples.org [Examples.team_1]
             [Examples.user_1] (Examples.world (Examples.at_ Examples.today 10 0) [])
      = (Ok projects, w') ∧
    head projects = Some p ∧
    Project.project_type p = "sprint"%string ∧
    ∃ template, template ∈ _create_fallback_templates ∧
      Project.project_type p = type template ∧
      ∀ lo hi, default (14, 90) (duration_days_range template) = (lo, hi) →
        lo <= hi →
        Project.start_date p + lo <= Project.due_date p <= Project.start_date p + hi ∧
        (0 <= lo → Project.start_date p <= Project.due_date p).
Proof.
  eexists _, _, _. split; [vm_compute; reflexivity|]. split; [reflexivity|].
  split; [reflexivity|].
  eapply (X8_project_duration_within_template Examples.project_generator Examples.org
           [Examples.team_1] [Examples.user_1]
           (Examples.world (Examples.at_ Examples.today 10 0) [])).
  - vm_compute; reflexivity.
  - apply list_elem_of_here.
Defined.

(** X9: the owner of a project is a user of the input, of the department
    its team is named after whenever the input has a user of that
    department; its status, its privacy and its colour are among the
    values the generator draws from. *)
Theorem X9_project_owner_from_team_department self org teams users w projects w' :
  generate self org teams users w = (Ok projects, w') →
  ∀ p, p ∈ projects →
    ∃ team owner,
      team ∈ teams ∧ Project.team_id p = Some (Team.team_id team) ∧
      owner ∈ users ∧ Project.owner_id p = Some (User.user_id owner) ∧
      ((∃ u, u ∈ users ∧ User.department u = Some (Team.team_type team)) →
       User.department owner = Some (Team.team_type team)) ∧
      Project.status p ∈ ["active"; "completed"; "archived"; "on_hold"]%string ∧
      Project.privacy p ∈ ["team"; "public"; "private"]%string ∧
      Project.color p ≠ None.
Proof.
  intros Hrun p Hp.
  destruct (wp_run _ _ _ _ _ (projects_generate_facts self org teams users w) Hrun)
    as (blocks & -> & Hblocks).
  destruct (in_some_block (λ team p, project_of_team org team p ∧
                                     project_attributes users team p)
              _ _ _ p Hblocks) as (team & Hteam & Hof & Hattr); [|done|].
  { intros team block [_ Hall]. eapply Forall_impl; [exact Hall|].
    by intros q (? & _ & ? & _). }
  destruct Hof as (Htid & _).
  destruct Hattr as ((owner & Howner & Hoid) & Hstatus & Hprivacy & (color & Hcolor & _)).
  apply owner_candidates_elem_of in Howner as [Hin Hdept].
  exists team, owner. split_and!; try done. by rewrite Hcolor.
Qed.

Lemma X9_project_owner_from_team_department_witness :
  ∃ projects w' p,
    generate Examples.project_generator Examples.org [Examples.team_1]
             [MoreExamples.user_sales; Examples.user_1]
             (Examples.world (Examples.at_ Examples.today 10 0) [])
      = (Ok projects, w') ∧
    head projects = Some p ∧
    Project.owner_id p = Some "user-1"%string ∧
    ∃ team owner,
      team ∈ [Examples.team_1] ∧ Project.team_id p = Some (Team.team_id team) ∧
      owner ∈ [MoreExamples.user_sales; Examples.user_1] ∧
      Project.owner_id p = Some (User.user_id owner) ∧
      User.department owner = Some (Team.team_type team).
Proof.
  eexists _, _, _. split; [vm_compute; reflexivity|]. split; [reflexivity|].
  split; [reflexivity|].
  edestruct (X9_project_owner_from_team_department Examples.project_generator Examples.org
               [Examples.team_1] [MoreExamples.user_sales; Examples.user_1]
               (Examples.world (Examples.at_ Examples.today 10 0) []))
    as (team & owner & Hteam & Htid & Howner & Hoid & Hdept & _).
  { vm_compute; reflexivity. }
  { apply list_elem_of_here. }
  exists team, owner. split_and!; [exact Hteam|exact Htid|exact Howner|exact Hoid|].
  apply Hdept. exists Examples.user_1. split; [|].
  - apply list_elem_of_further, list_elem_of_here.
  - apply list_elem_of_singleton in Hteam. by rewrite Hteam.
Defined.

(** X10: the creation time and the completion time of a project are set
    on the hour, from 08:00 to 17:00, whichever clamp was applied last; and
    a project is never created after 17:00 of its start date. *)
Theorem X10_project_times_on_business_hours self org teams users w projects w' :
  generate self org teams users w = (Ok projects, w') →
  ∀ p, p ∈ projects →
    (∃ d h, 8 <= h <= 17 ∧ Project.created_at p = combine_min d + hours h) ∧
    Project.created_at p <= combine_min (Project.start_date p) + hours 17 ∧
    (∀ c, Project.completed_at p = Some c →
       ∃ d h, 8 <= h <= 17 ∧ c = combine_min d + hours h).
Proof.
  intros Hrun p Hp.
  destruct (wp_run _ _ _ _ _ (projects_generate_facts self org teams users w) Hrun)
    as (blocks & -> & Hblocks).
  destruct (in_some_block (λ _ p, project_on_the_hour p) _ _ _ p Hblocks) as (_ & _ & Hh);
    [|done|].
  { intros team block [_ Hall]. eapply Forall_impl; [exact Hall|].
    by intros q (_ & _ & _ & ?). }
  exact Hh.
Qed.

Lemma X10_project_times_on_business_hours_witness :
  ∃ projects w' p c,
    generate Examples.project_generator Examples.org [Examples.team_2]
             [Examples.user_1] Examples.early_completion_world = (Ok projects, w') ∧
    head projects = Some p ∧ Project.completed_at p = Some c ∧
    (∃ d h, 8 <= h <= 17 ∧ Project.created_at p = combine_min d + hours h) ∧
    (∃ d h, 8 <= h <= 17 ∧ c = combine_min d + hours h).
Proof.
  eexists _, _, _, _. split; [vm_compute; reflexivity|]. split; [reflexivity|].
  split; [reflexivity|].
  edestruct (X10_project_times_on_business_hours Examples.project_generator Examples.org
               [Examples.team_2] [Examples.user_1] Examples.early_completion_world)
    as (Hcreated & _ & Hcompleted).
  { vm_compute; reflexivity. }
  { apply list_elem_of_here. }
  split; [exact Hcreated|]. apply Hcompleted. reflexivity.
Defined.

End ProjectsOutput.

(** ** Sections: creation timestamps *)

Module SectionsOutput.
Import Sections.

(** The two closing clamps of [_sample_created_at]: the result is never
    after the clock reading and less than three days after the project;
    it is not before the project when the project is at least a day old. *)
Lemma section_created_at_spec project_created_at w :
  wp (_sample_created_at project_created_at) w (λ r w',
    wall w <= wall w' ∧ r <= wall w' ∧ r < project_created_at + days 3 ∧
    (project_created_at + hours 24 <= wall w' → project_created_at <= r)).
Proof.
  unfold _sample_created_at.
  wp_step. wp_step. intros now w1 [-> Hw1].
  wp_step. wp_step. intros days_after w2 [Hdays Hw2]. specialize (Hdays ltac:(lia)).
  wp_step. wp_step. intros hour w3 [Hhour Hw3]. specialize (Hhour ltac:(lia)).
  set (c1 := if bool_decide (project_created_at + days days_after > wall w1)
             then project_created_at else project_created_at + days days_after).
  assert (Hc1 : project_created_at <= c1 <= project_created_at + days 2).
  { unfold c1. case_bool_decide; unfold_units; lia. }
  pose proof (date_of_bounds c1) as Hdate.
  set (c2 := replace_hm c1 hour 0).
  assert (Hc2 : combine_min (date_of c1) <= c2 < combine_min (date_of c1) + day).
  { unfold c2, replace_hm. unfold_units. lia. }
  wp_step. case_bool_decide as Hfuture.
  - wp_step. wp_step. intros k w4 [Hk Hw4]. specialize (Hk ltac:(lia)). wp_step.
    wp_step. split; [lia|]. revert Hfuture. case_bool_decide; unfold_units; lia.
  - wp_step. wp_step. split; [lia|]. revert Hfuture.
    case_bool_decide; unfold_units; lia.
Qed.

Lemma sections_generate_times projects w :
  wp (generate projects) w (λ r w',
    match r with
    | Ok sections =>
        Forall (λ s, ∃ p, p ∈ projects ∧
                  Section.project_id s = Project.project_id p ∧
                  Section.created_at s <= wall w' ∧
                  Section.created_at s < Project.created_at p + days 3 ∧
                  (Project.created_at p + hours 24 <= wall w →
                   Project.created_at p <= Section.created_at s)) sections
    | Raise _ => True
    end).
Proof.
  unfold generate. wp_step.
  set (Q := λ (w' : World) (s : Section.t), ∃ p, p ∈ projects ∧
              Section.project_id s = Project.project_id p ∧
              Section.created_at s <= wall w' ∧
              Section.created_at s < Project.created_at p + days 3 ∧
              (Project.created_at p + hours 24 <= wall w →
               Project.created_at p <= Section.created_at s)).
  set (I := λ (sections : list Section.t) (w' : World),
              wall w <= wall w' ∧ Forall (Q w') sections).
  assert (Hlater : ∀ sections w1 w2, wall w1 <= wall w2 →
            Forall (Q w1) sections → Forall (Q w2) sections).
  { intros sections w1 w2 Hw Hall. eapply Forall_impl; [exact Hall|].
    intros s (p & Hp & Hid & Hnow & Hsoon & Hold). exists p.
    split_and!; try done. lia. }
  eapply wp_wand with (Q := I).
  - apply (for_spec I); [by split|].
    intros project sections w1 Hproject HI. unfold visit_project.
    apply (for_spec I); [done|].
    intros [position section_name] sections' w2 _ [Hw2 Hall]. unfold add_section.
    wp_step. eapply wp_wand; [apply section_created_at_spec|].
    intros created_at w3 (Hw3 & Hnow & Hsoon & Hafter).
    wp_step. wp_step. intros section_id w4 Hw4. wp_step. cbv beta in Hw4.
    split; [lia|]. apply Forall_app. split.
    + eapply Hlater; [|exact Hall]. lia.
    + apply Forall_singleton. exists project. simpl. split_and!; try done; [lia|].
      intros Hold. apply Hafter. lia.
  - intros sections w1 [_ Hall]. destruct projects; by apply wp_ret.
Qed.

(** X11: a section is never created after the clock reading at the end of
    the run, and less than three days after its project; it is not created
    before its project when the project was created at least 24 hours
    before the clock reading at the start of the run. *)
Theorem X11_section_created_near_its_project projects w sections w' :
  generate projects w = (Ok sections, w') →
  ∀ s, s ∈ sections →
    ∃ p, p ∈ projects ∧ Section.project_id s = Project.project_id p ∧
      Section.created_at s <= wall w' ∧
      Section.created_at s < Project.created_at p + days 3 ∧
      (Project.created_at p + hours 24 <= wall w →
       Project.created_at p <= Section.created_at s).
Proof.
  intros Hrun s Hs.
  pose proof (wp_run _ _ _ _ _ (sections_generate_times projects w) Hrun) as Hall.
  rewrite Forall_forall in Hall. exact (Hall s Hs).
Qed.

Lemma X11_section_created_near_its_project_witness :
  ∃ sections w' s,
    generate [MoreExamples.project_last_week]
             (Examples.world (Examples.at_ Examples.today 10 0) [2; 9])
      = (Ok sections, w') ∧
    head sections = Some s ∧
    Section.created_at s = Examples.at_ (Examples.today - 5) 17 0 ∧
    Project.created_at MoreExamples.project_last_week <= Section.created_at s <= wall w'.
Proof.
  eexists _, _, _. split; [vm_compute; reflexivity|]. split; [reflexivity|].
  split; [reflexivity|].
  edestruct (X11_section_created_near_its_project [MoreExamples.project_last_week]
               (Examples.world (Examples.at_ Examples.today 10 0) [2; 9]))
    as (p & Hp & _ & Hnow & _ & Hafter).
  { vm_compute; reflexivity. }
  { apply list_elem_of_here. }
  apply list_elem_of_singleton in Hp. subst p.
  split; [|exact Hnow]. apply Hafter. by vm_compute.
Defined.

End SectionsOutput.

(** ** Task tags: references, numbers and timestamps *)

Module TaskTagsOutput.
Import TaskTags.

Lemma task_tag_created_at_spec task_created_at w :
  wp (_sample_created_at task_created_at) w (λ r w',
    wall w <= wall w' ∧
    task_created_at <= r <= task_created_at + days 7 + hours 12 ∧
    r <= Z.max (wall w') task_created_at).
Proof.
  unfold _sample_created_at.
  wp_step. wp_step. intros days_after w1 [Hdays Hw1]. specialize (Hdays ltac:(done)).
  wp_step. wp_step. intros k w2 [Hk Hw2]. specialize (Hk ltac:(lia)).
  wp_step. wp_step. intros now w3 [-> Hw3]. wp_step.
  assert (0 <= days_after <= 7).
  { rewrite !elem_of_cons, elem_of_nil in Hdays. lia. }
  split; [lia|]. case_bool_decide; unfold_units; lia.
Qed.

Lemma collect_elem_of found acc t :
  t ∈ (collect found acc).1 → t ∈ acc.1 ∨ t ∈ found.
Proof.
  unfold collect. revert acc. induction found as [|tag found IH]; intros acc; simpl.
  { by left. }
  intros [Ht|Ht]%IH; [|right; by right].
  case_bool_decide; [by left|]. simpl in Ht.
  apply elem_of_app in Ht as [Ht|Ht%list_elem_of_singleton]; [by left|].
  subst. right. left.
Qed.

(** The relevant tags are tags of the organization asked for. *)
Lemma get_relevant_tags_elem_of task tags org_id w :
  wp (_get_relevant_tags task tags org_id) w (λ r w',
    wall w' = wall w ∧
    ∀ t, t ∈ r → t ∈ tags ∧ Tag.organization_id t = org_id).
Proof.
  unfold _get_relevant_tags.
  set (org_tags := filter (λ t, Tag.organization_id t = org_id) tags).
  assert (Horg : ∀ t, t ∈ org_tags → t ∈ tags ∧ Tag.organization_id t = org_id).
  { intros t [? ?]%list_elem_of_filter. done. }
  destruct org_tags as [|t0 ts] eqn:Heq.
  { apply wp_ret. split; [done|]. by intros t ?%elem_of_nil. }
  rewrite <- Heq in *. clear Heq.
  assert (Hnamed : ∀ word t, t ∈ tags_named word org_tags → t ∈ org_tags).
  { intros word t [_ ?]%list_elem_of_filter. done. }
  match goal with
  | |- wp (match (foldl ?f ?a ?l).1 with _ => _ end) _ _ =>
      assert (Hfold : ∀ acc : collected, (∀ t, t ∈ acc.1 → t ∈ org_tags) →
                ∀ t, t ∈ (foldl f acc l).1 → t ∈ org_tags);
      [|assert (Hacc : ∀ t, t ∈ (foldl f a l).1 → t ∈ org_tags)]
  end.
  { induction keywords_to_tags as [|entry entries IH]; intros acc Hacc; [exact Hacc|].
    simpl. apply IH. destruct (Str.contains _ _); [|exact Hacc].
    clear IH. revert acc Hacc.
    induction (entry.2) as [|tag_name names IH]; intros acc Hacc; [exact Hacc|].
    simpl. apply IH. intros t [Ht|Ht]%collect_elem_of; [by apply Hacc|].
    by eapply Hnamed. }
  { apply Hfold. destruct (truthy _); [|by intros t ?%elem_of_nil].
    intros t [Ht|Ht]%collect_elem_of; [by apply elem_of_nil in Ht|].
    by eapply Hnamed. }
  match goal with
  | |- wp (match ?x with _ => _ end) _ _ => destruct x as [|r rs] eqn:Hrel
  end.
  - eapply wp_wand; [apply sample_spec|]. intros picked w1 [Hsub Hw1].
    split; [done|]. intros t Ht. apply Horg. by eapply elem_of_submseteq.
  - apply wp_ret. split; [done|]. intros t Ht. by apply Horg, Hacc.
Qed.

Lemma task_tag_of_later tags task t1 t2 tt :
  t1 <= t2 → task_tag_of tags task t1 tt → task_tag_of tags task t2 tt.
Proof.
  intros Ht (Hid & Htag & Hspan & Hnow). unfold task_tag_of.
  split_and!; try done; lia.
Qed.

(** One task: at most five records are appended. *)
Lemma task_tags_visit_task_block tags tag0 task task_tags w :
  head tags = Some tag0 →
  wp (visit_task tags tag0 task task_tags) w (λ s w',
    wall w <= wall w' ∧
    ∃ block, s = task_tags ++ block ∧ (length block <= 5)%nat ∧
      Forall (task_tag_of tags task (wall w')) block).
Proof.
  intros Htag0. unfold visit_task, _should_have_tags, _sample_num_tags.
  assert (Hnone : ∀ w', ∃ block : list TaskTag.t, task_tags = task_tags ++ block ∧
            (length block <= 5)%nat ∧ Forall (task_tag_of tags task (wall w')) block).
  { intros w'. exists []. rewrite app_nil_r. split_and!; [done|simpl; lia|constructor]. }
  wp_step. wp_step. intros has_tags w1 Hw1.
  destruct has_tags; simpl; [|apply wp_ret; split; [lia|done]].
  wp_step. eapply wp_wand; [apply get_relevant_tags_elem_of|].
  intros relevant_tags w2 [Hw2 Hrelevant].
  destruct relevant_tags as [|r rs] eqn:Hrel; [apply wp_ret; split; [lia|done]|].
  rewrite <- Hrel in *. clear Hrel.
  wp_step. wp_step. intros n w3 [Hn Hw3]. specialize (Hn ltac:(done)).
  assert (n <= 5) by (rewrite !elem_of_cons, elem_of_nil in Hn; lia).
  wp_step. eapply wp_wand; [apply wp_and; [apply sample_spec|apply sample_length]|].
  intros selected_tags w4 [[Hsub Hw4] Hlen]. cbv beta in Hlen.
  set (I := λ (pre : list Tag.t) (s : list TaskTag.t) (w' : World),
    wall w <= wall w' ∧
    ∃ block, s = task_tags ++ block ∧ length block = length pre ∧
      Forall (task_tag_of tags task (wall w')) block).
  eapply wp_wand with (Q := I selected_tags).
  - apply (for_spec_prefix I).
    + split; [lia|]. exists []. by rewrite app_nil_r.
    + intros pre tag post s w5 Hsplit (Hw5 & block & -> & Hblock & Hall).
      unfold add_task_tag.
      wp_step. eapply wp_wand; [apply task_tag_created_at_spec|].
      intros created_at w6 (Hw6 & Hspan & Hnow).
      wp_step. wp_step. intros task_tag_id w7 Hw7. cbv beta in Hw7. wp_step.
      split; [lia|]. eexists (block ++ [_]). rewrite <- app_assoc. split; [done|].
      rewrite !length_app, Hblock. split; [done|].
      apply Forall_app. split.
      * eapply Forall_impl; [exact Hall|]. intros tt. apply task_tag_of_later. lia.
      * apply Forall_singleton.
        assert (Htag : tag ∈ relevant_tags).
        { eapply elem_of_submseteq; [|exact Hsub].
          rewrite Hsplit. apply elem_of_app. right. left. }
        destruct (Hrelevant tag Htag) as [Hin Horg].
        unfold task_tag_of. simpl. split; [done|]. split; [by exists tag, tag0|].
        split; [exact Hspan|]. rewrite Hw7. exact Hnow.
  - intros s w5 (Hw5 & block & -> & Hblock & Hall). split; [done|].
    exists block. split_and!; [done| |done]. lia.
Qed.

Lemma task_tags_generate_blocks tasks tags w :
  wp (generate tasks tags) w (λ r w',
    match r with
    | Ok task_tags =>
        ∃ blocks, task_tags = concat blocks ∧
          Forall2 (λ task block,
                     (length block <= 5)%nat ∧
                     Forall (task_tag_of tags task (wall w')) block)
                  tasks blocks
    | Raise _ => True
    end).
Proof.
  unfold generate. destruct tags as [|tag0 tags'].
  { apply wp_ret. exists ((λ _, []) <$> tasks). split.
    - clear. by induction tasks.
    - apply Forall2_fmap_r, Forall_Forall2_diag, Forall_forall.
      intros task _. split; [simpl; lia|constructor]. }
  set (tags := tag0 :: tags').
  set (R := λ (w' : World) (task : Task.t) (block : list TaskTag.t),
    (length block <= 5)%nat ∧ Forall (task_tag_of tags task (wall w')) block).
  set (I := λ (pre : list Task.t) (s : list TaskTag.t) (w' : World),
    wall w <= wall w' ∧ ∃ blocks, s = concat blocks ∧ Forall2 (R w') pre blocks).
  wp_step. eapply wp_wand with (Q := I tasks).
  - apply (for_spec_prefix I).
    + split; [lia|]. exists []. split; [done|constructor].
    + intros pre task post s w1 _ (Hw1 & blocks & -> & Hblocks).
      eapply wp_wand; [by apply task_tags_visit_task_block|].
      intros s' w2 (Hw2 & block & -> & Hlen & Hall). split; [lia|].
      exists (blocks ++ [block]). split.
      * rewrite concat_app. simpl. by rewrite app_nil_r.
      * apply Forall2_app; [|constructor; [by split|constructor]].
        eapply Forall2_impl; [exact Hblocks|]. intros t b [Hb Hbs]. split; [done|].
        eapply Forall_impl; [exact Hbs|]. intros tt. by apply task_tag_of_later.
  - intros s w1 (_ & blocks & -> & Hblocks). destruct tasks; apply wp_ret; [done|].
    by exists blocks.
Qed.

(** X12: the records come in blocks, one per task and in the order of the
    tasks, of at most five records each; a record carries the identifier of
    its task and of a tag of the input, and that tag belongs to the
    organization of the first tag of the input, whatever the organization
    of the task's project. *)
Theorem X12_task_tags_reference_their_inputs tasks tags w task_tags w' :
  generate tasks tags w = (Ok task_tags, w') →
  ∃ blocks, task_tags = concat blocks ∧
    Forall2 (λ task block,
               (length block <= 5)%nat ∧
               Forall (λ tt, TaskTag.task_id tt = Task.task_id task ∧
                             ∃ tag tag0, tag ∈ tags ∧ head tags = Some tag0 ∧
                               TaskTag.tag_id tt = Tag.tag_id tag ∧
                               Tag.organization_id tag = Tag.organization_id tag0)
                      block)
            tasks blocks.
Proof.
  intros Hrun.
  destruct (wp_run _ _ _ _ _ (task_tags_generate_blocks tasks tags w) Hrun)
    as (blocks & -> & Hblocks).
  exists blocks. split; [done|].
  eapply Forall2_impl; [exact Hblocks|]. intros task block [Hlen Hall].
  split; [done|]. eapply Forall_impl; [exact Hall|]. by intros tt (? & ? & _).
Qed.

Lemma X12_task_tags_reference_their_inputs_witness :
  ∃ task_tags w',
    generate [Examples.task_a; Examples.task_b] [Examples.tag_bug; Examples.tag_design]
             Examples.tagging_world = (Ok task_tags, w') ∧
    task_tag_pair <$> task_tags
      = [("task-a", "tag-2"); ("task-b", "tag-1")]%string ∧
    ∃ blocks, task_tags = concat blocks ∧
      Forall2 (λ task block,
                 (length block <= 5)%nat ∧
                 Forall (λ tt, TaskTag.task_id tt = Task.task_id task ∧
                               ∃ tag tag0,
                                 tag ∈ [Examples.tag_bug; Examples.tag_design] ∧
                                 head [Examples.tag_bug; Examples.tag_design] = Some tag0 ∧
                                 TaskTag.tag_id tt = Tag.tag_id tag ∧
                                 Tag.organization_id tag = Tag.organization_id tag0)
                        block)
              [Examples.task_a; Examples.task_b] blocks.
Proof.
  eexists _, _. split; [vm_compute; reflexivity|]. split; [reflexivity|].
  eapply (X12_task_tags_reference_their_inputs [Examples.task_a; Examples.task_b]
            [Examples.tag_bug; Examples.tag_design] Examples.tagging_world).
  vm_compute; reflexivity.
Defined.

(** X13: a tag is never attached before its task was created, nor more
    than seven days and twelve hours after; and it is not attached after
    the clock reading at the end of the run unless the task itself was
    created after that reading. *)
Theorem X13_task_tag_created_after_its_task tasks tags w task_tags w' :
  generate tasks tags w = (Ok task_tags, w') →
  ∀ tt, tt ∈ task_tags →
    ∃ task, task ∈ tasks ∧ TaskTag.task_id tt = Task.task_id task ∧
      Task.created_at task <= TaskTag.created_at tt
        <= Task.created_at task + days 7 + hours 12 ∧
      (Task.created_at task <= wall w' → TaskTag.created_at tt <= wall w').
Proof.
  intros Hrun tt Htt.
  destruct (wp_run _ _ _ _ _ (task_tags_generate_blocks tasks tags w) Hrun)
    as (blocks & -> & Hblocks).
  destruct (in_some_block (λ task tt, task_tag_of tags task (wall w') tt)
              _ _ _ tt Hblocks) as (task & Htask & Hid & _ & Hspan & Hnow); [|done|].
  { by intros task block [_ Hall]. }
  exists task. split_and!; try done; lia.
Qed.

Lemma X13_task_tag_created_after_its_task_witness :
  ∃ task_tags w' tt,
    generate [Examples.task_a; Examples.task_b] [Examples.tag_bug; Examples.tag_design]
             Examples.tagging_world = (Ok task_tags, w') ∧
    head task_tags = Some tt ∧
    TaskTag.task_id tt = Task.task_id Examples.task_a ∧
    Task.created_at Examples.task_a <= TaskTag.created_at tt <= wall w'.
Proof.
  eexists _, _, _. split; [vm_compute; reflexivity|]. split; [reflexivity|].
  split; [reflexivity|].
  edestruct (X13_task_tag_created_after_its_task [Examples.task_a; Examples.task_b]
               [Examples.tag_bug; Examples.tag_design] Examples.tagging_world)
    as (task & Htask & Hid & [Hlo _] & Hnow).
  { vm_compute; reflexivity. }
  { apply list_elem_of_here. }
  assert (task = Examples.task_a) as ->.
  { rewrite !elem_of_cons, elem_of_nil in Htask.
    destruct Htask as [->|[->|[]]]; [done|]. by vm_compute in Hid. }
  split; [exact Hlo|]. apply Hnow. by vm_compute.
Defined.

End TaskTagsOutput.

(** ** Comments: numbers and authors *)

Module CommentsOutput.
Import Comments.

Lemma sample_num_comments_spec task_priority w :
  wp (_sample_num_comments task_priority) w (λ n _,
    1 <= n <= 10 ∧
    (task_priority ∉ ["high"; "urgent"]%string → n <= 5) ∧
    (task_priority ∉ ["high"; "urgent"; "medium"]%string → n <= 3)).
Proof.
  unfold _sample_num_comments. case_bool_decide as Hhigh.
  - eapply wp_wand; [apply choice_spec|]. intros n w' [Hn _].
    specialize (Hn ltac:(done)). rewrite !elem_of_cons, elem_of_nil in Hn.
    split_and!; [lia..| |].
    + by intros ?.
    + intros Hnot. exfalso. apply Hnot.
      rewrite !elem_of_cons, elem_of_nil in Hhigh. rewrite !elem_of_cons. tauto.
  - destruct (String.eqb task_priority "medium") eqn:Hmedium.
    + eapply wp_wand; [apply choice_spec|]. intros n w' [Hn _].
      specialize (Hn ltac:(done)). rewrite !elem_of_cons, elem_of_nil in Hn.
      split_and!; [lia..| |].
      * intros _. lia.
      * intros Hnot. exfalso. apply Hnot. apply String.eqb_eq in Hmedium.
        rewrite !elem_of_cons. tauto.
    + eapply wp_wand; [apply choice_spec|]. intros n w' [Hn _].
      specialize (Hn ltac:(done)). rewrite !elem_of_cons, elem_of_nil in Hn.
      split_and!; [lia..| |]; intros _; lia.
Qed.

Lemma generate_comment_text_spec w :
  wp _generate_comment_text w (λ text _, text ≠ ""%string).
Proof.
  unfold _generate_comment_text.
  assert (Hall : Forall (λ t : string * option string, t.1 ≠ ""%string) comment_templates)
    by (repeat constructor; done).
  wp_step. wp_step. intros template w1 [Ht _]. specialize (Ht ltac:(done)).
  rewrite Forall_forall in Hall. specialize (Hall template Ht).
  destruct (template.2).
  - wp_auto. unfold format1. simpl. by apply append_nonempty_l.
  - by wp_step.
Qed.

Lemma add_comment_spec task relevant_users num_comments i comments w :
  relevant_users ≠ [] →
  wp (add_comment task relevant_users num_comments i comments) w (λ cs _,
    ∃ c, cs = comments ++ [c] ∧
      Comment.task_id c = Task.task_id task ∧ Comment.user_id c ∈ relevant_users ∧
      Comment.text c ≠ ""%string ∧ Comment.is_pinned c = false).
Proof.
  intros Hne. unfold add_comment.
  wp_step. wp_step. intros author_id w1 [Hauthor _].
  wp_step. eapply wp_wand; [apply generate_comment_text_spec|]. intros text w2 Htext.
  wp_step. eapply wp_wand; [apply CommentsFacts.comment_created_at_spec|].
  intros created_at w3 _. wp_step. wp_step. intros comment_id w4 _. wp_step.
  eexists. split; [done|]. simpl. split_and!; auto.
Qed.

(** The users drawn besides assignee and creator share the department of
    the user the assignee identifier leads to. *)
Lemma department_users_spec users (user_dict : gmap ident User.t) task w :
  (∀ id a, user_dict !! id = Some a → a ∈ users ∧ User.user_id a = id) →
  wp (match Task.assignee_id task with
      | Some assignee_id =>
          if truthy (Some assignee_id) then
            match user_dict !! assignee_id with
            | Some assignee =>
                let dept_users :=
                  filter (λ u, User.department u = User.department assignee) users in
                picked ← sample dept_users (Z.to_nat (Z.min 3 (Z.of_nat (length dept_users))));
                ret (User.user_id <$> picked)
            | None => ret []
            end
          else ret []
      | None => ret []
      end) w
     (λ extra _, ∀ x, x ∈ extra →
        ∃ u a, u ∈ users ∧ a ∈ users ∧
          Task.assignee_id task = Some (User.user_id a) ∧
          User.department u = User.department a ∧ x = User.user_id u).
Proof.
  intros Hdict.
  destruct (Task.assignee_id task) as [assignee_id|]; [|by wp_step; intros x ?%elem_of_nil].
  destruct (truthy _); [|by wp_step; intros x ?%elem_of_nil].
  destruct (user_dict !! assignee_id) as [assignee|] eqn:Hlook;
    [|by wp_step; intros x ?%elem_of_nil].
  destruct (Hdict _ _ Hlook) as [Hin Hid]. cbv zeta.
  wp_step. wp_step. intros picked w1 [Hsub _]. wp_step.
  intros x (u & -> & Hu)%list_elem_of_fmap.
  eapply elem_of_submseteq in Hu; [|exact Hsub].
  apply list_elem_of_filter in Hu as [Hdept Hu].
  exists u, assignee. by rewrite Hid.
Qed.

Lemma comments_visit_task_block users (user_dict : gmap ident User.t) task comments w :
  (∀ id a, user_dict !! id = Some a → a ∈ users ∧ User.user_id a = id) →
  wp (visit_task users user_dict task comments) w (λ r _,
    match r with
    | Ok cs => ∃ block, cs = comments ++ block ∧ comments_block users task block
    | Raise _ => True
    end).
Proof.
  intros Hdict. unfold visit_task, _should_have_comments.
  fold (comment_priority task).
  assert (Hnone : ∃ block, comments = comments ++ block ∧ comments_block users task block).
  { exists []. rewrite app_nil_r. split; [done|].
    split_and!; simpl; try lia; intros; try lia. constructor. }
  wp_step. wp_step. intros has_comments w1 _.
  destruct has_comments; simpl; [|by apply wp_ret].
  wp_step. eapply wp_wand; [apply sample_num_comments_spec|].
  intros num_comments w2 (Hnum & Hmedium & Hlow).
  wp_step. eapply wp_wand; [by apply department_users_spec|].
  intros extra w3 Hextra.
  set (named := (if truthy (Task.assignee_id task)
                 then [default ""%string (Task.assignee_id task)] else [])
                ++ (if negb (String.eqb (Task.created_by task) "")
                    then [Task.created_by task] else [])).
  assert (Hnamed : ∀ x, x ∈ named →
            Task.assignee_id task = Some x ∨ Task.created_by task = x).
  { intros x [Hx|Hx]%elem_of_app.
    - destruct (Task.assignee_id task) as [a|]; simpl in Hx; [|by apply elem_of_nil in Hx].
      destruct (String.eqb a ""); simpl in Hx; [by apply elem_of_nil in Hx|].
      apply list_elem_of_singleton in Hx. left. by rewrite Hx.
    - destruct (String.eqb (Task.created_by task) ""); simpl in Hx;
        [by apply elem_of_nil in Hx|].
      apply list_elem_of_singleton in Hx. by right. }
  assert (Hloop : ∀ relevant_users w4,
            relevant_users ≠ [] →
            (∀ x, x ∈ relevant_users → may_comment users task x) →
            wp (comments ← for_ (range num_comments)
                              (add_comment task relevant_users num_comments) comments;
                ret (Ok comments)) w4
               (λ r _, match r with
                       | Ok cs => ∃ block, cs = comments ++ block ∧
                                           comments_block users task block
                       | Raise _ => True
                       end)).
  { intros relevant_users w4 Hne Hmay. wp_step.
    set (I := λ (pre : list Z) (cs : list Comment.t) (_ : World),
      ∃ block, cs = comments ++ block ∧ length block = length pre ∧
        Forall (λ c, Comment.task_id c = Task.task_id task ∧
                     may_comment users task (Comment.user_id c) ∧
                     Comment.text c ≠ ""%string ∧
                     Comment.is_pinned c = false) block).
    eapply wp_wand with (Q := I (range num_comments)).
    - apply (for_spec_prefix I).
      + exists []. by rewrite app_nil_r.
      + intros pre i post cs w5 _ (block & -> & Hlen & Hall).
        eapply wp_wand; [by apply add_comment_spec|].
        intros cs' w6 (c & -> & Hid & Hauthor & Htext & Hpin).
        exists (block ++ [c]). rewrite <- app_assoc, !length_app, Hlen.
        split_and!; [done..|]. apply Forall_app. split; [done|].
        apply Forall_singleton. split_and!; auto.
    - intros cs w5 (block & -> & Hlen & Hall). wp_step. exists block.
      split; [done|]. rewrite length_range in Hlen.
      split_and!; [lia| | |done].
      + intros Hp. specialize (Hmedium Hp). lia.
      + intros Hp. specialize (Hlow Hp). lia. }
  fold named.
  destruct (remove_dups (named ++ extra)) as [|r0 rs] eqn:Hrelevant.
  - destruct users as [|u0 us]; [by apply wp_ret|].
    assert (Hempty : named = []).
    { destruct named as [|i named]; [done|].
      assert (Hin : i ∈ remove_dups ((i :: named) ++ extra))
        by (apply elem_of_remove_dups; left).
      rewrite Hrelevant in Hin. by apply elem_of_nil in Hin. }
    wp_step. wp_step. wp_step. intros u w4 [Hu _]. specialize (Hu ltac:(done)).
    wp_step. apply Hloop; [done|].
    intros x Hx%list_elem_of_singleton. subst x.
    apply list_elem_of_fmap in Hu as (u' & -> & Hu').
    right. right. right.
    unfold named in Hempty. apply app_eq_nil in Hempty as [Ha Hc].
    split_and!.
    + by destruct (truthy (Task.assignee_id task)).
    + destruct (String.eqb (Task.created_by task) "") eqn:Heq; [|done].
      by apply String.eqb_eq in Heq.
    + by exists u'.
  - assert (Hmay : ∀ x, x ∈ r0 :: rs → may_comment users task x).
    { intros x Hx. rewrite <- Hrelevant in Hx.
      apply elem_of_remove_dups, elem_of_app in Hx as [Hx|Hx].
      - destruct (Hnamed x Hx); [by left|right; by left].
      - right. right. left. by apply Hextra. }
    destruct users as [|u0 us]; (wp_step; wp_step; by apply Hloop).
Qed.

Lemma user_dict_lookup (users : list User.t) id a :
  (list_to_map (reverse ((λ u, (User.user_id u, u)) <$> users)) : gmap ident User.t)
    !! id = Some a →
  a ∈ users ∧ User.user_id a = id.
Proof.
  intros Hlook. apply elem_of_list_to_map_2 in Hlook.
  apply elem_of_reverse, list_elem_of_fmap in Hlook as (u & [= -> ->] & Hu). done.
Qed.

Lemma comments_generate_blocks tasks users w :
  wp (generate tasks users) w (λ r _,
    match r with
    | Ok comments =>
        ∃ blocks, comments = concat blocks ∧
          Forall2 (comments_block users) tasks blocks
    | Raise _ => True
    end).
Proof.
  unfold generate. wp_step.
  set (I := λ (pre : list Task.t) (cs : list Comment.t) (_ : World),
    ∃ blocks, cs = concat blocks ∧ Forall2 (comments_block users) pre blocks).
  eapply wp_wand.
  - apply (for_r_spec_prefix I).
    + exists []. split; [done|constructor].
    + intros pre task post cs w1 _ (blocks & -> & Hblocks).
      eapply wp_wand; [apply comments_visit_task_block, user_dict_lookup|].
      intros [cs'|e] w2; [|done]. intros (block & -> & Hblock).
      exists (blocks ++ [block]). split.
      * rewrite concat_app. simpl. by rewrite app_nil_r.
      * apply Forall2_app; [done|]. by constructor.
  - intros [cs|e] w1 HI; [|by apply wp_ret].
    destruct tasks; apply wp_ret; [done|]. exact HI.
Qed.

(** X14: the comments come in blocks, one per task and in the order of
    the tasks.  A block holds at most ten comments, at most five unless the
    priority of the task is high or urgent, and at most three when it is
    neither of these nor medium (a task without priority counts as
    medium); its comments carry the identifier of the task, have a text
    and are not pinned. *)
Theorem X14_comments_per_task tasks users w comments w' :
  generate tasks users w = (Ok comments, w') →
  ∃ blocks, comments = concat blocks ∧
    Forall2 (λ task block,
               (length block <= 10)%nat ∧
               (comment_priority task ∉ ["high"; "urgent"]%string →
                (length block <= 5)%nat) ∧
               (comment_priority task ∉ ["high"; "urgent"; "medium"]%string →
                (length block <= 3)%nat) ∧
               Forall (λ c, Comment.task_id c = Task.task_id task ∧
                            Comment.text c ≠ ""%string ∧
                            Comment.is_pinned c = false) block)
            tasks blocks.
Proof.
  intros Hrun.
  destruct (wp_run _ _ _ _ _ (comments_generate_blocks tasks users w) Hrun)
    as (blocks & -> & Hblocks).
  exists blocks. split; [done|].
  eapply Forall2_impl; [exact Hblocks|]. intros task block (H10 & H5 & H3 & Hall).
  split_and!; [done..|]. eapply Forall_impl; [exact Hall|].
  by intros c (? & _ & ? & ?).
Qed.

Lemma X14_comments_per_task_witness :
  ∃ comments w',
    generate [Examples.task_a; Examples.task_b] [Examples.user_1]
             MoreExamples.five_comments_world = (Ok comments, w') ∧
    Comment.task_id <$> comments = replicate 5 "task-a"%string ∧
    ∃ blocks, comments = concat blocks ∧
      Forall2 (λ task block,
                 (length block <= 10)%nat ∧
                 (comment_priority task ∉ ["high"; "urgent"]%string →
                  (length block <= 5)%nat) ∧
                 (comment_priority task ∉ ["high"; "urgent"; "medium"]%string →
                  (length block <= 3)%nat) ∧
                 Forall (λ c, Comment.task_id c = Task.task_id task ∧
                              Comment.text c ≠ ""%string ∧
                              Comment.is_pinned c = false) block)
              [Examples.task_a; Examples.task_b] blocks.
Proof.
  eexists _, _. split; [vm_compute; reflexivity|]. split; [reflexivity|].
  eapply (X14_comments_per_task [Examples.task_a; Examples.task_b] [Examples.user_1]
            MoreExamples.five_comments_world).
  vm_compute; reflexivity.
Defined.

(** X15: the author of a comment is the assignee of its task, the
    creator of its task, or a user of the input that has the department of
    the user the assignee identifier belongs to; only for a task that names
    neither an assignee nor a creator is the author drawn from all users. *)
Theorem X15_comment_authors tasks users w comments w' :
  generate tasks users w = (Ok comments, w') →
  ∀ c, c ∈ comments →
    ∃ task, task ∈ tasks ∧ Comment.task_id c = Task.task_id task ∧
      (Task.assignee_id task = Some (Comment.user_id c) ∨
       Task.created_by task = Comment.user_id c ∨
       (∃ u a, u ∈ users ∧ a ∈ users ∧
               Task.assignee_id task = Some (User.user_id a) ∧
               User.department u = User.department a ∧
               Comment.user_id c = User.user_id u) ∨
       (truthy (Task.assignee_id task) = false ∧ Task.created_by task = ""%string ∧
        ∃ u, u ∈ users ∧ Comment.user_id c = User.user_id u)).
Proof.
  intros Hrun c Hc.
  destruct (wp_run _ _ _ _ _ (comments_generate_blocks tasks users w) Hrun)
    as (blocks & -> & Hblocks).
  destruct (in_some_block (λ task c, Comment.task_id c = Task.task_id task ∧
                                     may_comment users task (Comment.user_id c))
              _ _ _ c Hblocks) as (task & Htask & Hid & Hmay); [|done|].
  { intros task block (_ & _ & _ & Hall). eapply Forall_impl; [exact Hall|].
    by intros c' (? & ? & _). }
  by exists task.
Qed.

Lemma X15_comment_authors_witness :
  ∃ comments w' c,
    generate [MoreExamples.task_by_sales]
             [Examples.user_1; Examples.user_2; MoreExamples.user_sales]
             MoreExamples.colleague_comments_world = (Ok comments, w') ∧
    head comments = Some c ∧ Comment.user_id c = "user-2"%string ∧
    (Task.assignee_id MoreExamples.task_by_sales = Some (Comment.user_id c) ∨
     Task.created_by MoreExamples.task_by_sales = Comment.user_id c ∨
     (∃ u a, u ∈ [Examples.user_1; Examples.user_2; MoreExamples.user_sales] ∧
             a ∈ [Examples.user_1; Examples.user_2; MoreExamples.user_sales] ∧
             Task.assignee_id MoreExamples.task_by_sales = Some (User.user_id a) ∧
             User.department u = User.department a ∧
             Comment.user_id c = User.user_id u) ∨
     (truthy (Task.assignee_id MoreExamples.task_by_sales) = false ∧
      Task.created_by MoreExamples.task_by_sales = ""%string ∧
      ∃ u, u ∈ [Examples.user_1; Examples.user_2; MoreExamples.user_sales] ∧
           Comment.user_id c = User.user_id u)).
Proof.
  eexists _, _, _. split; [vm_compute; reflexivity|]. split; [reflexivity|].
  split; [reflexivity|].
  edestruct (X15_comment_authors [MoreExamples.task_by_sales]
               [Examples.user_1; Examples.user_2; MoreExamples.user_sales]
               MoreExamples.colleague_comments_world)
    as (task & Htask & _ & Hmay).
  { vm_compute; reflexivity. }
  { apply list_elem_of_here. }
  apply list_elem_of_singleton in Htask. subst task. exact Hmay.
Defined.

End CommentsOutput.

(** ** Team memberships: members, dates and pairs *)

Module TeamMembershipsOutput.
Import TeamMemberships.

(** The closing clamps of [_sample_joined_at]: never after the clock
    reading, and not before the later of the two creations when that is
    not after the clock reading. *)
Lemma joined_at_bounds user_created_at team_created_at w :
  wp (_sample_joined_at user_created_at team_created_at) w (λ r w',
    wall w <= wall w' ∧ r <= wall w' ∧
    (Z.max user_created_at team_created_at <= wall w' →
     Z.max user_created_at team_created_at <= r)).
Proof.
  unfold _sample_joined_at.
  wp_step. wp_step. intros now w1 [-> Hw1].
  wp_step. wp_step. intros days_delay w2 [_ Hw2].
  wp_step. wp_step. intros hour w3 [_ Hw3]. wp_step.
  cbv zeta. rewrite Hw3, Hw2. split; [lia|].
  repeat case_bool_decide; unfold_units; lia.
Qed.

Lemma joined_later started now1 now2 team u m :
  now1 <= now2 → joined started now1 team u m → joined started now2 team u m.
Proof. intros Hnow (? & ? & ? & ?). split_and!; try done. lia. Qed.

Lemma members_from_later users started now1 now2 team block :
  now1 <= now2 → members_from users started now1 team block →
  members_from users started now2 team block.
Proof.
  intros Hnow (selected & Hsub & Hdept & Hall). exists selected.
  split_and!; [done..|]. eapply Forall2_impl; [exact Hall|].
  intros u m. by apply joined_later.
Qed.

Lemma add_members_block started team selected s w :
  started <= wall w →
  wp (for_ (enumerate selected) (add_member team) s) w (λ s' w',
    wall w <= wall w' ∧ users s' = users s ∧ users_by_dept s' = users_by_dept s ∧
    ∃ block, memberships s' = memberships s ++ block ∧
             Forall2 (joined started (wall w') team) selected block).
Proof.
  intros Hstarted.
  set (I := λ (pre : list (nat * User.t)) (s' : state) (w' : World),
    wall w <= wall w' ∧ users s' = users s ∧ users_by_dept s' = users_by_dept s ∧
    ∃ block, memberships s' = memberships s ++ block ∧
             Forall2 (joined started (wall w') team) ((λ it, it.2) <$> pre) block).
  eapply wp_wand with (Q := I (enumerate selected)).
  - apply (for_spec_prefix I).
    { split_and!; [lia|done|done|]. exists []. rewrite app_nil_r.
      split; [done|constructor]. }
    intros pre [i user] post s1 w1 _ (Hw1 & Husers & Hdept & block & Hms & Hblock).
    unfold add_member. wp_step. eapply wp_wand; [apply joined_at_bounds|].
    intros joined_at w2 (Hw2 & Hnow & Hafter).
    wp_step. wp_step. intros membership_id w3 Hw3. wp_step. cbv beta in Hw3.
    split_and!; simpl; [lia|done|done|].
    eexists (block ++ [_]). split; [by rewrite Hms, <- app_assoc|].
    rewrite fmap_app. apply Forall2_app.
    + eapply Forall2_impl; [exact Hblock|]. intros u m. apply joined_later. lia.
    + constructor; [|constructor]. split; [done|]. split; [done|]. simpl.
      split; [lia|]. intros Hmax. apply Hafter. lia.
  - intros s' w' (Hw' & Husers & Hdept & block & Hms & Hblock).
    split_and!; [done..|]. exists block. split; [done|].
    by rewrite SectionsFacts.enumerate_snd in Hblock.
Qed.

Lemma slice_to_submseteq {A} (xs : list A) n : slice_to xs n ⊆+ xs.
Proof. unfold slice_to. case_bool_decide; apply sublist_submseteq, sublist_take. Qed.

(** One team: the members are drawn from the users of its department, or
    from all users when the department has none; the lists of the state
    are at most reordered. *)
Lemma visit_team_block self users0 started team s w :
  started <= wall w → users_kept users0 s →
  wp (visit_team self team s) w (λ s' w',
    wall w <= wall w' ∧ users_kept users0 s' ∧
    ∃ block, memberships s' = memberships s ++ block ∧
             members_from users0 started (wall w') team block).
Proof.
  intros Hstarted [Husers Hdept]. unfold visit_team, _sample_team_size.
  wp_step. wp_step. intros target_size w1 [_ Hw1].
  pose proof (Hdept (Some (Team.team_type team))) as Hby.
  set (by_dept := default [] (users_by_dept s !! Some (Team.team_type team))) in *.
  set (from_dept := match by_dept with [] => false | _ => true end).
  set (matching_users := if from_dept then by_dept else users s).
  set (under_cap := filter (λ u, teams_of (user_team_assignments s) (User.user_id u) < 4)
                           matching_users).
  set (all_capped := match under_cap with [] => true | _ => false end).
  set (available := stable_sort (λ u, teams_of (user_team_assignments s) (User.user_id u))
                                (if all_capped then matching_users else under_cap)).
  set (selected := slice_to available _).
  match goal with
  | |- wp (for_ _ _ ?s1) _ _ => set (s1' := s1)
  end.
  assert (Hmatching : matching_users ⊆+ users0 ∧
                      Forall (department_of_team users0 team) matching_users).
  { unfold matching_users, from_dept. destruct by_dept as [|b bs] eqn:Hb.
    - split; [by rewrite Husers|]. apply Forall_forall. intros u _. right.
      intros v Hv Hd.
      assert (Hin : v ∈ filter (λ u, User.department u = Some (Team.team_type team)) users0)
        by (by apply list_elem_of_filter).
      rewrite <- Hby in Hin. by apply elem_of_nil in Hin.
    - split.
      + rewrite Hby. apply sublist_submseteq, sublist_filter.
      + apply Forall_forall. intros u Hu. left. rewrite Hby in Hu.
        by apply list_elem_of_filter in Hu as [? _]. }
  destruct Hmatching as [Hsub Hfrom].
  assert (Havailable : available ≡ₚ if all_capped then matching_users else under_cap)
    by apply stable_sort_Permutation.
  assert (Hselected : selected ⊆+ matching_users).
  { trans available; [apply slice_to_submseteq|]. rewrite Havailable.
    destruct all_capped; [done|]. apply sublist_submseteq, sublist_filter. }
  assert (Hkept : users_kept users0 s1' ∧ memberships s1' = memberships s).
  { unfold s1'. destruct all_capped eqn:Hcapped; [|done].
    unfold matching_users in Havailable. destruct from_dept eqn:Hfd.
    - split; [|done]. split; [done|]. simpl. intros k.
      destruct (decide (k = Some (Team.team_type team))) as [->|Hk].
      + rewrite lookup_insert_eq. simpl. by rewrite Havailable.
      + rewrite lookup_insert_ne by done. apply Hdept.
    - split; [|done]. split; [|done]. simpl. by rewrite Havailable. }
  destruct Hkept as [[Husers1 Hdept1] Hms1].
  eapply wp_wand; [apply (add_members_block started); lia|].
  intros s' w' (Hw' & Hu' & Hd' & block & Hms & Hblock).
  split_and!; [lia| |].
  - split; [by rewrite Hu'|]. intros k. rewrite Hd'. apply Hdept1.
  - exists block. split; [by rewrite Hms, Hms1|]. exists selected.
    split_and!; [by trans matching_users| |done].
    apply Forall_forall. intros u Hu. rewrite Forall_forall in Hfrom. apply Hfrom.
    by eapply elem_of_submseteq.
Qed.

Lemma memberships_generate_blocks self teams users0 w :
  wp (generate self teams users0) w (λ r w',
    match r with
    | Ok ms => ∃ blocks, ms = concat blocks ∧
                 Forall2 (members_from users0 (wall w) (wall w')) teams blocks
    | Raise _ => True
    end).
Proof.
  unfold generate. wp_step.
  set (I := λ (pre : list Team.t) (s : state) (w' : World),
    wall w <= wall w' ∧ users_kept users0 s ∧
    ∃ blocks, memberships s = concat blocks ∧
              Forall2 (members_from users0 (wall w) (wall w')) pre blocks).
  eapply wp_wand with (Q := I teams).
  - apply (for_spec_prefix I).
    { split_and!; [lia| |].
      - split; [done|]. intros k. simpl. by rewrite TasksFacts.group_by_lookup.
      - exists []. split; [done|constructor]. }
    intros pre team post s w1 _ (Hw1 & Hkept & blocks & Hms & Hblocks).
    eapply wp_wand; [by apply (visit_team_block self users0 (wall w))|].
    intros s' w2 (Hw2 & Hkept' & block & Hms' & Hblock).
    split_and!; [lia|done|].
    exists (blocks ++ [block]). split.
    + rewrite Hms', Hms, concat_app. simpl. by rewrite app_nil_r.
    + apply Forall2_app; [|by constructor].
      eapply Forall2_impl; [exact Hblocks|]. intros t b.
      by apply members_from_later.
  - intros s w1 (_ & _ & HI). destruct users0; by apply wp_ret.
Qed.

Lemma members_from_elem_of users started now team block m :
  members_from users started now team block → m ∈ block →
  ∃ u, u ∈ users ∧ department_of_team users team u ∧ joined started now team u m.
Proof.
  intros (selected & Hsub & Hdept & Hall) Hm.
  apply list_elem_of_lookup in Hm as [i Hi].
  destruct (Forall2_lookup_r _ _ _ _ _ Hall Hi) as (u & Hu & Hjoined).
  apply list_elem_of_lookup_2 in Hu. exists u. split_and!; [|by eapply Forall_forall|done].
  by eapply elem_of_submseteq.
Qed.

(** The pairs of one block differ in the user, those of different blocks
    in the team. *)
Lemma membership_pairs_NoDup users started now teams blocks :
  NoDup (User.user_id <$> users) → NoDup (Team.team_id <$> teams) →
  Forall2 (members_from users started now) teams blocks →
  NoDup (membership_pair <$> concat blocks) ∧
  ∀ p, p ∈ membership_pair <$> concat blocks → p.2 ∈ Team.team_id <$> teams.
Proof.
  intros Husers Hteams Hall. induction Hall as [|team block teams blocks Hblock _ IH].
  { split; [constructor|]. by intros p ?%elem_of_nil. }
  rewrite fmap_cons in Hteams. apply NoDup_cons in Hteams as [Hfresh Hteams].
  destruct (IH Hteams) as [Hrest Hin]. clear IH.
  destruct Hblock as (selected & Hsub & _ & Hjoined).
  assert (Hpairs : membership_pair <$> block
                   = (λ u, (User.user_id u, Team.team_id team)) <$> selected).
  { clear -Hjoined. induction Hjoined as [|u m us ms (Ht & Hu & _) _ IH]; [done|].
    rewrite !fmap_cons, IH. unfold membership_pair. by rewrite Ht, Hu. }
  simpl. rewrite fmap_app, Hpairs. split.
  - apply NoDup_app. split_and!; [|  |done].
    + assert (Hids : NoDup (User.user_id <$> selected)).
      { eapply submseteq_NoDup; [|exact Husers]. by apply fmap_submseteq. }
      clear -Hids. induction selected as [|u us IH]; [constructor|].
      rewrite fmap_cons in *. apply NoDup_cons in Hids as [Hu Hus].
      apply NoDup_cons. split; [|by apply IH].
      intros (v & [= Hv] & Hin)%list_elem_of_fmap. apply Hu.
      rewrite Hv. by apply list_elem_of_fmap_2.
    + intros p (u & -> & _)%list_elem_of_fmap Hp. apply Hin in Hp. by apply Hfresh.
  - intros p [(u & -> & _)%list_elem_of_fmap|Hp%Hin]%elem_of_app; simpl.
    + left.
    + by right.
Qed.

(** X16: a membership record names a team of the input and a user of the
    input.  The user has the department the team is named after, unless no
    user of the input has that department. *)
Theorem X16_members_from_team_department self teams users w ms w' :
  generate self teams users w = (Ok ms, w') →
  ∀ m, m ∈ ms →
    ∃ team u, team ∈ teams ∧ u ∈ users ∧
      TeamMembership.team_id m = Team.team_id team ∧
      TeamMembership.user_id m = User.user_id u ∧
      (User.department u = Some (Team.team_type team) ∨
       ∀ v, v ∈ users → User.department v ≠ Some (Team.team_type team)).
Proof.
  intros Hrun m Hm.
  destruct (wp_run _ _ _ _ _ (memberships_generate_blocks self teams users w) Hrun)
    as (blocks & -> & Hblocks).
  destruct (in_some_block
              (λ team m, ∃ u, u ∈ users ∧ department_of_team users team u ∧
                              joined (wall w) (wall w') team u m)
              _ _ _ m Hblocks) as (team & Hteam & u & Hu & Hdept & Hteam_id & Huser_id & _);
    [|done|].
  { intros team block Hblock. apply Forall_forall. intros m' Hm'.
    by eapply members_from_elem_of. }
  by exists team, u.
Qed.

Lemma X16_members_from_team_department_witness :
  ∃ ms w',
    generate Examples.membership_generator [Examples.team "team-1"]
             [MoreExamples.user_sales; Examples.user_1; Examples.user_2]
             (Examples.world (Examples.at_ Examples.today 10 0) [0; 0; 0; 0; 0])
      = (Ok ms, w') ∧
    TeamMembership.user_id <$> ms = ["user-1"; "user-2"]%string ∧
    ∀ m, m ∈ ms →
      ∃ team u, team ∈ [Examples.team "team-1"] ∧
        u ∈ [MoreExamples.user_sales; Examples.user_1; Examples.user_2] ∧
        TeamMembership.team_id m = Team.team_id team ∧
        TeamMembership.user_id m = User.user_id u ∧
        (User.department u = Some (Team.team_type team) ∨
         ∀ v, v ∈ [MoreExamples.user_sales; Examples.user_1; Examples.user_2] →
              User.department v ≠ Some (Team.team_type team)).
Proof.
  eexists _, _. split; [vm_compute; reflexivity|]. split; [reflexivity|].
  eapply (X16_members_from_team_department Examples.membership_generator
            [Examples.team "team-1"]
            [MoreExamples.user_sales; Examples.user_1; Examples.user_2]
            (Examples.world (Examples.at_ Examples.today 10 0) [0; 0; 0; 0; 0])).
  vm_compute; reflexivity.
Defined.

(** X17: no membership is dated after the clock reading at the end of
    the run.  A membership of a user and a team that were both created by
    the clock reading at the start of the run is not dated before either
    creation. *)
Theorem X17_joined_after_user_and_team self teams users w ms w' :
  generate self teams users w = (Ok ms, w') →
  ∀ m, m ∈ ms →
    TeamMembership.joined_at m <= wall w' ∧
    ∃ team u, team ∈ teams ∧ u ∈ users ∧
      TeamMembership.team_id m = Team.team_id team ∧
      TeamMembership.user_id m = User.user_id u ∧
      (User.created_at u <= wall w → Team.created_at team <= wall w →
       User.created_at u <= TeamMembership.joined_at m ∧
       Team.created_at team <= TeamMembership.joined_at m).
Proof.
  intros Hrun m Hm.
  destruct (wp_run _ _ _ _ _ (memberships_generate_blocks self teams users w) Hrun)
    as (blocks & -> & Hblocks).
  destruct (in_some_block
              (λ team m, ∃ u, u ∈ users ∧ department_of_team users team u ∧
                              joined (wall w) (wall w') team u m)
              _ _ _ m Hblocks)
    as (team & Hteam & u & Hu & _ & Hteam_id & Huser_id & Hnow & Hafter);
    [|done|].
  { intros team block Hblock. apply Forall_forall. intros m' Hm'.
    by eapply members_from_elem_of. }
  split; [done|]. exists team, u. split_and!; [done..|].
  intros Huser_old Hteam_old. lia.
Qed.

Lemma X17_joined_after_user_and_team_witness :
  ∃ ms w',
    generate Examples.membership_generator [Examples.team "team-1"]
             [Examples.user_1; Examples.user_2]
             (Examples.world (Examples.at_ Examples.today 10 0) [0; 0; 0; 0; 0])
      = (Ok ms, w') ∧
    TeamMembership.joined_at <$> ms
      = [Examples.at_ Examples.today 9 0; Examples.at_ (Examples.today - 10) 9 0] ∧
    ∀ m, m ∈ ms →
      TeamMembership.joined_at m <= wall w' ∧
      ∃ team u, team ∈ [Examples.team "team-1"] ∧
        u ∈ [Examples.user_1; Examples.user_2] ∧
        TeamMembership.team_id m = Team.team_id team ∧
        TeamMembership.user_id m = User.user_id u ∧
        (User.created_at u
           <= wall (Examples.world (Examples.at_ Examples.today 10 0) [0; 0; 0; 0; 0]) →
         Team.created_at team
           <= wall (Examples.world (Examples.at_ Examples.today 10 0) [0; 0; 0; 0; 0]) →
         User.created_at u <= TeamMembership.joined_at m ∧
         Team.created_at team <= TeamMembership.joined_at m).
Proof.
  eexists _, _. split; [vm_compute; reflexivity|]. split; [vm_compute; reflexivity|].
  eapply (X17_joined_after_user_and_team Examples.membership_generator
            [Examples.team "team-1"] [Examples.user_1; Examples.user_2]
            (Examples.world (Examples.at_ Examples.today 10 0) [0; 0; 0; 0; 0])).
  vm_compute; reflexivity.
Defined.

(** X18: when the users have distinct identifiers and the teams have
    distinct identifiers, no two membership records pair the same user
    with the same team. *)
Theorem X18_no_duplicate_memberships self teams users w ms w' :
  NoDup (User.user_id <$> users) → NoDup (Team.team_id <$> teams) →
  generate self teams users w = (Ok ms, w') →
  NoDup ((λ m, (TeamMembership.user_id m, TeamMembership.team_id m)) <$> ms).
Proof.
  intros Husers Hteams Hrun.
  destruct (wp_run _ _ _ _ _ (memberships_generate_blocks self teams users w) Hrun)
    as (blocks & -> & Hblocks).
  by destruct (membership_pairs_NoDup _ _ _ _ _ Husers Hteams Hblocks).
Qed.

Lemma X18_no_duplicate_memberships_witness :
  ∃ ms w',
    generate Examples.membership_generator Examples.five_teams
             [Examples.user_1; Examples.user_2]
             (Examples.world (Examples.at_ Examples.today 10 0) []) = (Ok ms, w') ∧
    length ms = 10%nat ∧
    NoDup ((λ m, (TeamMembership.user_id m, TeamMembership.team_id m)) <$> ms).
Proof.
  eexists _, _. split; [vm_compute; reflexivity|]. split; [reflexivity|].
  eapply (X18_no_duplicate_memberships Examples.membership_generator Examples.five_teams
            [Examples.user_1; Examples.user_2]
            (Examples.world (Examples.at_ Examples.today 10 0) [])).
  - compute_done.
  - compute_done.
  - vm_compute; reflexivity.
Defined.

End TeamMembershipsOutput.

(** ** Tags: the library and the tags made from it *)

Module TagsOutput.
Import Tags.

(** The closing loop of [_build_tag_library] keeps the first occurrence of
    every tag. *)
Lemma keep_new_fold (tags : list string) (acc : gset string * list string) :
  NoDup acc.2 → (∀ t, t ∈ acc.1 ↔ t ∈ acc.2) →
  let out := foldl keep_new acc tags in
  NoDup out.2 ∧ (∀ t, t ∈ out.1 ↔ t ∈ out.2) ∧
  (∀ t, t ∈ out.2 ↔ t ∈ acc.2 ∨ t ∈ tags) ∧
  (∃ added, out.2 = acc.2 ++ added ∧ sublist added tags) ∧
  (NoDup tags → (∀ t, t ∈ tags → t ∉ acc.2) → out.2 = acc.2 ++ tags).
Proof.
  revert acc. induction tags as [|tag tags IH]; intros acc Hnodup Hseen; simpl.
  { split_and!; [done|done| | |].
    - intros t. rewrite elem_of_nil. tauto.
    - exists []. by rewrite app_nil_r.
    - intros _ _. by rewrite app_nil_r. }
  assert (Hstep : NoDup (keep_new acc tag).2 ∧
                  (∀ t, t ∈ (keep_new acc tag).1 ↔ t ∈ (keep_new acc tag).2) ∧
                  (∀ t, t ∈ (keep_new acc tag).2 ↔ t ∈ acc.2 ∨ t = tag) ∧
                  (∃ added, (keep_new acc tag).2 = acc.2 ++ added ∧ sublist added [tag]) ∧
                  (tag ∉ acc.2 → (keep_new acc tag).2 = acc.2 ++ [tag])).
  { unfold keep_new. case_bool_decide as Hnew; simpl.
    - split_and!.
      + apply NoDup_app. split_and!; [done| |apply NoDup_singleton].
        intros t Ht Htag%list_elem_of_singleton. subst t. by apply Hnew, Hseen.
      + intros t. rewrite elem_of_union, elem_of_singleton, elem_of_app,
          list_elem_of_singleton, Hseen. tauto.
      + intros t. by rewrite elem_of_app, list_elem_of_singleton.
      + by exists [tag].
      + done.
    - split_and!; [done|done| | |].
      + intros t. split; [by left|]. intros [Ht| ->]; [done|].
        by apply Hseen.
      + exists []. rewrite app_nil_r. split; [done|]. apply sublist_nil_l.
      + intros Hfresh. exfalso. by apply Hfresh, Hseen. }
  destruct Hstep as (Hnodup1 & Hseen1 & Hin1 & (added1 & Hadded1 & Hsub1) & Hfresh1).
  destruct (IH (keep_new acc tag) Hnodup1 Hseen1)
    as (Hnodup2 & Hseen2 & Hin2 & (added2 & Hadded2 & Hsub2) & Hfresh2).
  split_and!; [done|done| | |].
  - intros t. rewrite Hin2, Hin1, elem_of_cons. tauto.
  - exists (added1 ++ added2). split; [by rewrite Hadded2, Hadded1, <- app_assoc|].
    by apply (sublist_app added1 [tag] added2 tags).
  - intros [Htag Htags]%NoDup_cons Hacc.
    rewrite Hfresh2, Hfresh1; [by rewrite <- app_assoc|..].
    + apply Hacc. left.
    + done.
    + intros t Ht [Hin| ->]%Hin1; [|done]. apply (Hacc t); [by right|done].
Qed.

(** Every element of a list has a first occurrence. *)
Lemma first_occurrence (tags : list string) t :
  t ∈ tags → ∃ j, tags !! j = Some t ∧ t ∉ take j tags.
Proof.
  induction tags as [|tag tags IH]; [by intros ?%elem_of_nil|].
  destruct (decide (t = tag)) as [->|Hne].
  { intros _. exists 0%nat. split; [done|]. apply not_elem_of_nil. }
  intros [?|Ht]%elem_of_cons; [done|]. destruct (IH Ht) as (j & Hj & Hfirst).
  exists (S j). split; [done|]. simpl. by intros [?|?]%elem_of_cons.
Qed.

(** The closing loop keeps the tags in the order of their first
    occurrences: of two tags it keeps, the one it puts first occurs first
    in the list it runs over. *)
Lemma keep_new_order (tags : list string) :
  ∀ i1 i2 x y, (i1 < i2)%nat →
    (foldl keep_new (∅, []) tags).2 !! i1 = Some x →
    (foldl keep_new (∅, []) tags).2 !! i2 = Some y →
    ∃ j1 j2, (j1 < j2)%nat ∧
      tags !! j1 = Some x ∧ (x ∉ take j1 tags) ∧
      tags !! j2 = Some y ∧ y ∉ take j2 tags.
Proof.
  induction tags as [|tag tags IH] using rev_ind; [done|].
  destruct (keep_new_fold tags (∅, [])) as (_ & Hseen & Hin & _).
  { constructor. }
  { intros t. cbn [fst snd]. rewrite elem_of_empty, elem_of_nil. tauto. }
  cbv zeta in Hseen, Hin. cbn [fst snd] in Hin.
  assert (Hkept : ∀ j t, tags !! j = Some t → t ∉ take j tags →
            (tags ++ [tag]) !! j = Some t ∧ (t ∉ take j (tags ++ [tag]))).
  { intros j t Hj Hfirst. pose proof (lookup_lt_Some _ _ _ Hj).
    split; [by apply lookup_app_l_Some|]. rewrite take_app_le by lia. done. }
  rewrite foldl_app. simpl.
  remember (foldl keep_new (∅, []) tags) as out eqn:Hout. clear Hout.
  intros i1 i2 x y Hlt. unfold keep_new. case_bool_decide as Hnew; simpl.
  - intros Hx Hy. destruct (decide (i2 < length out.2)%nat) as [Hi2|Hi2].
    + rewrite lookup_app_l in Hx by lia. rewrite lookup_app_l in Hy by lia.
      destruct (IH i1 i2 x y Hlt Hx Hy) as (j1 & j2 & Hj & Hj1 & Hfirst1 & Hj2 & Hfirst2).
      exists j1, j2. destruct (Hkept j1 x Hj1 Hfirst1), (Hkept j2 y Hj2 Hfirst2). done.
    + pose proof (lookup_lt_Some _ _ _ Hy) as Hlen. rewrite length_app in Hlen.
      simpl in Hlen.
      rewrite lookup_app_l in Hx by lia. rewrite lookup_app_r in Hy by lia.
      apply list_lookup_singleton_Some in Hy as [_ <-].
      assert (Hxin : x ∈ tags).
      { apply list_elem_of_lookup_2 in Hx. apply Hin in Hx as [?%elem_of_nil|?]; done. }
      destruct (first_occurrence tags x Hxin) as (j1 & Hj1 & Hfirst1).
      exists j1, (length tags). pose proof (lookup_lt_Some _ _ _ Hj1).
      destruct (Hkept j1 x Hj1 Hfirst1). split_and!; [done|done|done| |].
      * by rewrite lookup_app_r, Nat.sub_diag by lia.
      * rewrite take_app_length. intros Htag. apply Hnew, Hseen, Hin. by right.
  - intros Hx Hy.
    destruct (IH i1 i2 x y Hlt Hx Hy) as (j1 & j2 & Hj & Hj1 & Hfirst1 & Hj2 & Hfirst2).
    exists j1, j2. destruct (Hkept j1 x Hj1 Hfirst1), (Hkept j2 y Hj2 Hfirst2). done.
Qed.

(** The library has no duplicates, holds the tags that were combined in
    the order of their first occurrence, and begins with the core tags. *)
Lemma tag_library_spec departments technology :
  let self := _build_tag_library departments technology in
  NoDup (tag_library self) ∧
  (∀ t, t ∈ tag_library self ↔ t ∈ all_tags self) ∧
  sublist (tag_library self) (all_tags self) ∧
  take 35 (tag_library self)
  = core_tags self ++ priority_tags self ++ type_tags self ++ business_tags self ∧
  (∀ i1 i2 x y, (i1 < i2)%nat →
     tag_library self !! i1 = Some x → tag_library self !! i2 = Some y →
     ∃ j1 j2, (j1 < j2)%nat ∧
       all_tags self !! j1 = Some x ∧ (x ∉ take j1 (all_tags self)) ∧
       all_tags self !! j2 = Some y ∧ y ∉ take j2 (all_tags self)).
Proof.
  intros self.
  assert (Horder := keep_new_order (all_tags self)).
  change (foldl keep_new (∅, []) (all_tags self)).2 with (tag_library self) in Horder.
  cut (NoDup (tag_library self) ∧
       (∀ t, t ∈ tag_library self ↔ t ∈ all_tags self) ∧
       sublist (tag_library self) (all_tags self) ∧
       take 35 (tag_library self)
       = core_tags self ++ priority_tags self ++ type_tags self ++ business_tags self).
  { intros (? & ? & ? & ?). by split_and!. }
  clear Horder.
  set (fixed := core_tags self ++ priority_tags self ++ type_tags self
                ++ business_tags self).
  set (others := take 15 (department_tags self) ++ take 20 (tech_tags self)).
  assert (Hall : all_tags self = fixed ++ others).
  { unfold all_tags, fixed, others. by rewrite <- !app_assoc. }
  assert (Hlib : tag_library self = (foldl keep_new (∅, []) (all_tags self)).2) by done.
  assert (Hfixed : NoDup fixed ∧ length fixed = 35%nat).
  { unfold fixed, self, _build_tag_library. cbv zeta.
    cbn [core_tags priority_tags type_tags business_tags].
    split; [|reflexivity]. apply (bool_decide_unpack _). vm_compute. exact I. }
  destruct Hfixed as [Hfixed Hlength].
  rewrite Hlib, Hall, foldl_app. clearbody fixed others. clear Hlib Hall.
  destruct (keep_new_fold fixed (∅, [])) as (Hnodup1 & Hseen1 & Hin1 & _ & Hfresh1).
  { constructor. }
  { intros t. cbn [fst snd]. rewrite elem_of_empty, elem_of_nil. tauto. }
  cbv zeta in *. cbn [fst snd] in Hfresh1.
  specialize (Hfresh1 Hfixed ltac:(intros t _; apply not_elem_of_nil)).
  rewrite app_nil_l in Hfresh1.
  destruct (keep_new_fold others (foldl keep_new (∅, []) fixed))
    as (Hnodup2 & _ & Hin2 & (added & Hadded & Hsub) & _); [done..|].
  cbv zeta in *. rewrite Hfresh1 in *.
  split_and!; [done| | |].
  - intros t. rewrite Hin2, elem_of_app. tauto.
  - rewrite Hadded. by apply sublist_app.
  - rewrite Hadded. by rewrite take_app_length' by done.
Qed.

Lemma get_tag_color_spec tag_name w :
  wp (_get_tag_color tag_name) w (λ color w', color ∈ tag_colors ∧ wall w' = wall w).
Proof.
  unfold _get_tag_color.
  repeat match goal with
         | |- wp (if ?b then _ else _) _ _ => destruct b
         end;
    (eapply wp_wand; [apply choice_spec|]; intros color w' [Hin Hwall];
     specialize (Hin ltac:(done)); split; [|done];
     match type of Hin with
     | _ ∈ ?drawn =>
         assert (Hall : Forall (λ c, c ∈ tag_colors) drawn)
           by (apply (bool_decide_unpack _); vm_compute; exact I);
         rewrite Forall_forall in Hall; by apply Hall
     end).
Qed.

Lemma tag_created_at_spec org_created_at w :
  wp (_sample_created_at org_created_at) w (λ t w',
    office_hour_within 0 30 org_created_at t ∧ wall w' = wall w).
Proof.
  unfold _sample_created_at.
  wp_step. wp_step. intros d w1 [Hd Hw1]. specialize (Hd ltac:(lia)).
  wp_step. wp_step. intros hour w2 [Hhour Hw2]. specialize (Hhour ltac:(lia)).
  wp_step. split; [|congruence]. exists d, hour. split_and!; [lia..|].
  unfold replace_hm. rewrite date_of_plus_days. unfold minutes. lia.
Qed.

(** One tag per name of the library, in its order. *)
Lemma tags_generate_spec self org w :
  wp (generate self org) w (λ tags w',
    Models.Tag.name <$> tags = tag_library self ∧
    Forall (λ tag,
      Models.Tag.organization_id tag = Models.Organization.organization_id org ∧
      (∃ color, Models.Tag.color tag = Some color ∧ color ∈ tag_colors) ∧
      office_hour_within 0 30 (Models.Organization.created_at org)
                         (Models.Tag.created_at tag)) tags).
Proof.
  unfold generate.
  set (I := λ (pre : list string) (tags : list Models.Tag.t) (_ : World),
    Models.Tag.name <$> tags = pre ∧
    Forall (λ tag,
      Models.Tag.organization_id tag = Models.Organization.organization_id org ∧
      (∃ color, Models.Tag.color tag = Some color ∧ color ∈ tag_colors) ∧
      office_hour_within 0 30 (Models.Organization.created_at org)
                         (Models.Tag.created_at tag)) tags).
  apply (for_spec_prefix I); [by split|].
  intros pre tag_name post tags w1 _ [Hnames Hall]. unfold add_tag.
  wp_step. eapply wp_wand; [apply get_tag_color_spec|]. intros color w2 [Hcolor _].
  wp_step. eapply wp_wand; [apply tag_created_at_spec|]. intros created_at w3 [Htime _].
  wp_step. wp_step. intros tag_id w4 _. wp_step. split.
  - by rewrite fmap_app, Hnames.
  - apply Forall_app. split; [done|]. apply Forall_singleton. simpl.
    split_and!; [done| |done]. by exists color.
Qed.

(** X19: the tags made from the library [_build_tag_library] builds have
    pairwise distinct names.  The names are the tags the library combines
    (core, priority, type and business tags, the first 15 department tags
    and the first 20 technology tags), each once and in the order of its
    first occurrence: of two names of the output, the one that comes first
    has its first occurrence among the combined tags before the first
    occurrence of the other.  The 35 fixed tags come first. *)
Theorem X19_tag_names_unique departments technology org w tags w' :
  generate (_build_tag_library departments technology) org w = (tags, w') →
  NoDup (Models.Tag.name <$> tags) ∧
  (∀ name, name ∈ Models.Tag.name <$> tags
           ↔ name ∈ all_tags (_build_tag_library departments technology)) ∧
  sublist (Models.Tag.name <$> tags)
          (all_tags (_build_tag_library departments technology)) ∧
  take 35 (Models.Tag.name <$> tags)
  = core_tags (_build_tag_library departments technology)
    ++ priority_tags (_build_tag_library departments technology)
    ++ type_tags (_build_tag_library departments technology)
    ++ business_tags (_build_tag_library departments technology) ∧
  (∀ i1 i2 x y, (i1 < i2)%nat →
     (Models.Tag.name <$> tags) !! i1 = Some x →
     (Models.Tag.name <$> tags) !! i2 = Some y →
     ∃ j1 j2, (j1 < j2)%nat ∧
       all_tags (_build_tag_library departments technology) !! j1 = Some x ∧
       (x ∉ take j1 (all_tags (_build_tag_library departments technology))) ∧
       all_tags (_build_tag_library departments technology) !! j2 = Some y ∧
       y ∉ take j2 (all_tags (_build_tag_library departments technology))).
Proof.
  intros Hrun.
  destruct (wp_run _ _ _ _ _ (tags_generate_spec _ org w) Hrun) as [-> _].
  apply tag_library_spec.
Qed.

Lemma X19_tag_names_unique_witness :
  ∃ tags w',
    generate (_build_tag_library ["Human Resources"; "Beta"] ["bug"; "ai-ml"])
             MoreInputs.organization
             (Examples.world (Examples.at_ Examples.today 10 0) []) = (tags, w') ∧
    drop 35 (Models.Tag.name <$> tags) = ["human-resources"; "ai-ml"]%string ∧
    NoDup (Models.Tag.name <$> tags).
Proof.
  eexists _, _. split; [vm_compute; reflexivity|]. split; [vm_compute; reflexivity|].
  eapply (X19_tag_names_unique ["Human Resources"; "Beta"]%string ["bug"; "ai-ml"]%string
            MoreInputs.organization
            (Examples.world (Examples.at_ Examples.today 10 0) [])).
  vm_compute; reflexivity.
Defined.

(** X20: every tag carries the identifier of the organization and one of
    the seventeen colours, and is created at a full hour from 08:00 to
    17:00 of a day at most 30 days after the day the organization was
    created on; the clock is not read, so such a time can lie ahead of
    it. *)
Theorem X20_tags_of_the_first_month self org w tags w' :
  generate self org w = (tags, w') →
  ∀ tag, tag ∈ tags →
    Models.Tag.organization_id tag = Models.Organization.organization_id org ∧
    (∃ color, Models.Tag.color tag = Some color ∧ color ∈ tag_colors) ∧
    ∃ d hour, 0 <= d <= 30 ∧ 8 <= hour <= 17 ∧
      Models.Tag.created_at tag
      = combine_min (date_of (Models.Organization.created_at org) + d) + hours hour.
Proof.
  intros Hrun tag Htag.
  destruct (wp_run _ _ _ _ _ (tags_generate_spec self org w) Hrun) as [_ Hall].
  rewrite Forall_forall in Hall. by apply Hall.
Qed.

Lemma X20_tags_of_the_first_month_witness :
  ∃ tags w' tag,
    generate (_build_tag_library [] []) MoreInputs.organization
             (Examples.world (Examples.at_ (Examples.today - 180) 9 0) [1; 30; 9])
      = (tags, w') ∧
    head tags = Some tag ∧
    Models.Tag.created_at tag = Examples.at_ (Examples.today - 150) 17 0 ∧
    wall w' < Models.Tag.created_at tag ∧
    Models.Tag.organization_id tag
    = Models.Organization.organization_id MoreInputs.organization ∧
    (∃ color, Models.Tag.color tag = Some color ∧ color ∈ tag_colors) ∧
    ∃ d hour, 0 <= d <= 30 ∧ 8 <= hour <= 17 ∧
      Models.Tag.created_at tag
      = combine_min (date_of (Models.Organization.created_at MoreInputs.organization)
                     + d) + hours hour.
Proof.
  eexists _, _, _. split; [vm_compute; reflexivity|]. split; [reflexivity|].
  split; [vm_compute; reflexivity|]. split; [vm_compute; reflexivity|].
  eapply (X20_tags_of_the_first_month (_build_tag_library [] [])
            MoreInputs.organization
            (Examples.world (Examples.at_ (Examples.today - 180) 9 0) [1; 30; 9])).
  - vm_compute; reflexivity.
  - apply list_elem_of_here.
Defined.

End TagsOutput.

(** ** The organization *)

Module OrganizationsOutput.
Import Organizations.

(** The companies [generate] chooses from: those of 3000 to 15000 people,
    or failing these the ones of more than 1000. *)
Lemma target_companies_spec companies :
  (target_companies (_load_companies companies) = []
   ↔ ∀ c, c ∈ companies → default 0 (team_size c) <= 1000) ∧
  ∀ c, c ∈ target_companies (_load_companies companies) →
    c ∈ companies ∧ 1000 < default 0 (team_size c) ∧
    ((∃ c', c' ∈ companies ∧ 3000 <= default 0 (team_size c') <= 15000) →
     3000 <= default 0 (team_size c) <= 15000).
Proof.
  unfold _load_companies. cbn [target_companies].
  destruct (filter (λ c, 3000 <= default 0 (team_size c) <= 15000) companies)
    as [|c0 cs] eqn:Hrange.
  - assert (Hnone : ∀ c, c ∈ companies → ¬ 3000 <= default 0 (team_size c) <= 15000).
    { intros c Hc Hsize.
      assert (Hin : c ∈ filter (λ c, 3000 <= default 0 (team_size c) <= 15000) companies)
        by (by apply list_elem_of_filter).
      rewrite Hrange in Hin. by apply elem_of_nil in Hin. }
    split.
    + split.
      * intros Hempty c Hc.
        destruct (decide (default 0 (team_size c) <= 1000)) as [|Hlarge]; [done|].
        assert (Hin : c ∈ filter (λ c, default 0 (team_size c) > 1000) companies)
          by (apply list_elem_of_filter; split; [lia|done]).
        rewrite Hempty in Hin. by apply elem_of_nil in Hin.
      * intros Hsmall.
        destruct (filter (λ c, default 0 (team_size c) > 1000) companies)
          as [|c cs] eqn:Hlarge; [done|].
        assert (Hin : c ∈ filter (λ c, default 0 (team_size c) > 1000) companies)
          by (rewrite Hlarge; left).
        apply list_elem_of_filter in Hin as [Hsize Hc]. specialize (Hsmall c Hc). lia.
    + intros c [Hsize Hc]%list_elem_of_filter. split_and!; [done|lia|].
      intros (c' & Hc' & Hsize'). by destruct (Hnone c' Hc').
  - rewrite <- Hrange. split.
    + split.
      * intros Hempty. by rewrite Hempty in Hrange.
      * intros Hsmall.
        assert (Hin : c0 ∈ filter (λ c, 3000 <= default 0 (team_size c) <= 15000)
                                  companies) by (rewrite Hrange; left).
        apply list_elem_of_filter in Hin as [Hsize Hc]. specialize (Hsmall c0 Hc). lia.
    + intros c [Hsize Hc]%list_elem_of_filter. split_and!; [done|lia|done].
Qed.

Lemma generate_domain_spec company_name w :
  wp (_generate_domain company_name) w (λ r w',
    wall w' = wall w ∧ r ≠ inl ValueError ∧
    ∀ domain, r = inr domain →
      ∃ word tld, domain = (word +:+ "." +:+ tld)%string ∧
                  tld ∈ ["com"; "io"; "so"; "app"; "co"]%string).
Proof.
  unfold _generate_domain. cbv zeta.
  destruct (Text.split _) as [|word words]; [by apply wp_ret|].
  wp_step. wp_step. intros tld w1 [Htld Hw1]. wp_step. split; [done|]. split; [done|].
  intros domain [= <-]. exists word, tld. split; [done|]. by apply Htld.
Qed.

(** 08:00 of the day 180 days before the day of the clock reading. *)
Lemma base_timestamp_spec w :
  wp _get_base_timestamp w (λ t w',
    wall w <= wall w' ∧ t = combine_min (date_of (wall w') - 180) + hours 8).
Proof.
  unfold _get_base_timestamp. wp_step. wp_step. intros now w1 [-> Hw1]. wp_step.
  split; [done|]. unfold replace_hm.
  replace (wall w1 - days 180) with (wall w1 + days (-180)) by (unfold days; lia).
  rewrite date_of_plus_days. unfold combine_min, minutes. lia.
Qed.

Lemma organizations_generate_spec self company_size w :
  wp (generate self company_size) w (λ out w',
    match out with
    | inl ValueError => target_companies self = []
    | inl IndexError => True
    | inr g =>
        company_data (metadata g) ∈ target_companies self ∧
        Models.Organization.name (organization g) = name (company_data (metadata g)) ∧
        Models.Organization.is_organization (organization g) = true ∧
        (∃ word tld,
           Models.Organization.domain (organization g) = (word +:+ "." +:+ tld)%string ∧
           tld ∈ ["com"; "io"; "so"; "app"; "co"]%string) ∧
        (∀ n, company_size = Some n → target_employee_count (metadata g) = n) ∧
        (company_size = None → 5000 <= target_employee_count (metadata g) <= 10000) ∧
        simulation_start_date (metadata g)
        = Models.Organization.created_at (organization g) ∧
        simulation_end_date (metadata g) = wall w' ∧
        ∃ now, wall w <= now <= wall w' ∧
          Models.Organization.created_at (organization g)
          = combine_min (date_of now - 180) + hours 8
    end).
Proof.
  unfold generate. wp_step.
  eapply wp_wand with (Q := λ n w1, wall w1 = wall w ∧
                                    (∀ m, company_size = Some m → n = m) ∧
                                    (company_size = None → 5000 <= n <= 10000)).
  { destruct company_size as [n|].
    - apply wp_ret. split_and!; [done| |done]. by intros m [= ->].
    - eapply wp_wand; [apply randint_spec|]. intros n w1 [Hn Hw1].
      split_and!; [done|done|]. intros _. apply Hn. lia. }
  intros size w1 (Hw1 & Hgiven & Hdrawn).
  destruct (target_companies self) as [|c0 cs] eqn:Htarget; [by apply wp_ret|].
  wp_step. wp_step. intros company w2 [Hcompany Hw2]. specialize (Hcompany ltac:(done)).
  wp_step. eapply wp_wand; [apply generate_domain_spec|]. intros domain w3 (Hw3 & Hraised & Hdomain).
  destruct domain as [e|domain]; [apply wp_ret; by destruct e|].
  wp_step. unfold _generate_org_id. wp_step. intros org_id w4 Hw4. cbv beta in Hw4.
  wp_step. eapply wp_wand; [apply base_timestamp_spec|]. intros created_at w5 [Hw5 Hbase].
  wp_step. wp_step. intros simulation_end w6 [-> Hw6]. wp_step. cbn.
  split_and!; [done|done|done|by apply Hdomain|done|done|done|done|].
  exists (wall w5). split; [lia|done].
Qed.

(** X21: [generate] raises [ValueError] exactly when no company of the
    research file has more than 1000 people.  Otherwise the organization
    it returns is named after a company of the file that has more than
    1000 people, and 3000 to 15000 when some company of the file has; it
    is marked as an organization and its domain ends with one of the five
    top-level domains. *)
Theorem X21_organization_from_a_large_company companies company_size w out w' :
  generate (_load_companies companies) company_size w = (out, w') →
  (out = inl ValueError ↔ ∀ c, c ∈ companies → default 0 (team_size c) <= 1000) ∧
  ∀ g, out = inr g →
    (∃ c, c ∈ companies ∧ company_data (metadata g) = c ∧
          Models.Organization.name (organization g) = name c ∧
          1000 < default 0 (team_size c) ∧
          ((∃ c', c' ∈ companies ∧ 3000 <= default 0 (team_size c') <= 15000) →
           3000 <= default 0 (team_size c) <= 15000)) ∧
    Models.Organization.is_organization (organization g) = true ∧
    ∃ word tld,
      Models.Organization.domain (organization g) = (word +:+ "." +:+ tld)%string ∧
      tld ∈ ["com"; "io"; "so"; "app"; "co"]%string.
Proof.
  intros Hrun.
  pose proof (wp_run _ _ _ _ _
                (organizations_generate_spec (_load_companies companies) company_size w)
                Hrun) as Hout.
  destruct (target_companies_spec companies) as [Hempty Htarget].
  split.
  - split.
    + intros ->. by apply Hempty.
    + intros Hsmall%Hempty. revert Hrun. unfold generate. rewrite Hsmall.
      unfold bind, ret. destruct company_size as [n|]; simpl.
      * by intros [= <- _].
      * destruct (randint 5000 10000 w). by intros [= <- _].
  - intros g ->. destruct Hout as (Hcompany & Hname & Horg & Hdomain & _).
    destruct (Htarget _ Hcompany) as (Hc & Hlarge & Hrange).
    split_and!; [|done|done]. by exists (company_data (metadata g)).
Qed.

Lemma X21_organization_from_a_large_company_witness :
  ∃ g w',
    generate (_load_companies MoreInputs.companies) (Some 7000)
             (Examples.world (Examples.at_ Examples.today 10 0) [1; 2])
      = (inr g, w') ∧
    Models.Organization.name (organization g) = "Notion Labs, Inc."%string ∧
    Models.Organization.domain (organization g) = "notion.so"%string ∧
    ((inr g : exception + Generated) = inl ValueError
     ↔ ∀ c, c ∈ MoreInputs.companies → default 0 (team_size c) <= 1000) ∧
    ∀ g', (inr g : exception + Generated) = inr g' →
      (∃ c, c ∈ MoreInputs.companies ∧ company_data (metadata g') = c ∧
            Models.Organization.name (organization g') = name c ∧
            1000 < default 0 (team_size c) ∧
            ((∃ c', c' ∈ MoreInputs.companies ∧
                    3000 <= default 0 (team_size c') <= 15000) →
             3000 <= default 0 (team_size c) <= 15000)) ∧
      Models.Organization.is_organization (organization g') = true ∧
      ∃ word tld,
        Models.Organization.domain (organization g') = (word +:+ "." +:+ tld)%string ∧
        tld ∈ ["com"; "io"; "so"; "app"; "co"]%string.
Proof.
  eexists _, _. split; [vm_compute; reflexivity|]. split; [reflexivity|].
  split; [reflexivity|].
  eapply (X21_organization_from_a_large_company MoreInputs.companies (Some 7000)
            (Examples.world (Examples.at_ Examples.today 10 0) [1; 2])).
  vm_compute; reflexivity.
Defined.

(** X22: the organization is created at 08:00 of the day that lies 180
    days before the day of a clock reading made during the run; that time
    is also the start of the simulation in the metadata, whose end is the
    clock reading at the end of the run, so the start precedes the end by
    more than 179 days. *)
Theorem X22_organization_created_180_days_ago self company_size w g w' :
  generate self company_size w = (inr g, w') →
  simulation_start_date (metadata g) = Models.Organization.created_at (organization g) ∧
  simulation_end_date (metadata g) = wall w' ∧
  (∃ now, wall w <= now <= wall w' ∧
     Models.Organization.created_at (organization g)
     = combine_min (date_of now - 180) + hours 8) ∧
  Models.Organization.created_at (organization g) + days 179
  < simulation_end_date (metadata g).
Proof.
  intros Hrun.
  destruct (wp_run _ _ _ _ _ (organizations_generate_spec self company_size w) Hrun)
    as (_ & _ & _ & _ & _ & _ & Hstart & Hend & now & Hnow & Hcreated).
  split_and!; [done|done|by exists now|].
  rewrite Hend, Hcreated. pose proof (date_of_bounds now) as Hdate.
  unfold combine_min in *. unfold_units. lia.
Qed.

Lemma X22_organization_created_180_days_ago_witness :
  ∃ g w',
    generate (_load_companies MoreInputs.companies) None
             (Examples.world (Examples.at_ Examples.today 7 30) [2000; 1; 2])
      = (inr g, w') ∧
    Models.Organization.created_at (organization g)
    = Examples.at_ (Examples.today - 180) 8 0 ∧
    target_employee_count (metadata g) = 7000 ∧
    simulation_start_date (metadata g)
    = Models.Organization.created_at (organization g) ∧
    simulation_end_date (metadata g) = wall w' ∧
    (∃ now, wall (Examples.world (Examples.at_ Examples.today 7 30) [2000; 1; 2]) <= now
            <= wall w' ∧
       Models.Organization.created_at (organization g)
       = combine_min (date_of now - 180) + hours 8) ∧
    Models.Organization.created_at (organization g) + days 179
    < simulation_end_date (metadata g).
Proof.
  eexists _, _. split; [vm_compute; reflexivity|]. split; [vm_compute; reflexivity|].
  split; [reflexivity|].
  eapply (X22_organization_created_180_days_ago (_load_companies MoreInputs.companies)
            None (Examples.world (Examples.at_ Examples.today 7 30) [2000; 1; 2])).
  vm_compute; reflexivity.
Defined.

End OrganizationsOutput.

(** ** Users: addresses, profiles and timestamps *)

Module UsersOutput.
Import Users.

Lemma numbered_inj first last domain c1 c2 :
  numbered first last domain c1 = numbered first last domain c2 → c1 = c2.
Proof.
  unfold numbered. intros Heq.
  do 3 apply String.app_inj in Heq.
  apply string_app_inv_tail in Heq. by apply (inj pretty) in Heq.
Qed.

(** The numbered addresses are pairwise distinct, so a search that has more
    rounds than there are used addresses left to meet finds a free one. *)
Lemma search_email_spec rounds first last domain (used rest : gset string) counter :
  rest ⊆ used →
  (∀ c, counter <= c → numbered first last domain c ∈ used →
        numbered first last domain c ∈ rest) →
  (size rest < rounds)%nat →
  ∃ email, search_email rounds first last domain used counter = Some email ∧
           email ∉ used.
Proof.
  revert counter rest.
  induction rounds as [|rounds IH]; intros counter rest Hsub Hrest Hsize; [lia|].
  simpl. case_bool_decide as Hnew; [by eexists|].
  assert (Hin : numbered first last domain counter ∈ rest)
    by (apply Hrest; [lia|done]).
  apply (IH (counter + 1) (rest ∖ {[numbered first last domain counter]})).
  - intros e [He _]%elem_of_difference. by apply Hsub.
  - intros c Hc Hused. apply elem_of_difference. split; [apply Hrest; [lia|done]|].
    rewrite not_elem_of_singleton. intros Heq%numbered_inj. lia.
  - assert (Hone : {[numbered first last domain counter]} ⊆ rest)
      by (by apply singleton_subseteq_l).
    rewrite size_difference by done. rewrite size_singleton.
    apply subseteq_size in Hone. rewrite size_singleton in Hone. lia.
Qed.

(** [_generate_email] comes to an end, with an address that is not in
    use. *)
Lemma generate_email_spec first_name last_name domain (used_emails : gset string) :
  ∃ email, _generate_email first_name last_name domain used_emails = Some email ∧
           email ∉ used_emails.
Proof.
  unfold _generate_email. cbv zeta.
  case_bool_decide; [by eexists|]. case_bool_decide; [by eexists|].
  apply (search_email_spec _ _ _ _ used_emails used_emails); [done|done|lia].
Qed.

Lemma max_score_elem_of first rest : max_score first rest ∈ first :: rest.
Proof.
  unfold max_score. revert first. induction rest as [|item rest IH]; intros first; simpl.
  { left. }
  case_bool_decide.
  - right. apply IH.
  - specialize (IH first). apply elem_of_cons in IH as [->|Hin]; [left|by do 2 right].
Qed.

Lemma extract_department_spec self job_title w :
  wp (_extract_department_from_title self job_title) w (λ r w',
    wall w' = wall w ∧
    match r with
    | Ok department => department ∈ departments self
    | Raise e => e = IndexError ∧ departments self = []
    end).
Proof.
  unfold _extract_department_from_title. cbv zeta.
  match goal with
  | |- wp (match ?scores with _ => _ end) _ _ => destruct scores as [|first rest] eqn:Hscores
  end.
  - apply choice_r_spec.
  - apply wp_ret. split; [done|].
    pose proof (max_score_elem_of first rest) as Hmax. rewrite <- Hscores in Hmax.
    apply list_elem_of_filter in Hmax as [_ Hmax].
    apply list_elem_of_fmap in Hmax as (entry & -> & Hentry). simpl.
    unfold dept_keyword_map in Hentry.
    by apply list_elem_of_fmap in Hentry as (dept & -> & Hdept).
Qed.

Lemma sample_job_title_and_department_spec self w :
  wp (_sample_job_title_and_department self) w (λ r w',
    wall w' = wall w ∧
    match r with
    | Ok title => title.1 ∈ job_titles self ∧ title.2 ∈ departments self
    | Raise e => e = IndexError ∧ (job_titles self = [] ∨ departments self = [])
    end).
Proof.
  unfold _sample_job_title_and_department.
  wp_step. eapply wp_wand; [apply choice_r_spec|].
  intros [job_title|e] w1 [Hw1 Hjob]; [|apply wp_ret; split; [done|]; by destruct Hjob; auto].
  wp_step. eapply wp_wand; [apply extract_department_spec|].
  intros [department|e] w2 [Hw2 Hdept]; apply wp_ret; (split; [congruence|]).
  - done.
  - destruct Hdept. auto.
Qed.

Lemma workload_capacity_spec w :
  wp _sample_workload_capacity w (λ c w', wall w' = wall w ∧ (1 # 2 <= c <= 2)%Q).
Proof.
  unfold _sample_workload_capacity, gauss.
  wp_step. wp_step. wp_step. intros r w1 Hw1. wp_step. wp_step. split; [done|].
  set (x := (r # 1000)%Q). clearbody x.
  assert (Hmin : (Comments.Qmin 2 x <= 2)%Q).
  { unfold Comments.Qmin. destruct (Qle_bool 2 x) eqn:H2; [apply Qle_refl|].
    apply Qlt_le_weak, Qnot_le_lt. intros Hle.
    apply Qle_bool_iff in Hle. congruence. }
  unfold Comments.Qmax. destruct (Qle_bool (1 # 2) (Comments.Qmin 2 x)) eqn:H0.
  - apply Qle_bool_iff in H0. by split.
  - split; [apply Qle_refl|by compute].
Qed.

Lemma round2_bounds x : (1 # 2 <= x <= 2)%Q → (1 # 2 <= round2 x <= 2)%Q.
Proof.
  intros [Hlo Hhi]. unfold round2. cbv zeta.
  set (y := (x * 100)%Q).
  assert (Hy : (50 <= y <= 200)%Q).
  { unfold y. split.
    - apply Qle_trans with ((1 # 2) * 100)%Q; [by compute|].
      by apply Qmult_le_compat_r.
    - apply Qle_trans with (2 * 100)%Q; [|by compute].
      by apply Qmult_le_compat_r. }
  destruct Hy as [Hy50 Hy200].
  assert (Hf50 : 50 <= Qfloor y).
  { change 50 with (Qfloor 50). by apply Qfloor_resp_le. }
  assert (Hf200 : Qfloor y <= 200).
  { change 200 with (Qfloor 200). by apply Qfloor_resp_le. }
  assert (Hr : ∀ r, 50 <= r <= 200 → (1 # 2 <= r # 100 <= 2)%Q).
  { intros r Hr. unfold Qle. simpl. lia. }
  assert (Htop : Qfloor y = 200 → (y - inject_Z (Qfloor y) ?= 1 # 2)%Q = Lt).
  { intros Hf. rewrite Hf. apply Qlt_alt.
    apply Qle_lt_trans with (y := (200 - inject_Z 200)%Q); [|by compute].
    apply Qplus_le_l. exact Hy200. }
  destruct (decide (Qfloor y = 200)) as [Hf|Hf].
  - rewrite (Htop Hf). apply Hr. lia.
  - destruct (y - inject_Z (Qfloor y) ?= 1 # 2)%Q; [destruct (Z.even (Qfloor y))|..];
      apply Hr; lia.
Qed.

Lemma user_created_at_spec org_created_at index total_users w :
  wp (_sample_created_at org_created_at index total_users) w (λ t w',
    wall w' = wall w ∧ office_hour_within 0 180 org_created_at t).
Proof.
  unfold _sample_created_at.
  wp_step. wp_step. intros d w1 [Hd Hw1]. specialize (Hd ltac:(lia)).
  wp_step. wp_step. intros hour w2 [Hhour Hw2]. specialize (Hhour ltac:(lia)).
  wp_step. split; [congruence|]. exists d, hour. split_and!; [lia..|].
  unfold replace_hm. rewrite date_of_plus_days. unfold minutes. lia.
Qed.

Lemma last_active_spec created_at w :
  wp (_sample_last_active created_at) w (λ t w',
    wall w <= wall w' ∧ created_at <= t <= Z.max (wall w') (created_at + days 7)).
Proof.
  unfold _sample_last_active.
  wp_step. wp_step. intros now w1 [-> Hw1].
  wp_step. wp_step. intros recently w2 Hw2. cbv beta in Hw2.
  wp_step.
  eapply wp_wand with (Q := λ days_ago w3, wall w3 = wall w2 ∧ 0 <= days_ago).
  { destruct recently; (eapply wp_wand; [apply randint_spec|]);
      intros days_ago w3 [Hdays Hw3]; (split; [done|]); lia. }
  intros days_ago w3 [Hw3 Hdays]. cbv zeta. case_bool_decide as Hearly.
  - wp_step. wp_step. intros k w4 [Hk Hw4]. specialize (Hk ltac:(lia)). wp_step.
    split; [lia|]. unfold_units. lia.
  - wp_step. split; [lia|]. unfold_units. lia.
Qed.

Lemma user_timed_later org now1 now2 u :
  now1 <= now2 → user_timed org now1 u → user_timed org now2 u.
Proof.
  intros Hnow (Hcreated & Hactive & Hlast). split_and!; [done..|].
  intros t Ht. specialize (Hlast t Ht). lia.
Qed.

(** One more user, with a new address. *)
Lemma add_user_spec self org target_count i users (used_emails : gset string) w :
  wpo (λ e, e = IndexError ∧ nothing_to_draw self)
      (add_user self org target_count i (users, used_emails)) w
      (λ s' w', wall w <= wall w' ∧
         ∃ user, s'.1 = users ++ [user] ∧
           s'.2 = ({[Models.User.email user]} ∪ used_emails) ∧
           (Models.User.email user ∉ used_emails) ∧
           user_profile self org user ∧ user_timed org (wall w') user).
Proof.
  unfold add_user.
  apply wpo_bind, wpo_lift_r. eapply wp_wand; [apply choice_r_spec|].
  intros [first_name|e] w1 [Hw1 Hfirst];
    [|destruct Hfirst; split; [done|]; unfold nothing_to_draw; auto].
  apply wpo_bind, wpo_lift_r. eapply wp_wand; [apply choice_r_spec|].
  intros [last_name|e] w2 [Hw2 Hlast];
    [|destruct Hlast; split; [done|]; unfold nothing_to_draw; auto].
  cbv zeta. cbn [fst snd]. apply wpo_bind.
  destruct (generate_email_spec (Text.capitalize first_name) (Text.capitalize last_name)
              (Models.Organization.domain org) used_emails) as (email & -> & Hfresh).
  apply wpo_ret.
  apply wpo_bind, wpo_lift_r.
  eapply wp_wand; [apply sample_job_title_and_department_spec|].
  intros [title|e] w3 [Hw3 Htitle];
    [|destruct Htitle as [-> Hempty]; split; [done|]; unfold nothing_to_draw; tauto].
  destruct Htitle as [Hjob Hdept].
  apply wpo_bind, wpo_lift. unfold _sample_role.
  eapply wp_wand; [apply choice_spec|]. intros role w4 [Hrole Hw4].
  specialize (Hrole ltac:(done)).
  apply wpo_bind, wpo_lift. eapply wp_wand; [apply workload_capacity_spec|].
  intros capacity w5 [Hw5 Hcapacity].
  apply wpo_bind, wpo_lift. eapply wp_wand; [apply user_created_at_spec|].
  intros created_at w6 [Hw6 Hcreated].
  apply wpo_bind, wpo_lift. eapply wp_wand; [apply last_active_spec|].
  intros last_active_at w7 [Hw7 Hactive].
  apply wpo_bind, wpo_lift. eapply wp_wand; [apply flip_spec|].
  intros is_active w8 Hw8. cbv beta in Hw8.
  apply wpo_bind, wpo_lift. eapply wp_wand; [apply uuid4_spec|].
  intros user_id w9 Hw9. cbv beta in Hw9.
  apply wpo_ret. split; [lia|]. eexists. split; [reflexivity|]. cbn.
  split_and!; [done|done| |].
  - split; [done|]. split; [by eexists|]. split; [by eexists|].
    split; [done|]. split; [done|]. by apply round2_bounds.
  - unfold user_timed.
    cbn [Models.User.created_at Models.User.last_active_at Models.User.is_active].
    split_and!; [done| |].
    + by destruct is_active.
    + intros t Ht. destruct is_active; [|done]. injection Ht as <-. lia.
Qed.

Lemma users_generate_spec self org target_count w :
  wpo (λ e, e = IndexError ∧ nothing_to_draw self) (generate self org target_count) w
      (λ users w',
         length users = Z.to_nat target_count ∧
         NoDup (Models.User.email <$> users) ∧
         Forall (user_profile self org) users ∧
         Forall (user_timed org (wall w')) users).
Proof.
  unfold generate. apply wpo_bind.
  set (I := λ (pre : list Z) (s : list Models.User.t * gset string) (w' : World),
    wall w <= wall w' ∧ length s.1 = length pre ∧
    (∀ e, e ∈ s.2 ↔ e ∈ Models.User.email <$> s.1) ∧
    NoDup (Models.User.email <$> s.1) ∧
    Forall (user_profile self org) s.1 ∧
    Forall (user_timed org (wall w')) s.1).
  eapply wpo_wand with (Q := I (range target_count)).
  - apply (for_o_spec_prefix _ I).
    { split_and!; [lia|done| |constructor|constructor|constructor].
      intros e. cbn. rewrite elem_of_empty, elem_of_nil. tauto. }
    intros pre i post [users used_emails] w1 _
      (Hw1 & Hlength & Hused & Hnodup & Hprofiles & Htimes). cbn [fst snd] in *.
    eapply wpo_wand; [apply add_user_spec|].
    intros [users' used'] w2 (Hw2 & user & Husers' & Hused' & Hfresh & Hprofile & Htime).
    cbn [fst snd] in *. subst users' used'. unfold I. cbn [fst snd].
    split_and!.
    + lia.
    + rewrite !length_app. simpl. lia.
    + intros e. rewrite elem_of_union, elem_of_singleton, fmap_app, elem_of_app, Hused.
      cbn. rewrite list_elem_of_singleton. tauto.
    + rewrite fmap_app. apply NoDup_app. split_and!; [done| |apply NoDup_singleton].
      intros e He Hnew%list_elem_of_singleton. subst e. by apply Hfresh, Hused.
    + apply Forall_app. split; [done|]. by apply Forall_singleton.
    + apply Forall_app. split; [|by apply Forall_singleton].
      eapply Forall_impl; [exact Htimes|]. intros u. apply user_timed_later. lia.
  - intros [users used_emails] w1 (_ & Hlength & _ & Hnodup & Hprofiles & Htimes).
    cbn [fst snd] in *. apply wpo_ret. rewrite length_range in Hlength. done.
Qed.

(** X23: [generate] comes to an end, although the search for a free
    address is an unbounded loop in the source.  It raises [IndexError]
    only when one of the lists it draws from is empty; otherwise it
    returns as many users as were asked for, and no two of them have the
    same e-mail address. *)
Theorem X23_user_emails_unique self org target_count w out w' :
  generate self org target_count w = (out, w') →
  ∃ r, out = Some r ∧
    (∀ e, r = Raise e →
       e = IndexError ∧
       (first_names self = [] ∨ last_names self = [] ∨
        job_titles self = [] ∨ departments self = [])) ∧
    (∀ users, r = Ok users →
       length users = Z.to_nat target_count ∧
       NoDup (Models.User.email <$> users)).
Proof.
  intros Hrun.
  destruct (wpo_run _ _ _ _ _ _ (users_generate_spec self org target_count w) Hrun)
    as (r & -> & Hr).
  exists r. split; [done|]. split.
  - by intros e ->.
  - intros users ->. by destruct Hr as (? & ? & _).
Qed.

Lemma X23_user_emails_unique_witness :
  ∃ users w',
    generate MoreInputs.user_generator MoreInputs.organization 3
             (Examples.world (Examples.at_ Examples.today 10 0) []) = (Some (Ok users), w') ∧
    Models.User.email <$> users
    = ["mary.oneil@acme.com"; "maryoneil@acme.com"; "mary.oneil1@acme.com"]%string ∧
    ∃ r, Some (Ok users) = Some r ∧
      (∀ e, r = Raise e →
         e = IndexError ∧
         (first_names MoreInputs.user_generator = [] ∨
          last_names MoreInputs.user_generator = [] ∨
          job_titles MoreInputs.user_generator = [] ∨
          departments MoreInputs.user_generator = [])) ∧
      (∀ users, r = Ok users →
         length users = Z.to_nat 3 ∧ NoDup (Models.User.email <$> users)).
Proof.
  eexists _, _. split; [vm_compute; reflexivity|]. split; [reflexivity|].
  eapply (X23_user_emails_unique MoreInputs.user_generator MoreInputs.organization 3
            (Examples.world (Examples.at_ Examples.today 10 0) [])).
  vm_compute; reflexivity.
Defined.

(** X24: every user carries the identifier of the organization, a
    department of the generator's list of departments, a job title of its
    list of job titles, one of the roles member, admin and limited, no
    photo, and a workload capacity from 0.5 to 2. *)
Theorem X24_user_profile self org target_count w users w' :
  generate self org target_count w = (Some (Ok users), w') →
  ∀ u, u ∈ users →
    Models.User.organization_id u = Models.Organization.organization_id org ∧
    (∃ department, Models.User.department u = Some department ∧
                   department ∈ departments self) ∧
    (∃ job_title, Models.User.job_title u = Some job_title ∧
                  job_title ∈ job_titles self) ∧
    Models.User.role u ∈ ["member"; "admin"; "limited"]%string ∧
    Models.User.photo_url u = None ∧
    (1 # 2 <= Models.User.workload_capacity u <= 2)%Q.
Proof.
  intros Hrun u Hu.
  destruct (wpo_run _ _ _ _ _ _ (users_generate_spec self org target_count w) Hrun)
    as (r & [= <-] & _ & _ & Hprofiles & _).
  rewrite Forall_forall in Hprofiles. by apply Hprofiles.
Qed.

Lemma X24_user_profile_witness :
  ∃ users w' u,
    generate MoreInputs.user_generator MoreInputs.organization 1
             (Examples.world (Examples.at_ Examples.today 10 0) [1; 1; 1; 0; 1234])
      = (Some (Ok users), w') ∧
    head users = Some u ∧
    Models.User.name u = "John Smith"%string ∧
    Models.User.department u = Some "Sales"%string ∧
    Models.User.workload_capacity u = (123 # 100)%Q ∧
    Models.User.organization_id u
    = Models.Organization.organization_id MoreInputs.organization ∧
    (∃ department, Models.User.department u = Some department ∧
                   department ∈ departments MoreInputs.user_generator) ∧
    (∃ job_title, Models.User.job_title u = Some job_title ∧
                  job_title ∈ job_titles MoreInputs.user_generator) ∧
    Models.User.role u ∈ ["member"; "admin"; "limited"]%string ∧
    Models.User.photo_url u = None ∧
    (1 # 2 <= Models.User.workload_capacity u <= 2)%Q.
Proof.
  eexists _, _, _. split; [vm_compute; reflexivity|]. split; [reflexivity|].
  split; [reflexivity|]. split; [reflexivity|]. split; [reflexivity|].
  eapply (X24_user_profile MoreInputs.user_generator MoreInputs.organization 1
            (Examples.world (Examples.at_ Examples.today 10 0) [1; 1; 1; 0; 1234])).
  - vm_compute; reflexivity.
  - apply list_elem_of_here.
Defined.

(** X25: a user is created at a full hour from 08:00 to 17:00 of a day
    at most 180 days after the day the organization was created on.
    [last_active_at] is set exactly for the active users; it is never
    before [created_at], and it is after the clock reading at the end of
    the run only where it was moved to at most seven days after
    [created_at]. *)
Theorem X25_user_timestamps self org target_count w users w' :
  generate self org target_count w = (Some (Ok users), w') →
  ∀ u, u ∈ users →
    (∃ d hour, 0 <= d <= 180 ∧ 8 <= hour <= 17 ∧
       Models.User.created_at u
       = combine_min (date_of (Models.Organization.created_at org) + d) + hours hour) ∧
    (Models.User.last_active_at u = None ↔ Models.User.is_active u = false) ∧
    ∀ t, Models.User.last_active_at u = Some t →
      Models.User.created_at u <= t ∧
      (t <= wall w' ∨ t <= Models.User.created_at u + days 7).
Proof.
  intros Hrun u Hu.
  destruct (wpo_run _ _ _ _ _ _ (users_generate_spec self org target_count w) Hrun)
    as (r & [= <-] & _ & _ & _ & Htimes).
  rewrite Forall_forall in Htimes. destruct (Htimes u Hu) as (Hcreated & Hactive & Hlast).
  split_and!; [done|done|]. intros t Ht. specialize (Hlast t Ht). lia.
Qed.

Lemma X25_user_timestamps_witness :
  ∃ users w' u,
    generate MoreInputs.user_generator MoreInputs.organization 1
             (Examples.world (Examples.at_ Examples.today 10 0)
                             [0; 0; 0; 0; 0; 0; 179; 9; 1; 7; 1; 1])
      = (Some (Ok users), w') ∧
    head users = Some u ∧
    Models.User.created_at u = Examples.at_ (Examples.today - 1) 17 0 ∧
    Models.User.last_active_at u = Some (Examples.at_ (Examples.today + 1) 17 0) ∧
    wall w' < Examples.at_ (Examples.today + 1) 17 0 ∧
    (∃ d hour, 0 <= d <= 180 ∧ 8 <= hour <= 17 ∧
       Models.User.created_at u
       = combine_min (date_of (Models.Organization.created_at MoreInputs.organization)
                      + d) + hours hour) ∧
    (Models.User.last_active_at u = None ↔ Models.User.is_active u = false) ∧
    ∀ t, Models.User.last_active_at u = Some t →
      Models.User.created_at u <= t ∧
      (t <= wall w' ∨ t <= Models.User.created_at u + days 7).
Proof.
  eexists _, _, _. split; [vm_compute; reflexivity|]. split; [reflexivity|].
  split; [vm_compute; reflexivity|]. split; [vm_compute; reflexivity|].
  split; [vm_compute; reflexivity|].
  eapply (X25_user_timestamps MoreInputs.user_generator MoreInputs.organization 1
            (Examples.world (Examples.at_ Examples.today 10 0)
                            [0; 0; 0; 0; 0; 0; 179; 9; 1; 7; 1; 1])).
  - vm_compute; reflexivity.
  - apply list_elem_of_here.
Defined.

End UsersOutput.

(** ** Teams: how many, and of which department *)

Module TeamsOutput.
Import Teams.

Lemma calculate_teams_needed_spec self num_employees w :
  wp (_calculate_teams_needed self num_employees) w (λ n w', wall w' = wall w ∧ 10 <= n).
Proof.
  unfold _calculate_teams_needed, Comments.uniform, Comments.random_unit.
  wp_step. wp_step. wp_step. wp_step. intros r w1 Hw1. wp_step. wp_step. wp_step.
  split; [done|]. lia.
Qed.

(** The loop of [_distribute_teams_by_department]: every department met
    gets at least one team, and [allocated] adds up what the departments
    got. *)
Lemma allocate_fold total_teams (departments : list string) (acc : gmap string Z * Z) :
  let out := foldl (allocate total_teams) acc departments in
  (∀ d, d ∈ departments → ∃ n, out.1 !! d = Some n ∧ 1 <= n) ∧
  (∀ d, d ∉ departments → out.1 !! d = acc.1 !! d) ∧
  (NoDup departments → out.2 = acc.2 + teams_asked out.1 departments).
Proof.
  revert acc. induction departments as [|dept departments IH]; intros acc; simpl.
  { split_and!; [by intros d ?%elem_of_nil|done|intros _; lia]. }
  destruct (IH (allocate total_teams acc dept)) as (Hsome & Hother & Hsum).
  set (out := foldl (allocate total_teams) (allocate total_teams acc dept) departments) in *.
  assert (Hdept : dept ∉ departments → ∃ n, out.1 !! dept = Some n ∧ 1 <= n ∧
                    (allocate total_teams acc dept).2 = acc.2 + n).
  { intros Hfresh. rewrite (Hother dept Hfresh). unfold allocate. cbn [fst snd].
    rewrite lookup_insert_eq. eexists. split; [done|]. lia. }
  split_and!.
  - intros d [->|Hd]%elem_of_cons; [|by apply Hsome].
    destruct (decide (dept ∈ departments)) as [Hin|Hfresh]; [by apply Hsome|].
    destruct (Hdept Hfresh) as (n & Hn & Hpos & _). by exists n.
  - intros d [Hne Hd]%not_elem_of_cons. rewrite (Hother d Hd).
    unfold allocate. cbn [fst snd]. by rewrite lookup_insert_ne.
  - intros [Hfresh Hnodup]%NoDup_cons. rewrite (Hsum Hnodup).
    destruct (Hdept Hfresh) as (n & Hn & _ & Hallocated). rewrite Hn, Hallocated.
    simpl. lia.
Qed.

Lemma teams_asked_insert (dept_teams : gmap string Z) departments department n extra :
  NoDup departments → department ∈ departments → dept_teams !! department = Some n →
  teams_asked (<[department := n + extra]> dept_teams) departments
  = teams_asked dept_teams departments + extra.
Proof.
  intros Hnodup Hin Hn. induction departments as [|d departments IH]; simpl.
  { by apply elem_of_nil in Hin. }
  apply NoDup_cons in Hnodup as [Hfresh Hnodup].
  destruct (decide (d = department)) as [->|Hne].
  - rewrite lookup_insert_eq, Hn. simpl.
    assert (Hsame : teams_asked (<[department := n + extra]> dept_teams) departments
                    = teams_asked dept_teams departments).
    { clear -Hfresh. induction departments as [|d' departments IH]; simpl; [done|].
      apply not_elem_of_cons in Hfresh as [Hne Hfresh].
      rewrite lookup_insert_ne by done. by rewrite IH. }
    rewrite Hsame. lia.
  - rewrite lookup_insert_ne by done. apply elem_of_cons in Hin as [->|Hin]; [done|].
    rewrite IH by done. lia.
Qed.

(** Every department gets at least one team; and when the departments are
    pairwise distinct and Engineering is one of them, they get at least
    [total_teams] teams together. *)
Lemma distribute_teams_spec self total_teams :
  (∀ d, d ∈ departments self →
     ∃ n, _distribute_teams_by_department self total_teams !! d = Some n ∧ 1 <= n) ∧
  (NoDup (departments self) → "Engineering"%string ∈ departments self →
   total_teams <= teams_asked (_distribute_teams_by_department self total_teams)
                              (departments self)).
Proof.
  unfold _distribute_teams_by_department. cbv zeta.
  destruct (allocate_fold total_teams (departments self) (∅, 0)) as (Hsome & _ & Hsum).
  cbv zeta in *.
  set (acc := foldl (allocate total_teams) (∅, 0) (departments self)) in *.
  cbn [fst snd] in Hsum.
  destruct (acc.1 !! "Engineering"%string) as [engineering|] eqn:Hengineering.
  - case_bool_decide as Hremaining.
    + split.
      * intros d Hd. destruct (decide (d = "Engineering"%string)) as [->|Hne].
        -- rewrite lookup_insert_eq. eexists. split; [done|].
           destruct (Hsome _ Hd) as (n & Hn & Hpos). rewrite Hengineering in Hn.
           injection Hn as ->. lia.
        -- rewrite lookup_insert_ne by done. by apply Hsome.
      * intros Hnodup Hin. rewrite teams_asked_insert by done.
        rewrite (Hsum Hnodup) in *. lia.
    + split; [done|]. intros Hnodup _. rewrite (Hsum Hnodup) in Hremaining. lia.
  - split; [done|]. intros _ Hin. destruct (Hsome _ Hin) as (n & Hn & _). congruence.
Qed.

Lemma team_created_at_spec org_created_at team_index total_teams w :
  wp (_sample_created_at org_created_at team_index total_teams) w (λ t w',
    wall w' = wall w ∧ office_hour_within 0 180 org_created_at t).
Proof.
  unfold _sample_created_at.
  wp_step. wp_step. intros d w1 [Hd Hw1]. specialize (Hd ltac:(lia)).
  wp_step. wp_step. intros hour w2 [Hhour Hw2]. specialize (Hhour ltac:(lia)).
  wp_step. split; [congruence|]. exists d, hour. split_and!; [lia..|].
  unfold replace_hm. rewrite date_of_plus_days. unfold minutes. lia.
Qed.

Lemma add_team_spec org total_teams department specializations num i s w :
  specializations = _get_team_specializations department →
  wp (add_team org total_teams department specializations num i s) w (λ s' _,
    ∃ team, s'.1 = s.1 ++ [team] ∧ team_of org department num i team).
Proof.
  intros ->. unfold add_team. cbv zeta.
  wp_step. unfold _sample_team_privacy. wp_step. intros privacy w1 [Hprivacy _].
  specialize (Hprivacy ltac:(done)).
  wp_step. eapply wp_wand; [apply team_created_at_spec|]. intros created_at w2 [_ Hcreated].
  wp_step. wp_step. intros team_id w3 _. wp_step.
  eexists. split; [reflexivity|]. by split_and!.
Qed.

Lemma visit_department_spec org total_teams dept_teams department s w :
  wp (visit_department org total_teams dept_teams department s) w (λ s' _,
    ∃ block, s'.1 = s.1 ++ block ∧ department_block org dept_teams department block).
Proof.
  unfold visit_department, department_block. cbv zeta.
  set (num := default 0 (dept_teams !! department)).
  case_bool_decide as Hnum.
  { apply wp_ret. exists []. rewrite app_nil_r. split; [done|]. rewrite Hnum. constructor. }
  set (I := λ (pre : list Z) (s' : list Models.Team.t * Z) (_ : World),
    ∃ block, s'.1 = s.1 ++ block ∧ Forall2 (team_of org department num) pre block).
  apply (for_spec_prefix I).
  { exists []. rewrite app_nil_r. split; [done|constructor]. }
  intros pre i post s1 w1 _ (block & Hblock & Hall).
  eapply wp_wand; [by apply add_team_spec|].
  intros s2 w2 (team & Hs2 & Hteam). exists (block ++ [team]). split.
  - by rewrite Hs2, Hblock, <- app_assoc.
  - apply Forall2_app; [done|]. by constructor.
Qed.

Lemma teams_generate_spec self org users w :
  wp (generate self org users) w (λ r _,
    match r with
    | Raise e => e = ZeroDivisionError ∧ users = []
    | Ok teams =>
        users ≠ [] ∧
        ∃ total_teams blocks,
          10 <= total_teams ∧ teams = concat blocks ∧
          Forall2 (department_block org
                     (_distribute_teams_by_department self total_teams))
                  (departments self) blocks
    end).
Proof.
  unfold generate. cbv zeta.
  wp_step. eapply wp_wand; [apply calculate_teams_needed_spec|].
  intros total_teams w1 [_ Htotal]. case_bool_decide as Hempty.
  { apply wp_ret. split; [done|]. destruct users; [done|]. simpl in Hempty. lia. }
  wp_step.
  set (dept_teams := _distribute_teams_by_department self total_teams).
  set (I := λ (pre : list string) (s : list Models.Team.t * Z) (_ : World),
    ∃ blocks, s.1 = concat blocks ∧
              Forall2 (department_block org dept_teams) pre blocks).
  eapply wp_wand with (Q := I (departments self)).
  - apply (for_spec_prefix I).
    { exists []. split; [done|constructor]. }
    intros pre department post s w2 _ (blocks & Hs & Hblocks).
    eapply wp_wand; [apply visit_department_spec|].
    intros s' w3 (block & Hs' & Hblock). exists (blocks ++ [block]). split.
    + rewrite Hs', Hs, concat_app. simpl. by rewrite app_nil_r.
    + apply Forall2_app; [done|]. by constructor.
  - intros s w2 (blocks & Hs & Hblocks). wp_step. split.
    + intros ->. simpl in Hempty. lia.
    + by exists total_teams, blocks.
Qed.

Lemma team_name_spec department specializations num i :
  (num = 1 → team_name department specializations num i = department) ∧
  (num ≠ 1 → ∃ specialization,
     team_name department specializations num i
     = (department +:+ " - " +:+ specialization)%string).
Proof.
  unfold team_name. split.
  - intros ->. by rewrite bool_decide_eq_true_2.
  - intros Hnum. rewrite bool_decide_eq_false_2 by done. by eexists.
Qed.

Lemma department_block_length org dept_teams department block :
  department_block org dept_teams department block →
  length block = Z.to_nat (default 0 (dept_teams !! department)).
Proof. intros Hblock%Forall2_length. by rewrite length_range in Hblock. Qed.

(** X26: [generate] raises [ZeroDivisionError] exactly when the list of
    users is empty.  Otherwise it returns one block of teams per department
    of the generator, in the order of the departments, and no block is
    empty; every team of a block has the department as its type, the
    identifier of the organization, one of the three privacy settings, a
    description, and is created at a full hour from 08:00 to 17:00 of a
    day at most 180 days after the day the organization was created on.
    The only team of a department is named after it; the names of several
    teams begin with the department followed by a dash. *)
Theorem X26_teams_per_department self org users w out w' :
  generate self org users w = (out, w') →
  (users = [] ↔ out = Raise ZeroDivisionError) ∧
  (users ≠ [] →
   ∃ teams blocks,
     out = Ok teams ∧ teams = concat blocks ∧
     Forall2 (λ department block,
        block ≠ [] ∧
        (∀ team, block = [team] → Models.Team.name team = department) ∧
        Forall (λ team,
          Models.Team.team_type team = department ∧
          Models.Team.organization_id team = Models.Organization.organization_id org ∧
          Models.Team.privacy team ∈ ["public"; "private"; "secret"]%string ∧
          Models.Team.description team ≠ None ∧
          ((length block ≠ 1)%nat →
           ∃ specialization,
             Models.Team.name team
             = (department +:+ " - " +:+ specialization)%string) ∧
          ∃ d hour, 0 <= d <= 180 ∧ 8 <= hour <= 17 ∧
            Models.Team.created_at team
            = combine_min (date_of (Models.Organization.created_at org) + d)
              + hours hour) block)
       (departments self) blocks).
Proof.
  intros Hrun.
  pose proof (wp_run _ _ _ _ _ (teams_generate_spec self org users w) Hrun) as Hout.
  destruct out as [teams|e].
  - destruct Hout as (Hne & total_teams & blocks & _ & -> & Hblocks).
    split; [split; [done|by intros ?]|]. intros _. exists (concat blocks), blocks.
    split; [done|]. split; [done|].
    destruct (distribute_teams_spec self total_teams) as [Hsome _].
    apply Forall2_same_length_lookup. split; [by eapply Forall2_length|].
    intros j department block Hdepartment Hblock.
    pose proof (Forall2_lookup_lr _ _ _ _ _ _ Hblocks Hdepartment Hblock) as Hdept.
    pose proof (department_block_length _ _ _ _ Hdept) as Hlength.
    destruct (Hsome department) as (n & Hn & Hpos); [by eapply list_elem_of_lookup_2|].
    unfold department_block in Hdept. rewrite Hn in Hdept, Hlength. simpl in *.
    split_and!.
    + intros ->. simpl in Hlength. lia.
    + intros team ->. simpl in Hlength.
      assert (n = 1) as -> by lia. apply Forall2_length in Hdept as Hlen.
      destruct (range 1) as [|i [|]]; try done.
      apply Forall2_cons_1 in Hdept as [(_ & _ & Hname & _) _].
      rewrite Hname. by apply team_name_spec.
    + apply Forall_forall. intros team Hteam.
      apply list_elem_of_lookup in Hteam as [k Hk].
      destruct (Forall2_lookup_r _ _ _ _ _ Hdept Hk)
        as (i & _ & Horg & Htype & Hname & Hprivacy & Hdescription & Hcreated).
      split_and!; [done..| |done].
      intros Hmany. rewrite Hname. apply team_name_spec. lia.
  - destruct Hout as [-> ->]. split; [done|]. by intros ?.
Qed.

Lemma X26_teams_per_department_witness :
  ∃ teams w',
    generate MoreInputs.team_generator MoreInputs.organization [MoreInputs.employee]
             (Examples.world (Examples.at_ Examples.today 10 0) []) = (Ok teams, w') ∧
    Models.Team.name <$> teams
    = ["Customer Success"; "Engineering - Platform"; "Engineering - Mobile";
       "Engineering - Backend"; "Finance"; "Human Resources"; "Marketing"; "Operations";
       "Product"; "Sales - Enterprise"; "Sales - Mid-Market"]%string ∧
    ([MoreInputs.employee] = [] ↔ (Ok teams : result _) = Raise ZeroDivisionError) ∧
    ([MoreInputs.employee] ≠ [] →
     ∃ teams' blocks,
       Ok teams = Ok teams' ∧ teams' = concat blocks ∧
       Forall2 (λ department block,
          block ≠ [] ∧
          (∀ team, block = [team] → Models.Team.name team = department) ∧
          Forall (λ team,
            Models.Team.team_type team = department ∧
            Models.Team.organization_id team
            = Models.Organization.organization_id MoreInputs.organization ∧
            Models.Team.privacy team ∈ ["public"; "private"; "secret"]%string ∧
            Models.Team.description team ≠ None ∧
            ((length block ≠ 1)%nat →
             ∃ specialization,
               Models.Team.name team
               = (department +:+ " - " +:+ specialization)%string) ∧
            ∃ d hour, 0 <= d <= 180 ∧ 8 <= hour <= 17 ∧
              Models.Team.created_at team
              = combine_min
                  (date_of (Models.Organization.created_at MoreInputs.organization) + d)
                + hours hour) block)
         (departments MoreInputs.team_generator) blocks).
Proof.
  eexists _, _. split; [vm_compute; reflexivity|]. split; [vm_compute; reflexivity|].
  eapply (X26_teams_per_department MoreInputs.team_generator MoreInputs.organization
            [MoreInputs.employee] (Examples.world (Examples.at_ Examples.today 10 0) [])).
  vm_compute; reflexivity.
Defined.

(** X27: when the departments of the generator are pairwise distinct and
    Engineering is one of them (the constructor always adds it), [generate]
    returns at least ten teams for a non-empty list of users, whatever
    their number, and at least one team of every department. *)
Theorem X27_at_least_ten_teams self org users w teams w' :
  NoDup (departments self) → "Engineering"%string ∈ departments self →
  generate self org users w = (Ok teams, w') →
  (10 <= length teams)%nat ∧
  ∀ department, department ∈ departments self →
    ∃ team, team ∈ teams ∧ Models.Team.team_type team = department.
Proof.
  intros Hnodup Hengineering Hrun.
  destruct (wp_run _ _ _ _ _ (teams_generate_spec self org users w) Hrun)
    as (_ & total_teams & blocks & Htotal & -> & Hblocks).
  destruct (distribute_teams_spec self total_teams) as [Hsome Hsum].
  specialize (Hsum Hnodup Hengineering).
  set (dept_teams := _distribute_teams_by_department self total_teams) in *.
  clearbody dept_teams. clear Hnodup Hengineering Hrun. split.
  - assert (Hlength : teams_asked dept_teams (departments self)
                      <= Z.of_nat (length (concat blocks))); [|lia].
    clear Hsum Hsome.
    induction Hblocks as [|department block departments blocks Hblock _ IH]; simpl; [done|].
    rewrite length_app. apply department_block_length in Hblock. lia.
  - intros department Hdepartment.
    apply list_elem_of_lookup in Hdepartment as [j Hj].
    destruct (Forall2_lookup_l _ _ _ _ _ Hblocks Hj) as (block & Hblock & Hdept).
    destruct (Hsome department) as (n & Hn & Hpos); [by eapply list_elem_of_lookup_2|].
    pose proof (department_block_length _ _ _ _ Hdept) as Hlength.
    rewrite Hn in Hlength. simpl in Hlength.
    destruct block as [|team block]; [simpl in Hlength; lia|].
    exists team. split.
    + apply elem_of_concat. exists (team :: block).
      split; [by eapply list_elem_of_lookup_2|left].
    + apply Forall2_length in Hdept as Hlen. unfold department_block in Hdept.
      destruct (range _) as [|i is_]; [done|].
      by apply Forall2_cons_1 in Hdept as [(_ & Htype & _) _].
Qed.

Lemma X27_at_least_ten_teams_witness :
  ∃ teams w',
    generate MoreInputs.team_generator MoreInputs.organization [MoreInputs.employee]
             (Examples.world (Examples.at_ Examples.today 10 0) []) = (Ok teams, w') ∧
    length teams = 11%nat ∧
    (10 <= length teams)%nat ∧
    ∀ department, department ∈ departments MoreInputs.team_generator →
      ∃ team, team ∈ teams ∧ Models.Team.team_type team = department.
Proof.
  eexists _, _. split; [vm_compute; reflexivity|]. split; [reflexivity|].
  eapply (X27_at_least_ten_teams MoreInputs.team_generator MoreInputs.organization
            [MoreInputs.employee] (Examples.world (Examples.at_ Examples.today 10 0) [])).
  - compute_done.
  - compute_done.
  - vm_compute; reflexivity.
Defined.

End TeamsOutput.

(** ** The organization and what is made for it *)

Module PipelineOutput.

Lemma date_of_office_hour d h : 0 <= h < 24 → date_of (combine_min d + hours h) = d.
Proof.
  intros Hhour. unfold date_of, combine_min, hours.
  replace (d * day + h * hour) with (h * hour + d * day) by lia.
  rewrite Z.div_add by done. rewrite Z.div_small; [lia|]. unfold_units. lia.
Qed.

(** A time in an office hour of one of the [hi] days from the day of an
    organization made at 08:00 is not before the organization, and at most
    [hi] days and nine hours after it. *)
Lemma office_hour_after_start hi day0 start t :
  start = combine_min day0 + hours 8 → office_hour_within 0 hi start t →
  start <= t <= start + days hi + hours 9.
Proof.
  intros -> (d & hour & Hd & Hhour & ->).
  rewrite date_of_office_hour by lia. unfold combine_min. unfold_units. lia.
Qed.

(** X28: nothing is dated before the organization it is made for.  For an
    organization returned by [Organizations.generate], every tag that
    [Tags.generate] makes for it is created no earlier than the
    organization and at most 30 days and nine hours later; every user of
    [Users.generate] and every team of [Teams.generate] no earlier than the
    organization and at most 180 days and nine hours later. *)
Theorem X28_nothing_precedes_the_organization companies company_size w g w' :
  Organizations.generate companies company_size w = (inr g, w') →
  let org := Organizations.organization g in
  (∀ self w1 tags w2, Tags.generate self org w1 = (tags, w2) →
     ∀ tag, tag ∈ tags →
       Models.Organization.created_at org <= Models.Tag.created_at tag
       <= Models.Organization.created_at org + days 30 + hours 9) ∧
  (∀ self target_count w1 users w2,
     Users.generate self org target_count w1 = (Some (Ok users), w2) →
     ∀ user, user ∈ users →
       Models.Organization.created_at org <= Models.User.created_at user
       <= Models.Organization.created_at org + days 180 + hours 9) ∧
  (∀ self users w1 teams w2, Teams.generate self org users w1 = (Ok teams, w2) →
     ∀ team, team ∈ teams →
       Models.Organization.created_at org <= Models.Team.created_at team
       <= Models.Organization.created_at org + days 180 + hours 9).
Proof.
  intros Hrun org.
  destruct (wp_run _ _ _ _ _
              (OrganizationsOutput.organizations_generate_spec companies company_size w)
              Hrun) as (_ & _ & _ & _ & _ & _ & _ & _ & now & _ & Hcreated).
  fold org in Hcreated. split_and!.
  - intros self w1 tags w2 Htags tag Htag.
    destruct (wp_run _ _ _ _ _ (TagsOutput.tags_generate_spec self org w1) Htags)
      as [_ Hall].
    rewrite Forall_forall in Hall. destruct (Hall tag Htag) as (_ & _ & Hwithin).
    exact (office_hour_after_start _ _ _ _ Hcreated Hwithin).
  - intros self target_count w1 users w2 Husers user Huser.
    destruct (wpo_run _ _ _ _ _ _
                (UsersOutput.users_generate_spec self org target_count w1) Husers)
      as (r & [= <-] & _ & _ & _ & Htimes).
    rewrite Forall_forall in Htimes. destruct (Htimes user Huser) as (Hwithin & _).
    exact (office_hour_after_start _ _ _ _ Hcreated Hwithin).
  - intros self users w1 teams w2 Hteams team Hteam.
    destruct (wp_run _ _ _ _ _ (TeamsOutput.teams_generate_spec self org users w1) Hteams)
      as (_ & total_teams & blocks & _ & -> & Hblocks).
    destruct (in_some_block
                (λ (_ : string) team,
                   office_hour_within 0 180 (Models.Organization.created_at org)
                                      (Models.Team.created_at team))
                _ _ _ team Hblocks) as (_ & _ & Hwithin); [|done|].
    { intros department block Hblock. apply Forall_forall. intros t Ht.
      apply list_elem_of_lookup in Ht as [k Hk].
      by destruct (Forall2_lookup_r _ _ _ _ _ Hblock Hk) as (i & _ & _ & _ & _ & _ & _ & ?). }
    exact (office_hour_after_start _ _ _ _ Hcreated Hwithin).
Qed.

Lemma X28_nothing_precedes_the_organization_witness :
  ∃ g w' tags w2 tag,
    Organizations.generate (Organizations._load_companies MoreInputs.companies)
                           (Some 7000)
                           (Examples.world (Examples.at_ Examples.today 10 0) [1; 2])
      = (inr g, w') ∧
    Tags.generate (Tags._build_tag_library [] []) (Organizations.organization g)
                  (Examples.world (Examples.at_ Examples.today 10 0) [])
      = (tags, w2) ∧
    head tags = Some tag ∧
    Models.Organization.created_at (Organizations.organization g)
    = Examples.at_ (Examples.today - 180) 8 0 ∧
    Models.Tag.created_at tag = Examples.at_ (Examples.today - 180) 8 0 ∧
    Models.Organization.created_at (Organizations.organization g)
    <= Models.Tag.created_at tag
    <= Models.Organization.created_at (Organizations.organization g) + days 30 + hours 9.
Proof.
  eexists _, _, _, _, _. split; [vm_compute; reflexivity|].
  split; [vm_compute; reflexivity|]. split; [reflexivity|].
  split; [vm_compute; reflexivity|]. split; [vm_compute; reflexivity|].
  edestruct (X28_nothing_precedes_the_organization
               (Organizations._load_companies MoreInputs.companies) (Some 7000)
               (Examples.world (Examples.at_ Examples.today 10 0) [1; 2]))
    as (Htags & _ & _).
  { vm_compute; reflexivity. }
  eapply (Htags (Tags._build_tag_library [] [])
                (Examples.world (Examples.at_ Examples.today 10 0) [])).
  - vm_compute; reflexivity.
  - apply list_elem_of_here.
Defined.

End PipelineOutput.

(** ** The entry point of the task generator *)

Module TasksEntryOutput.
Import Tasks TasksEntry.

(** [generate] raises only for an empty list of projects. *)
Lemma tasks_generate_raises self projects sections users tags w :
  wp (generate self projects sections users tags) w (λ r _,
    match r with
    | Ok _ => projects ≠ []
    | Raise e => e = ZeroDivisionError ∧ projects = []
    end).
Proof.
  unfold generate. cbv zeta.
  destruct (filter (λ p, is_active p = true) projects) as [|a active] eqn:Hactive.
  - destruct projects as [|p ps]; [by apply wp_ret|].
    wp_step. eapply wp_wand with (Q := λ _ _, True); [done|].
    intros tasks w1 _. by apply wp_ret.
  - wp_step. eapply wp_wand with (Q := λ _ _, True); [done|].
    intros tasks w1 _. apply wp_ret. intros ->. done.
Qed.

Lemma concat_nil_iff {A} (blocks : list (list A)) :
  concat blocks = [] ↔ Forall (λ block, block = []) blocks.
Proof.
  induction blocks as [|block blocks IH]; simpl.
  - split; [constructor|done].
  - rewrite Forall_cons, <- IH. split.
    + by intros [-> ->]%app_eq_nil.
    + by intros [-> ->].
Qed.

(** X29: [generate_tasks] never returns an empty list.  It returns the
    tasks of [TaskGenerator.generate] when there are some, and raises
    [ZeroDivisionError] exactly when there are none: when there is no
    project, when the number of tasks per project
    ([total_tasks // len(active_projects)]) is not positive, or when no
    selected project has a section.  In particular it raises whenever the
    list of users is empty. *)
Theorem X29_generate_tasks_needs_a_task self projects sections users tags w r w' :
  generate_tasks self projects sections users tags w = (r, w') →
  (∀ tasks, r = Ok tasks →
     tasks ≠ [] ∧ generate self projects sections users tags w = (Ok tasks, w')) ∧
  (r = Raise ZeroDivisionError
   ↔ projects = [] ∨ tasks_per_project self users projects <= 0 ∨
     ∀ p, p ∈ task_projects projects → sections_in sections p = []) ∧
  (users = [] → r = Raise ZeroDivisionError).
Proof.
  intros Hrun. unfold generate_tasks, bind, ret in Hrun.
  destruct (generate self projects sections users tags w) as [r0 w0] eqn:Hgenerate.
  pose proof (wp_run _ _ _ _ _
                (tasks_generate_raises self projects sections users tags w) Hgenerate)
    as Hraises.
  pose proof (wp_run _ _ _ _ _
                (TasksOutput.tasks_generate_blocks self projects sections users tags w)
                Hgenerate) as Hblocks.
  assert (Hempty : ∀ tasks, r0 = Ok tasks →
            (tasks = [] ↔ tasks_per_project self users projects <= 0 ∨
                          ∀ p, p ∈ task_projects projects → sections_in sections p = [])).
  { intros tasks ->. destruct Hblocks as (blocks & -> & Hall).
    rewrite concat_nil_iff. split.
    - intros Hnil.
      destruct (decide (tasks_per_project self users projects <= 0)) as [|Hpos]; [by left|].
      right. intros p Hp. apply list_elem_of_lookup in Hp as [i Hi].
      destruct (Forall2_lookup_l _ _ _ _ _ Hall Hi) as (block & Hblock & _ & Hlength).
      rewrite Forall_forall in Hnil.
      rewrite (Hnil block) in Hlength by (by eapply list_elem_of_lookup_2).
      destruct (sections_in sections p); [done|]. simpl in Hlength. lia.
    - intros Hnone. apply Forall_forall. intros block Hblock.
      apply list_elem_of_lookup in Hblock as [i Hi].
      destruct (Forall2_lookup_r _ _ _ _ _ Hall Hi) as (p & Hp & _ & Hlength).
      apply list_elem_of_lookup_2 in Hp.
      destruct Hnone as [Hzero|Hnone].
      + destruct (sections_in sections p); destruct block; simpl in Hlength; try done; lia.
      + rewrite (Hnone p Hp) in Hlength. by destruct block. }
  assert (Hresult : r = Raise ZeroDivisionError
                    ↔ projects = [] ∨ tasks_per_project self users projects <= 0 ∨
                      ∀ p, p ∈ task_projects projects → sections_in sections p = []).
  { destruct r0 as [tasks|e].
    - specialize (Hempty tasks eq_refl). destruct tasks as [|t tasks].
      + injection Hrun as <- <-. split; [intros _; right; by apply Hempty|done].
      + injection Hrun as <- <-. split; [done|].
        intros [->|Hnone]; [done|]. by apply Hempty in Hnone.
    - destruct Hraises as [-> ->]. injection Hrun as <- <-. split; [by left|done]. }
  split_and!.
  - intros tasks ->. destruct r0 as [[|t ts]|e]; try done.
    by injection Hrun as <- <-.
  - done.
  - intros ->. apply Hresult. right. left. unfold tasks_per_project.
    rewrite TasksFacts.no_users_no_tasks. by rewrite Zdiv_0_l.
Qed.

Lemma X29_generate_tasks_needs_a_task_witness :
  ∃ tasks w',
    generate_tasks Examples.task_generator [Examples.project_1] [Examples.section_1]
                   [Examples.user_1] [] Examples.late_hour_world = (Ok tasks, w') ∧
    tasks ≠ [] ∧
    generate Examples.task_generator [Examples.project_1] [Examples.section_1]
             [Examples.user_1] [] Examples.late_hour_world = (Ok tasks, w').
Proof.
  eexists _, _. split; [vm_compute; reflexivity|].
  edestruct (X29_generate_tasks_needs_a_task Examples.task_generator [Examples.project_1]
               [Examples.section_1] [Examples.user_1] [] Examples.late_hour_world)
    as (Hsome & _ & _).
  { vm_compute; reflexivity. }
  by apply Hsome.
Defined.

End TasksEntryOutput.

(** ** Custom fields: definitions, options and values *)

Module CustomFieldsOutput.
Import CustomFields.

Lemma add_option_spec projects teams field_id it s w :
  fields_linked projects teams s →
  (∃ d, d ∈ definitions s ∧ CustomFieldDefinition.field_id d = field_id ∧
        CustomFieldDefinition.field_type d = "enum"%string) →
  wp (add_option field_id it s) w (λ s' w',
    wall w' = wall w ∧ fields_linked projects teams s' ∧
    definitions s' = definitions s ∧ by_type s' = by_type s).
Proof.
  intros (Hdefs & Hopts & Hids) (d & Hd & Hfield & Henum).
  unfold add_option. destruct it as [opt_position opt_template].
  wp_step. wp_step. intros option_id w1 Hw1. wp_step. cbv beta in Hw1.
  split; [done|]. split; [|done]. split_and!; cbn.
  - done.
  - intros o [Ho|Ho%list_elem_of_singleton]%elem_of_app; [by apply Hopts|].
    subst o. exists d. by cbn.
  - intros fid ids oid Hlook Hoid.
    destruct (decide (fid = field_id)) as [->|Hne].
    + rewrite lookup_insert_eq in Hlook. injection Hlook as <-.
      apply elem_of_app in Hoid as [Hoid|Hoid%list_elem_of_singleton].
      * destruct (field_to_options s !! field_id) as [old|] eqn:Hold;
          [|by apply elem_of_nil in Hoid].
        destruct (Hids _ _ _ Hold Hoid) as (o & Ho & Hoption & Hofield).
        exists o. split; [apply elem_of_app; by left|done].
      * subst oid. eexists. split; [apply elem_of_app; right; apply list_elem_of_here|].
        done.
    + rewrite lookup_insert_ne in Hlook by done.
      destruct (Hids _ _ _ Hlook Hoid) as (o & Ho & Hoption & Hofield).
      exists o. split; [apply elem_of_app; by left|done].
Qed.

Lemma add_definition_spec projects teams project team it s w :
  project ∈ projects → team ∈ teams →
  Project.team_id project = Some (Team.team_id team) →
  fields_linked projects teams s →
  wp (add_definition project it s) w (λ s' w',
    wall w <= wall w' ∧ fields_linked projects teams s' ∧ by_type s' = by_type s).
Proof.
  intros Hproject Hteam Hteam_id (Hdefs & Hopts & Hids).
  unfold add_definition. destruct it as [position template].
  wp_step. wp_step. intros field_id w1 Hw1. cbv beta in Hw1.
  wp_step. wp_step. intros days_after w2 [_ Hw2].
  wp_step. wp_step. intros now w3 [-> Hw3]. cbv zeta.
  set (definition := CustomFieldDefinition.mk _ _ _ _ _ _ _ _).
  assert (Hlinked1 : ∀ kept,
            (∀ fid ids oid, kept !! fid = Some ids → oid ∈ ids →
               ∃ o, o ∈ enum_options s ∧ CustomFieldEnumOption.option_id o = oid ∧
                    CustomFieldEnumOption.field_id o = fid) →
            fields_linked projects teams
              (mkState (by_type s) (definitions s ++ [definition]) (enum_options s) kept)).
  { intros kept Hkept. split_and!; cbn.
    - intros d [Hd|Hd%list_elem_of_singleton]%elem_of_app; [by apply Hdefs|].
      subst d. by exists project, team.
    - intros o Ho. destruct (Hopts o Ho) as (d & Hd & Hfield & Henum).
      exists d. split; [apply elem_of_app; by left|done].
    - done. }
  assert (Hret : wp (ret (mkState (by_type s) (definitions s ++ [definition])
                                  (enum_options s) (field_to_options s))) w3
            (λ s' w', wall w <= wall w' ∧ fields_linked projects teams s' ∧
                      by_type s' = by_type s)).
  { apply wp_ret. split; [lia|]. split; [|done]. by apply Hlinked1. }
  destruct (options template) as [[|opt opts]|]; [done| |done].
  destruct (String.eqb (field_type template) "enum") eqn:Henum; [|done].
  apply String.eqb_eq in Henum. cbn [by_type definitions enum_options field_to_options].
  set (I := λ (s' : state) (w' : World),
    wall w' = wall w3 ∧ fields_linked projects teams s' ∧
    definitions s' = definitions s ++ [definition] ∧ by_type s' = by_type s).
  eapply wp_wand with (Q := I).
  - apply (for_spec I).
    + split; [done|]. split; [|done]. apply Hlinked1.
      intros fid ids oid Hlook Hoid.
      destruct (decide (fid = field_id)) as [->|Hne].
      * rewrite lookup_insert_eq in Hlook. injection Hlook as <-.
        by apply elem_of_nil in Hoid.
      * rewrite lookup_insert_ne in Hlook by done. by eapply Hids.
    + intros it s' w' _ (Hw' & Hlinked' & Hdefs' & Htype').
      eapply wp_wand; [apply (add_option_spec projects teams); [done|]|].
      * exists definition. rewrite Hdefs'.
        split; [apply elem_of_app; right; apply list_elem_of_here|]. done.
      * intros s'' w'' (Hw'' & Hlinked'' & Hdefs'' & Htype''). split; [congruence|].
        split; [done|]. split; congruence.
  - intros s' w' (Hw' & Hlinked' & _ & Htype'). split; [lia|]. done.
Qed.

Lemma team_dict_lookup (teams : list Team.t) id team :
  (list_to_map (reverse ((λ t, (Team.team_id t, t)) <$> teams)) : gmap ident Team.t)
    !! id = Some team →
  team ∈ teams ∧ Team.team_id team = id.
Proof.
  intros Hlook. apply elem_of_list_to_map_2 in Hlook.
  apply elem_of_reverse, list_elem_of_fmap in Hlook as (t & [= -> ->] & Ht). done.
Qed.

Lemma sample_spec_wall {A} (population : list A) k w :
  wp (sample population k) w (λ r w', r ⊆+ population ∧ wall w' = wall w).
Proof. apply sample_spec. Qed.

Lemma get_fields_wall project_type team_type stored w :
  wp (_get_fields_for_project project_type team_type stored) w (λ _ w', wall w' = wall w).
Proof.
  unfold _get_fields_for_project. cbv zeta.
  wp_step. wp_step. intros n w1 [_ Hw1]. wp_step. wp_step. intros selected w2 [_ Hw2].
  wp_step. congruence.
Qed.

Lemma custom_visit_project_spec projects teams project s w :
  project ∈ projects → fields_linked projects teams s →
  wp (visit_project (list_to_map (reverse ((λ t, (Team.team_id t, t)) <$> teams)))
                    project s) w
     (λ s' w', wall w <= wall w' ∧ fields_linked projects teams s').
Proof.
  intros Hproject Hlinked. unfold visit_project.
  destruct (Project.team_id project) as [team_id|] eqn:Hteam_id; simpl;
    [|by apply wp_ret].
  destruct (_ !! team_id) as [team|] eqn:Hlook; [|by apply wp_ret].
  apply team_dict_lookup in Hlook as [Hteam <-].
  wp_step. eapply wp_wand; [apply get_fields_wall|]. intros r w1 Hw1. cbv beta in Hw1. cbv zeta.
  set (I := λ (s' : state) (w' : World), wall w <= wall w' ∧ fields_linked projects teams s').
  apply (for_spec I).
  - split; [lia|]. destruct Hlinked as (? & ? & ?). by split_and!.
  - intros it s' w' _ [Hw' Hlinked'].
    eapply wp_wand; [by apply (add_definition_spec projects teams project team)|].
    intros s'' w'' (Hw'' & Hlinked'' & _). split; [lia|done].
Qed.

Lemma add_value_spec tasks defs opts (field_to_options : gmap ident (list ident))
    task field_def values w :
  task ∈ tasks → field_def ∈ defs →
  Task.project_id task = Some (CustomFieldDefinition.project_id field_def) →
  (∀ field_id option_ids option_id,
     field_to_options !! field_id = Some option_ids → option_id ∈ option_ids →
     ∃ o, o ∈ opts ∧ CustomFieldEnumOption.option_id o = option_id ∧
          CustomFieldEnumOption.field_id o = field_id) →
  Forall (value_linked tasks defs opts) values →
  wp (add_value field_to_options task field_def values) w (λ values' _,
    Forall (value_linked tasks defs opts) values').
Proof.
  intros Htask Hdef Hproject Hids Hvalues. unfold add_value. cbv zeta.
  assert (Hnew : ∀ value_id text number date checkbox option_id after,
            1 <= after <= 48 →
            (∀ oid, option_id = Some oid →
               ∃ o, o ∈ opts ∧ CustomFieldEnumOption.option_id o = oid ∧
                    CustomFieldEnumOption.field_id o
                    = CustomFieldDefinition.field_id field_def) →
            Forall (value_linked tasks defs opts)
                   (values ++ [value_of value_id task field_def text number date checkbox
                                        option_id (Task.created_at task + hours after)])).
  { intros value_id text number date checkbox option_id after Hafter Hoption.
    apply Forall_app. split; [done|]. apply Forall_singleton.
    exists task, field_def. cbn. split_and!; try done; unfold_units; lia. }
  wp_step. wp_step. intros value_id w1 _.
  destruct (String.eqb (CustomFieldDefinition.field_type field_def) "enum").
  { destruct (field_to_options !! CustomFieldDefinition.field_id field_def)
      as [[|oid oids]|] eqn:Hlook; simpl; [by apply wp_ret| |by apply wp_ret].
    wp_step. wp_step. intros option_id w2 [Hoption _]. specialize (Hoption ltac:(done)).
    wp_step. wp_step. intros after w3 [Hafter _]. specialize (Hafter ltac:(lia)).
    wp_step. apply Hnew; [done|]. intros oid' [= <-]. by eapply Hids. }
  destruct (String.eqb (CustomFieldDefinition.field_type field_def) "number").
  { wp_step. eapply wp_wand with (Q := λ _ _, True); [done|]. intros num_val w2 _.
    wp_step. wp_step. intros after w3 [Hafter _]. specialize (Hafter ltac:(lia)).
    wp_step. by apply Hnew. }
  destruct (String.eqb (CustomFieldDefinition.field_type field_def) "text").
  { wp_step. eapply wp_wand with (Q := λ _ _, True); [done|]. intros text_val w2 _.
    wp_step. wp_step. intros after w3 [Hafter _]. specialize (Hafter ltac:(lia)).
    wp_step. by apply Hnew. }
  destruct (String.eqb (CustomFieldDefinition.field_type field_def) "date").
  { wp_step. wp_step. intros days_after w2 _.
    wp_step. wp_step. intros after w3 [Hafter _]. specialize (Hafter ltac:(lia)).
    wp_step. by apply Hnew. }
  destruct (String.eqb (CustomFieldDefinition.field_type field_def) "checkbox").
  { wp_step. wp_step. intros checked w2 _.
    wp_step. wp_step. intros after w3 [Hafter _]. specialize (Hafter ltac:(lia)).
    wp_step. by apply Hnew. }
  by apply wp_ret.
Qed.

Lemma custom_visit_task_spec tasks defs opts (field_to_options : gmap ident (list ident))
    task values w :
  task ∈ tasks →
  (∀ field_id option_ids option_id,
     field_to_options !! field_id = Some option_ids → option_id ∈ option_ids →
     ∃ o, o ∈ opts ∧ CustomFieldEnumOption.option_id o = option_id ∧
          CustomFieldEnumOption.field_id o = field_id) →
  Forall (value_linked tasks defs opts) values →
  wp (visit_task (group_by CustomFieldDefinition.project_id defs) field_to_options
                 task values) w
     (λ values' _, Forall (value_linked tasks defs opts) values').
Proof.
  intros Htask Hids Hvalues. unfold visit_task. cbv zeta.
  set (task_defs := default [] (Task.project_id task ≫= _)).
  assert (Hdefs : ∀ d, d ∈ task_defs →
            d ∈ defs ∧ Task.project_id task = Some (CustomFieldDefinition.project_id d)).
  { intros d Hd. unfold task_defs in Hd.
    destruct (Task.project_id task) as [project_id|]; simpl in Hd;
      [|by apply elem_of_nil in Hd].
    rewrite TasksFacts.group_by_lookup in Hd.
    apply list_elem_of_filter in Hd as [-> Hd]. done. }
  destruct task_defs as [|d0 ds] eqn:Htask_defs; [by apply wp_ret|].
  wp_step. wp_step. intros skipped w1 _. destruct skipped; [by apply wp_ret|].
  wp_step. wp_step. intros num_to_fill w2 _.
  wp_step. wp_step. intros fields_to_fill w3 [Hsub _].
  apply (for_spec (λ values' _, Forall (value_linked tasks defs opts) values')); [done|].
  intros field_def values' w4 Hfield Hvalues'.
  destruct (Hdefs field_def) as [Hdef Hproject]; [by eapply elem_of_submseteq|].
  by apply (add_value_spec tasks defs opts).
Qed.

Lemma custom_fields_generate_spec stored projects teams tasks w :
  wp (generate stored projects teams tasks) w (λ r _,
    fields_linked projects teams (mkState r.2 r.1.1.1 r.1.1.2 ∅) ∧
    Forall (value_linked tasks r.1.1.1 r.1.1.2) r.1.2).
Proof.
  unfold generate. cbv zeta. wp_step.
  eapply wp_wand with (Q := λ s w', wall w <= wall w' ∧ fields_linked projects teams s).
  { apply (for_spec (λ s w', wall w <= wall w' ∧ fields_linked projects teams s)).
    - split; [lia|]. split_and!; cbn.
      + by intros d ?%elem_of_nil.
      + by intros o ?%elem_of_nil.
      + intros fid ids oid Hlook. by rewrite lookup_empty in Hlook.
    - intros project s w1 Hproject [Hw1 Hlinked].
      eapply wp_wand; [by apply custom_visit_project_spec|].
      intros s' w2 [Hw2 Hlinked']. split; [lia|done]. }
  intros s w1 [_ (Hdefs & Hopts & Hids)].
  wp_step.
  eapply wp_wand with
    (Q := λ values _, Forall (value_linked tasks (definitions s) (enum_options s)) values).
  { apply (for_spec (λ values _,
             Forall (value_linked tasks (definitions s) (enum_options s)) values));
      [constructor|].
    intros task values w2 Htask Hvalues. by apply custom_visit_task_spec. }
  intros values w2 Hvalues. wp_step. cbn. split; [|done].
  split_and!; cbn; [done|done|]. intros fid ids oid Hlook. by rewrite lookup_empty in Hlook.
Qed.

(** The dictionary the constructor builds holds templates of the generator,
    none twice and at least two in each list. *)
Lemma initial_templates_ok : templates_ok fields_by_project_type.
Proof.
  assert (H : map_Forall (λ _ fields,
            NoDup fields ∧ (2 <= length fields)%nat ∧ Forall (λ f, f ∈ all_templates) fields)
            fields_by_project_type) by compute_done.
  intros project_type fields Hfields. destruct (H _ _ Hfields) as (Hnodup & Hlength & Hall).
  rewrite Forall_forall in Hall. done.
Qed.

(** X30: for a dictionary of templates as the constructor builds it or as
    an earlier run left it, the three lists [generate] returns refer to one
    another and to the input.  Every definition carries the identifier of a project of
    the input whose team is among the teams of the input.  Every enum
    option belongs to a definition of type enum.  Every value is the value,
    for a task of the input, of a field defined for the project of that
    task; it is dated 1 to 48 hours after the task was created, whatever
    the clock says; and the option of an enum value is an option of that
    very field. *)
Theorem X30_custom_fields_refer_to_their_inputs stored projects teams tasks w
    defs opts values stored' w' :
  templates_ok stored →
  generate stored projects teams tasks w = ((defs, opts, values, stored'), w') →
  (∀ d, d ∈ defs →
     ∃ p team, p ∈ projects ∧ team ∈ teams ∧
       Project.team_id p = Some (Team.team_id team) ∧
       CustomFieldDefinition.project_id d = Project.project_id p) ∧
  (∀ o, o ∈ opts →
     ∃ d, d ∈ defs ∧
       CustomFieldEnumOption.field_id o = CustomFieldDefinition.field_id d ∧
       CustomFieldDefinition.field_type d = "enum"%string) ∧
  (∀ v, v ∈ values →
     ∃ t d, t ∈ tasks ∧ d ∈ defs ∧
       CustomFieldValue.task_id v = Task.task_id t ∧
       CustomFieldValue.field_id v = CustomFieldDefinition.field_id d ∧
       Task.project_id t = Some (CustomFieldDefinition.project_id d) ∧
       Task.created_at t + hours 1 <= CustomFieldValue.created_at v
       <= Task.created_at t + hours 48 ∧
       ∀ option_id, CustomFieldValue.value_enum_option_id v = Some option_id →
         ∃ o, o ∈ opts ∧
           CustomFieldEnumOption.option_id o = option_id ∧
           CustomFieldEnumOption.field_id o = CustomFieldValue.field_id v).
Proof.
  intros _ Hrun.
  destruct (wp_run _ _ _ _ _ (custom_fields_generate_spec stored projects teams tasks w)
              Hrun) as [(Hdefs & Hopts & _) Hvalues].
  cbn in *. split_and!; [done|done|].
  intros v Hv. rewrite Forall_forall in Hvalues.
  destruct (Hvalues v Hv) as (t & d & Ht & Hd & Htask & Hfield & Hproject & Htime & _ & Hoption).
  exists t, d. destruct Htime. by split_and!.
Qed.

Lemma X30_custom_fields_refer_to_their_inputs_witness :
  ∃ defs opts values stored' w',
    generate fields_by_project_type [Examples.project_1] [Examples.team_1]
      [Examples.task_a] (Examples.world (Examples.at_ Examples.today 10 0) [])
    = ((defs, opts, values, stored'), w') ∧
    length defs = 2%nat ∧ length opts = 8%nat ∧ length values = 1%nat ∧
    (∀ d, d ∈ defs → CustomFieldDefinition.project_id d = "project-1"%string) ∧
    (∀ v, v ∈ values →
       ∃ t d, t ∈ [Examples.task_a] ∧ d ∈ defs ∧
         CustomFieldValue.task_id v = Task.task_id t ∧
         CustomFieldValue.field_id v = CustomFieldDefinition.field_id d ∧
         Task.project_id t = Some (CustomFieldDefinition.project_id d)).
Proof.
  eassert (Hrun : generate fields_by_project_type [Examples.project_1] [Examples.team_1]
                    [Examples.task_a] (Examples.world (Examples.at_ Examples.today 10 0) [])
                  = ((_, _, _, _), _)) by (vm_compute; reflexivity).
  eexists _, _, _, _, _. split; [exact Hrun|].
  split; [reflexivity|]. split; [reflexivity|]. split; [reflexivity|].
  destruct (X30_custom_fields_refer_to_their_inputs _ _ _ _ _ _ _ _ _ _
              initial_templates_ok Hrun)
    as (Hdefs & _ & Hvalues).
  split.
  - intros d Hd. destruct (Hdefs d Hd) as (p & team & Hp & _ & _ & ->).
    apply list_elem_of_singleton in Hp as ->. reflexivity.
  - intros v Hv. destruct (Hvalues v Hv) as (t & d & Ht & Hd & Htask & Hfield & Hproject & _).
    exists t, d. repeat split; assumption.
Defined.

(** *** The definitions of a project, and the dictionary of templates *)

Lemma append_missing_spec extra fields :
  NoDup fields →
  NoDup (append_missing extra fields) ∧
  (∃ added, append_missing extra fields = fields ++ added) ∧
  (∀ f, f ∈ append_missing extra fields ↔ f ∈ fields ∨ f ∈ extra).
Proof.
  unfold append_missing. revert fields.
  induction extra as [|field extra IH]; intros fields Hnodup; simpl.
  { split_and!; [done|exists []; by rewrite app_nil_r|].
    intros f. rewrite elem_of_nil. tauto. }
  case_bool_decide as Hin.
  - destruct (IH fields Hnodup) as (Hnodup' & Hadded & Helem). split_and!; [done..|].
    intros f. rewrite Helem, elem_of_cons. split; [tauto|].
    intros [Hf|[->|Hf]]; tauto.
  - destruct (IH (fields ++ [field])) as (Hnodup' & (added & Hadded) & Helem).
    { apply NoDup_app. split_and!; [done| |apply NoDup_singleton].
      intros f Hf ->%list_elem_of_singleton. done. }
    split_and!; [done| |].
    + exists ([field] ++ added). by rewrite Hadded, <- app_assoc.
    + intros f. rewrite Helem, elem_of_app, list_elem_of_singleton, elem_of_cons. tauto.
Qed.

Lemma templates_grown_refl stored : templates_grown stored stored.
Proof.
  intros k. destruct (stored !! k) as [fields|] eqn:Hk; [|done].
  exists []. by rewrite app_nil_r.
Qed.

Lemma templates_grown_trans stored1 stored2 stored3 :
  templates_grown stored1 stored2 → templates_grown stored2 stored3 →
  templates_grown stored1 stored3.
Proof.
  intros H12 H23 k. specialize (H12 k). specialize (H23 k).
  destruct (stored1 !! k) as [fields|].
  - destruct H12 as (extra & Hk2). rewrite Hk2 in H23. destruct H23 as (extra' & Hk3).
    exists (extra ++ extra'). by rewrite Hk3, <- app_assoc.
  - by rewrite H12 in H23.
Qed.

(** The selection: two to five distinct templates; what was appended to
    the list of a known project type stays in the dictionary. *)
Lemma get_fields_spec project_type team_type stored w :
  templates_ok stored →
  wp (_get_fields_for_project project_type team_type stored) w (λ r w',
    wall w' = wall w ∧ NoDup r.1 ∧ (∀ f, f ∈ r.1 → f ∈ all_templates) ∧
    (2 <= length r.1 <= 5)%nat ∧ templates_ok r.2 ∧ templates_grown stored r.2).
Proof.
  intros Hok. unfold _get_fields_for_project. cbv zeta.
  set (fields0 := default (take 2 common_fields) (stored !! project_type)).
  assert (Hfields0 : NoDup fields0 ∧ (2 <= length fields0)%nat ∧
                     ∀ f, f ∈ fields0 → f ∈ all_templates).
  { unfold fields0. destruct (stored !! project_type) as [fields|] eqn:Hstored; simpl.
    - by apply (Hok project_type).
    - split_and!; [compute_done|simpl; lia|].
      apply Forall_forall. compute_done. }
  destruct Hfields0 as (Hnodup0 & Hlength0 & Hknown0).
  match goal with
  | |- wp (bind (randint 2 (Z.min 5 (Z.of_nat (length ?fs)))) _) _ _ => set (fields := fs)
  end.
  assert (Hfields : NoDup fields ∧ (∃ added, fields = fields0 ++ added) ∧
                    ∀ f, f ∈ fields → f ∈ all_templates).
  { assert (Hextra : ∀ extra, Forall (λ f, f ∈ all_templates) extra →
              NoDup (append_missing extra fields0) ∧
              (∃ added, append_missing extra fields0 = fields0 ++ added) ∧
              ∀ f, f ∈ append_missing extra fields0 → f ∈ all_templates).
    { intros extra Hextra.
      destruct (append_missing_spec extra fields0 Hnodup0) as (? & ? & Helem).
      split_and!; [done..|]. intros f [Hf|Hf]%Helem; [by apply Hknown0|].
      rewrite Forall_forall in Hextra. by apply Hextra. }
    unfold fields.
    repeat match goal with
           | |- context [if ?b then _ else _] => destruct b
           end;
      try (apply Hextra; compute_done).
    split_and!; [done|exists []; by rewrite app_nil_r|done]. }
  destruct Hfields as (Hnodup & (added & Hadded) & Hknown).
  assert (Hlength : (2 <= length fields)%nat).
  { rewrite Hadded, length_app. lia. }
  clearbody fields.
  wp_step. wp_step. intros num_fields w1 [Hnum Hw1]. specialize (Hnum ltac:(lia)).
  wp_step.
  eapply wp_wand; [apply wp_and; [apply sample_spec|apply sample_length_eq; lia]|].
  intros selected w2 [[Hsub Hw2] Hselected]. cbv beta in *. wp_step. cbn [fst snd].
  split_and!.
  - congruence.
  - by eapply submseteq_NoDup.
  - intros f Hf. apply Hknown. by eapply elem_of_submseteq.
  - lia.
  - lia.
  - destruct (stored !! project_type) as [fields1|] eqn:Hstored; [|done].
    intros k fields' Hk. destruct (decide (k = project_type)) as [->|Hne].
    + rewrite lookup_insert_eq in Hk. injection Hk as <-. done.
    + rewrite lookup_insert_ne in Hk by done. by apply (Hok k).
  - unfold templates_grown. intros k.
    destruct (stored !! project_type) as [fields1|] eqn:Hstored.
    + destruct (decide (k = project_type)) as [->|Hne].
      * rewrite Hstored, lookup_insert_eq. exists added. f_equal.
        by rewrite Hadded.
      * rewrite lookup_insert_ne by done. apply templates_grown_refl.
    + apply templates_grown_refl.
Qed.

Lemma defined_by_later project now1 now2 it d :
  now1 <= now2 → defined_by project now1 it d → defined_by project now2 it d.
Proof.
  intros Hnow (? & ? & ? & ? & ? & ? & ? & Hclock). split_and!; try done; try tauto.
  destruct Hclock; [left; lia|by right].
Qed.

Lemma add_option_block field_id it s w :
  wp (add_option field_id it s) w (λ s' w',
    wall w' = wall w ∧ definitions s' = definitions s ∧ by_type s' = by_type s).
Proof.
  unfold add_option. destruct it as [opt_position opt_template].
  wp_step. wp_step. intros option_id w1 Hw1. by wp_step.
Qed.

Lemma add_definition_block project it s w :
  wp (add_definition project it s) w (λ s' w',
    wall w <= wall w' ∧ by_type s' = by_type s ∧
    ∃ d, definitions s' = definitions s ++ [d] ∧ defined_by project (wall w') it d).
Proof.
  unfold add_definition. destruct it as [position template].
  wp_step. wp_step. intros field_id w1 Hw1. cbv beta in Hw1.
  wp_step. wp_step. intros days_after w2 [Hdays Hw2]. specialize (Hdays ltac:(lia)).
  wp_step. wp_step. intros now w3 [-> Hw3]. cbv zeta.
  set (definition := CustomFieldDefinition.mk _ _ _ _ _ _ _ _).
  assert (Hdefined : defined_by project (wall w3) (position, template) definition).
  { unfold defined_by, definition. cbn. split_and!; try done.
    - case_bool_decide; unfold_units; lia.
    - case_bool_decide; unfold_units; lia.
    - case_bool_decide; [by right|left; lia]. }
  clearbody definition.
  assert (Hret : ∀ kept, wp (ret (mkState (by_type s) (definitions s ++ [definition])
                                          (enum_options s) kept)) w3
            (λ s' w', wall w <= wall w' ∧ by_type s' = by_type s ∧
               ∃ d, definitions s' = definitions s ++ [d] ∧
                    defined_by project (wall w') (position, template) d)).
  { intros kept. apply wp_ret. split; [lia|]. split; [done|]. by exists definition. }
  destruct (options template) as [[|opt opts]|]; [done| |done].
  destruct (String.eqb (field_type template) "enum"); [|done].
  cbn [by_type definitions enum_options field_to_options].
  set (I := λ (s' : state) (w' : World),
    wall w' = wall w3 ∧ definitions s' = definitions s ++ [definition] ∧
    by_type s' = by_type s).
  eapply wp_wand with (Q := I).
  - apply (for_spec I); [done|].
    intros it s' w' _ (Hw' & Hdefs' & Htype').
    eapply wp_wand; [apply add_option_block|].
    intros s'' w'' (Hw'' & Hdefs'' & Htype''). split_and!; congruence.
  - intros s' w' (Hw' & Hdefs' & Htype'). split; [lia|]. split; [done|].
    exists definition. split; [done|]. by rewrite Hw'.
Qed.

Lemma team_dict_lookup_None (teams : list Team.t) id :
  (list_to_map (reverse ((λ t, (Team.team_id t, t)) <$> teams)) : gmap ident Team.t)
    !! id = None →
  ∀ team, team ∈ teams → Team.team_id team ≠ id.
Proof.
  intros Hnone team Hteam <-. apply not_elem_of_list_to_map_2 in Hnone. apply Hnone.
  rewrite fmap_reverse, elem_of_reverse, <- list_fmap_compose.
  apply list_elem_of_fmap. by exists team.
Qed.

Lemma visit_project_block teams project s w :
  templates_ok (by_type s) →
  wp (visit_project (list_to_map (reverse ((λ t, (Team.team_id t, t)) <$> teams)))
                    project s) w
     (λ s' w', wall w <= wall w' ∧ templates_ok (by_type s') ∧
               templates_grown (by_type s) (by_type s') ∧
               ∃ block, definitions s' = definitions s ++ block ∧
                        definitions_block teams (wall w') project block).
Proof.
  intros Hok. unfold visit_project.
  assert (Hnone : ¬ has_team teams project →
            wp (ret s) w (λ s' w', wall w <= wall w' ∧ templates_ok (by_type s') ∧
               templates_grown (by_type s) (by_type s') ∧
               ∃ block, definitions s' = definitions s ++ block ∧
                        definitions_block teams (wall w') project block)).
  { intros Hteam. apply wp_ret. split; [lia|]. split; [done|].
    split; [apply templates_grown_refl|]. exists []. rewrite app_nil_r. split; [done|].
    split; [done|]. intros ?. done. }
  destruct (Project.team_id project) as [team_id|] eqn:Hteam_id; simpl.
  2: { apply Hnone. intros (team & _ & Hsome). congruence. }
  destruct (_ !! team_id) as [team|] eqn:Hlook.
  2: { apply Hnone. intros (team & Hteam & Hsome).
       rewrite Hteam_id in Hsome. injection Hsome as ->.
       by eapply team_dict_lookup_None. }
  apply team_dict_lookup in Hlook as [Hteam <-].
  wp_step. eapply wp_wand; [by apply get_fields_spec|].
  intros [selected stored'] w1 (Hw1 & Hnodup & Hknown & Hlength & Hok' & Hgrown).
  cbn [fst snd] in *. cbv zeta.
  set (I := λ (pre : list (nat * FieldTemplate)) (s' : state) (w' : World),
    wall w <= wall w' ∧ by_type s' = stored' ∧
    ∃ block, definitions s' = definitions s ++ block ∧
             Forall2 (defined_by project (wall w')) pre block).
  eapply wp_wand with (Q := I (enumerate selected)).
  - apply (for_spec_prefix I).
    { split; [lia|]. split; [done|]. exists []. rewrite app_nil_r. split; [done|constructor]. }
    intros pre it post s' w' _ (Hw' & Htype' & block & Hblock & Hall).
    eapply wp_wand; [apply add_definition_block|].
    intros s'' w'' (Hw'' & Htype'' & d & Hdefs'' & Hd). split; [lia|].
    split; [congruence|]. exists (block ++ [d]).
    split; [by rewrite Hdefs'', Hblock, <- app_assoc|].
    apply Forall2_app; [|by constructor].
    eapply Forall2_impl; [exact Hall|]. intros it' d'. apply defined_by_later. lia.
  - intros s' w' (Hw' & Htype' & block & Hblock & Hall). rewrite Htype'.
    split; [done|]. split; [done|]. split; [done|]. exists block. split; [done|].
    split; [intros Hno; exfalso; apply Hno; by exists team|].
    intros _. by exists selected.
Qed.

Lemma definitions_block_later teams now1 now2 project block :
  now1 <= now2 → definitions_block teams now1 project block →
  definitions_block teams now2 project block.
Proof.
  intros Hnow [Hnone Hsome]. split; [done|].
  intros Hteam. destruct (Hsome Hteam) as (selected & ? & ? & ? & Hall).
  exists selected. split; [done|]. split; [done|]. split; [done|].
  eapply Forall2_impl; [exact Hall|]. intros it d. by apply defined_by_later.
Qed.

Lemma custom_visit_task_wall defs_by_project kept task values w :
  wp (visit_task defs_by_project kept task values) w (λ _ w', wall w' = wall w).
Proof.
  unfold visit_task. cbv zeta.
  destruct (default [] _) as [|d0 ds]; [by apply wp_ret|].
  wp_step. wp_step. intros skipped w1 Hw1. cbv beta in Hw1.
  destruct skipped; [by apply wp_ret|].
  wp_step. wp_step. intros num_to_fill w2 [_ Hw2].
  wp_step. wp_step. intros fields_to_fill w3 [_ Hw3].
  eapply wp_wand with (Q := λ _ w', wall w' = wall w3); [|intros; congruence].
  apply (for_spec (λ _ w', wall w' = wall w3)); [done|].
  intros field_def values' w4 _ Hw4. unfold add_value. cbv zeta.
  wp_step. wp_step. intros value_id w5 Hw5. cbv beta in Hw5.
  repeat match goal with
         | |- wp (if ?b then _ else _) _ _ => destruct b
         | |- wp (match ?l with [] => _ | _ :: _ => _ end) _ _ => destruct l
         | |- wp (ret _) _ _ => apply wp_ret; first [congruence | cbv beta]
         | |- wp (bind _ _) _ _ => apply wp_bind
         | |- wp (randint _ _) _ _ =>
             eapply wp_wand; [apply randint_spec|]; intros ? ? [_ ?]
         | |- wp (choice _ _) _ _ =>
             eapply wp_wand; [apply choice_spec|]; intros ? ? [_ ?]
         end.
Qed.

Lemma custom_fields_definitions_spec stored projects teams tasks w :
  templates_ok stored →
  wp (generate stored projects teams tasks) w (λ r w',
    templates_ok r.2 ∧ templates_grown stored r.2 ∧
    ∃ blocks, r.1.1.1 = concat blocks ∧
              Forall2 (definitions_block teams (wall w')) projects blocks).
Proof.
  intros Hok. unfold generate. cbv zeta. wp_step.
  set (I := λ (pre : list Project.t) (s : state) (w' : World),
    wall w <= wall w' ∧ templates_ok (by_type s) ∧ templates_grown stored (by_type s) ∧
    ∃ blocks, definitions s = concat blocks ∧
              Forall2 (definitions_block teams (wall w')) pre blocks).
  eapply wp_wand with (Q := I projects).
  { apply (for_spec_prefix I).
    - split; [lia|]. split; [done|]. split; [apply templates_grown_refl|].
      exists []. split; [done|constructor].
    - intros pre project post s w1 _ (Hw1 & Hok1 & Hgrown1 & blocks & Hdefs & Hblocks).
      eapply wp_wand; [by apply visit_project_block|].
      intros s' w2 (Hw2 & Hok2 & Hgrown2 & block & Hdefs' & Hblock). split; [lia|].
      split; [done|]. split; [by eapply templates_grown_trans|].
      exists (blocks ++ [block]). split.
      + rewrite Hdefs', Hdefs, concat_app. simpl. by rewrite app_nil_r.
      + apply Forall2_app; [|by constructor].
        eapply Forall2_impl; [exact Hblocks|]. intros p b.
        by apply definitions_block_later. }
  intros s w1 (Hw1 & Hok1 & Hgrown1 & blocks & Hdefs & Hblocks).
  wp_step.
  eapply wp_wand with (Q := λ _ w', wall w' = wall w1).
  { apply (for_spec (λ _ w', wall w' = wall w1)); [done|].
    intros task values w2 _ Hw2.
    eapply wp_wand; [apply custom_visit_task_wall|]. intros; congruence. }
  intros values w2 Hw2. wp_step. cbn. split; [done|]. split; [done|].
  exists blocks. split; [done|]. by rewrite Hw2.
Qed.

Lemma template_names_distinct : NoDup (name <$> all_templates).
Proof. compute_done. Qed.

(** For a dictionary of templates as the constructor builds it,
    [generate] defines two to five fields for every project whose team is
    among the teams, and none for the other projects.  The definitions of
    a project are numbered from 0 in the order they were made, copy
    templates of the generator, have pairwise distinct names, and are
    created within two days after the project and, unless at the very
    time of the project, not after the clock reading at the end of the run.
    The dictionary of the generator is not left as it was found: its lists
    keep what they held and may end with templates appended for the teams
    met. *)
Theorem custom_field_definitions_in_blocks stored projects teams tasks w
    defs opts values stored' w' :
  templates_ok stored →
  generate stored projects teams tasks w = ((defs, opts, values, stored'), w') →
  (∃ blocks, defs = concat blocks ∧
     Forall2 (λ project block,
        (¬ has_team teams project → block = []) ∧
        (has_team teams project →
         (2 <= length block <= 5)%nat ∧
         CustomFieldDefinition.position <$> block = Some <$> seq 0 (length block) ∧
         NoDup (CustomFieldDefinition.name <$> block) ∧
         Forall (λ d,
           CustomFieldDefinition.project_id d = Project.project_id project ∧
           (∃ template, template ∈ all_templates ∧
              CustomFieldDefinition.name d = name template ∧
              CustomFieldDefinition.field_type d = field_type template ∧
              CustomFieldDefinition.description d = Some (description template) ∧
              CustomFieldDefinition.is_required d = is_required template) ∧
           Project.created_at project <= CustomFieldDefinition.created_at d
           <= Project.created_at project + days 2 ∧
           (CustomFieldDefinition.created_at d <= wall w' ∨
            CustomFieldDefinition.created_at d = Project.created_at project)) block))
       projects blocks) ∧
  (∀ project_type fields, stored !! project_type = Some fields →
     ∃ extra, stored' !! project_type = Some (fields ++ extra)) ∧
  templates_ok stored'.
Proof.
  intros Hok Hrun.
  destruct (wp_run _ _ _ _ _
              (custom_fields_definitions_spec stored projects teams tasks w Hok) Hrun)
    as (Hok' & Hgrown & blocks & Hdefs & Hblocks).
  cbn in *. split_and!; [|by intros k fields Hk; specialize (Hgrown k); rewrite Hk in Hgrown|done].
  exists blocks. split; [done|].
  eapply Forall2_impl; [exact Hblocks|]. intros project block [Hnone Hsome].
  split; [done|]. intros Hteam.
  destruct (Hsome Hteam) as (selected & Hnodup & Hknown & Hlength & Hall).
  assert (Hlen : length block = length selected).
  { apply Forall2_length in Hall. unfold enumerate in Hall.
    by rewrite length_imap in Hall. }
  assert (Hfst : CustomFieldDefinition.position <$> block
                 = Some <$> ((λ it, it.1) <$> enumerate selected)).
  { clear -Hall. induction Hall as [|it d its ds (_ & Hposition & _) _ IH]; [done|].
    rewrite !fmap_cons, IH, Hposition. done. }
  assert (Hsnd : CustomFieldDefinition.name <$> block
                 = name <$> ((λ it, it.2) <$> enumerate selected)).
  { clear -Hall. induction Hall as [|it d its ds (_ & _ & Hname & _) _ IH]; [done|].
    rewrite !fmap_cons, IH, Hname. done. }
  rewrite SectionsFacts.enumerate_fst in Hfst. rewrite SectionsFacts.enumerate_snd in Hsnd.
  split_and!; [lia|lia|by rewrite Hfst, Hlen| |].
  - rewrite Hsnd. apply NoDup_fmap_2_strong; [|done].
    intros f1 f2 Hf1 Hf2. apply (NoDup_fmap_inj_on name all_templates);
      [apply template_names_distinct|by apply Hknown..].
  - apply Forall_forall. intros d Hd. apply list_elem_of_lookup in Hd as [i Hi].
    destruct (Forall2_lookup_r _ _ _ _ _ Hall Hi)
      as ([position template] & Hit & Hproject & _ & Hname & Htype & Hdescription
          & Hrequired & Hcreated & Hclock).
    split_and!; [done| |lia|lia|done].
    exists template. split_and!; try done. apply Hknown.
    unfold enumerate in Hit. apply list_lookup_imap_Some in Hit as (f & Hf & [= _ <-]).
    by eapply list_elem_of_lookup_2.
Qed.

End CustomFieldsOutput.
